(** * Zigbee adapter: capability classification and expose transcoding

    A shallow embedding of [src/zb-classifier.js] (the topology classifier and
    its property factory) and of the zigbee2mqtt property transcoders, with the
    properties of the specification stated and proved over it. *)

From Stdlib Require Import ZArith QArith Qround Qabs Lia Lqa Bool List Ascii String.
From Stdlib Require SpecFloat.
From stdpp Require Import base strings gmap list pretty.

Local Open Scope Z_scope.

(** ** JavaScript numbers

    A JavaScript number is a double.  The model keeps the three classes the
    code distinguishes (NaN, the two infinities, finite values) and computes
    on finite values with exact rationals: rounding to 53 bits, overflow and
    the sign of zero are left out.  The special values follow IEEE 754 as
    ECMAScript prescribes.  Where the rounding to 53 bits decides an integer
    result (the scaling of a brightness), the quotient and the product are
    the ones of IEEE 754 binary64, see [double] below. *)
Module Js.

Inductive number : Type :=
  | NaN
  | Inf (negative : bool)
  | Fin (q : Q).

Definition Qsign_neg (q : Q) : bool := Qle_bool q 0 && negb (Qeq_bool q 0).
Definition Qis_zero (q : Q) : bool := Qeq_bool q 0.

Definition of_Z (z : Z) : number := Fin (inject_Z z).

Definition neg (a : number) : number :=
  match a with
  | NaN => NaN
  | Inf s => Inf (negb s)
  | Fin q => Fin (Qopp q)
  end.

Definition add (a b : number) : number :=
  match a, b with
  | NaN, _ | _, NaN => NaN
  | Inf s, Inf s' => if Bool.eqb s s' then Inf s else NaN
  | Inf s, Fin _ => Inf s
  | Fin _, Inf s => Inf s
  | Fin p, Fin q => Fin (Qplus p q)
  end.

Definition sub (a b : number) : number := add a (neg b).

Definition mul (a b : number) : number :=
  match a, b with
  | NaN, _ | _, NaN => NaN
  | Inf s, Inf s' => Inf (xorb s s')
  | Inf s, Fin q | Fin q, Inf s =>
      if Qis_zero q then NaN else Inf (xorb s (Qsign_neg q))
  | Fin p, Fin q => Fin (Qmult p q)
  end.

Definition div (a b : number) : number :=
  match a, b with
  | NaN, _ | _, NaN => NaN
  | Inf _, Inf _ => NaN
  | Inf s, Fin q => Inf (xorb s (Qsign_neg q))
  | Fin _, Inf _ => Fin 0
  | Fin p, Fin q =>
      if Qis_zero q
      then (if Qis_zero p then NaN else Inf (Qsign_neg p))
      else Fin (Qdiv p q)
  end.

(** [a <= b]; every comparison with NaN is false. *)
Definition le (a b : number) : bool :=
  match a, b with
  | NaN, _ | _, NaN => false
  | Inf s, Inf s' => s || negb s'
  | Inf s, Fin _ => s
  | Fin _, Inf s => negb s
  | Fin p, Fin q => Qle_bool p q
  end.

Definition lt (a b : number) : bool :=
  match a, b with
  | NaN, _ | _, NaN => false
  | _, _ => negb (le b a)
  end.

(** [Math.min], [Math.max]: NaN as soon as one argument is NaN. *)
Definition Math_min (a b : number) : number :=
  match a, b with
  | NaN, _ | _, NaN => NaN
  | _, _ => if le a b then a else b
  end.

Definition Math_max (a b : number) : number :=
  match a, b with
  | NaN, _ | _, NaN => NaN
  | _, _ => if le a b then b else a
  end.

Definition Math_max3 (a b c : number) : number := Math_max (Math_max a b) c.

(** [Math.round]: the nearest integer, a tie going up. *)
Definition Math_round (a : number) : number :=
  match a with
  | Fin q => of_Z (Qfloor (q + (1 # 2)))
  | _ => a
  end.

Definition is_finite (a : number) : bool :=
  match a with Fin _ => true | _ => false end.

(** The same finite value, up to the representation of the fraction. *)
Definition same (a b : number) : Prop :=
  match a, b with
  | NaN, NaN => True
  | Inf s, Inf s' => s = s'
  | Fin p, Fin q => Qeq p q
  | _, _ => False
  end.

(** *** Doubles

    IEEE 754 binary64, as the standard library specifies it: 53 bits of
    precision, round to nearest, ties to even.  [/] and [*] on doubles are
    [double_div] and [double_mul]. *)
Definition double : Type := SpecFloat.spec_float.

Definition double_of_Z (z : Z) : double := SpecFloat.binary_normalize 53 1024 z 0 false.

Definition double_div (a b : double) : double := SpecFloat.SFdiv 53 1024 a b.
Definition double_mul (a b : double) : double := SpecFloat.SFmul 53 1024 a b.

(** The double a number of the model stands for: an integer below 2^53 is
    itself, and a fraction of two such integers is the double nearest to
    it. *)
Definition to_double (a : number) : double :=
  match a with
  | NaN => SpecFloat.S754_nan
  | Inf s => SpecFloat.S754_infinity s
  | Fin q => double_div (double_of_Z (Qnum q)) (double_of_Z (Zpos (Qden q)))
  end.

(** The value of a double, exactly. *)
Definition of_double (x : double) : number :=
  match x with
  | SpecFloat.S754_zero _ => Fin 0
  | SpecFloat.S754_infinity s => Inf s
  | SpecFloat.S754_nan => NaN
  | SpecFloat.S754_finite s m e =>
      let z := if s then Zneg m else Zpos m in
      Fin (if 0 <=? e then inject_Z (z * 2 ^ e) else z # (2 ^ Z.to_pos (- e))%positive)
  end.

(** A call either returns or throws an [Error] with a message. *)
Inductive result (A : Type) : Type :=
  | Ok (a : A)
  | Throw (message : string).
Arguments Ok {A} a.
Arguments Throw {A} message.

Definition bind {A B} (r : result A) (k : A -> result B) : result B :=
  match r with
  | Ok a => k a
  | Throw m => Throw m
  end.

(** [array.map(f)] with a callback that may throw: the first throw aborts. *)
Fixpoint map_result {A B} (f : A -> result B) (l : list A) : result (list B) :=
  match l with
  | [] => Ok []
  | x :: tl => bind (f x) (fun y => bind (map_result f tl) (fun ys => Ok (y :: ys)))
  end.

(** *** Values

    The JavaScript values the two source files store in fields and pass
    around; arrays only occur as arrays of strings (enumerations). *)
Inductive value : Type :=
  | VUndefined
  | VNull
  | VBool (b : bool)
  | VNum (n : number)
  | VStr (s : string)
  | VArr (l : list string).

Definition VInt (z : Z) : value := VNum (of_Z z).

(** ToBoolean. *)
Definition truthy (v : value) : bool :=
  match v with
  | VUndefined | VNull => false
  | VBool b => b
  | VNum NaN => false
  | VNum (Inf _) => true
  | VNum (Fin q) => negb (Qis_zero q)
  | VStr s => negb (String.eqb s "")
  | VArr _ => true
  end.

(** ToNumber of a string, for the strings that are decimal integer literals
    (the empty string is 0); any other string counts as not a number. *)
Fixpoint decimal_prefix (acc : Z) (s : string) : option Z :=
  match s with
  | String c tl =>
      let d := Z.of_N (N_of_ascii c) - 48 in
      if (0 <=? d) && (d <=? 9) then decimal_prefix (10 * acc + d) tl else None
  | EmptyString => Some acc
  end.

Definition string_to_number (s : string) : number :=
  match decimal_prefix 0 s with
  | Some z => of_Z z
  | None => NaN
  end.

(** ToNumber. *)
Definition to_number (v : value) : number :=
  match v with
  | VUndefined => NaN
  | VNull => Fin 0
  | VBool b => if b then Fin 1 else Fin 0
  | VNum n => n
  | VStr s => string_to_number s
  | VArr _ => NaN
  end.

(** Equality of numbers as [==] and [===] see it: NaN differs from itself. *)
Definition number_eqb (a b : number) : bool :=
  match a, b with
  | Inf s, Inf s' => Bool.eqb s s'
  | Fin p, Fin q => Qeq_bool p q
  | _, _ => false
  end.

(** [a === b]; two arrays are equal when they are the same object, which a
    freshly built or freshly parsed array never is. *)
Definition strict_eqb (a b : value) : bool :=
  match a, b with
  | VUndefined, VUndefined | VNull, VNull => true
  | VBool x, VBool y => Bool.eqb x y
  | VNum x, VNum y => number_eqb x y
  | VStr x, VStr y => String.eqb x y
  | _, _ => false
  end.

(** *** parseInt(s, 16) *)

Definition hex_digit (c : ascii) : option Z :=
  let n := Z.of_N (N_of_ascii c) in
  if (48 <=? n) && (n <=? 57) then Some (n - 48)
  else if (97 <=? n) && (n <=? 102) then Some (n - 87)
  else if (65 <=? n) && (n <=? 70) then Some (n - 55)
  else None.

Definition is_white (c : ascii) : bool :=
  let n := Z.of_N (N_of_ascii c) in
  (n =? 32) || ((9 <=? n) && (n <=? 13)).

Fixpoint skip_white (s : string) : string :=
  match s with
  | String c tl => if is_white c then skip_white tl else s
  | EmptyString => s
  end.

(** The longest prefix of hexadecimal digits, read most significant first:
    [None] when there is no digit at all. *)
Fixpoint hex_prefix (acc : option Z) (s : string) : option Z :=
  match s with
  | String c tl =>
      match hex_digit c with
      | Some d => hex_prefix (Some (16 * default 0 acc + d)) tl
      | None => acc
      end
  | EmptyString => acc
  end.

Definition strip_0x (s : string) : string :=
  match s with
  | String "0" (String "x" tl) => tl
  | String "0" (String "X" tl) => tl
  | _ => s
  end.

Definition parseInt16 (s : string) : number :=
  let s := skip_white s in
  let '(negative, s) :=
    match s with
    | String "-" tl => (true, tl)
    | String "+" tl => (false, tl)
    | _ => (false, s)
    end in
  match hex_prefix None (strip_0x s) with
  | Some z => of_Z (if negative then - z else z)
  | None => NaN
  end.

End Js.

(** ** The zigbee2mqtt property transcoders (zigbee2mqtt-property.ts) *)
Module Zigbee2Mqtt.
Import Js.

(** The expose descriptor sent by the bridge; an absent field is [None]. *)
Record Expos : Type := {
  expose_type : string;
  expose_name : string;
  expose_unit : option string;
  expose_access : option Z;
  value_min : option number;
  value_max : option number;
  value_step : option number;
  values : option (list string)
}.

Definition WRITE_BIT : Z := 2.
Definition READ_BIT : Z := 4.

Definition parseType (expose : Expos) : string :=
  if String.eqb (expose_type expose) "numeric" then
    match value_step expose with
    | Some (Fin q) => if Qeq_bool q 1 then "integer" else "number"
    | _ => "number"
    end
  else if String.eqb (expose_type expose) "enum" then "string"
  else if String.eqb (expose_type expose) "binary" then "boolean"
  else "string".

Definition isWritable (access : Z) : bool := negb (Z.land access WRITE_BIT =? 0).
Definition isReadable (access : Z) : bool := negb (Z.land access READ_BIT =? 0).

(** [a ?? b] on an optional number. *)
Definition nullish (a : option number) (b : number) : number :=
  match a with Some v => v | None => b end.

(** *** BrightnessProperty *)

(** [update]: the percentage handed to [super.update],
    [Math.round((value / (this.expose.value_max ?? 100)) * 100)].  The quotient
    and the product are the ones of doubles: which integer [Math.round]
    returns depends on their rounding (29 of 200 is 14.499999999999998). *)
Definition BrightnessProperty_update (expose : Expos) (value : number) : number :=
  Math_round
    (of_double
       (double_mul
          (double_div (to_double value)
             (to_double (nullish (value_max expose) (of_Z 100))))
          (double_of_Z 100))).

(** [sendValue]: the device value handed to [super.sendValue],
    [Math.round((value / 100) * (this.expose.value_max ?? 100))]. *)
Definition BrightnessProperty_sendValue (expose : Expos) (value : number) : number :=
  Math_round
    (of_double
       (double_mul
          (double_div (to_double value) (double_of_Z 100))
          (to_double (nullish (value_max expose) (of_Z 100))))).

(** *** ColorTemperatureProperty *)

Definition miredToKelvin (mired : number) : number :=
  Math_round (div (of_Z 1000000) mired).

Definition kelvinToMiredd (kelvin : number) : number :=
  Math_round (div (of_Z 1000000) kelvin).

Definition ColorTemperatureProperty_update (value : number) : number :=
  miredToKelvin value.

Definition ColorTemperatureProperty_sendValue (value : number) : number :=
  kelvinToMiredd value.

(** The schema bounds the constructor derives from the expose; the non-null
    assertions [value_max!] and [value_min!] compile to nothing, an absent
    bound reaches [miredToKelvin] as [undefined], that is NaN in the division. *)
Definition ColorTemperatureProperty_minimum (expose : Expos) : number :=
  miredToKelvin (nullish (value_max expose) NaN).
Definition ColorTemperatureProperty_maximum (expose : Expos) : number :=
  miredToKelvin (nullish (value_min expose) NaN).

(** *** ColorProperty *)

Record XY : Type := { xy_x : number; xy_y : number }.
Record RGB : Type := { rgb_r : number; rgb_g : number; rgb_b : number }.

Definition limit (value min max : number) : number :=
  Math_max (Math_min value max) min.

Section Color.

(** The real power function on finite operands, which [Math.pow] approximates;
    the only part of [Math.pow] that is not decided by its special cases. *)
Variable real_pow : Q -> Q -> Q.

Definition Qis_integer (q : Q) : bool := (Qden (Qred q) =? 1)%positive.
Definition Qis_odd (q : Q) : bool := Z.odd (Qnum (Qred q)) && Qis_integer q.
Definition Qabs_cmp_1 (q : Q) : comparison := Qcompare (Qabs q) 1.

(** [Math.pow] (ECMAScript Number::exponentiate), signed zeros merged. *)
Definition Math_pow (base exponent : number) : number :=
  match exponent with
  | NaN => NaN
  | Fin e =>
      if Qis_zero e then Fin 1 else
      match base with
      | NaN => NaN
      | Inf false => if Qsign_neg e then Fin 0 else Inf false
      | Inf true =>
          if Qsign_neg e then Fin 0 else Inf (Qis_odd e)
      | Fin b =>
          if Qis_zero b then (if Qsign_neg e then Inf false else Fin 0)
          else if Qsign_neg b && negb (Qis_integer e) then NaN
          else Fin (real_pow b e)
      end
  | Inf s =>
      match base with
      | NaN => NaN
      | Inf _ => if s then Fin 0 else Inf false
      | Fin b =>
          match Qabs_cmp_1 b with
          | Eq => NaN
          | Gt => if s then Fin 0 else Inf false
          | Lt => if s then Inf false else Fin 0
          end
      end
  end.

(** The per-channel gamma encoding of [xyBriToRgb]. *)
Definition gamma (v : number) : number :=
  if le v (Fin (31308 # 10000000))
  then mul (Fin (1292 # 100)) v
  else sub (mul (add (Fin 1) (Fin (55 # 1000)))
                (Math_pow v (div (Fin 1) (Fin (24 # 10)))))
           (Fin (55 # 1000)).

Definition xyBriToRgb (x y bri : number) : RGB :=
  let z := sub (sub (Fin 1) x) y in
  let Y := div bri (Fin 255) in
  let X := mul (div Y y) x in
  let Z := mul (div Y y) z in
  let r := sub (sub (mul X (Fin (1612 # 1000))) (mul Y (Fin (203 # 1000))))
               (mul Z (Fin (302 # 1000))) in
  let g := add (add (mul (neg X) (Fin (509 # 1000))) (mul Y (Fin (1412 # 1000))))
               (mul Z (Fin (66 # 1000))) in
  let b := add (sub (mul X (Fin (26 # 1000))) (mul Y (Fin (72 # 1000))))
               (mul Z (Fin (962 # 1000))) in
  let r := gamma r in
  let g := gamma g in
  let b := gamma b in
  let maxValue := Math_max3 r g b in
  let r := div r maxValue in
  let g := div g maxValue in
  let b := div b maxValue in
  let r := limit (mul r (Fin 255)) (Fin 0) (Fin 255) in
  let g := limit (mul g (Fin 255)) (Fin 0) (Fin 255) in
  let b := limit (mul b (Fin 255)) (Fin 0) (Fin 255) in
  {| rgb_r := Math_round r; rgb_g := Math_round g; rgb_b := Math_round b |}.

(** [ColorProperty.update]: the triple handed to the colour library, whose
    hexadecimal rendering becomes the cached value.  [brightness] is the
    [brightness] member of the update message, if it has one. *)
Definition ColorProperty_update (value : XY) (brightness : option number) : RGB :=
  xyBriToRgb (xy_x value) (xy_y value) (nullish brightness (Fin 255)).

End Color.

(** *** HeatingCoolingProperty *)

Definition convertHeatingCoolingValue (value : string) : result string :=
  if String.eqb value "idle" then Ok "off"
  else if String.eqb value "heat" then Ok "heating"
  else if String.eqb value "cool" then Ok "cooling"
  else Throw ("Invalid HeatingCoolingValue " +:+ value +:+ ", expected idle, heat or cool").

Definition convertHeatingCoolingValues (value : option (list string))
  : result (option (list string)) :=
  match value with
  | Some l =>
      (* an empty array is truthy *)
      bind (map_result convertHeatingCoolingValue l) (fun l' => Ok (Some l'))
  | None => Ok None
  end.

(** The state of a run-mode property: its schema enumeration and the cached
    value ([None] until the first update). *)
Record HeatingCoolingProperty : Type := {
  hc_enum : option (list string);
  hc_value : option string
}.

(** The constructor: a throw of the enumeration conversion leaves no object. *)
Definition HeatingCoolingProperty_new (expose : Expos) : result HeatingCoolingProperty :=
  bind (convertHeatingCoolingValues (values expose))
       (fun e => Ok {| hc_enum := e; hc_value := None |}).

(** [update]: the converted value is cached; a throw leaves the object as it was
    and reaches the caller. *)
Definition HeatingCoolingProperty_update (p : HeatingCoolingProperty) (value : string)
  : result HeatingCoolingProperty :=
  bind (convertHeatingCoolingValue value)
       (fun v => Ok {| hc_enum := hc_enum p; hc_value := Some v |}).

End Zigbee2Mqtt.

(** ** The topology classifier (zb-classifier.js) *)
Module Classifier.
Import Js.

Coercion VStr : string >-> value.

(** *** What zb-classifier.js imports

    [zb-constants.js] is not part of the sources at hand: the clusters are
    named, and the tables of constants are a parameter of the classifier. *)
Inductive Cluster : Type :=
  | GENPOWERCFG | GENDEVICETEMPCFG | GENGROUPS | GENSCENES | GENONOFF
  | GENLEVELCTRL | GENBINARYINPUT | CLOSURESSHADECFG | CLOSURESWINDOWCOVERING
  | DOORLOCK | HVACTHERMOSTAT | HVACFANCTRL | HVACUSERINTERFACECFG
  | LIGHTINGCOLORCTRL | ILLUMINANCE_MEASUREMENT | TEMPERATURE
  | OCCUPANCY_SENSOR | SSIASZONE | SEMETERING | HAELECTRICAL | LIGHTLINK.

Record Constants : Type := {
  CLUSTER_ID : Cluster -> Z;
  CLUSTER_ID_HEX : Cluster -> string;
  PROFILE_ID_ZHA : Z;
  PROFILE_ID_ZLL : Z;
  PROFILE_ID_ZHA_HEX : string;
  COLOR_CAPABILITY_HUE_SAT : Z;
  COLOR_CAPABILITY_XY : Z;
  COLOR_CAPABILITY_TEMPERATURE : Z;
  COLOR_CAPABILITY_COLOR : Z;
  ZONE_STATUS_ALARM_MASK : Z;
  ZONE_STATUS_TAMPER_MASK : Z;
  ZONE_STATUS_LOW_BATTERY_MASK : Z;
  DOORLOCK_EVENT_CODES : list string;
  HVAC_FAN_SEQ : list string;
  THERMOSTAT_SYSTEM_MODE : list (option string);
  ZHA_DEVICE_ID_ON_OFF_SWITCH : string;
  ZHA_DEVICE_ID_ON_OFF_OUTPUT : string;
  ZHA_DEVICE_ID_isLight : option string -> bool;
  ZHA_DEVICE_ID_isColorLight : option string -> bool;
  ZHA_DEVICE_ID_isColorTemperatureLight : option string -> bool;
  ZLL_DEVICE_ID_ON_OFF_SWITCH : string;
  ZLL_DEVICE_ID_isLight : option string -> bool;
  ZLL_DEVICE_ID_isColorLight : option string -> bool;
  ZLL_DEVICE_ID_isColorTemperatureLight : option string -> bool
}.

(** *** The data the classifier works on *)

Record Endpoint : Type := {
  ep_profileId : string;
  ep_deviceId : option string;
  inputClusters : list string;
  outputClusters : list string
}.

Record ConfigReport : Type := {
  minRepInterval : Z;
  maxRepInterval : Z;
  repChange : Z
}.

(** A JavaScript object literal: its members, in the order written. *)
Definition object : Type := list (string * value).

Fixpoint member (o : object) (k : string) : option value :=
  match o with
  | [] => None
  | (k', v) :: tl => if String.eqb k k' then Some v else member tl k
  end.

(** A property object is a cell of the heap; a reference is its index. *)
Abbreviation ref := nat (only parsing).

(** The property objects the thermostat closures capture. *)
Record Thermostat : Type := {
  deadbandProperty : ref;
  absMaxHeatTargetProperty : ref;
  absMinHeatTargetProperty : ref;
  maxHeatTargetProperty : ref;
  minHeatTargetProperty : ref;
  heatTargetProperty : ref;
  absMaxCoolTargetProperty : ref;
  absMinCoolTargetProperty : ref;
  maxCoolTargetProperty : ref;
  minCoolTargetProperty : ref;
  coolTargetProperty : ref
}.

(** The closures the classifier installs as [updated] hooks, each with the
    objects it captures. *)
Inductive Hook : Type :=
  | doorLockProperty_updated
  | absMaxHeatTargetProperty_updated (t : Thermostat)
  | maxHeatTargetProperty_updated (t : Thermostat)
  | heatTargetProperty_updated (t : Thermostat)
  | minHeatTargetProperty_updated (t : Thermostat)
  | absMinHeatTargetProperty_updated (t : Thermostat)
  | absMaxCoolTargetProperty_updated (t : Thermostat)
  | maxCoolTargetProperty_updated (t : Thermostat)
  | coolTargetProperty_updated (t : Thermostat)
  | minCoolTargetProperty_updated (t : Thermostat)
  | absMinCoolTargetProperty_updated (t : Thermostat)
  | deadbandProperty_updated (t : Thermostat)
  | fanModeSeqProperty_updated (fanModeProperty : ref).

(** A property object.  A member that an object may lack ([value], [minimum],
    [maximum], [enum], ...) is an option: [None] is "no own member", which is
    what [hasOwnProperty] tests, and [Some VUndefined] an own member holding
    [undefined]. *)
Record Property : Type := {
  name : string;
  descr : object;
  profileId : value;
  endpoint : value;
  clusterId : value;
  attr : string;
  setAttrFromValue : value;
  parseValueFromAttr : value;
  p_value : option value;
  prevValue : option value;
  minimum : option value;
  maximum : option value;
  level : option value;
  enum : option (list string);
  fireAndForget : bool;
  bindNeeded : bool;
  configReportNeeded : bool;
  configReport : option ConfigReport;
  initialReadNeeded : bool;
  visible : bool;
  defaultValue : value;
  mask : option Z;
  buttonIndex : option Z;
  updated : option Hook
}.

(** One entry of the persisted device-info snapshot. *)
Record DevInfo : Type := {
  di_endpoint : value;
  di_profileId : value;
  di_clusterId : value;
  di_attr : string;
  di_fireAndForget : bool;
  di_value : value;
  di_minimum : option value;
  di_maximum : option value;
  di_level : option value;
  di_enum : option (list string)
}.

(** The node.  The first group is what discovery filled in and the classifier
    reads, the second what classification writes.  [notifications] counts the
    calls of [handleDeviceDescriptionUpdated], [published] lists the bounds
    handed to [setMinimum] and [setMaximum], latest first. *)
Inductive Bound : Type := Minimum | Maximum.

Record Node : Type := {
  isCoordinator : bool;
  node_id : string;
  modelId : option string;
  activeEndpoints : gmap Z Endpoint;
  zoneType : option Z;
  colorCapabilities : option Z;
  lightingColorCtrlEndpoint : option Z;
  powerSource : option Z;
  devInfoProperties : option (gmap string DevInfo);
  showAging : bool;
  cieAddr : option string;
  doorLockTimeout : bool;
  doorLockAction : bool;

  type : option string;
  atType : option (list string);
  node_name : option string;
  defaultName : option string;
  heap : list Property;
  properties : gmap string ref;
  actions : gmap string object;
  events : gmap string object;
  onOffProperty : option ref;
  doorLockProperty : option ref;
  doorLockState : option ref;
  ssIasZoneEndpoint : option Z;
  slowCheckinInterval : option Z;
  updateLastSeen : option ref;
  notifications : nat;
  published : list (ref * Bound * value)
}.

(** [zb-node.js] is not part of the sources at hand either: the methods of the
    node the classifier calls are a parameter.  The three lookups read the
    endpoint table of the node, the two power tests its power source. *)
Record NodeMethods : Type := {
  findZhaEndpointWithInputClusterIdHex : gmap Z Endpoint -> string -> option Z;
  findZhaEndpointsWithInputClusterIdHex : gmap Z Endpoint -> string -> list Z;
  findZhaEndpointWithOutputClusterIdHex : gmap Z Endpoint -> string -> list Z;
  isMainsPowered : option Z -> bool;
  isBatteryPowered : option Z -> bool
}.


(** *** Assignments to one member

    [set_m v o] is the object [o] after [o.m = v]. *)

Definition set_p_value v (p : Property) : Property :=
  {| name := name p; descr := descr p; profileId := profileId p;
     endpoint := endpoint p; clusterId := clusterId p; attr := attr p;
     setAttrFromValue := setAttrFromValue p;
     parseValueFromAttr := parseValueFromAttr p; p_value := v;
     prevValue := prevValue p; minimum := minimum p; maximum := maximum p;
     level := level p; enum := enum p; fireAndForget := fireAndForget p;
     bindNeeded := bindNeeded p; configReportNeeded := configReportNeeded p;
     configReport := configReport p; initialReadNeeded := initialReadNeeded p;
     visible := visible p; defaultValue := defaultValue p; mask := mask p;
     buttonIndex := buttonIndex p; updated := updated p |}.

Definition set_prevValue v (p : Property) : Property :=
  {| name := name p; descr := descr p; profileId := profileId p;
     endpoint := endpoint p; clusterId := clusterId p; attr := attr p;
     setAttrFromValue := setAttrFromValue p;
     parseValueFromAttr := parseValueFromAttr p; p_value := p_value p; prevValue := v;
     minimum := minimum p; maximum := maximum p; level := level p; enum := enum p;
     fireAndForget := fireAndForget p; bindNeeded := bindNeeded p;
     configReportNeeded := configReportNeeded p; configReport := configReport p;
     initialReadNeeded := initialReadNeeded p; visible := visible p;
     defaultValue := defaultValue p; mask := mask p; buttonIndex := buttonIndex p;
     updated := updated p |}.

Definition set_minimum v (p : Property) : Property :=
  {| name := name p; descr := descr p; profileId := profileId p;
     endpoint := endpoint p; clusterId := clusterId p; attr := attr p;
     setAttrFromValue := setAttrFromValue p;
     parseValueFromAttr := parseValueFromAttr p; p_value := p_value p;
     prevValue := prevValue p; minimum := v; maximum := maximum p; level := level p;
     enum := enum p; fireAndForget := fireAndForget p; bindNeeded := bindNeeded p;
     configReportNeeded := configReportNeeded p; configReport := configReport p;
     initialReadNeeded := initialReadNeeded p; visible := visible p;
     defaultValue := defaultValue p; mask := mask p; buttonIndex := buttonIndex p;
     updated := updated p |}.

Definition set_maximum v (p : Property) : Property :=
  {| name := name p; descr := descr p; profileId := profileId p;
     endpoint := endpoint p; clusterId := clusterId p; attr := attr p;
     setAttrFromValue := setAttrFromValue p;
     parseValueFromAttr := parseValueFromAttr p; p_value := p_value p;
     prevValue := prevValue p; minimum := minimum p; maximum := v; level := level p;
     enum := enum p; fireAndForget := fireAndForget p; bindNeeded := bindNeeded p;
     configReportNeeded := configReportNeeded p; configReport := configReport p;
     initialReadNeeded := initialReadNeeded p; visible := visible p;
     defaultValue := defaultValue p; mask := mask p; buttonIndex := buttonIndex p;
     updated := updated p |}.

Definition set_level v (p : Property) : Property :=
  {| name := name p; descr := descr p; profileId := profileId p;
     endpoint := endpoint p; clusterId := clusterId p; attr := attr p;
     setAttrFromValue := setAttrFromValue p;
     parseValueFromAttr := parseValueFromAttr p; p_value := p_value p;
     prevValue := prevValue p; minimum := minimum p; maximum := maximum p; level := v;
     enum := enum p; fireAndForget := fireAndForget p; bindNeeded := bindNeeded p;
     configReportNeeded := configReportNeeded p; configReport := configReport p;
     initialReadNeeded := initialReadNeeded p; visible := visible p;
     defaultValue := defaultValue p; mask := mask p; buttonIndex := buttonIndex p;
     updated := updated p |}.

Definition set_enum v (p : Property) : Property :=
  {| name := name p; descr := descr p; profileId := profileId p;
     endpoint := endpoint p; clusterId := clusterId p; attr := attr p;
     setAttrFromValue := setAttrFromValue p;
     parseValueFromAttr := parseValueFromAttr p; p_value := p_value p;
     prevValue := prevValue p; minimum := minimum p; maximum := maximum p;
     level := level p; enum := v; fireAndForget := fireAndForget p;
     bindNeeded := bindNeeded p; configReportNeeded := configReportNeeded p;
     configReport := configReport p; initialReadNeeded := initialReadNeeded p;
     visible := visible p; defaultValue := defaultValue p; mask := mask p;
     buttonIndex := buttonIndex p; updated := updated p |}.

Definition set_fireAndForget v (p : Property) : Property :=
  {| name := name p; descr := descr p; profileId := profileId p;
     endpoint := endpoint p; clusterId := clusterId p; attr := attr p;
     setAttrFromValue := setAttrFromValue p;
     parseValueFromAttr := parseValueFromAttr p; p_value := p_value p;
     prevValue := prevValue p; minimum := minimum p; maximum := maximum p;
     level := level p; enum := enum p; fireAndForget := v; bindNeeded := bindNeeded p;
     configReportNeeded := configReportNeeded p; configReport := configReport p;
     initialReadNeeded := initialReadNeeded p; visible := visible p;
     defaultValue := defaultValue p; mask := mask p; buttonIndex := buttonIndex p;
     updated := updated p |}.

Definition set_bindNeeded v (p : Property) : Property :=
  {| name := name p; descr := descr p; profileId := profileId p;
     endpoint := endpoint p; clusterId := clusterId p; attr := attr p;
     setAttrFromValue := setAttrFromValue p;
     parseValueFromAttr := parseValueFromAttr p; p_value := p_value p;
     prevValue := prevValue p; minimum := minimum p; maximum := maximum p;
     level := level p; enum := enum p; fireAndForget := fireAndForget p;
     bindNeeded := v; configReportNeeded := configReportNeeded p;
     configReport := configReport p; initialReadNeeded := initialReadNeeded p;
     visible := visible p; defaultValue := defaultValue p; mask := mask p;
     buttonIndex := buttonIndex p; updated := updated p |}.

Definition set_configReportNeeded v (p : Property) : Property :=
  {| name := name p; descr := descr p; profileId := profileId p;
     endpoint := endpoint p; clusterId := clusterId p; attr := attr p;
     setAttrFromValue := setAttrFromValue p;
     parseValueFromAttr := parseValueFromAttr p; p_value := p_value p;
     prevValue := prevValue p; minimum := minimum p; maximum := maximum p;
     level := level p; enum := enum p; fireAndForget := fireAndForget p;
     bindNeeded := bindNeeded p; configReportNeeded := v;
     configReport := configReport p; initialReadNeeded := initialReadNeeded p;
     visible := visible p; defaultValue := defaultValue p; mask := mask p;
     buttonIndex := buttonIndex p; updated := updated p |}.

Definition set_configReport v (p : Property) : Property :=
  {| name := name p; descr := descr p; profileId := profileId p;
     endpoint := endpoint p; clusterId := clusterId p; attr := attr p;
     setAttrFromValue := setAttrFromValue p;
     parseValueFromAttr := parseValueFromAttr p; p_value := p_value p;
     prevValue := prevValue p; minimum := minimum p; maximum := maximum p;
     level := level p; enum := enum p; fireAndForget := fireAndForget p;
     bindNeeded := bindNeeded p; configReportNeeded := configReportNeeded p;
     configReport := v; initialReadNeeded := initialReadNeeded p; visible := visible p;
     defaultValue := defaultValue p; mask := mask p; buttonIndex := buttonIndex p;
     updated := updated p |}.

Definition set_initialReadNeeded v (p : Property) : Property :=
  {| name := name p; descr := descr p; profileId := profileId p;
     endpoint := endpoint p; clusterId := clusterId p; attr := attr p;
     setAttrFromValue := setAttrFromValue p;
     parseValueFromAttr := parseValueFromAttr p; p_value := p_value p;
     prevValue := prevValue p; minimum := minimum p; maximum := maximum p;
     level := level p; enum := enum p; fireAndForget := fireAndForget p;
     bindNeeded := bindNeeded p; configReportNeeded := configReportNeeded p;
     configReport := configReport p; initialReadNeeded := v; visible := visible p;
     defaultValue := defaultValue p; mask := mask p; buttonIndex := buttonIndex p;
     updated := updated p |}.

Definition set_visible v (p : Property) : Property :=
  {| name := name p; descr := descr p; profileId := profileId p;
     endpoint := endpoint p; clusterId := clusterId p; attr := attr p;
     setAttrFromValue := setAttrFromValue p;
     parseValueFromAttr := parseValueFromAttr p; p_value := p_value p;
     prevValue := prevValue p; minimum := minimum p; maximum := maximum p;
     level := level p; enum := enum p; fireAndForget := fireAndForget p;
     bindNeeded := bindNeeded p; configReportNeeded := configReportNeeded p;
     configReport := configReport p; initialReadNeeded := initialReadNeeded p;
     visible := v; defaultValue := defaultValue p; mask := mask p;
     buttonIndex := buttonIndex p; updated := updated p |}.

Definition set_defaultValue v (p : Property) : Property :=
  {| name := name p; descr := descr p; profileId := profileId p;
     endpoint := endpoint p; clusterId := clusterId p; attr := attr p;
     setAttrFromValue := setAttrFromValue p;
     parseValueFromAttr := parseValueFromAttr p; p_value := p_value p;
     prevValue := prevValue p; minimum := minimum p; maximum := maximum p;
     level := level p; enum := enum p; fireAndForget := fireAndForget p;
     bindNeeded := bindNeeded p; configReportNeeded := configReportNeeded p;
     configReport := configReport p; initialReadNeeded := initialReadNeeded p;
     visible := visible p; defaultValue := v; mask := mask p;
     buttonIndex := buttonIndex p; updated := updated p |}.

Definition set_mask v (p : Property) : Property :=
  {| name := name p; descr := descr p; profileId := profileId p;
     endpoint := endpoint p; clusterId := clusterId p; attr := attr p;
     setAttrFromValue := setAttrFromValue p;
     parseValueFromAttr := parseValueFromAttr p; p_value := p_value p;
     prevValue := prevValue p; minimum := minimum p; maximum := maximum p;
     level := level p; enum := enum p; fireAndForget := fireAndForget p;
     bindNeeded := bindNeeded p; configReportNeeded := configReportNeeded p;
     configReport := configReport p; initialReadNeeded := initialReadNeeded p;
     visible := visible p; defaultValue := defaultValue p; mask := v;
     buttonIndex := buttonIndex p; updated := updated p |}.

Definition set_buttonIndex v (p : Property) : Property :=
  {| name := name p; descr := descr p; profileId := profileId p;
     endpoint := endpoint p; clusterId := clusterId p; attr := attr p;
     setAttrFromValue := setAttrFromValue p;
     parseValueFromAttr := parseValueFromAttr p; p_value := p_value p;
     prevValue := prevValue p; minimum := minimum p; maximum := maximum p;
     level := level p; enum := enum p; fireAndForget := fireAndForget p;
     bindNeeded := bindNeeded p; configReportNeeded := configReportNeeded p;
     configReport := configReport p; initialReadNeeded := initialReadNeeded p;
     visible := visible p; defaultValue := defaultValue p; mask := mask p;
     buttonIndex := v; updated := updated p |}.

Definition set_updated v (p : Property) : Property :=
  {| name := name p; descr := descr p; profileId := profileId p;
     endpoint := endpoint p; clusterId := clusterId p; attr := attr p;
     setAttrFromValue := setAttrFromValue p;
     parseValueFromAttr := parseValueFromAttr p; p_value := p_value p;
     prevValue := prevValue p; minimum := minimum p; maximum := maximum p;
     level := level p; enum := enum p; fireAndForget := fireAndForget p;
     bindNeeded := bindNeeded p; configReportNeeded := configReportNeeded p;
     configReport := configReport p; initialReadNeeded := initialReadNeeded p;
     visible := visible p; defaultValue := defaultValue p; mask := mask p;
     buttonIndex := buttonIndex p; updated := v |}.

Definition set_activeEndpoints v (n : Node) : Node :=
  {| isCoordinator := isCoordinator n; node_id := node_id n; modelId := modelId n;
     activeEndpoints := v; zoneType := zoneType n;
     colorCapabilities := colorCapabilities n;
     lightingColorCtrlEndpoint := lightingColorCtrlEndpoint n;
     powerSource := powerSource n; devInfoProperties := devInfoProperties n;
     showAging := showAging n; cieAddr := cieAddr n;
     doorLockTimeout := doorLockTimeout n; doorLockAction := doorLockAction n;
     type := type n; atType := atType n; node_name := node_name n;
     defaultName := defaultName n; heap := heap n; properties := properties n;
     actions := actions n; events := events n; onOffProperty := onOffProperty n;
     doorLockProperty := doorLockProperty n; doorLockState := doorLockState n;
     ssIasZoneEndpoint := ssIasZoneEndpoint n;
     slowCheckinInterval := slowCheckinInterval n; updateLastSeen := updateLastSeen n;
     notifications := notifications n; published := published n |}.

Definition set_cieAddr v (n : Node) : Node :=
  {| isCoordinator := isCoordinator n; node_id := node_id n; modelId := modelId n;
     activeEndpoints := activeEndpoints n; zoneType := zoneType n;
     colorCapabilities := colorCapabilities n;
     lightingColorCtrlEndpoint := lightingColorCtrlEndpoint n;
     powerSource := powerSource n; devInfoProperties := devInfoProperties n;
     showAging := showAging n; cieAddr := v; doorLockTimeout := doorLockTimeout n;
     doorLockAction := doorLockAction n; type := type n; atType := atType n;
     node_name := node_name n; defaultName := defaultName n; heap := heap n;
     properties := properties n; actions := actions n; events := events n;
     onOffProperty := onOffProperty n; doorLockProperty := doorLockProperty n;
     doorLockState := doorLockState n; ssIasZoneEndpoint := ssIasZoneEndpoint n;
     slowCheckinInterval := slowCheckinInterval n; updateLastSeen := updateLastSeen n;
     notifications := notifications n; published := published n |}.

Definition set_doorLockTimeout v (n : Node) : Node :=
  {| isCoordinator := isCoordinator n; node_id := node_id n; modelId := modelId n;
     activeEndpoints := activeEndpoints n; zoneType := zoneType n;
     colorCapabilities := colorCapabilities n;
     lightingColorCtrlEndpoint := lightingColorCtrlEndpoint n;
     powerSource := powerSource n; devInfoProperties := devInfoProperties n;
     showAging := showAging n; cieAddr := cieAddr n; doorLockTimeout := v;
     doorLockAction := doorLockAction n; type := type n; atType := atType n;
     node_name := node_name n; defaultName := defaultName n; heap := heap n;
     properties := properties n; actions := actions n; events := events n;
     onOffProperty := onOffProperty n; doorLockProperty := doorLockProperty n;
     doorLockState := doorLockState n; ssIasZoneEndpoint := ssIasZoneEndpoint n;
     slowCheckinInterval := slowCheckinInterval n; updateLastSeen := updateLastSeen n;
     notifications := notifications n; published := published n |}.

Definition set_doorLockAction v (n : Node) : Node :=
  {| isCoordinator := isCoordinator n; node_id := node_id n; modelId := modelId n;
     activeEndpoints := activeEndpoints n; zoneType := zoneType n;
     colorCapabilities := colorCapabilities n;
     lightingColorCtrlEndpoint := lightingColorCtrlEndpoint n;
     powerSource := powerSource n; devInfoProperties := devInfoProperties n;
     showAging := showAging n; cieAddr := cieAddr n;
     doorLockTimeout := doorLockTimeout n; doorLockAction := v; type := type n;
     atType := atType n; node_name := node_name n; defaultName := defaultName n;
     heap := heap n; properties := properties n; actions := actions n;
     events := events n; onOffProperty := onOffProperty n;
     doorLockProperty := doorLockProperty n; doorLockState := doorLockState n;
     ssIasZoneEndpoint := ssIasZoneEndpoint n;
     slowCheckinInterval := slowCheckinInterval n; updateLastSeen := updateLastSeen n;
     notifications := notifications n; published := published n |}.

Definition set_type v (n : Node) : Node :=
  {| isCoordinator := isCoordinator n; node_id := node_id n; modelId := modelId n;
     activeEndpoints := activeEndpoints n; zoneType := zoneType n;
     colorCapabilities := colorCapabilities n;
     lightingColorCtrlEndpoint := lightingColorCtrlEndpoint n;
     powerSource := powerSource n; devInfoProperties := devInfoProperties n;
     showAging := showAging n; cieAddr := cieAddr n;
     doorLockTimeout := doorLockTimeout n; doorLockAction := doorLockAction n;
     type := v; atType := atType n; node_name := node_name n;
     defaultName := defaultName n; heap := heap n; properties := properties n;
     actions := actions n; events := events n; onOffProperty := onOffProperty n;
     doorLockProperty := doorLockProperty n; doorLockState := doorLockState n;
     ssIasZoneEndpoint := ssIasZoneEndpoint n;
     slowCheckinInterval := slowCheckinInterval n; updateLastSeen := updateLastSeen n;
     notifications := notifications n; published := published n |}.

Definition set_atType v (n : Node) : Node :=
  {| isCoordinator := isCoordinator n; node_id := node_id n; modelId := modelId n;
     activeEndpoints := activeEndpoints n; zoneType := zoneType n;
     colorCapabilities := colorCapabilities n;
     lightingColorCtrlEndpoint := lightingColorCtrlEndpoint n;
     powerSource := powerSource n; devInfoProperties := devInfoProperties n;
     showAging := showAging n; cieAddr := cieAddr n;
     doorLockTimeout := doorLockTimeout n; doorLockAction := doorLockAction n;
     type := type n; atType := v; node_name := node_name n;
     defaultName := defaultName n; heap := heap n; properties := properties n;
     actions := actions n; events := events n; onOffProperty := onOffProperty n;
     doorLockProperty := doorLockProperty n; doorLockState := doorLockState n;
     ssIasZoneEndpoint := ssIasZoneEndpoint n;
     slowCheckinInterval := slowCheckinInterval n; updateLastSeen := updateLastSeen n;
     notifications := notifications n; published := published n |}.

Definition set_node_name v (n : Node) : Node :=
  {| isCoordinator := isCoordinator n; node_id := node_id n; modelId := modelId n;
     activeEndpoints := activeEndpoints n; zoneType := zoneType n;
     colorCapabilities := colorCapabilities n;
     lightingColorCtrlEndpoint := lightingColorCtrlEndpoint n;
     powerSource := powerSource n; devInfoProperties := devInfoProperties n;
     showAging := showAging n; cieAddr := cieAddr n;
     doorLockTimeout := doorLockTimeout n; doorLockAction := doorLockAction n;
     type := type n; atType := atType n; node_name := v; defaultName := defaultName n;
     heap := heap n; properties := properties n; actions := actions n;
     events := events n; onOffProperty := onOffProperty n;
     doorLockProperty := doorLockProperty n; doorLockState := doorLockState n;
     ssIasZoneEndpoint := ssIasZoneEndpoint n;
     slowCheckinInterval := slowCheckinInterval n; updateLastSeen := updateLastSeen n;
     notifications := notifications n; published := published n |}.

Definition set_defaultName v (n : Node) : Node :=
  {| isCoordinator := isCoordinator n; node_id := node_id n; modelId := modelId n;
     activeEndpoints := activeEndpoints n; zoneType := zoneType n;
     colorCapabilities := colorCapabilities n;
     lightingColorCtrlEndpoint := lightingColorCtrlEndpoint n;
     powerSource := powerSource n; devInfoProperties := devInfoProperties n;
     showAging := showAging n; cieAddr := cieAddr n;
     doorLockTimeout := doorLockTimeout n; doorLockAction := doorLockAction n;
     type := type n; atType := atType n; node_name := node_name n; defaultName := v;
     heap := heap n; properties := properties n; actions := actions n;
     events := events n; onOffProperty := onOffProperty n;
     doorLockProperty := doorLockProperty n; doorLockState := doorLockState n;
     ssIasZoneEndpoint := ssIasZoneEndpoint n;
     slowCheckinInterval := slowCheckinInterval n; updateLastSeen := updateLastSeen n;
     notifications := notifications n; published := published n |}.

Definition set_heap v (n : Node) : Node :=
  {| isCoordinator := isCoordinator n; node_id := node_id n; modelId := modelId n;
     activeEndpoints := activeEndpoints n; zoneType := zoneType n;
     colorCapabilities := colorCapabilities n;
     lightingColorCtrlEndpoint := lightingColorCtrlEndpoint n;
     powerSource := powerSource n; devInfoProperties := devInfoProperties n;
     showAging := showAging n; cieAddr := cieAddr n;
     doorLockTimeout := doorLockTimeout n; doorLockAction := doorLockAction n;
     type := type n; atType := atType n; node_name := node_name n;
     defaultName := defaultName n; heap := v; properties := properties n;
     actions := actions n; events := events n; onOffProperty := onOffProperty n;
     doorLockProperty := doorLockProperty n; doorLockState := doorLockState n;
     ssIasZoneEndpoint := ssIasZoneEndpoint n;
     slowCheckinInterval := slowCheckinInterval n; updateLastSeen := updateLastSeen n;
     notifications := notifications n; published := published n |}.

Definition set_properties v (n : Node) : Node :=
  {| isCoordinator := isCoordinator n; node_id := node_id n; modelId := modelId n;
     activeEndpoints := activeEndpoints n; zoneType := zoneType n;
     colorCapabilities := colorCapabilities n;
     lightingColorCtrlEndpoint := lightingColorCtrlEndpoint n;
     powerSource := powerSource n; devInfoProperties := devInfoProperties n;
     showAging := showAging n; cieAddr := cieAddr n;
     doorLockTimeout := doorLockTimeout n; doorLockAction := doorLockAction n;
     type := type n; atType := atType n; node_name := node_name n;
     defaultName := defaultName n; heap := heap n; properties := v;
     actions := actions n; events := events n; onOffProperty := onOffProperty n;
     doorLockProperty := doorLockProperty n; doorLockState := doorLockState n;
     ssIasZoneEndpoint := ssIasZoneEndpoint n;
     slowCheckinInterval := slowCheckinInterval n; updateLastSeen := updateLastSeen n;
     notifications := notifications n; published := published n |}.

Definition set_actions v (n : Node) : Node :=
  {| isCoordinator := isCoordinator n; node_id := node_id n; modelId := modelId n;
     activeEndpoints := activeEndpoints n; zoneType := zoneType n;
     colorCapabilities := colorCapabilities n;
     lightingColorCtrlEndpoint := lightingColorCtrlEndpoint n;
     powerSource := powerSource n; devInfoProperties := devInfoProperties n;
     showAging := showAging n; cieAddr := cieAddr n;
     doorLockTimeout := doorLockTimeout n; doorLockAction := doorLockAction n;
     type := type n; atType := atType n; node_name := node_name n;
     defaultName := defaultName n; heap := heap n; properties := properties n;
     actions := v; events := events n; onOffProperty := onOffProperty n;
     doorLockProperty := doorLockProperty n; doorLockState := doorLockState n;
     ssIasZoneEndpoint := ssIasZoneEndpoint n;
     slowCheckinInterval := slowCheckinInterval n; updateLastSeen := updateLastSeen n;
     notifications := notifications n; published := published n |}.

Definition set_events v (n : Node) : Node :=
  {| isCoordinator := isCoordinator n; node_id := node_id n; modelId := modelId n;
     activeEndpoints := activeEndpoints n; zoneType := zoneType n;
     colorCapabilities := colorCapabilities n;
     lightingColorCtrlEndpoint := lightingColorCtrlEndpoint n;
     powerSource := powerSource n; devInfoProperties := devInfoProperties n;
     showAging := showAging n; cieAddr := cieAddr n;
     doorLockTimeout := doorLockTimeout n; doorLockAction := doorLockAction n;
     type := type n; atType := atType n; node_name := node_name n;
     defaultName := defaultName n; heap := heap n; properties := properties n;
     actions := actions n; events := v; onOffProperty := onOffProperty n;
     doorLockProperty := doorLockProperty n; doorLockState := doorLockState n;
     ssIasZoneEndpoint := ssIasZoneEndpoint n;
     slowCheckinInterval := slowCheckinInterval n; updateLastSeen := updateLastSeen n;
     notifications := notifications n; published := published n |}.

Definition set_onOffProperty v (n : Node) : Node :=
  {| isCoordinator := isCoordinator n; node_id := node_id n; modelId := modelId n;
     activeEndpoints := activeEndpoints n; zoneType := zoneType n;
     colorCapabilities := colorCapabilities n;
     lightingColorCtrlEndpoint := lightingColorCtrlEndpoint n;
     powerSource := powerSource n; devInfoProperties := devInfoProperties n;
     showAging := showAging n; cieAddr := cieAddr n;
     doorLockTimeout := doorLockTimeout n; doorLockAction := doorLockAction n;
     type := type n; atType := atType n; node_name := node_name n;
     defaultName := defaultName n; heap := heap n; properties := properties n;
     actions := actions n; events := events n; onOffProperty := v;
     doorLockProperty := doorLockProperty n; doorLockState := doorLockState n;
     ssIasZoneEndpoint := ssIasZoneEndpoint n;
     slowCheckinInterval := slowCheckinInterval n; updateLastSeen := updateLastSeen n;
     notifications := notifications n; published := published n |}.

Definition set_doorLockProperty v (n : Node) : Node :=
  {| isCoordinator := isCoordinator n; node_id := node_id n; modelId := modelId n;
     activeEndpoints := activeEndpoints n; zoneType := zoneType n;
     colorCapabilities := colorCapabilities n;
     lightingColorCtrlEndpoint := lightingColorCtrlEndpoint n;
     powerSource := powerSource n; devInfoProperties := devInfoProperties n;
     showAging := showAging n; cieAddr := cieAddr n;
     doorLockTimeout := doorLockTimeout n; doorLockAction := doorLockAction n;
     type := type n; atType := atType n; node_name := node_name n;
     defaultName := defaultName n; heap := heap n; properties := properties n;
     actions := actions n; events := events n; onOffProperty := onOffProperty n;
     doorLockProperty := v; doorLockState := doorLockState n;
     ssIasZoneEndpoint := ssIasZoneEndpoint n;
     slowCheckinInterval := slowCheckinInterval n; updateLastSeen := updateLastSeen n;
     notifications := notifications n; published := published n |}.

Definition set_doorLockState v (n : Node) : Node :=
  {| isCoordinator := isCoordinator n; node_id := node_id n; modelId := modelId n;
     activeEndpoints := activeEndpoints n; zoneType := zoneType n;
     colorCapabilities := colorCapabilities n;
     lightingColorCtrlEndpoint := lightingColorCtrlEndpoint n;
     powerSource := powerSource n; devInfoProperties := devInfoProperties n;
     showAging := showAging n; cieAddr := cieAddr n;
     doorLockTimeout := doorLockTimeout n; doorLockAction := doorLockAction n;
     type := type n; atType := atType n; node_name := node_name n;
     defaultName := defaultName n; heap := heap n; properties := properties n;
     actions := actions n; events := events n; onOffProperty := onOffProperty n;
     doorLockProperty := doorLockProperty n; doorLockState := v;
     ssIasZoneEndpoint := ssIasZoneEndpoint n;
     slowCheckinInterval := slowCheckinInterval n; updateLastSeen := updateLastSeen n;
     notifications := notifications n; published := published n |}.

Definition set_ssIasZoneEndpoint v (n : Node) : Node :=
  {| isCoordinator := isCoordinator n; node_id := node_id n; modelId := modelId n;
     activeEndpoints := activeEndpoints n; zoneType := zoneType n;
     colorCapabilities := colorCapabilities n;
     lightingColorCtrlEndpoint := lightingColorCtrlEndpoint n;
     powerSource := powerSource n; devInfoProperties := devInfoProperties n;
     showAging := showAging n; cieAddr := cieAddr n;
     doorLockTimeout := doorLockTimeout n; doorLockAction := doorLockAction n;
     type := type n; atType := atType n; node_name := node_name n;
     defaultName := defaultName n; heap := heap n; properties := properties n;
     actions := actions n; events := events n; onOffProperty := onOffProperty n;
     doorLockProperty := doorLockProperty n; doorLockState := doorLockState n;
     ssIasZoneEndpoint := v; slowCheckinInterval := slowCheckinInterval n;
     updateLastSeen := updateLastSeen n; notifications := notifications n;
     published := published n |}.

Definition set_slowCheckinInterval v (n : Node) : Node :=
  {| isCoordinator := isCoordinator n; node_id := node_id n; modelId := modelId n;
     activeEndpoints := activeEndpoints n; zoneType := zoneType n;
     colorCapabilities := colorCapabilities n;
     lightingColorCtrlEndpoint := lightingColorCtrlEndpoint n;
     powerSource := powerSource n; devInfoProperties := devInfoProperties n;
     showAging := showAging n; cieAddr := cieAddr n;
     doorLockTimeout := doorLockTimeout n; doorLockAction := doorLockAction n;
     type := type n; atType := atType n; node_name := node_name n;
     defaultName := defaultName n; heap := heap n; properties := properties n;
     actions := actions n; events := events n; onOffProperty := onOffProperty n;
     doorLockProperty := doorLockProperty n; doorLockState := doorLockState n;
     ssIasZoneEndpoint := ssIasZoneEndpoint n; slowCheckinInterval := v;
     updateLastSeen := updateLastSeen n; notifications := notifications n;
     published := published n |}.

Definition set_updateLastSeen v (n : Node) : Node :=
  {| isCoordinator := isCoordinator n; node_id := node_id n; modelId := modelId n;
     activeEndpoints := activeEndpoints n; zoneType := zoneType n;
     colorCapabilities := colorCapabilities n;
     lightingColorCtrlEndpoint := lightingColorCtrlEndpoint n;
     powerSource := powerSource n; devInfoProperties := devInfoProperties n;
     showAging := showAging n; cieAddr := cieAddr n;
     doorLockTimeout := doorLockTimeout n; doorLockAction := doorLockAction n;
     type := type n; atType := atType n; node_name := node_name n;
     defaultName := defaultName n; heap := heap n; properties := properties n;
     actions := actions n; events := events n; onOffProperty := onOffProperty n;
     doorLockProperty := doorLockProperty n; doorLockState := doorLockState n;
     ssIasZoneEndpoint := ssIasZoneEndpoint n;
     slowCheckinInterval := slowCheckinInterval n; updateLastSeen := v;
     notifications := notifications n; published := published n |}.

Definition set_notifications v (n : Node) : Node :=
  {| isCoordinator := isCoordinator n; node_id := node_id n; modelId := modelId n;
     activeEndpoints := activeEndpoints n; zoneType := zoneType n;
     colorCapabilities := colorCapabilities n;
     lightingColorCtrlEndpoint := lightingColorCtrlEndpoint n;
     powerSource := powerSource n; devInfoProperties := devInfoProperties n;
     showAging := showAging n; cieAddr := cieAddr n;
     doorLockTimeout := doorLockTimeout n; doorLockAction := doorLockAction n;
     type := type n; atType := atType n; node_name := node_name n;
     defaultName := defaultName n; heap := heap n; properties := properties n;
     actions := actions n; events := events n; onOffProperty := onOffProperty n;
     doorLockProperty := doorLockProperty n; doorLockState := doorLockState n;
     ssIasZoneEndpoint := ssIasZoneEndpoint n;
     slowCheckinInterval := slowCheckinInterval n; updateLastSeen := updateLastSeen n;
     notifications := v; published := published n |}.

Definition set_published v (n : Node) : Node :=
  {| isCoordinator := isCoordinator n; node_id := node_id n; modelId := modelId n;
     activeEndpoints := activeEndpoints n; zoneType := zoneType n;
     colorCapabilities := colorCapabilities n;
     lightingColorCtrlEndpoint := lightingColorCtrlEndpoint n;
     powerSource := powerSource n; devInfoProperties := devInfoProperties n;
     showAging := showAging n; cieAddr := cieAddr n;
     doorLockTimeout := doorLockTimeout n; doorLockAction := doorLockAction n;
     type := type n; atType := atType n; node_name := node_name n;
     defaultName := defaultName n; heap := heap n; properties := properties n;
     actions := actions n; events := events n; onOffProperty := onOffProperty n;
     doorLockProperty := doorLockProperty n; doorLockState := doorLockState n;
     ssIasZoneEndpoint := ssIasZoneEndpoint n;
     slowCheckinInterval := slowCheckinInterval n; updateLastSeen := updateLastSeen n;
     notifications := notifications n; published := v |}.


(** *** Statements: a state over the node, with exceptions *)

Definition M (A : Type) : Type := Node -> result (A * Node).

#[global] Instance M_ret : MRet M := fun A a n => Ok (a, n).
#[global] Instance M_bind : MBind M := fun A B k m n =>
  match m n with
  | Ok (a, n') => k a n'
  | Throw e => Throw e
  end.

Definition get : M Node := fun n => Ok (n, n).
Definition modify (f : Node -> Node) : M unit := fun n => Ok (tt, f n).
Definition throw {A} (message : string) : M A := fun _ => Throw message.
Definition skip : M unit := mret tt.
Definition when (b : bool) (m : M unit) : M unit := if b then m else skip.

(** [for (x of l) body] and [for (idx in l) body]. *)
Fixpoint for_each {A} (l : list A) (body : A -> M unit) : M unit :=
  match l with
  | [] => skip
  | x :: tl => body x ;; for_each tl body
  end.

(** Reading a member of [undefined] is a TypeError. *)
Definition TypeError (member : string) : string :=
  "TypeError: Cannot read properties of undefined (reading '" +:+ member +:+ "')".

(** [new]: the object gets a fresh cell. *)
Definition alloc (p : Property) : M ref :=
  fun n => Ok (length (heap n), set_heap (heap n ++ [p]) n).

(** An assignment to members of the object behind a reference. *)
Definition update_property (r : ref) (f : Property -> Property) : M unit :=
  modify (fun n => set_heap (alter f r (heap n)) n).

(** Reading the object behind a reference. *)
Definition read (r : ref) : M Property :=
  fun n => match heap n !! r with
           | Some p => Ok (p, n)
           | None => Throw (TypeError "heap")
           end.

(** [node.activeEndpoints[e]] followed by a member access. *)
Definition activeEndpoint (e : option Z) (member : string) : M Endpoint :=
  fun n => match e ≫= (fun z => activeEndpoints n !! z) with
           | Some ep => Ok (ep, n)
           | None => Throw (TypeError member)
           end.

Definition of_endpoint (e : option Z) : value :=
  match e with Some z => VInt z | None => VUndefined end.

(** An endpoint number in a condition: [undefined] and [0] are falsy. *)
Definition found (e : option Z) : bool :=
  match e with Some z => negb (z =? 0) | None => false end.

(** *** [==] on the values compared with the snapshot

    Same-type operands compare as [===], [null] equals [undefined], and a
    string facing a number is converted to a number. *)
Definition loose_eqb (a b : value) : bool :=
  match a, b with
  | (VUndefined | VNull), (VUndefined | VNull) => true
  | VNum x, VStr s | VStr s, VNum x => number_eqb x (string_to_number s)
  | VBool x, VNum y | VNum y, VBool x => number_eqb (to_number (VBool x)) y
  | _, _ => strict_eqb a b
  end.

(** *** The property class

    Modelled from the spec: the class [ZigbeeProperty] of [zb-property.js],
    which is not part of the sources at hand.  Its constructor stores the
    binding it is given and takes the schema members [minimum], [maximum] and
    [enum] of the description; a new property is visible, has no cached value
    and none of its runtime flags is set (the spec's end-to-end scenario has
    [fireAndForget = false] for a property nothing else touches). *)
Definition as_enum (v : option value) : option (list string) :=
  match v with
  | Some (VArr l) => Some l
  | _ => None
  end.

Definition ZigbeeProperty_new (name : string) (descr : object)
    (profileId endpoint clusterId : value) (attr : string)
    (setAttrFromValue parseValueFromAttr : value) : Property :=
  {| name := name; descr := descr; profileId := profileId; endpoint := endpoint;
     clusterId := clusterId; attr := attr; setAttrFromValue := setAttrFromValue;
     parseValueFromAttr := parseValueFromAttr;
     p_value := None; prevValue := None;
     minimum := member descr "minimum"; maximum := member descr "maximum";
     level := None; enum := as_enum (member descr "enum");
     fireAndForget := false; bindNeeded := false; configReportNeeded := false;
     configReport := None; initialReadNeeded := false; visible := true;
     defaultValue := VUndefined; mask := None; buttonIndex := None;
     updated := None |}.

(** Modelled from the spec: [setInitialReadNeeded] of [zb-property.js]
    ("initialReadNeeded defaults true so the value is fetched once at startup
    regardless of reporting"). *)
Definition setInitialReadNeeded (p : Property) : Property :=
  set_initialReadNeeded true p.

(** Modelled from the spec: [setMinimum] and [setMaximum] of [zb-property.js]
    ("each property exposes setMinimum/setMaximum (clamp + notify)"): the bound
    is stored in the schema and the device is notified of the changed
    description.  The call is recorded in [published]. *)
Definition setMinimum (r : ref) (v : value) : M unit :=
  update_property r (set_minimum (Some v)) ;;
  modify (fun n => set_published ((r, Minimum, v) :: published n)
                     (set_notifications (S (notifications n)) n)).

Definition setMaximum (r : ref) (v : value) : M unit :=
  update_property r (set_maximum (Some v)) ;;
  modify (fun n => set_published ((r, Maximum, v) :: published n)
                     (set_notifications (S (notifications n)) n)).

(** [this.value] of an object: [undefined] when there is no such member. *)
Definition value_of (p : Property) : value := default VUndefined (p_value p).
Definition hasOwnProperty_value (p : Property) : bool :=
  match p_value p with Some _ => true | None => false end.


(** *** The thermostat constraint hooks

    The two recomputations [addThermostatProperties] attaches to the heat and
    the cool target, as functions of the objects its closures capture. *)
Definition updateMaximum (t : Thermostat) : M unit :=
  maxHeatTarget ← read (maxHeatTargetProperty t);
  if negb (hasOwnProperty_value maxHeatTarget) then
    (* We don't have enough information yet *)
    skip
  else
    deadband ← read (deadbandProperty t);
    coolTarget ← read (coolTargetProperty t);
    if (negb (hasOwnProperty_value deadband) && negb (hasOwnProperty_value coolTarget))
       || (strict_eqb (value_of deadband) VNull && strict_eqb (value_of coolTarget) VNull)
    then
      (* it looks like there's no cool target or deadband *)
      setMaximum (heatTargetProperty t) (value_of maxHeatTarget)
    else if negb (hasOwnProperty_value deadband) || negb (hasOwnProperty_value coolTarget)
    then
      (* We don't have enough information yet *)
      skip
    else
      let max1 := value_of maxHeatTarget in
      let max2 := sub (to_number (value_of coolTarget)) (to_number (value_of deadband)) in
      setMaximum (heatTargetProperty t) (VNum (Math_min (to_number max1) max2)).

(** The sum [heatTargetProperty.value + deadbandProperty.value] is the sum
    of two numbers: both values are parsed numeric attributes.  JavaScript's
    [+] on a string operand (a concatenation) is not modelled. *)
Definition updateMinimum (t : Thermostat) : M unit :=
  minCoolTarget ← read (minCoolTargetProperty t);
  if negb (hasOwnProperty_value minCoolTarget) then
    skip
  else
    deadband ← read (deadbandProperty t);
    heatTarget ← read (heatTargetProperty t);
    if (negb (hasOwnProperty_value deadband) && negb (hasOwnProperty_value heatTarget))
       || (strict_eqb (value_of deadband) VNull && strict_eqb (value_of heatTarget) VNull)
    then
      setMinimum (coolTargetProperty t) (value_of minCoolTarget)
    else if negb (hasOwnProperty_value deadband) || negb (hasOwnProperty_value heatTarget)
    then
      skip
    else
      let min1 := value_of minCoolTarget in
      let min2 := add (to_number (value_of heatTarget)) (to_number (value_of deadband)) in
      setMinimum (coolTargetProperty t) (VNum (Math_max (to_number min1) min2)).

(** [s.split('/')]. *)
Fixpoint split_on (sep : ascii) (s : string) : list string :=
  match s with
  | EmptyString => [EmptyString]
  | String c tl =>
      if Ascii.eqb c sep then EmptyString :: split_on sep tl
      else match split_on sep tl with
           | hd :: rest => String c hd :: rest
           | [] => [String c EmptyString]
           end
  end.

(** Modelled from the spec: [node.setPropertyValue] of [zb-node.js], which is
    not part of the sources at hand: the value becomes the cached value of the
    property.  Its one use here targets a property without a hook. *)
Definition setPropertyValue (property : ref) (v : value) : M unit :=
  update_property property (set_p_value (Some v)).

(** Modelled from the spec: [handleDeviceDescriptionUpdated], the notification
    of a changed description. *)
Definition handleDeviceDescriptionUpdated : M unit :=
  modify (fun n => set_notifications (S (notifications n)) n).

(** The body of each closure; [this] is the object the hook fires on. *)
Definition run_hook (h : Hook) (this : ref) : M unit :=
  match h with
  | doorLockProperty_updated =>
      node ← get;
      match doorLockProperty node with
      | None => throw (TypeError "value")
      | Some lock =>
          p ← read lock;
          let state := if truthy (value_of p) then "locked" else "unlocked" in
          match doorLockState node with
          | None => throw (TypeError "setCachedValue")
          | Some st => setPropertyValue st (VStr state)
          end ;;
          modify (set_doorLockTimeout false) ;;
          modify (set_doorLockAction false)
      end
  | absMaxHeatTargetProperty_updated t =>
      p ← read this; setMaximum (maxHeatTargetProperty t) (value_of p)
  | maxHeatTargetProperty_updated t =>
      updateMaximum t
  | heatTargetProperty_updated t =>
      p ← read this;
      setMinimum (maxHeatTargetProperty t) (value_of p) ;;
      setMaximum (minHeatTargetProperty t) (value_of p) ;;
      updateMinimum t
  | minHeatTargetProperty_updated t =>
      p ← read this; setMinimum (heatTargetProperty t) (value_of p)
  | absMinHeatTargetProperty_updated t =>
      p ← read this; setMinimum (minHeatTargetProperty t) (value_of p)
  | absMaxCoolTargetProperty_updated t =>
      p ← read this; setMaximum (maxCoolTargetProperty t) (value_of p)
  | maxCoolTargetProperty_updated t =>
      p ← read this; setMaximum (coolTargetProperty t) (value_of p)
  | coolTargetProperty_updated t =>
      p ← read this;
      setMinimum (maxCoolTargetProperty t) (value_of p) ;;
      setMaximum (minCoolTargetProperty t) (value_of p) ;;
      updateMaximum t
  | minCoolTargetProperty_updated t =>
      updateMinimum t
  | absMinCoolTargetProperty_updated t =>
      p ← read this; setMinimum (minCoolTargetProperty t) (value_of p)
  | deadbandProperty_updated t =>
      updateMaximum t ;; updateMinimum t
  | fanModeSeqProperty_updated fanModeProperty =>
      p ← read this;
      if negb (bool_decide (is_Some (prevValue p)))
         || negb (loose_eqb (value_of p) (default VUndefined (prevValue p)))
      then
        match value_of p with
        | VStr seq =>
            update_property fanModeProperty (set_enum (Some (split_on "/" seq))) ;;
            handleDeviceDescriptionUpdated ;;
            update_property this (set_prevValue (Some (VStr seq)))
        | _ => throw (TypeError "split")
        end
      else skip
  end.

(** Modelled from the spec: the update routine of [zb-property.js] and
    [zb-node.js], which are not part of the sources at hand ("each update
    synchronously fires the property's updated hook before returning
    control"): the reported value becomes the cached value, then the hook of
    the property runs, if it has one. *)
Definition update (property : ref) (v : value) : M unit :=
  update_property property (set_p_value (Some v)) ;;
  p ← read property;
  match updated p with
  | Some h => run_hook h property
  | None => skip
  end.

(** Modelled from the spec: an attribute report ("property name (or attribute
    path) + raw value, applied via the update routine").  A report for a name
    the device has no property for is dropped. *)
Definition report (name : string) (v : value) : M unit :=
  node ← get;
  match properties node !! name with
  | Some property => update property v
  | None => skip
  end.

Definition reports (l : list (string * value)) : M unit :=
  for_each l (fun '(name, v) => report name v).

(** *** The report configurations *)

Definition CONFIG_REPORT_INTEGER : ConfigReport :=
  {| minRepInterval := 1; maxRepInterval := 120; repChange := 1 |}.
Definition CONFIG_REPORT_CURRENT : ConfigReport :=
  {| minRepInterval := 5; maxRepInterval := 120; repChange := 10 |}.
Definition CONFIG_REPORT_VOLTAGE : ConfigReport :=
  {| minRepInterval := 5; maxRepInterval := 120; repChange := 10 |}.
Definition CONFIG_REPORT_POWER : ConfigReport :=
  {| minRepInterval := 5; maxRepInterval := 120; repChange := 10 |}.
Definition CONFIG_REPORT_FREQUENCY : ConfigReport :=
  {| minRepInterval := 5; maxRepInterval := 120; repChange := 2 |}.
Definition CONFIG_REPORT_BATTERY : ConfigReport :=
  {| minRepInterval := 10 * 60; maxRepInterval := 30 * 60; repChange := 2 |}.
Definition CONFIG_REPORT_ILLUMINANCE : ConfigReport :=
  {| minRepInterval := 0; maxRepInterval := 10 * 60; repChange := 65535 |}.
Definition CONFIG_REPORT_TEMPERATURE : ConfigReport :=
  {| minRepInterval := 1 * 60; maxRepInterval := 10 * 60; repChange := 50 |}.
Definition CONFIG_REPORT_MODE : ConfigReport :=
  {| minRepInterval := 1; maxRepInterval := 10 * 60; repChange := 1 |}.

(** *** The classifier *)
Section ZigbeeClassifier.

Variable K : Constants.
Variable NM : NodeMethods.

Definition cluster (c : Cluster) : value := VInt (CLUSTER_ID K c).
Definition ZHA : value := VInt (PROFILE_ID_ZHA K).

(** The assignments of [addProperty] that take the snapshot of a property of
    the same name over, when its binding is the binding of the new one. *)
Definition rehydrate (devInfo : DevInfo) (property : Property) : Property :=
  if loose_eqb (endpoint property) (di_endpoint devInfo)
     && loose_eqb (profileId property) (di_profileId devInfo)
     && loose_eqb (clusterId property) (di_clusterId devInfo)
     && String.eqb (attr property) (di_attr devInfo)
  then
    let property := set_fireAndForget (di_fireAndForget devInfo) property in
    let property := set_p_value (Some (di_value devInfo)) property in
    let property :=
      match di_minimum devInfo with
      | Some m => set_minimum (Some m) property
      | None => property
      end in
    let property :=
      match di_maximum devInfo with
      | Some m => set_maximum (Some m) property
      | None => property
      end in
    let property :=
      match di_level devInfo with
      | Some l => set_level (Some l) property
      | None => property
      end in
    match di_enum devInfo, enum property with
    | Some e, Some [] => set_enum (Some e) property
    | _, _ => property
    end
  else property.

(** [name[0] == '_']. *)
Definition is_private (name : string) : bool :=
  match name with
  | String "_" _ => true
  | _ => false
  end.

(** The assignments of [addProperty] to the new object, from the snapshot
    lookup on, as one function of that object. *)
Definition addProperty_assign (devInfoProperties : option (gmap string DevInfo))
    (name attr : string) (isZll : bool) (configReport : option ConfigReport)
    (defaultValue : value) (property : Property) : Property :=
  let property :=
    match devInfoProperties ≫= (fun m => m !! name) with
    | Some devInfo => rehydrate devInfo property
    | None => property
    end in
  let property := if isZll then set_fireAndForget true property else property in
  let property := set_configReportNeeded false property in
  let property :=
    match configReport with
    | Some c =>
        if negb (String.eqb attr "") && negb (fireAndForget property)
        then set_configReport (Some c) (set_configReportNeeded true property)
        else set_fireAndForget true property
    | None => set_fireAndForget true property
    end in
  let property := if is_private name then set_visible false property else property in
  let property := setInitialReadNeeded property in
  let property := set_defaultValue defaultValue property in
  set_bindNeeded (configReportNeeded property) property.

Definition addProperty (name : string) (descr : object)
    (profileId endpoint clusterId : value) (attr : string)
    (setAttrFromValue parseValueFromAttr : value)
    (configReport : option ConfigReport) (defaultValue : value) : M ref :=
  let profileId :=
    match profileId with
    | VStr s => VNum (parseInt16 s)
    | _ => profileId
    end in
  let isZll := loose_eqb profileId (VInt (PROFILE_ID_ZLL K)) in
  let profileId := if isZll then ZHA else profileId in
  property ← alloc (ZigbeeProperty_new name descr profileId endpoint clusterId attr
                      setAttrFromValue parseValueFromAttr);
  modify (fun node => set_properties (<[name := property]> (properties node)) node) ;;
  node ← get;
  update_property property
    (addProperty_assign (devInfoProperties node) name attr isZll configReport
       defaultValue) ;;
  mret property.

(** The description members most properties share. *)
Definition percent_level : object :=
  [("type", VStr "number"); ("unit", VStr "percent"); ("minimum", VInt 0);
   ("maximum", VInt 100); ("multipleOf", VNum (Fin (1 # 10)))].

Definition addColorProperty (lightingColorCtrlEndpoint : option Z) : M unit :=
  endpoint ← activeEndpoint lightingColorCtrlEndpoint "profileId";
  addProperty "_level" percent_level
    (ep_profileId endpoint) (of_endpoint lightingColorCtrlEndpoint)
    (cluster GENLEVELCTRL) "currentLevel" "setLevelValue" "parseLevelAttr"
    None VUndefined ;;
  addProperty "color"
    [("@type", VStr "ColorProperty"); ("label", VStr "Color"); ("type", VStr "string")]
    (ep_profileId endpoint) (of_endpoint lightingColorCtrlEndpoint)
    (cluster LIGHTINGCOLORCTRL) "currentHue,currentSaturation" "setColorValue"
    "parseColorAttr" None VUndefined ;;
  skip.

Definition addColorXYProperty (lightingColorCtrlEndpoint : option Z) : M unit :=
  endpoint ← activeEndpoint lightingColorCtrlEndpoint "profileId";
  addProperty "_level" percent_level
    (ep_profileId endpoint) (of_endpoint lightingColorCtrlEndpoint)
    (cluster GENLEVELCTRL) "currentLevel" "setLevelValue" "parseLevelAttr"
    None VUndefined ;;
  addProperty "color"
    [("@type", VStr "ColorProperty"); ("label", VStr "Color"); ("type", VStr "string")]
    (ep_profileId endpoint) (of_endpoint lightingColorCtrlEndpoint)
    (cluster LIGHTINGCOLORCTRL) "currentX,currentY" "setColorXYValue"
    "parseColorXYAttr" None VUndefined ;;
  skip.

Definition addColorTemperatureProperty (lightingColorCtrlEndpoint : option Z) : M unit :=
  addProperty "_minTemperature" [("type", VStr "number")]
    ZHA (of_endpoint lightingColorCtrlEndpoint) (cluster LIGHTINGCOLORCTRL)
    "colorTempPhysicalMin" "" "parseNumericAttr" None (VInt 153) ;;
  addProperty "_maxTemperature" [("type", VStr "number")]
    ZHA (of_endpoint lightingColorCtrlEndpoint) (cluster LIGHTINGCOLORCTRL)
    "colorTempPhysicalMax" "" "parseNumericAttr" None (VInt 370) ;;
  addProperty "colorTemperature"
    [("@type", VStr "ColorTemperatureProperty"); ("label", VStr "Color Temperature");
     ("type", VStr "number"); ("unit", VStr "kelvin")]
    ZHA (of_endpoint lightingColorCtrlEndpoint) (cluster LIGHTINGCOLORCTRL)
    "colorTemperature" "setColorTemperatureValue" "parseColorTemperatureAttr"
    None (VInt 370) ;;
  skip.

Definition addBrightnessProperty (genLevelCtrlEndpoint : option Z) : M unit :=
  endpoint ← activeEndpoint genLevelCtrlEndpoint "profileId";
  addProperty "level"
    (("@type", VStr "BrightnessProperty") :: ("label", VStr "Brightness") :: percent_level)
    (ep_profileId endpoint) (of_endpoint genLevelCtrlEndpoint)
    (cluster GENLEVELCTRL) "currentLevel" "setLevelValue" "parseLevelAttr"
    (Some CONFIG_REPORT_INTEGER) VUndefined ;;
  skip.

(** [if (!node['@type'].includes(tag)) node['@type'].push(tag)]. *)
Definition push_type_once (tag : string) : M unit :=
  node ← get;
  match atType node with
  | None => throw (TypeError "includes")
  | Some l =>
      if existsb (String.eqb tag) l then skip
      else modify (set_atType (Some (l ++ [tag])))
  end.

(** [node['@type'].push(tag)]. *)
Definition push_type (tag : string) : M unit :=
  node ← get;
  match atType node with
  | None => throw (TypeError "push")
  | Some l => modify (set_atType (Some (l ++ [tag])))
  end.

Definition addDeviceTemperatureProperty (genDeviceTempCfgEndpoint : option Z) : M unit :=
  addProperty "temperature"
    [("@type", VStr "TemperatureProperty"); ("label", VStr "Temperature");
     ("type", VStr "number"); ("unit", VStr "degree celsius"); ("readOnly", VBool true)]
    ZHA (of_endpoint genDeviceTempCfgEndpoint) (cluster GENDEVICETEMPCFG)
    "currentTemperature" "" "parseNumericAttr" (Some CONFIG_REPORT_INTEGER) VUndefined ;;
  push_type_once "TemperatureSensor".

Definition addLevelProperty (genLevelCtrlEndpoint : option Z) : M unit :=
  endpoint ← activeEndpoint genLevelCtrlEndpoint "profileId";
  addProperty "level"
    (("@type", VStr "LevelProperty") :: ("label", VStr "Level") :: percent_level)
    (ep_profileId endpoint) (of_endpoint genLevelCtrlEndpoint)
    (cluster GENLEVELCTRL) "currentLevel" "setLevelValue" "parseLevelAttr"
    (Some CONFIG_REPORT_INTEGER) VUndefined ;;
  skip.

(** [label: suffix ? `${what} (${suffix})` : what]. *)
Definition suffixed (what suffix : string) : string :=
  if String.eqb suffix "" then what else what +:+ " (" +:+ suffix +:+ ")".

(** [if (typeof property.value === 'undefined') property.value = v]. *)
Definition default_value (v : value) (property : Property) : Property :=
  match value_of property with
  | VUndefined => set_p_value (Some v) property
  | _ => property
  end.

(** [if (!node.onOffProperty) node.onOffProperty = property]. *)
Definition claim_onOffProperty (property : ref) : M unit :=
  modify (fun node =>
            match onOffProperty node with
            | Some _ => node
            | None => set_onOffProperty (Some property) node
            end).

Definition addOnProperty (genOnOffEndpoint : option Z) (suffix : string) : M ref :=
  endpoint ← activeEndpoint genOnOffEndpoint "profileId";
  property ← addProperty ("on" +:+ suffix)
    [("@type", VStr (if String.eqb suffix "" then "OnOffProperty" else "BooleanProperty"));
     ("label", VStr (suffixed "On/Off" suffix)); ("type", VStr "boolean")]
    (ep_profileId endpoint) (of_endpoint genOnOffEndpoint)
    (cluster GENONOFF) "onOff" "setOnOffValue" "parseOnOffAttr"
    (Some CONFIG_REPORT_INTEGER) VUndefined;
  when (bool_decide (ep_deviceId endpoint = Some "000b"))
    (update_property property (set_fireAndForget true)) ;;
  update_property property (default_value (VBool false)) ;;
  claim_onOffProperty property ;;
  mret property.

Definition addButtonOnProperty (genOnOffOutputEndpoint : option Z) (suffix : string)
  : M ref :=
  property ← addProperty ("on" +:+ suffix)
    [("@type", VStr "BooleanProperty"); ("label", VStr (suffixed "On/Off" suffix));
     ("type", VStr "boolean"); ("readOnly", VBool true)]
    ZHA (of_endpoint genOnOffOutputEndpoint) (cluster GENONOFF)
    "" "" "" None VUndefined;
  update_property property (set_bindNeeded true) ;;
  update_property property (default_value (VBool false)) ;;
  claim_onOffProperty property ;;
  mret property.

Definition addButtonLevelProperty (genLevelCtrlOutputEndpoint : option Z)
    (suffix : string) : M ref :=
  property ← addProperty ("level" +:+ suffix)
    [("@type", VStr "LevelProperty"); ("label", VStr (suffixed "Level" suffix));
     ("type", VStr "number"); ("unit", VStr "percent"); ("minimum", VInt 0);
     ("maximum", VInt 100); ("multipleOf", VNum (Fin (1 # 10)));
     ("readOnly", VBool true)]
    ZHA (of_endpoint genLevelCtrlOutputEndpoint) (cluster GENLEVELCTRL)
    "" "" "" None VUndefined;
  update_property property (set_bindNeeded true) ;;
  update_property property (default_value (VInt 0)) ;;
  mret property.

Definition addButtonMotionProperty (genOnOffOutputEndpoint : option Z)
    (suffix : string) : M ref :=
  property ← addProperty ("motion" +:+ suffix)
    [("@type", VStr "MotionProperty"); ("type", VStr "boolean");
     ("label", VStr (suffixed "Motion" suffix)); ("description", VStr "Motion Sensor");
     ("readOnly", VBool true)]
    ZHA (of_endpoint genOnOffOutputEndpoint) (cluster GENONOFF)
    "" "" "" None VUndefined;
  update_property property (set_bindNeeded true) ;;
  update_property property (default_value (VBool false)) ;;
  mret property.

(** [if (typeof property.value !== 'number') property.value = 0]. *)
Definition default_number (property : Property) : Property :=
  match value_of property with
  | VNum _ => property
  | _ => set_p_value (Some (VInt 0)) property
  end.

Definition addButtonSceneProperty (genScenesOutputEndpoint : option Z) : M ref :=
  property ← addProperty "scene"
    [("@type", VStr "LevelProperty"); ("label", VStr "Scene"); ("type", VStr "integer");
     ("minimum", VInt 0); ("maximum", VInt 15); ("readOnly", VBool true)]
    ZHA (of_endpoint genScenesOutputEndpoint) (cluster GENSCENES)
    "" "" "" None VUndefined;
  update_property property (set_bindNeeded false) ;;
  update_property property default_number ;;
  mret property.

Definition addActions (acts : list (string * object)) : M unit :=
  for_each acts (fun '(actionName, a) =>
    modify (fun node => set_actions (<[actionName := a]> (actions node)) node)).

Definition addEvents (evts : list (string * object)) : M unit :=
  for_each evts (fun '(eventName, e) =>
    modify (fun node => set_events (<[eventName := e]> (events node)) node)).

Definition addDoorLockedProperty (doorLockEndpoint : option Z) : M unit :=
  lock ← addProperty "_lockedInterntal"
    [("@type", VStr "BooleanProperty"); ("label", VStr "Locked"); ("type", VStr "boolean")]
    ZHA (of_endpoint doorLockEndpoint) (cluster DOORLOCK)
    "lockState" "setDoorLockedValue" "parseDoorLockedAttr"
    (Some CONFIG_REPORT_INTEGER) VUndefined;
  modify (set_doorLockProperty (Some lock)) ;;
  state ← addProperty "locked"
    [("@type", VStr "LockedProperty"); ("type", VStr "string"); ("title", VStr "State");
     ("enum", VArr ["locked"; "unlocked"; "jammed"; "unknown"]); ("readOnly", VBool true)]
    (VInt 0) (VInt 0) (VInt 0) "" VUndefined VUndefined None VUndefined;
  modify (set_doorLockState (Some state)) ;;
  update_property lock (set_updated (Some doorLockProperty_updated)) ;;
  (* Set the initial state. *)
  run_hook doorLockProperty_updated lock ;;
  addEvents (map (fun eventCode => (eventCode, [("@type", VStr "DoorLockEvent")]))
               (DOORLOCK_EVENT_CODES K)) ;;
  addActions
    [("lock", [("@type", VStr "LockAction"); ("title", VStr "Lock");
               ("description", VStr "Lock the deadbolt")]);
     ("unlock", [("@type", VStr "UnlockAction"); ("title", VStr "Unlock");
                 ("description", VStr "Unlock the deadbolt")])] ;;
  modify (set_slowCheckinInterval (Some (1 * 60 * 4))).

Definition addPresentValueProperty (genBinaryInputEndpoint : option Z) : M unit :=
  addProperty "on"
    [("@type", VStr "BooleanProperty"); ("label", VStr "Present");
     ("type", VStr "boolean"); ("readOnly", VBool true)]
    ZHA (of_endpoint genBinaryInputEndpoint) (cluster GENBINARYINPUT)
    "presentValue" "setOnOffValue" "parseOnOffAttr"
    (Some CONFIG_REPORT_INTEGER) VUndefined ;;
  skip.

(** The hidden multiplier and divisor properties of a measurement. *)
Definition addScaleProperty (name : string) (ep : option Z) (c : Cluster)
    (attr : string) (defaultValue : value) : M ref :=
  addProperty name [("type", VStr "number"); ("readOnly", VBool true)]
    ZHA (of_endpoint ep) (cluster c) attr "" "parseNumericAttr" None defaultValue.

Definition addHaCurrentProperty (haElectricalEndpoint : option Z) : M unit :=
  addScaleProperty "_currentMul" haElectricalEndpoint HAELECTRICAL
    "acCurrentMultiplier" (VInt 1) ;;
  addScaleProperty "_currentDiv" haElectricalEndpoint HAELECTRICAL
    "acCurrentDivisor" (VInt 1) ;;
  addProperty "current"
    [("@type", VStr "CurrentProperty"); ("label", VStr "Current"); ("type", VStr "number");
     ("unit", VStr "ampere"); ("readOnly", VBool true)]
    ZHA (of_endpoint haElectricalEndpoint) (cluster HAELECTRICAL)
    "rmsCurrent" "" "parseHaCurrentAttr" (Some CONFIG_REPORT_CURRENT) VUndefined ;;
  skip.

Definition addHaFrequencyProperty (haElectricalEndpoint : option Z) : M unit :=
  addProperty "frequency"
    [("@type", VStr "FrequencyProperty"); ("label", VStr "Frequency");
     ("type", VStr "number"); ("unit", VStr "hertz"); ("readOnly", VBool true)]
    ZHA (of_endpoint haElectricalEndpoint) (cluster HAELECTRICAL)
    "acFrequency" "" "parseNumericAttr" (Some CONFIG_REPORT_FREQUENCY) VUndefined ;;
  skip.

Definition addHaInstantaneousPowerProperty (haElectricalEndpoint : option Z) : M unit :=
  addScaleProperty "_powerMul" haElectricalEndpoint HAELECTRICAL
    "acPowerMultiplier" (VInt 1) ;;
  addScaleProperty "_powerDiv" haElectricalEndpoint HAELECTRICAL
    "acPowerDivisor" (VInt 1) ;;
  addProperty "instantaneousPower"
    [("@type", VStr "InstantaneousPowerProperty"); ("label", VStr "Power");
     ("type", VStr "number"); ("unit", VStr "watt"); ("readOnly", VBool true)]
    ZHA (of_endpoint haElectricalEndpoint) (cluster HAELECTRICAL)
    "activePower" "" "parseHaInstantaneousPowerAttr" (Some CONFIG_REPORT_POWER)
    VUndefined ;;
  skip.

Definition addHaVoltageProperty (haElectricalEndpoint : option Z) : M unit :=
  addScaleProperty "_voltageMul" haElectricalEndpoint HAELECTRICAL
    "acVoltageMultiplier" (VInt 1) ;;
  addScaleProperty "_voltageDiv" haElectricalEndpoint HAELECTRICAL
    "acVoltageDivisor" (VInt 1) ;;
  addProperty "voltage"
    [("@type", VStr "VoltageProperty"); ("label", VStr "Voltage"); ("type", VStr "number");
     ("unit", VStr "volt"); ("readOnly", VBool true)]
    ZHA (of_endpoint haElectricalEndpoint) (cluster HAELECTRICAL)
    "rmsVoltage" "" "parseHaVoltageAttr" (Some CONFIG_REPORT_VOLTAGE) VUndefined ;;
  skip.

Definition addSeCurrentSummDeliveredProperty (seMeteringEndpoint : option Z) : M unit :=
  addScaleProperty "_counterMul" seMeteringEndpoint SEMETERING
    "currentSummDeliveredMultiplier" (VInt 1) ;;
  addScaleProperty "_counterDiv" seMeteringEndpoint SEMETERING
    "currentSummDeliveredDivisor" (VInt 1000) ;;
  addProperty "counter"
    [("label", VStr "Total Energy"); ("type", VStr "number"); ("unit", VStr "watt");
     ("readOnly", VBool true)]
    ZHA (of_endpoint seMeteringEndpoint) (cluster SEMETERING)
    "currentSummDelivered" "" "parseSeCurrentSummDeliveredAttr"
    (Some CONFIG_REPORT_MODE) VUndefined ;;
  skip.

Definition addSeInstantaneousPowerProperty (seMeteringEndpoint : option Z) : M unit :=
  addScaleProperty "_multiplier" seMeteringEndpoint SEMETERING "multiplier" VUndefined ;;
  addScaleProperty "_divisor" seMeteringEndpoint SEMETERING "divisor" VUndefined ;;
  addProperty "instantaneousPower"
    [("@type", VStr "InstantaneousPowerProperty"); ("label", VStr "Power");
     ("type", VStr "number"); ("unit", VStr "watt"); ("readOnly", VBool true)]
    ZHA (of_endpoint seMeteringEndpoint) (cluster SEMETERING)
    "instantaneousDemand" "" "parseSeInstantaneousPowerAttr"
    (Some CONFIG_REPORT_INTEGER) VUndefined ;;
  skip.

Definition addOccupancySensorProperty (msOccupancySensingEndpoint : option Z) : M unit :=
  addProperty "occupied"
    [("@type", VStr "BooleanProperty"); ("type", VStr "boolean");
     ("label", VStr "Occupied"); ("description", VStr "Occupancy Sensor");
     ("readOnly", VBool true)]
    ZHA (of_endpoint msOccupancySensingEndpoint) (cluster OCCUPANCY_SENSOR)
    "occupancy" "" "parseOccupiedAttr" (Some CONFIG_REPORT_INTEGER) VUndefined ;;
  addProperty "sensorType"
    [("label", VStr "Sensor Type"); ("type", VStr "string"); ("readOnly", VBool true)]
    ZHA (of_endpoint msOccupancySensingEndpoint) (cluster OCCUPANCY_SENSOR)
    "occupancySensorType" "" "parseOccupancySensorTypeAttr" None VUndefined ;;
  skip.

Definition addIlluminanceMeasurementProperty (msMeasurementEndpoint : option Z) : M unit :=
  addScaleProperty "_minIlluminance" msMeasurementEndpoint ILLUMINANCE_MEASUREMENT
    "minMeasuredValue" VUndefined ;;
  addScaleProperty "_maxIlluminance" msMeasurementEndpoint ILLUMINANCE_MEASUREMENT
    "maxMeasuredValue" VUndefined ;;
  addProperty "illuminance"
    [("@type", VStr "IlluminanceProperty"); ("label", VStr "Illuminance");
     ("type", VStr "number"); ("unit", VStr "lux"); ("readOnly", VBool true)]
    ZHA (of_endpoint msMeasurementEndpoint) (cluster ILLUMINANCE_MEASUREMENT)
    "measuredValue" "" "parseIlluminanceMeasurementAttr"
    (Some CONFIG_REPORT_ILLUMINANCE) VUndefined ;;
  skip.

(** Some devices report a power source of "unknown" but are battery powered. *)
Definition hasBattery : list string :=
  ["1116-S"; "motionv4"; "motionv5"; "multiv4"; "tagv4"].

Definition includes (l : list string) (s : option string) : bool :=
  match s with
  | Some s => existsb (String.eqb s) l
  | None => false
  end.

(** ToInt32 of an integral number within 32 bits, of [true], [false] and
    [undefined], the operands [&] has here. *)
Definition int32_of_bool (b : bool) : Z := if b then 1 else 0.
Definition int32_of (z : option Z) : Z := default 0 z.

(** The second disjunct of the battery test, [node.powerSource & (0x80 !== 0)]:
    the comparison is the right operand of [&]. *)
Definition powerSource_backup_test (node : Node) : bool :=
  negb (Z.land (int32_of (powerSource node)) (int32_of_bool (negb (128 =? 0))) =? 0).

Definition addPowerCfgVoltageProperty (genPowerCfgEndpoint : option Z) : M unit :=
  node ← get;
  when (isMainsPowered NM (powerSource node))
    (addProperty "mainsVoltage"
       [("@type", VStr "VoltageProperty"); ("label", VStr "Mains Voltage");
        ("type", VStr "number"); ("unit", VStr "volt");
        ("multipleOf", VNum (Fin (1 # 10))); ("readOnly", VBool true)]
       ZHA (of_endpoint genPowerCfgEndpoint) (cluster GENPOWERCFG)
       "mainsVoltage" "" "parseNumericTenthsAttr" (Some CONFIG_REPORT_BATTERY)
       VUndefined ;; skip) ;;
  (* Bit 7 indicates the backup power source, i.e. battery *)
  node ← get;
  when (isBatteryPowered NM (powerSource node)
        || powerSource_backup_test node
        || includes hasBattery (modelId node))
    (addProperty "batteryVoltage"
       [("@type", VStr "VoltageProperty"); ("label", VStr "Battery Voltage");
        ("type", VStr "number"); ("unit", VStr "volt");
        ("multipleOf", VNum (Fin (1 # 10))); ("readOnly", VBool true)]
       ZHA (of_endpoint genPowerCfgEndpoint) (cluster GENPOWERCFG)
       "batteryVoltage" "" "parseNumericTenthsAttr" (Some CONFIG_REPORT_BATTERY)
       VUndefined ;; skip) ;;
  node ← get;
  when (isBatteryPowered NM (powerSource node))
    (addProperty "batteryPercentageRemaining"
       [("label", VStr "Battery Percentage Remaining"); ("type", VStr "number");
        ("unit", VStr "percent"); ("minimum", VInt 0); ("maximum", VInt 100);
        ("multipleOf", VNum (Fin (5 # 10))); ("readOnly", VBool true)]
       ZHA (of_endpoint genPowerCfgEndpoint) (cluster GENPOWERCFG)
       "batteryPercentageRemaining" "" "parseHalfPercentAttr" None VNull ;; skip).

Definition addTemperatureSensorProperty (msTemperatureEndpoint : option Z) : M unit :=
  addProperty "_minTemp"
    [("type", VStr "number"); ("unit", VStr "degree celsius"); ("readOnly", VBool true)]
    ZHA (of_endpoint msTemperatureEndpoint) (cluster TEMPERATURE)
    "minMeasuredValue" "" "parseNumericAttr" None VUndefined ;;
  addProperty "_maxTemp"
    [("type", VStr "number"); ("unit", VStr "degree celsius"); ("readOnly", VBool true)]
    ZHA (of_endpoint msTemperatureEndpoint) (cluster TEMPERATURE)
    "maxMeasuredValue" "" "parseNumericAttr" None VUndefined ;;
  addProperty "temperature"
    [("@type", VStr "TemperatureProperty"); ("label", VStr "Temperature");
     ("type", VStr "number"); ("unit", VStr "degree celsius"); ("readOnly", VBool true)]
    ZHA (of_endpoint msTemperatureEndpoint) (cluster TEMPERATURE)
    "measuredValue" "" "parseTemperatureMeasurementAttr"
    (Some CONFIG_REPORT_TEMPERATURE) VUndefined ;;
  push_type_once "TemperatureSensor".

(** A thermostat setpoint property: all eleven share the binding. *)
Definition celsius (label : string) (more : object) : object :=
  [("label", VStr label); ("type", VStr "number"); ("unit", VStr "degree celsius")]
  ++ more.

Definition addSetpointProperty (name : string) (descr : object)
    (hvacThermostatEndpoint : option Z) (attr : string) (setAttrFromValue : value)
    (parseValueFromAttr : value) : M ref :=
  addProperty name descr ZHA (of_endpoint hvacThermostatEndpoint)
    (cluster HVACTHERMOSTAT) attr setAttrFromValue parseValueFromAttr None VUndefined.

(** [array.filter((x) => x)] on an array of strings with holes. *)
Definition filter_truthy (l : list (option string)) : list string :=
  omap (fun x => match x with
                 | Some s => if String.eqb s "" then None else Some s
                 | None => None
                 end) l.

Definition addThermostatProperties (hvacThermostatEndpoint hvacFanControlEndpoint : option Z)
  : M unit :=
  addProperty "temperature"
    [("@type", VStr "TemperatureProperty"); ("label", VStr "Temperature");
     ("type", VStr "number"); ("unit", VStr "degree celsius"); ("readOnly", VBool true);
     ("minimum", VInt 0); ("maximum", VInt 40); ("multipleOf", VNum (Fin (5 # 10)))]
    ZHA (of_endpoint hvacThermostatEndpoint) (cluster HVACTHERMOSTAT)
    "localTemp" "" "parseNumericHundredthsAttr" (Some CONFIG_REPORT_TEMPERATURE)
    VUndefined ;;
  addProperty "mode"
    [("@type", VStr "ThermostatModeProperty"); ("label", VStr "Mode");
     ("type", VStr "string");
     ("enum", VArr (filter_truthy (THERMOSTAT_SYSTEM_MODE K)))]
    ZHA (of_endpoint hvacThermostatEndpoint) (cluster HVACTHERMOSTAT)
    "systemMode" "setThermostatSystemModeValue" "parseThermostatSystemModeAttr"
    None VUndefined ;;
  addProperty "runMode"
    [("@type", VStr "HeatingCoolingProperty"); ("label", VStr "Run Mode");
     ("type", VStr "string"); ("readOnly", VBool true)]
    ZHA (of_endpoint hvacThermostatEndpoint) (cluster HVACTHERMOSTAT)
    "runningMode" "" "parseThermostatRunModeAttr" (Some CONFIG_REPORT_MODE)
    VUndefined ;;
  deadband ← addSetpointProperty "_deadband"
    (celsius "DeadBand" [("minimum", VInt 1); ("maximum", VNum (Fin (25 # 10)));
                         ("readOnly", VBool true)])
    hvacThermostatEndpoint "minSetpointDeadBand" "" "parseNumericTenthsAttr";
  absMaxHeatTarget ← addSetpointProperty "_absMaxHeatTarget"
    (celsius "Abs Max Heat Target" [("readOnly", VBool true)])
    hvacThermostatEndpoint "absMaxHeatSetpointLimit" "" "parseNumericHundredthsAttr";
  absMinHeatTarget ← addSetpointProperty "_absMinHeatTarget"
    (celsius "Abs Min Heat Target" [("readOnly", VBool true)])
    hvacThermostatEndpoint "absMinHeatSetpointLimit" "" "parseNumericHundredthsAttr";
  maxHeatTarget ← addSetpointProperty "_maxHeatTarget"
    (celsius "Max Heat Target" [("multipleOf", VNum (Fin (5 # 10)))])
    hvacThermostatEndpoint "maxHeatSetpointLimit" "setThermostatTemperatureValue"
    "parseNumericHundredthsAttr";
  minHeatTarget ← addSetpointProperty "_minHeatTarget"
    (celsius "Min Heat Target" [("multipleOf", VNum (Fin (5 # 10)))])
    hvacThermostatEndpoint "minHeatSetpointLimit" "setThermostatTemperatureValue"
    "parseNumericHundredthsAttr";
  heatTarget ← addSetpointProperty "heatTarget"
    (("@type", VStr "TargetTemperatureProperty")
       :: celsius "Heat Target" [("multipleOf", VNum (Fin (5 # 10)))])
    hvacThermostatEndpoint "occupiedHeatingSetpoint" "setThermostatTemperatureValue"
    "parseNumericHundredthsAttr";
  absMaxCoolTarget ← addSetpointProperty "_absMaxCoolTarget"
    (celsius "Abs Max Cool Target" [("readOnly", VBool true)])
    hvacThermostatEndpoint "absMaxCoolSetpointLimit" "" "parseNumericHundredthsAttr";
  absMinCoolTarget ← addSetpointProperty "_absMinCoolTarget"
    (celsius "Abs Min Cool Target" [("readOnly", VBool true)])
    hvacThermostatEndpoint "absMinCoolSetpointLimit" "" "parseNumericHundredthsAttr";
  maxCoolTarget ← addSetpointProperty "_maxCoolTarget"
    (celsius "Max Cool Target" [("multipleOf", VNum (Fin (5 # 10)))])
    hvacThermostatEndpoint "maxCoolSetpointLimit" "setThermostatTemperatureValue"
    "parseNumericHundredthsAttr";
  minCoolTarget ← addSetpointProperty "_minCoolTarget"
    (celsius "Min Cool Target" [("multipleOf", VNum (Fin (5 # 10)))])
    hvacThermostatEndpoint "minCoolSetpointLimit" "setThermostatTemperatureValue"
    "parseNumericHundredthsAttr";
  coolTarget ← addSetpointProperty "coolTarget"
    (("@type", VStr "TargetTemperatureProperty")
       :: celsius "Cool Target" [("multipleOf", VNum (Fin (5 # 10)))])
    hvacThermostatEndpoint "occupiedCoolingSetpoint" "setThermostatTemperatureValue"
    "parseNumericHundredthsAttr";
  let t := {| deadbandProperty := deadband;
              absMaxHeatTargetProperty := absMaxHeatTarget;
              absMinHeatTargetProperty := absMinHeatTarget;
              maxHeatTargetProperty := maxHeatTarget;
              minHeatTargetProperty := minHeatTarget;
              heatTargetProperty := heatTarget;
              absMaxCoolTargetProperty := absMaxCoolTarget;
              absMinCoolTargetProperty := absMinCoolTarget;
              maxCoolTargetProperty := maxCoolTarget;
              minCoolTargetProperty := minCoolTarget;
              coolTargetProperty := coolTarget |} in
  update_property absMaxHeatTarget (set_updated (Some (absMaxHeatTargetProperty_updated t))) ;;
  update_property maxHeatTarget (set_updated (Some (maxHeatTargetProperty_updated t))) ;;
  update_property heatTarget (set_updated (Some (heatTargetProperty_updated t))) ;;
  update_property minHeatTarget (set_updated (Some (minHeatTargetProperty_updated t))) ;;
  update_property absMinHeatTarget (set_updated (Some (absMinHeatTargetProperty_updated t))) ;;
  update_property absMaxCoolTarget (set_updated (Some (absMaxCoolTargetProperty_updated t))) ;;
  update_property maxCoolTarget (set_updated (Some (maxCoolTargetProperty_updated t))) ;;
  update_property coolTarget (set_updated (Some (coolTargetProperty_updated t))) ;;
  update_property minCoolTarget (set_updated (Some (minCoolTargetProperty_updated t))) ;;
  update_property absMinCoolTarget (set_updated (Some (absMinCoolTargetProperty_updated t))) ;;
  update_property deadband (set_updated (Some (deadbandProperty_updated t))) ;;
  (* values may have been persisted while the mins/maxs have not *)
  updateMaximum t ;;
  updateMinimum t ;;
  minHeat ← read minHeatTarget;
  when (hasOwnProperty_value minHeat) (setMinimum heatTarget (value_of minHeat)) ;;
  maxCool ← read maxCoolTarget;
  when (hasOwnProperty_value maxCool) (setMaximum coolTarget (value_of maxCool)) ;;
  addProperty "hold"
    [("@type", VStr "BooleanProperty"); ("label", VStr "Hold"); ("type", VStr "boolean")]
    ZHA (of_endpoint hvacThermostatEndpoint) (cluster HVACTHERMOSTAT)
    "tempSetpointHold" "setOnOffWriteValue" "parseOnOffAttr" (Some CONFIG_REPORT_MODE)
    VUndefined ;;
  node ← get;
  let uiCfgEndpoint :=
    findZhaEndpointWithInputClusterIdHex NM (activeEndpoints node)
      (CLUSTER_ID_HEX K HVACUSERINTERFACECFG) in
  when (found uiCfgEndpoint)
    (addProperty "units"
       [("label", VStr "Units"); ("type", VStr "string"); ("enum", VArr ["C"; "F"])]
       ZHA (of_endpoint uiCfgEndpoint) (cluster HVACUSERINTERFACECFG)
       "tempDisplayMode" "setWriteEnumValue" "parseEnumAttr" None VUndefined ;; skip) ;;
  when (found hvacFanControlEndpoint)
    (fanModeSeq ← addProperty "_fanModeSeq"
       [("label", VStr "Fan Sequence"); ("type", VStr "string");
        ("enum", VArr (HVAC_FAN_SEQ K)); ("readOnly", VBool true)]
       ZHA (of_endpoint hvacFanControlEndpoint) (cluster HVACFANCTRL)
       "fanModeSequence" "" "parseEnumAttr" None VUndefined;
     fanMode ← addProperty "fanMode"
       [("label", VStr "Fan"); ("type", VStr "string"); ("enum", VArr [])]
       ZHA (of_endpoint hvacFanControlEndpoint) (cluster HVACFANCTRL)
       "fanMode" "setFanModeValue" "parseFanModeAttr" (Some CONFIG_REPORT_MODE)
       VUndefined;
     update_property fanModeSeq (set_updated (Some (fanModeSeqProperty_updated fanMode)))).

Definition addZoneTypeProperty (propertyName : option string)
    (propertyDescr : option object) : M unit :=
  match propertyName, propertyDescr with
  | Some propertyName, Some propertyDescr =>
      when (negb (String.eqb propertyName ""))
        (node ← get;
         alarm ← addProperty propertyName propertyDescr
           ZHA (of_endpoint (ssIasZoneEndpoint node)) (cluster SSIASZONE)
           "" "" "" None VUndefined;
         update_property alarm (set_mask (Some (ZONE_STATUS_ALARM_MASK K))) ;;
         tamper ← addProperty "tamper"
           [("@type", VStr "TamperProperty"); ("type", VStr "boolean");
            ("label", VStr "Tamper"); ("readOnly", VBool true)]
           ZHA (of_endpoint (ssIasZoneEndpoint node)) (cluster SSIASZONE)
           "" "" "" None VUndefined;
         update_property tamper (set_mask (Some (ZONE_STATUS_TAMPER_MASK K))))
  | _, _ => skip
  end ;;
  node ← get;
  lowBattery ← addProperty "lowBattery"
    [("@type", VStr "LowBatteryProperty"); ("type", VStr "boolean");
     ("label", VStr "Low Battery"); ("readOnly", VBool true)]
    ZHA (of_endpoint (ssIasZoneEndpoint node)) (cluster SSIASZONE)
    "" "" "" None VUndefined;
  update_property lowBattery (set_mask (Some (ZONE_STATUS_LOW_BATTERY_MASK K))) ;;
  (* Remove the cieAddr so that we'll requery it from the device. *)
  modify (set_cieAddr None).

Definition addLastSeenProperty : M unit :=
  node ← get;
  when (showAging node)
    (lastSeen ← alloc (ZigbeeProperty_new "lastSeen"
                         [("type", VStr "string"); ("readOnly", VBool true);
                          ("label", VStr "Last seen")]
                         "" "" "" "" VNull VNull);
     modify (fun node => set_properties (<["lastSeen" := lastSeen]> (properties node)) node) ;;
     update_property lastSeen (set_p_value (Some (VStr ""))) ;;
     update_property lastSeen (set_fireAndForget true) ;;
     modify (set_updateLastSeen (Some lastSeen))).

(** *** The zone type tables *)

Definition ZONE_TYPE_MOTION : Z := 13.
Definition ZONE_TYPE_SWITCH : Z := 21.

Record ZoneType : Type := {
  zt_type : string;
  zt_atType : list string;
  zt_propertyName : string;
  zt_propertyDescr : object
}.

Definition zone (type atType propertyName propertyType label description : string)
  : ZoneType :=
  {| zt_type := type; zt_atType := [atType]; zt_propertyName := propertyName;
     zt_propertyDescr :=
       [("@type", VStr propertyType); ("type", VStr "boolean"); ("label", VStr label);
        ("description", VStr description); ("readOnly", VBool true)] |}.

Definition ZONE_TYPE_NAME (zoneType : Z) : option ZoneType :=
  if zoneType =? ZONE_TYPE_MOTION then
    Some (zone "motion-sensor" "MotionSensor" "motion" "MotionProperty" "Motion"
            "Motion Sensor")
  else if zoneType =? ZONE_TYPE_SWITCH then
    Some (zone "door-sensor" "DoorSensor" "open" "OpenProperty" "Open" "Contact Switch")
  else if zoneType =? 40 then
    Some (zone "smoke-sensor" "SmokeSensor" "on" "SmokeProperty" "Smoke" "Smoke Sensor")
  else if zoneType =? 42 then
    Some (zone "leak-sensor" "LeakSensor" "on" "LeakProperty" "Water" "Water Sensor")
  else if zoneType =? 43 then
    Some (zone "co-sensor" "BinarySensor" "on" "BooleanProperty" "CO"
            "Carbon Monoxide Sensor")
  else if zoneType =? 44 then
    Some (zone "ped-button" "PushButton" "pushed" "PushedProperty" "Pressed"
            "Personal Emergency Device")
  else if zoneType =? 45 then
    Some (zone "vibration-sensor" "BinarySensor" "on" "BooleanProperty" "Vibrating"
            "Vibration/Movement Sensor")
  else if zoneType =? 271 then
    Some (zone "remote-button" "PushButton" "pushed" "PushedProperty" "Pressed"
            "Remote Control")
  else if zoneType =? 277 then
    Some (zone "keyfob-button" "PushButton" "pushed" "PushedProperty" "Pressed" "Keyfob")
  else if zoneType =? 541 then
    Some (zone "keypad-button" "PushButton" "pushed" "PushedProperty" "Pressed" "Keypad")
  else if zoneType =? 550 then
    Some (zone "glass-sensor" "BinarySensor" "on" "BooleanProperty" "Breakage"
            "Glass Break Sensor")
  else None.

(** The newer SmartThings sensors report a zoneType of zero. *)
Definition ZONE_TYPE_ZERO (modelId : option string) : option Z :=
  match modelId with
  | Some m =>
      if String.eqb m "multiv4" then Some ZONE_TYPE_SWITCH
      else if String.eqb m "motionv4" then Some ZONE_TYPE_MOTION
      else if String.eqb m "motionv5" then Some ZONE_TYPE_MOTION
      else None
  | None => None
  end.

(** *** The archetypes *)

Definition set_archetype (type : string) (atType : list string) : M unit :=
  modify (set_type (Some type)) ;; modify (set_atType (Some atType)).

Definition initBinarySensor (endpointNum : option Z) : M unit :=
  set_archetype "sensor" ["BinarySensor"] ;;
  addPresentValueProperty endpointNum.

Definition initBinarySensorFromZoneType : M unit :=
  modify (set_type (Some "sensor")) ;;
  node ← get;
  let zoneType :=
    match zoneType node, ZONE_TYPE_ZERO (modelId node) with
    | Some z, Some z0 => Some (if z =? 0 then z0 else z)
    | z, _ => z
    end in
  let shown := match zoneType with Some z => pretty z | None => "undefined" end in
  let zoneType := default (-1) zoneType (* no table has a negative key *) in
  match ZONE_TYPE_NAME zoneType with
  | Some zt =>
      set_archetype (zt_type zt) (zt_atType zt) ;;
      addZoneTypeProperty (Some (zt_propertyName zt)) (Some (zt_propertyDescr zt))
  | None =>
      if zoneType =? 32768 then
        (* The SmartThings button has a zoneType of 0x8000 *)
        set_archetype "button" ["PushButton"] ;;
        addEvents
          [("pressed", [("@type", VStr "PressedEvent");
                        ("description", VStr "Button pressed and released quickly")]);
           ("doublePressed", [("@type", VStr "DoublePressedEvent");
                              ("description",
                               VStr "Button pressed and released twice quickly")]);
           ("longPressed", [("@type", VStr "LongPressedEvent");
                            ("description", VStr "Button pressed and held")])] ;;
        addZoneTypeProperty None None
      else
        (* This is basically 'just in case' (or unknown zoneType=0) *)
        set_archetype "sensor" ["BinarySensor"] ;;
        addZoneTypeProperty (Some "on")
          (Some [("@type", VStr "BooleanProperty"); ("type", VStr "boolean");
                 ("label", VStr ("ZoneType" +:+ shown));
                 ("descr", VStr ("ZoneType" +:+ shown))])
  end.

Definition initDoorLock (doorLockEndpoint : option Z) : M unit :=
  set_archetype "DoorLock" ["Lock"] ;;
  addDoorLockedProperty doorLockEndpoint.

Definition initOccupancySensor (msOccupancySensingEndpoint : option Z) : M unit :=
  modify (set_atType (Some ["BinarySensor"])) ;;
  modify (set_type (Some "sensor")) ;;
  modify (fun node => set_node_name (Some (node_id node +:+ "-occupancy")) node) ;;
  addOccupancySensorProperty msOccupancySensingEndpoint.

(** [for (const idx in array)]: the index and the element; the suffix of the
    names is [idx == 0 ? '' : `${idx}`]. *)
Definition suffix_of (idx : nat) : string :=
  match idx with
  | O => ""
  | _ => pretty idx
  end.

Definition for_in {A} (l : list A) (body : nat -> A -> M unit) : M unit :=
  for_each (imap pair l) (fun '(idx, x) => body idx x).

Definition initOnOffSwitches (genOnOffEndpoints : list (option Z)) : M unit :=
  set_archetype "switch" ["OnOffSwitch"] ;;
  for_in genOnOffEndpoints (fun idx ep =>
    addOnProperty ep (suffix_of idx) ;; skip).

(** A device id in a condition: [undefined] and the empty string are falsy. *)
Definition has_deviceId (d : option string) : bool :=
  match d with
  | Some s => negb (String.eqb s "")
  | None => false
  end.

Definition deviceId_is (d : option string) (s : string) : bool :=
  bool_decide (d = Some s).

Definition has_bits (capabilities bits : Z) : bool := negb (Z.land capabilities bits =? 0).

Definition initMultiLevelSwitch (genLevelCtrlEndpoint lightLinkEndpoint : option Z)
  : M unit :=
  modify (set_type (Some "switch")) ;;
  node ← get;
  let colorCapabilities := default 0 (colorCapabilities node) in
  zll ← (if found lightLinkEndpoint
         then ep ← activeEndpoint lightLinkEndpoint "deviceId"; mret (ep_deviceId ep)
         else mret None);
  if has_deviceId zll && deviceId_is zll (ZLL_DEVICE_ID_ON_OFF_SWITCH K) then
    (* This isn't really a multi-level switch even though it has a level control. *)
    initOnOffSwitches [genLevelCtrlEndpoint]
  else
    let zllLight := has_deviceId zll && ZLL_DEVICE_ID_isLight K zll in
    let isLight := zllLight in
    let isColorLight := zllLight && ZLL_DEVICE_ID_isColorLight K zll in
    let isColorTemperatureLight := zllLight && ZLL_DEVICE_ID_isColorTemperatureLight K zll in
    levelEndpoint ← activeEndpoint genLevelCtrlEndpoint "profileId";
    let zhaLight :=
      String.eqb (ep_profileId levelEndpoint) (PROFILE_ID_ZHA_HEX K)
      && ZHA_DEVICE_ID_isLight K (ep_deviceId levelEndpoint) in
    let assumeColor :=
      zhaLight && ZHA_DEVICE_ID_isColorLight K (ep_deviceId levelEndpoint)
      && negb (bool_decide (is_Some (Classifier.colorCapabilities node))) in
    let isLight := isLight || zhaLight in
    let isColorLight := isColorLight || assumeColor in
    let colorCapabilities :=
      if assumeColor then Z.lor colorCapabilities (COLOR_CAPABILITY_HUE_SAT K)
      else colorCapabilities in
    let isColorTemperatureLight :=
      isColorTemperatureLight
      || (zhaLight && ZHA_DEVICE_ID_isColorTemperatureLight K (ep_deviceId levelEndpoint)) in
    let isColorLight :=
      isColorLight || (isLight && has_bits colorCapabilities (COLOR_CAPABILITY_COLOR K)) in
    let isColorTemperatureLight :=
      isColorTemperatureLight
      || (isLight && has_bits colorCapabilities (COLOR_CAPABILITY_TEMPERATURE K)) in
    (if isLight then
       modify (set_type (Some "light")) ;;
       (* It looks like a light bulb *)
       if isColorLight then
         (if has_bits colorCapabilities (COLOR_CAPABILITY_HUE_SAT K) then
            addColorProperty (lightingColorCtrlEndpoint node)
          else if has_bits colorCapabilities (COLOR_CAPABILITY_XY K) then
            addColorXYProperty (lightingColorCtrlEndpoint node)
          else skip) ;;
         modify (set_atType (Some ["Light"; "ColorControl"; "OnOffSwitch"]))
       else if isColorTemperatureLight then
         addColorTemperatureProperty (lightingColorCtrlEndpoint node) ;;
         addBrightnessProperty genLevelCtrlEndpoint ;;
         modify (set_atType (Some ["Light"; "ColorControl"; "OnOffSwitch"]))
       else
         addBrightnessProperty genLevelCtrlEndpoint ;;
         modify (set_atType (Some ["Light"; "OnOffSwitch"]))
     else
       addLevelProperty genLevelCtrlEndpoint ;;
       modify (set_atType (Some ["OnOffSwitch"; "MultiLevelSwitch"]))) ;;
    addOnProperty genLevelCtrlEndpoint "" ;;
    skip.

(** [s.includes(sub)]. *)
Definition String_includes (s sub : string) : bool :=
  match String.index 0 sub s with
  | Some _ => true
  | None => false
  end.

(** [node.modelId.includes('motion')]. *)
Definition modelId_includes_motion : M bool :=
  node ← get;
  match modelId node with
  | Some m => mret (String_includes m "motion")
  | None => throw (TypeError "includes")
  end.

Definition initOnOffButtons (genOnOffOutputEndpoints : list Z) : M unit :=
  modify (set_type (Some "button")) ;;
  for_in genOnOffOutputEndpoints (fun idx endpoint =>
    let suffix := suffix_of idx in
    motion ← modelId_includes_motion;
    if motion : bool then
      (* The IKEA Motion sensor has a modelId of 'TRADFRI motion sensor' *)
      set_archetype "motion" ["MotionSensor"] ;;
      addButtonMotionProperty (Some endpoint) suffix ;;
      addEvents
        [("motion", [("@type", VStr "MotionEvent");
                     ("description", VStr "Motion detected")]);
         ("no-motion", [("@type", VStr "MotionEvent");
                        ("description", VStr "Motion timeout")])]
    else
      modify (set_atType (Some ["PushButton"])) ;;
      onOffProperty ← addButtonOnProperty (Some endpoint) suffix;
      update_property onOffProperty (set_buttonIndex (Some 1)) ;;
      addEvents
        [("1-pressed", [("@type", VStr "PressedEvent");
                        ("description", VStr "On button pressed and released")])]).

Definition pressed (description : string) : object :=
  [("@type", VStr "PressedEvent"); ("description", VStr description)].
Definition longPressed (description : string) : object :=
  [("@type", VStr "LongPressedEvent"); ("description", VStr description)].
Definition released (description : string) : object :=
  [("@type", VStr "ReleasedEvent"); ("description", VStr description)].

Definition addSceneEvents (levelProperty : ref) : M unit :=
  (* endpoint 1 of the RC 110 also controls scenes. *)
  update_property levelProperty (set_buttonIndex (Some 2)) ;;
  update_property levelProperty (set_maximum (Some (VInt 256))) ;;
  let eventCodes := [2; 52; 102; 153; 194; 254] in
  addEvents (imap (fun id code =>
                     (pretty (code + 2) +:+ "-pressed",
                      pressed ("Scene " +:+ pretty (Z.of_nat id + 1))))
               eventCodes).

(** [array.sort()] on strings: by code units, ascending. *)
Fixpoint insert_sorted (x : string) (l : list string) : list string :=
  match l with
  | [] => [x]
  | y :: tl => if String.leb x y then x :: l else y :: insert_sorted x tl
  end.
Definition sort_strings (l : list string) : list string :=
  foldr insert_sorted [] l.

(** The workaround for the IKEA remote E1810, which misses the GENSCENES
    output cluster: the cluster is added to endpoint 1. *)
Definition tradfri_workaround (endpoint : Z) : M unit :=
  node ← get;
  let t := findZhaEndpointWithOutputClusterIdHex NM (activeEndpoints node)
             (CLUSTER_ID_HEX K GENSCENES) in
  match activeEndpoints node !! 1 with
  | Some ep1 =>
      when ((length t =? 0)%nat && (endpoint =? 1) && deviceId_is (ep_deviceId ep1) "0820")
        (let ep1' :=
           {| ep_profileId := ep_profileId ep1; ep_deviceId := ep_deviceId ep1;
              inputClusters := inputClusters ep1;
              outputClusters :=
                sort_strings (outputClusters ep1 ++ [CLUSTER_ID_HEX K GENSCENES]) |} in
         modify (set_activeEndpoints (<[1 := ep1']> (activeEndpoints node))))
  | None => skip
  end.

(** One turn of the loop of [initMultiLevelButtons]; the result tells whether
    the turn left the function with [return]. *)
Definition multiLevelButton (idx : nat) (endpoint : Z) : M bool :=
  let suffix := suffix_of idx in
  onOffProperty ← addButtonOnProperty (Some endpoint) suffix;
  levelProperty ← addButtonLevelProperty (Some endpoint) suffix;
  node ← get;
  if bool_decide (modelId node = Some "TRADFRI remote control") then
    tradfri_workaround endpoint ;;
    node ← get;
    let genScenesOutputEndpoints :=
      findZhaEndpointWithOutputClusterIdHex NM (activeEndpoints node)
        (CLUSTER_ID_HEX K GENSCENES) in
    eventLimit ← (if found (head genScenesOutputEndpoints) then
                    sceneProperty ← addButtonSceneProperty (head genScenesOutputEndpoints);
                    (* this property also covers button 5 *)
                    update_property sceneProperty (set_buttonIndex (Some 4)) ;;
                    mret 4%nat
                  else mret 2%nat);
    (* The center button sends a toggle rather than on/off. *)
    update_property onOffProperty (set_buttonIndex (Some 1)) ;;
    addEvents [("1-pressed", pressed "On button pressed and released")] ;;
    (* this property also covers button 3 *)
    update_property levelProperty (set_buttonIndex (Some 2)) ;;
    let label := ["Top"; "Bottom"; "Right"; "Left"] in
    for_in (take eventLimit label) (fun i l =>
      let n := pretty (Z.of_nat i + 2) in
      addEvents
        [(n +:+ "-pressed", pressed (l +:+ " button pressed and released"));
         (n +:+ "-longPressed", longPressed (l +:+ " button pressed and held"));
         (n +:+ "-released", released (l +:+ " button released (after being held)"))]) ;;
    mret true
  else
    update_property onOffProperty (set_buttonIndex (Some 1)) ;;
    addEvents [("1-pressed", pressed "On button pressed and released");
               ("2-pressed", pressed "Off button pressed and released")] ;;
    (if bool_decide (modelId node = Some "3130") then
       (* the OSRAM Lightify dimmer: 2 buttons, long presses do the dimming *)
       update_property levelProperty (set_buttonIndex (Some 1)) ;;
       addEvents [("1-longPressed", longPressed "On button pressed and held");
                  ("2-longPressed", longPressed "Off button pressed and held");
                  ("1-released", released "On button released (after being held)");
                  ("2-released", released "Off button released (after being held)")]
     else if bool_decide (modelId node = Some "RWL020")
             || bool_decide (modelId node = Some "RWL021") then
       (* the Philips Hue Dimmer: 4 buttons, 2 of them perform the dimming *)
       update_property levelProperty (set_buttonIndex (Some 3)) ;;
       addEvents [("3-pressed", pressed "Increase button pressed and released");
                  ("4-pressed", pressed "Decrease button pressed and released")]
     else if bool_decide (modelId node = Some "RC 110") then
       when (endpoint =? 1) (addSceneEvents levelProperty)
     else skip) ;;
    mret false.

Fixpoint multiLevelButtons (idx : nat) (endpoints : list Z) : M unit :=
  match endpoints with
  | [] => skip
  | endpoint :: tl =>
      returned ← multiLevelButton idx endpoint;
      if returned : bool then skip else multiLevelButtons (S idx) tl
  end.

Definition initMultiLevelButtons (genLevelCtrlOutputEndpoints genOnOffOutputEndpoints : list Z)
  : M unit :=
  motion ← modelId_includes_motion;
  if motion : bool then
    (* The IKEA Motion sensor has a modelId of 'TRADFRI motion sensor' *)
    initOnOffButtons genOnOffOutputEndpoints
  else
    set_archetype "button" ["PushButton"] ;;
    multiLevelButtons 0 genLevelCtrlOutputEndpoints.

Definition initHaSmartPlug (haElectricalEndpoint seMeteringEndpoint genLevelCtrlEndpoint
                            : option Z) : M unit :=
  set_archetype "smartplug" ["OnOffSwitch"; "SmartPlug"; "EnergyMonitor"] ;;
  addOnProperty haElectricalEndpoint "" ;;
  when (found genLevelCtrlEndpoint)
    (endpoint ← activeEndpoint genLevelCtrlEndpoint "deviceId";
     (* The Samsung SmartSwitch advertises the genLevelCtrl cluster, but it
        doesn't do anything. *)
     when (negb (deviceId_is (ep_deviceId endpoint) (ZHA_DEVICE_ID_ON_OFF_SWITCH K))
           && negb (deviceId_is (ep_deviceId endpoint) (ZHA_DEVICE_ID_ON_OFF_OUTPUT K)))
       (addLevelProperty genLevelCtrlEndpoint ;;
        push_type "MultiLevelSwitch")) ;;
  addHaInstantaneousPowerProperty haElectricalEndpoint ;;
  addHaCurrentProperty haElectricalEndpoint ;;
  addHaFrequencyProperty haElectricalEndpoint ;;
  addHaVoltageProperty haElectricalEndpoint ;;
  when (found seMeteringEndpoint)
    (* Ha SmartPlugs might have seMetering endpoint with energy counter *)
    (addSeCurrentSummDeliveredProperty seMeteringEndpoint).

Definition initSeSmartPlug (seMeteringEndpoint genLevelCtrlEndpoint : option Z) : M unit :=
  set_archetype "smartplug" ["OnOffSwitch"; "SmartPlug"; "EnergyMonitor"] ;;
  addOnProperty seMeteringEndpoint "" ;;
  when (found genLevelCtrlEndpoint)
    (addLevelProperty genLevelCtrlEndpoint ;;
     push_type "MultiLevelSwitch") ;;
  addSeInstantaneousPowerProperty seMeteringEndpoint ;;
  addSeCurrentSummDeliveredProperty seMeteringEndpoint.

Definition initLightingPowerMetering (seMeteringEndpoint genLevelCtrlEndpoint : option Z)
  : M unit :=
  set_archetype "light" ["OnOffSwitch"; "Light"; "EnergyMonitor"] ;;
  addOnProperty genLevelCtrlEndpoint "" ;;
  addBrightnessProperty genLevelCtrlEndpoint ;;
  addSeInstantaneousPowerProperty seMeteringEndpoint.

Definition initThermostat (hvacThermostatEndpoint hvacFanControlEndpoint : option Z)
  : M unit :=
  set_archetype "thermostat" ["Thermostat"] ;;
  addThermostatProperties hvacThermostatEndpoint hvacFanControlEndpoint.

(** [ZHA_DEVICE_ID.isLight(node.activeEndpoints[e].deviceId)], evaluated when
    [e] is found and no earlier endpoint made the node a light. *)
Definition checkZhaLight (isZhaLight : bool) (e : option Z) : M bool :=
  if found e && negb isZhaLight then
    ep ← activeEndpoint e "deviceId";
    mret (ZHA_DEVICE_ID_isLight K (ep_deviceId ep))
  else mret isZhaLight.

(** The internal function, which the source splits off to use early returns.
    The lookups of the scenes, groups and closures clusters, whose results the
    function never reads, are left out. *)
Definition classifyInternal : M unit :=
  node ← get;
  let find := fun c =>
    findZhaEndpointWithInputClusterIdHex NM (activeEndpoints node) (CLUSTER_ID_HEX K c) in
  let seMeteringEndpoint := find SEMETERING in
  let haElectricalEndpoint := find HAELECTRICAL in
  isZhaLight ← checkZhaLight false seMeteringEndpoint;
  isZhaLight ← checkZhaLight isZhaLight haElectricalEndpoint;
  let genBinaryInputEndpoint := find GENBINARYINPUT in
  let genLevelCtrlEndpoint := find GENLEVELCTRL in
  let genLevelCtrlOutputEndpoints :=
    findZhaEndpointWithOutputClusterIdHex NM (activeEndpoints node)
      (CLUSTER_ID_HEX K GENLEVELCTRL) in
  let genOnOffEndpoints :=
    findZhaEndpointsWithInputClusterIdHex NM (activeEndpoints node)
      (CLUSTER_ID_HEX K GENONOFF) in
  let genOnOffOutputEndpoints :=
    findZhaEndpointWithOutputClusterIdHex NM (activeEndpoints node)
      (CLUSTER_ID_HEX K GENONOFF) in
  let doorLockEndpoint := find DOORLOCK in
  let msOccupancySensingEndpoint := find OCCUPANCY_SENSOR in
  let msTemperatureEndpoint := find TEMPERATURE in
  let hvacThermostatEndpoint := find HVACTHERMOSTAT in
  let hvacFanControlEndpoint := find HVACFANCTRL in
  let illuminanceEndpoint := find ILLUMINANCE_MEASUREMENT in
  let genPowerCfgEndpoint := find GENPOWERCFG in
  let genDeviceTempCfgEndpoint := find GENDEVICETEMPCFG in
  let lightLinkEndpoint := find LIGHTLINK in
  let ssIasZoneEndpoint := find SSIASZONE in
  modify (set_ssIasZoneEndpoint ssIasZoneEndpoint) ;;
  let plug := negb (found lightLinkEndpoint)
              && negb (found (lightingColorCtrlEndpoint node))
              && negb isZhaLight in
  (if bool_decide (is_Some (zoneType node)) then
     initBinarySensorFromZoneType
   else if found msOccupancySensingEndpoint then
     initOccupancySensor msOccupancySensingEndpoint
   else if found hvacThermostatEndpoint then
     initThermostat hvacThermostatEndpoint hvacFanControlEndpoint
   else if found seMeteringEndpoint && found genLevelCtrlEndpoint then
     (* Support Ubisys dimmer D1 *)
     initLightingPowerMetering seMeteringEndpoint genLevelCtrlEndpoint
   else if found haElectricalEndpoint && plug then
     initHaSmartPlug haElectricalEndpoint seMeteringEndpoint genLevelCtrlEndpoint
   else if found seMeteringEndpoint && plug then
     initSeSmartPlug seMeteringEndpoint genLevelCtrlEndpoint
   else if found genLevelCtrlEndpoint then
     initMultiLevelSwitch genLevelCtrlEndpoint lightLinkEndpoint
   else if (0 <? length genOnOffEndpoints)%nat then
     initOnOffSwitches (map Some genOnOffEndpoints)
   else if (0 <? length genLevelCtrlOutputEndpoints)%nat
           && (0 <? length genOnOffOutputEndpoints)%nat then
     initMultiLevelButtons genLevelCtrlOutputEndpoints genOnOffOutputEndpoints
   else if (0 <? length genOnOffOutputEndpoints)%nat then
     initOnOffButtons genOnOffOutputEndpoints
   else if found doorLockEndpoint then
     initDoorLock doorLockEndpoint
   else if found genBinaryInputEndpoint then
     initBinarySensor genBinaryInputEndpoint
   else skip) ;;
  (* Add extra properties, if necessary. *)
  when (negb (found hvacThermostatEndpoint))
    (if found msTemperatureEndpoint then
       addTemperatureSensorProperty msTemperatureEndpoint
     else if found genDeviceTempCfgEndpoint then
       addDeviceTemperatureProperty genDeviceTempCfgEndpoint
     else skip) ;;
  when (found illuminanceEndpoint)
    (addIlluminanceMeasurementProperty illuminanceEndpoint) ;;
  when (found genPowerCfgEndpoint)
    (addPowerCfgVoltageProperty genPowerCfgEndpoint) ;;
  addLastSeenProperty.

(** [node.type] in a template string. *)
Definition type_shown (node : Node) : string := default "undefined" (type node).

Definition classify : M unit :=
  node ← get;
  if isCoordinator node then skip
  else
    when (negb (bool_decide (is_Some (atType node)))) (modify (set_atType (Some []))) ;;
    classifyInternal ;;
    (* Now that we know the type, set the default name. *)
    modify (fun node =>
              set_defaultName (Some (node_id node +:+ "-" +:+ type_shown node)) node) ;;
    modify (fun node =>
              match node_name node with
              | Some n => if String.eqb n "" then set_node_name (defaultName node) node
                          else node
              | None => set_node_name (defaultName node) node
              end).

End ZigbeeClassifier.
(** *** An instance of the parameters

    Modelled from the spec: the tables of [zb-constants.js] and the node
    methods of [zb-node.js], neither of which is part of the sources at hand,
    for the concrete devices below.  Clusters, profiles and device types carry
    their Zigbee numbers, written as four hexadecimal digits where the source
    works with strings; an endpoint lookup goes through the endpoint table in
    ascending order and keeps the home-automation endpoints that list the
    cluster; the power source is the Zigbee power-source code (3 is battery,
    0 is unknown). *)
Definition zcl_cluster_id (c : Cluster) : Z :=
  match c with
  | GENPOWERCFG => 1 | GENDEVICETEMPCFG => 2 | GENGROUPS => 4 | GENSCENES => 5
  | GENONOFF => 6 | GENLEVELCTRL => 8 | GENBINARYINPUT => 15
  | CLOSURESSHADECFG => 256 | DOORLOCK => 257 | CLOSURESWINDOWCOVERING => 258
  | HVACTHERMOSTAT => 513 | HVACFANCTRL => 514 | HVACUSERINTERFACECFG => 516
  | LIGHTINGCOLORCTRL => 768 | ILLUMINANCE_MEASUREMENT => 1024 | TEMPERATURE => 1026
  | OCCUPANCY_SENSOR => 1030 | SSIASZONE => 1280 | SEMETERING => 1794
  | HAELECTRICAL => 2820 | LIGHTLINK => 4096
  end.

Definition hex_char (d : Z) : ascii :=
  ascii_of_N (Z.to_N (if d <? 10 then 48 + d else 87 + d)).

(** Four lowercase hexadecimal digits. *)
Definition hex4 (z : Z) : string :=
  String (hex_char (z / 4096 mod 16))
    (String (hex_char (z / 256 mod 16))
       (String (hex_char (z / 16 mod 16))
          (String (hex_char (z mod 16)) EmptyString))).

Definition one_of (l : list string) (d : option string) : bool := includes l d.

Definition zcl : Constants :=
  {| CLUSTER_ID := zcl_cluster_id;
     CLUSTER_ID_HEX := fun c => hex4 (zcl_cluster_id c);
     PROFILE_ID_ZHA := 260;
     PROFILE_ID_ZLL := 49246;
     PROFILE_ID_ZHA_HEX := "0104";
     COLOR_CAPABILITY_HUE_SAT := 1;
     COLOR_CAPABILITY_XY := 8;
     COLOR_CAPABILITY_TEMPERATURE := 16;
     COLOR_CAPABILITY_COLOR := 11;
     ZONE_STATUS_ALARM_MASK := 3;
     ZONE_STATUS_TAMPER_MASK := 4;
     ZONE_STATUS_LOW_BATTERY_MASK := 8;
     DOORLOCK_EVENT_CODES := ["Unknown"; "Lock"; "Unlock"];
     HVAC_FAN_SEQ := ["low/med/high"; "low/high"; "low/med/high/auto"; "low/high/auto";
                      "on/auto"];
     THERMOSTAT_SYSTEM_MODE := [Some "off"; Some "auto"; None; Some "cool"; Some "heat"];
     ZHA_DEVICE_ID_ON_OFF_SWITCH := "0000";
     ZHA_DEVICE_ID_ON_OFF_OUTPUT := "0002";
     ZHA_DEVICE_ID_isLight := one_of ["0100"; "0101"; "0102"; "010c"; "010d"];
     ZHA_DEVICE_ID_isColorLight := one_of ["0102"; "010d"];
     ZHA_DEVICE_ID_isColorTemperatureLight := one_of ["010c"];
     ZLL_DEVICE_ID_ON_OFF_SWITCH := "0010";
     ZLL_DEVICE_ID_isLight := one_of ["0000"; "0100"; "0200"; "0210"; "0220"];
     ZLL_DEVICE_ID_isColorLight := one_of ["0200"; "0210"];
     ZLL_DEVICE_ID_isColorTemperatureLight := one_of ["0220"] |}.

Definition zha_endpoints (select : Endpoint -> list string)
    (activeEndpoints : gmap Z Endpoint) (clusterIdHex : string) : list Z :=
  omap (fun '(endpointNum, ep) =>
          if String.eqb (ep_profileId ep) "0104"
             && existsb (String.eqb clusterIdHex) (select ep)
          then Some endpointNum else None)
       (map_to_list activeEndpoints).

Definition sort_numbers (l : list Z) : list Z :=
  foldr (fix ins x l := match l with
                        | [] => [x]
                        | y :: tl => if x <=? y then x :: l else y :: ins x tl
                        end) [] l.

Definition zb_node : NodeMethods :=
  {| findZhaEndpointWithInputClusterIdHex := fun eps c =>
       head (sort_numbers (zha_endpoints inputClusters eps c));
     findZhaEndpointsWithInputClusterIdHex := fun eps c =>
       sort_numbers (zha_endpoints inputClusters eps c);
     findZhaEndpointWithOutputClusterIdHex := fun eps c =>
       sort_numbers (zha_endpoints outputClusters eps c);
     isMainsPowered := fun powerSource =>
       match powerSource with
       | Some p => negb (p =? 0) && negb (p =? 3)
       | None => false
       end;
     isBatteryPowered := fun powerSource => bool_decide (powerSource = Some 3) |}.

(** A freshly discovered node: nothing classified yet, no snapshot. *)
Definition discovered (modelId : string) (endpoints : list (Z * Endpoint))
    (powerSource : option Z) : Node :=
  {| isCoordinator := false; node_id := "zb-000d6f000a1b2c3d"; modelId := Some modelId;
     activeEndpoints := list_to_map endpoints; zoneType := None;
     colorCapabilities := None; lightingColorCtrlEndpoint := None;
     powerSource := powerSource; devInfoProperties := None; showAging := false;
     cieAddr := None; doorLockTimeout := false; doorLockAction := false;
     type := None; atType := None; node_name := None; defaultName := None;
     heap := []; properties := ∅; actions := ∅; events := ∅;
     onOffProperty := None; doorLockProperty := None; doorLockState := None;
     ssIasZoneEndpoint := None; slowCheckinInterval := None; updateLastSeen := None;
     notifications := 0; published := [] |}.

Definition zha_endpoint (deviceId : string) (input output : list string) : Endpoint :=
  {| ep_profileId := "0104"; ep_deviceId := Some deviceId;
     inputClusters := input; outputClusters := output |}.

(** The property registered under a name, if any. *)
Definition property_named (node : Node) (name : string) : option Property :=
  properties node !! name ≫= (fun r => heap node !! r).

End Classifier.

(** * Properties of the expose transcoders *)
Module Zigbee2MqttSpec.
Import Js Zigbee2Mqtt.

Definition is_throw {A} (r : result A) : Prop := exists message, r = Throw message.

Definition run_modes : list string := ["idle"; "heat"; "cool"].

Lemma convertHeatingCoolingValue_other (s : string) :
  ~ In s run_modes ->
  convertHeatingCoolingValue s
  = Throw ("Invalid HeatingCoolingValue " +:+ s +:+ ", expected idle, heat or cool").
Proof.
  intros Hs. unfold convertHeatingCoolingValue.
  destruct (String.eqb_spec s "idle") as [->|_]; [exfalso; apply Hs; simpl; tauto|].
  destruct (String.eqb_spec s "heat") as [->|_]; [exfalso; apply Hs; simpl; tauto|].
  destruct (String.eqb_spec s "cool") as [->|_]; [exfalso; apply Hs; simpl; tauto|].
  reflexivity.
Qed.

Lemma convertHeatingCoolingValue_known (s : string) :
  In s run_modes -> exists r, convertHeatingCoolingValue s = Ok r.
Proof.
  simpl. intros [<-|[<-|[<-|[]]]]; eexists; reflexivity.
Qed.

Lemma map_result_throws {A B} (f : A -> result B) (l : list A) (x : A) :
  In x l -> is_throw (f x) -> is_throw (map_result f l).
Proof.
  induction l as [|y l IH]; simpl; [tauto|].
  intros [->|Hin] Hx.
  - destruct Hx as [m ->]. eexists; reflexivity.
  - destruct (f y) as [b|m]; simpl; [|eexists; reflexivity].
    destruct (IH Hin Hx) as [m ->]. eexists; reflexivity.
Qed.

Lemma map_result_all {A B} (f : A -> result B) (g : A -> B) (l : list A) :
  (forall x, In x l -> f x = Ok (g x)) -> map_result f l = Ok (map g l).
Proof.
  induction l as [|y l IH]; simpl; intros H; [reflexivity|].
  rewrite (H y) by tauto. simpl. rewrite IH by (intros; apply H; tauto). reflexivity.
Qed.

(** C7.  The run-mode transcoder maps "heat" to "heating", "cool" to "cooling"
    and "idle" to "off", and nothing else: on any other string the conversion
    throws, the throw leaves [update] without a cached value being written, and
    a constructor whose enumeration holds such a string throws as well. *)
Theorem run_mode_transcoder_exact (s : string) :
  ~ In s run_modes ->
  (convertHeatingCoolingValue "heat" = Ok "heating"
   /\ convertHeatingCoolingValue "cool" = Ok "cooling"
   /\ convertHeatingCoolingValue "idle" = Ok "off")
  /\ is_throw (convertHeatingCoolingValue s)
  /\ (forall p, is_throw (HeatingCoolingProperty_update p s))
  /\ (forall expose l, values expose = Some l -> In s l ->
        is_throw (HeatingCoolingProperty_new expose))
  /\ (forall r, (exists v, convertHeatingCoolingValue r = Ok v) <-> In r run_modes).
Proof.
  intros Hs.
  assert (Ht : is_throw (convertHeatingCoolingValue s)).
  { eexists. apply convertHeatingCoolingValue_other, Hs. }
  repeat split; try reflexivity; try assumption.
  - intros p. unfold HeatingCoolingProperty_update.
    destruct Ht as [m ->]. eexists; reflexivity.
  - intros expose l Hl Hin. unfold HeatingCoolingProperty_new, convertHeatingCoolingValues.
    rewrite Hl.
    destruct (map_result_throws convertHeatingCoolingValue l s Hin Ht) as [m ->].
    eexists; reflexivity.
  - intros [v Hv]. destruct (in_dec String.string_dec r run_modes) as [Hin|Hout]; [assumption|].
    rewrite (convertHeatingCoolingValue_other r Hout) in Hv. discriminate.
  - apply convertHeatingCoolingValue_known.
Qed.

Lemma run_mode_transcoder_exact_witness :
  ~ In "auto" run_modes /\ is_throw (convertHeatingCoolingValue "auto").
Proof.
  assert (H : ~ In "auto" run_modes).
  { simpl. intros [H|[H|[H|[]]]]; discriminate H. }
  split; [exact H|].
  exact (proj1 (proj2 (run_mode_transcoder_exact "auto" H))).
Defined.

(** *** Brightness *)

Definition brightness_expose (max : option number) : Expos :=
  {| expose_type := "numeric"; expose_name := "brightness"; expose_unit := None;
     expose_access := Some 7; value_min := Some (of_Z 0); value_max := max;
     value_step := None; values := None |}.

(** [Math.round] yields the integer nearest to a finite value: at most one
    half away from it. *)
Lemma Math_round_nearest (q : Q) :
  exists n : Z, Math_round (Fin q) = of_Z n
                /\ (inject_Z n - (1 # 2) <= q)%Q /\ (q < inject_Z n + (1 # 2))%Q.
Proof.
  exists (Qfloor (q + (1 # 2))). split; [reflexivity|].
  pose proof (Qfloor_le (q + (1 # 2))) as Hle.
  pose proof (Qlt_floor (q + (1 # 2))) as Hlt.
  rewrite inject_Z_plus in Hlt. change (inject_Z 1) with 1%Q in Hlt.
  split; lra.
Qed.

(** The integer a transcoder returns, if it returns one. *)
Definition integer_of (a : number) : option Z :=
  match a with
  | Fin q => if (Qden q =? 1)%positive then Some (Qnum q) else None
  | _ => None
  end.

Lemma integer_of_sound (a : number) (n : Z) : integer_of a = Some n -> a = of_Z n.
Proof.
  destruct a as [| |[z d]]; try discriminate. cbn [integer_of Qden Qnum].
  destruct (Pos.eqb_spec d 1) as [->|]; [|discriminate]. intros [= ->]. reflexivity.
Qed.

(** The percentage shown for the device value [v] on a scale of [m] steps is
    an integer nearest to [100 v / m]; the device value sent for [p] percent
    is an integer nearest to [p m / 100]. *)
Definition shown_nearest (m v : Z) : bool :=
  match integer_of (BrightnessProperty_update (brightness_expose (Some (of_Z m))) (of_Z v)) with
  | Some n => (2 * m * n - m <=? 200 * v) && (200 * v <=? 2 * m * n + m)
  | None => false
  end.

Definition sent_nearest (m p : Z) : bool :=
  match integer_of (BrightnessProperty_sendValue (brightness_expose (Some (of_Z m))) (of_Z p))
  with
  | Some n => (200 * n - 100 <=? 2 * p * m) && (2 * p * m <=? 200 * n + 100)
  | None => false
  end.

(** The scales of the lights at hand: percent itself, and the 254 and 255
    steps of a Zigbee level. *)
Definition scales : list Z := [100; 254; 255].

Lemma shown_nearest_on_scales :
  forallb (fun m => forallb (shown_nearest m) (seqZ 0 (m + 1))) scales = true.
Proof. vm_compute. reflexivity. Qed.

Lemma sent_nearest_on_scales :
  forallb (fun m => forallb (sent_nearest m) (seqZ 0 101)) scales = true.
Proof. vm_compute. reflexivity. Qed.

(** A percentage sent on the scale of [m] steps and reported back. *)
Definition percent_round_trip (m p : Z) : number :=
  BrightnessProperty_update (brightness_expose (Some (of_Z m)))
    (BrightnessProperty_sendValue (brightness_expose (Some (of_Z m))) (of_Z p)).

Lemma percent_round_trip_254 :
  forallb (fun p => bool_decide (integer_of (percent_round_trip 254 p) = Some p))
    (seqZ 0 101) = true.
Proof. vm_compute. reflexivity. Qed.

Lemma in_range (P : Z -> bool) (lo len x : Z) :
  forallb P (seqZ lo len) = true -> lo <= x < lo + len -> P x = true.
Proof.
  intros H Hx. rewrite forallb_forall in H. apply H.
  apply list_elem_of_In, elem_of_seqZ. lia.
Qed.

(** C8.  With a declared maximum of 254 the device value 254 is shown as 100
    percent and 100 percent is sent as 254, and every whole percentage sent
    on that scale and reported back is shown as itself; without a declared
    maximum both directions scale by 100; both directions hand the double
    they computed to [Math.round], which yields an integer at most one half
    away from it.  On the scales of 100, 254 and 255 steps the percentage shown
    for a device value [v] is an integer nearest to [100 v / m], and the
    device value sent for [p] percent is an integer nearest to [p m / 100].
    Where the exact quotient lies half way between two integers the rounding
    of the double decides: 29 of 200 is shown as 14 percent, and 29 percent
    of 50 is sent as 14. *)
Theorem brightness_round_trip :
  BrightnessProperty_update (brightness_expose (Some (of_Z 254))) (of_Z 254) = of_Z 100
  /\ BrightnessProperty_sendValue (brightness_expose (Some (of_Z 254))) (of_Z 100) = of_Z 254
  /\ (forall p, 0 <= p <= 100 -> percent_round_trip 254 p = of_Z p)
  /\ (forall v,
        BrightnessProperty_update (brightness_expose None) v
        = BrightnessProperty_update (brightness_expose (Some (of_Z 100))) v
        /\ BrightnessProperty_sendValue (brightness_expose None) v
           = BrightnessProperty_sendValue (brightness_expose (Some (of_Z 100))) v)
  /\ (forall expose v,
        BrightnessProperty_update expose v
        = Math_round
            (of_double
               (double_mul
                  (double_div (to_double v)
                     (to_double (default (of_Z 100) (value_max expose))))
                  (double_of_Z 100)))
        /\ BrightnessProperty_sendValue expose v
           = Math_round
               (of_double
                  (double_mul (double_div (to_double v) (double_of_Z 100))
                     (to_double (default (of_Z 100) (value_max expose))))))
  /\ (forall q, exists n : Z,
        Math_round (Fin q) = of_Z n
        /\ (inject_Z n - (1 # 2) <= q)%Q /\ (q < inject_Z n + (1 # 2))%Q)
  /\ (forall m v, In m scales -> 0 <= v <= m ->
        exists n : Z,
          BrightnessProperty_update (brightness_expose (Some (of_Z m))) (of_Z v) = of_Z n
          /\ 2 * m * n - m <= 200 * v <= 2 * m * n + m)
  /\ (forall m p, In m scales -> 0 <= p <= 100 ->
        exists n : Z,
          BrightnessProperty_sendValue (brightness_expose (Some (of_Z m))) (of_Z p) = of_Z n
          /\ 200 * n - 100 <= 2 * p * m <= 200 * n + 100)
  /\ BrightnessProperty_update (brightness_expose (Some (of_Z 200))) (of_Z 29) = of_Z 14
  /\ BrightnessProperty_sendValue (brightness_expose (Some (of_Z 50))) (of_Z 29) = of_Z 14.
Proof.
  split; [vm_compute; reflexivity|].
  split; [vm_compute; reflexivity|].
  split.
  { intros p Hp. apply integer_of_sound.
    pose proof (in_range _ 0 101 p percent_round_trip_254 ltac:(lia)) as H.
    apply bool_decide_eq_true in H. exact H. }
  split; [intros v; split; reflexivity|].
  split.
  { intros expose v. unfold BrightnessProperty_update, BrightnessProperty_sendValue, nullish.
    destruct (value_max expose); split; reflexivity. }
  split; [apply Math_round_nearest|].
  split.
  { intros m v Hm Hv.
    pose proof shown_nearest_on_scales as H. rewrite forallb_forall in H.
    specialize (H m Hm). cbv beta in H.
    pose proof (in_range _ 0 (m + 1) v H ltac:(lia)) as H'.
    unfold shown_nearest in H'.
    destruct (integer_of _) as [n|] eqn:E; [|discriminate H'].
    exists n. split; [apply integer_of_sound, E|lia]. }
  split.
  { intros m p Hm Hp.
    pose proof sent_nearest_on_scales as H. rewrite forallb_forall in H.
    specialize (H m Hm). cbv beta in H.
    pose proof (in_range _ 0 101 p H ltac:(lia)) as H'.
    unfold sent_nearest in H'.
    destruct (integer_of _) as [n|] eqn:E; [|discriminate H'].
    exists n. split; [apply integer_of_sound, E|lia]. }
  split; vm_compute; reflexivity.
Qed.

(** *** Colour temperature *)

Definition color_temp_expose (min max : Z) : Expos :=
  {| expose_type := "numeric"; expose_name := "color_temp"; expose_unit := Some "mired";
     expose_access := Some 7; value_min := Some (of_Z min); value_max := Some (of_Z max);
     value_step := None; values := None |}.

(** [m] lies in the range the expose declares. *)
Definition declared (expose : Expos) (m : Z) : Prop :=
  exists lo hi, value_min expose = Some lo /\ value_max expose = Some hi
                /\ le lo (of_Z m) = true /\ le (of_Z m) hi = true.

(** A mired value reported by the device, shown in kelvin and sent back. *)
Definition mired_round_trip (m : Z) : number :=
  ColorTemperatureProperty_sendValue (ColorTemperatureProperty_update (of_Z m)).

Definition within_one (m : Z) : Prop :=
  exists r : Z, mired_round_trip m = of_Z r /\ m - 1 <= r <= m + 1.

Definition within_oneb (m : Z) : bool :=
  match mired_round_trip m with
  | Fin q => (Qden q =? 1)%positive && (m - 1 <=? Qnum q) && (Qnum q <=? m + 1)
  | _ => false
  end.

Lemma within_oneb_sound (m : Z) : within_oneb m = true -> within_one m.
Proof.
  unfold within_oneb, within_one. destruct (mired_round_trip m) as [| |[a d]]; try discriminate.
  cbn [Qden Qnum]. intros H. apply andb_prop in H as [H H3]. apply andb_prop in H as [H1 H2].
  apply Pos.eqb_eq in H1. subst d. exists a. split; [reflexivity|lia].
Qed.

Lemma within_oneb_up_to_1758 : forallb within_oneb (seqZ 1 1758) = true.
Proof. vm_compute. reflexivity. Qed.

(** C9, as stated, fails: an expose may declare any range, and at 1759 mired
    (shown as 569 K) the value sent back is 1757. *)
Lemma color_temperature_round_trip_breaks :
  declared (color_temp_expose 153 2000) 1759
  /\ mired_round_trip 1759 = of_Z 1757
  /\ ~ within_one 1759.
Proof.
  split; [|split].
  - exists (of_Z 153), (of_Z 2000). repeat split; reflexivity.
  - vm_compute. reflexivity.
  - intros [r [H Hr]].
    assert (E : mired_round_trip 1759 = of_Z 1757) by (vm_compute; reflexivity).
    rewrite E in H. injection H as H. lia.
Qed.

(** C9, amended.  Both directions are [round(1000000 / x)]; 370 mired is shown
    as 2703 K and 2703 K is sent as 370 mired; every integer mired value from
    1 to 1758 comes back within one mired of itself. *)
Theorem color_temperature_round_trip (m : Z) :
  1 <= m <= 1758 ->
  (forall x, ColorTemperatureProperty_update x = Math_round (div (of_Z 1000000) x)
             /\ ColorTemperatureProperty_sendValue x = Math_round (div (of_Z 1000000) x))
  /\ ColorTemperatureProperty_update (of_Z 370) = of_Z 2703
  /\ ColorTemperatureProperty_sendValue (of_Z 2703) = of_Z 370
  /\ within_one m.
Proof.
  intros Hm.
  split; [intros x; split; reflexivity|].
  split; [vm_compute; reflexivity|].
  split; [vm_compute; reflexivity|].
  apply within_oneb_sound.
  pose proof within_oneb_up_to_1758 as H.
  rewrite forallb_forall in H. apply H.
  apply list_elem_of_In, elem_of_seqZ. lia.
Qed.

Lemma color_temperature_round_trip_witness :
  1 <= 370 <= 1758 /\ within_one 370.
Proof.
  assert (H : 1 <= 370 <= 1758) by lia.
  split; [exact H|].
  exact (proj2 (proj2 (proj2 (color_temperature_round_trip 370 H)))).
Defined.

(** *** Colour *)

Definition special (a : number) : Prop := is_finite a = false.

Lemma div_by_zero_special (a : number) (q : Q) :
  Qis_zero q = true -> special (div a (Fin q)).
Proof.
  intros Hq. destruct a as [|s|p]; simpl; try reflexivity.
  rewrite Hq. destruct (Qis_zero p); reflexivity.
Qed.

Lemma mul_special_l (a b : number) : special a -> special (mul a b).
Proof.
  destruct a as [|s|p]; [reflexivity| |discriminate].
  intros _. destruct b as [|s'|q]; simpl; try reflexivity.
  destruct (Qis_zero q); reflexivity.
Qed.

Lemma mul_special_r (a b : number) : special b -> special (mul a b).
Proof.
  destruct b as [|s|p]; [destruct a; reflexivity| |discriminate].
  intros _. destruct a as [|s'|q]; simpl; try reflexivity.
  destruct (Qis_zero q); reflexivity.
Qed.

Lemma neg_special (a : number) : special a -> special (neg a).
Proof. destruct a; [reflexivity|reflexivity|discriminate]. Qed.

Lemma add_special_l (a b : number) : special a -> special (add a b).
Proof.
  destruct a as [|s|p]; [reflexivity| |discriminate].
  intros _. destruct b as [|s'|q]; simpl; try reflexivity.
  destruct (Bool.eqb s s'); reflexivity.
Qed.

Lemma add_special_r (a b : number) : special b -> special (add a b).
Proof.
  destruct b as [|s|p]; [destruct a; reflexivity| |discriminate].
  intros _. destruct a as [|s'|q]; simpl; try reflexivity.
  destruct (Bool.eqb s' s); reflexivity.
Qed.

Lemma sub_special_l (a b : number) : special a -> special (sub a b).
Proof. apply add_special_l. Qed.

Lemma sub_special_r (a b : number) : special b -> special (sub a b).
Proof. intros H. apply add_special_r, neg_special, H. Qed.

Lemma gamma_special real_pow (a : number) : special a -> special (gamma real_pow a).
Proof.
  destruct a as [|[|]|p]; [reflexivity|reflexivity|reflexivity|discriminate].
Qed.

Lemma Math_max_special (a b : number) : special a -> special b -> special (Math_max a b).
Proof.
  destruct a as [|s|p]; [reflexivity| |discriminate].
  destruct b as [|s'|q]; [reflexivity| |discriminate].
  intros _ _. simpl. destruct (s || negb s'); reflexivity.
Qed.

Lemma div_special_special (a b : number) : special a -> special b -> div a b = NaN.
Proof.
  destruct a as [|s|p]; [reflexivity| |discriminate].
  destruct b as [|s'|q]; [reflexivity|reflexivity|discriminate].
Qed.

(** C10.  When the y coordinate is zero, whatever x and the brightness are,
    the three channels [xyBriToRgb] computes are NaN: the division by y is not
    guarded.  Finite channels therefore require a y other than zero. *)
Theorem xyBriToRgb_zero_y real_pow (x bri : number) (y : Q) :
  Qeq y 0 ->
  xyBriToRgb real_pow x (Fin y) bri = {| rgb_r := NaN; rgb_g := NaN; rgb_b := NaN |}
  /\ (forall brightness,
        ColorProperty_update real_pow {| xy_x := x; xy_y := Fin y |} brightness
        = {| rgb_r := NaN; rgb_g := NaN; rgb_b := NaN |})
  /\ (forall x' y' bri',
        is_finite (rgb_r (xyBriToRgb real_pow x' (Fin y') bri')) = true ->
        ~ Qeq y' 0).
Proof.
  assert (Hgen : forall (x bri : number) (y : Q), Qeq y 0 ->
            xyBriToRgb real_pow x (Fin y) bri
            = {| rgb_r := NaN; rgb_g := NaN; rgb_b := NaN |}).
  { clear. intros x bri y Hy.
    assert (Hz : Qis_zero y = true) by (apply Qeq_bool_iff, Hy).
    unfold xyBriToRgb.
    set (Y := div bri (Fin 255)).
    assert (HW : special (div Y (Fin y))) by (apply div_by_zero_special, Hz).
    set (W := div Y (Fin y)) in *.
    set (X := mul W x).
    set (Z := mul W (sub (sub (Fin 1) x) (Fin y))).
    assert (HX : special X) by (apply mul_special_l, HW).
    assert (HZ : special Z) by (apply mul_special_l, HW).
    set (r := gamma real_pow _). set (g := gamma real_pow _). set (b := gamma real_pow _).
    assert (Hr : special r).
    { apply gamma_special, sub_special_r, mul_special_l, HZ. }
    assert (Hg : special g).
    { apply gamma_special, add_special_r, mul_special_l, HZ. }
    assert (Hb : special b).
    { apply gamma_special, add_special_r, mul_special_l, HZ. }
    assert (Hm : special (Math_max3 r g b)).
    { apply Math_max_special; [apply Math_max_special|]; assumption. }
    rewrite !div_special_special by assumption. reflexivity. }
  intros Hy. split; [apply Hgen, Hy|]. split.
  - intros brightness. apply Hgen, Hy.
  - intros x' y' bri' Hfin Hy'. rewrite (Hgen x' bri' y' Hy') in Hfin. discriminate.
Qed.

Lemma xyBriToRgb_zero_y_witness :
  Qeq 0 0
  /\ xyBriToRgb (fun b _ => b) (Fin (3 # 10)) (Fin 0) (Fin 255)
     = {| rgb_r := NaN; rgb_g := NaN; rgb_b := NaN |}.
Proof.
  assert (H : Qeq 0 0) by reflexivity.
  split; [exact H|].
  exact (proj1 (xyBriToRgb_zero_y (fun b _ => b) (Fin (3 # 10)) (Fin 255) 0 H)).
Defined.

End Zigbee2MqttSpec.

(** * Properties of the classifier *)
Module ClassifierSpec.
Import Js Classifier.

(** ** A program logic for the statements

    [wp] is total: the statement returns, in a state where the postcondition
    holds; [wlp] is partial: it holds as well when the statement throws, which
    aborts the classification of the device. *)
Definition wp {A} (m : M A) (Q : A -> Node -> Prop) (n : Node) : Prop :=
  match m n with
  | Ok (a, n') => Q a n'
  | Throw _ => False
  end.

Definition wlp {A} (m : M A) (Q : A -> Node -> Prop) (n : Node) : Prop :=
  match m n with
  | Ok (a, n') => Q a n'
  | Throw _ => True
  end.

Lemma wp_wlp {A} (m : M A) Q n : wp m Q n -> wlp m Q n.
Proof. unfold wp, wlp. destruct (m n) as [[a n']|e]; tauto. Qed.

Lemma wp_returns {A} (m : M A) Q n :
  wp m Q n <-> exists a n', m n = Ok (a, n') /\ Q a n'.
Proof.
  unfold wp. destruct (m n) as [[a n']|e]; split.
  - intros H. exists a, n'. split; [reflexivity|exact H].
  - intros (a0 & n0 & E & H). injection E as <- <-. exact H.
  - tauto.
  - intros (a0 & n0 & E & _). discriminate E.
Qed.

Lemma wp_mono {A} (m : M A) (Q Q' : A -> Node -> Prop) n :
  wp m Q n -> (forall a n', Q a n' -> Q' a n') -> wp m Q' n.
Proof. unfold wp. destruct (m n) as [[a n']|e]; [auto|tauto]. Qed.

Lemma wlp_mono {A} (m : M A) (Q Q' : A -> Node -> Prop) n :
  wlp m Q n -> (forall a n', Q a n' -> Q' a n') -> wlp m Q' n.
Proof. unfold wlp. destruct (m n) as [[a n']|e]; [auto|tauto]. Qed.

Lemma wp_bind {A B} (m : M A) (k : A -> M B) Q n :
  wp m (fun a n' => wp (k a) Q n') n -> wp (m ≫= k) Q n.
Proof.
  unfold wp, mbind, M_bind. destruct (m n) as [[a n']|e]; [auto|tauto].
Qed.

Lemma wlp_bind {A B} (m : M A) (k : A -> M B) Q n :
  wlp m (fun a n' => wlp (k a) Q n') n -> wlp (m ≫= k) Q n.
Proof.
  unfold wlp, mbind, M_bind. destruct (m n) as [[a n']|e]; [auto|tauto].
Qed.

Lemma wp_ret {A} (a : A) (Q : A -> Node -> Prop) n : Q a n -> wp (mret a) Q n.
Proof. auto. Qed.

Lemma wp_get (Q : Node -> Node -> Prop) n : Q n n -> wp get Q n.
Proof. auto. Qed.

Lemma wp_modify f (Q : unit -> Node -> Prop) n : Q tt (f n) -> wp (modify f) Q n.
Proof. auto. Qed.

Lemma wp_when (b : bool) m (Q : unit -> Node -> Prop) n :
  (b = true -> wp m Q n) -> (b = false -> Q tt n) -> wp (when b m) Q n.
Proof.
  intros Ht Hf. destruct b; [apply Ht; reflexivity|apply (Hf eq_refl)].
Qed.

Lemma wp_read r (Q : Property -> Node -> Prop) n :
  (r < length (heap n))%nat ->
  (forall p, heap n !! r = Some p -> Q p n) -> wp (read r) Q n.
Proof.
  intros Hr HQ. unfold wp, read. cbv beta.
  destruct (lookup_lt_is_Some_2 (heap n) r Hr) as [p Hp]. rewrite Hp. auto.
Qed.

(** ** Invariants of the node *)

Definition preserves (I : Node -> Prop) {A} (m : M A) : Prop :=
  forall n, I n -> wlp m (fun _ n' => I n') n.

Section Preserves.

Variable I : Node -> Prop.

Lemma preserves_ret {A} (a : A) : preserves I (mret a).
Proof. intros n H. exact H. Qed.

Lemma preserves_get : preserves I get.
Proof. intros n H. exact H. Qed.

Lemma preserves_throw {A} e : preserves I (@throw A e).
Proof. intros n H. exact Logic.I. Qed.

Lemma preserves_bind {A B} (m : M A) (k : A -> M B) :
  preserves I m -> (forall a, preserves I (k a)) -> preserves I (m ≫= k).
Proof.
  intros Hm Hk n H. apply wlp_bind. eapply wlp_mono; [apply Hm, H|].
  intros a n' H'. apply Hk, H'.
Qed.

Lemma preserves_when (b : bool) m : preserves I m -> preserves I (when b m).
Proof. destruct b; simpl; [auto|]. intros _. apply preserves_ret. Qed.

Lemma preserves_for_each {A} (l : list A) body :
  (forall x, preserves I (body x)) -> preserves I (for_each l body).
Proof.
  intros Hb. induction l as [|x l IH]; simpl; [apply preserves_ret|].
  apply preserves_bind; [apply Hb|intros _; apply IH].
Qed.

Lemma preserves_for_in {A} (l : list A) body :
  (forall i x, preserves I (body i x)) -> preserves I (for_in l body).
Proof. intros Hb. apply preserves_for_each. intros [i x]. apply Hb. Qed.

Lemma preserves_modify f : (forall n, I n -> I (f n)) -> preserves I (modify f).
Proof. intros Hf n H. apply Hf, H. Qed.

Lemma preserves_read r : preserves I (read r).
Proof.
  intros n H. unfold wlp, read. cbv beta.
  destruct (heap n !! r); [exact H|exact Logic.I].
Qed.

Lemma preserves_activeEndpoint e member : preserves I (activeEndpoint e member).
Proof.
  intros n H. unfold wlp, activeEndpoint. cbv beta.
  destruct (e ≫= _); [exact H|exact Logic.I].
Qed.

End Preserves.

(** ** What [addProperty] does to the node *)

(** The node after a new property object [p] has been registered under
    [name]. *)
Definition register (name : string) (p : Property) (n : Node) : Node :=
  set_heap (heap n ++ [p]) (set_properties (<[name := length (heap n)]> (properties n)) n).

Lemma alter_last {A} (f : A -> A) (l : list A) (x : A) :
  alter f (length l) (l ++ [x]) = l ++ [f x].
Proof.
  rewrite <- (Nat.add_0_r (length l)) at 1. rewrite alter_app_r. reflexivity.
Qed.

Section Factory.

Variable K : Constants.

(** The object [addProperty] leaves in the heap. *)
Definition new_property (n : Node) (name : string) (descr : object)
    (profileId endpoint clusterId : value) (attr : string)
    (setAttrFromValue parseValueFromAttr : value)
    (configReport : option ConfigReport) (defaultValue : value) : Property :=
  let profileId :=
    match profileId with
    | VStr s => VNum (parseInt16 s)
    | _ => profileId
    end in
  let isZll := loose_eqb profileId (VInt (PROFILE_ID_ZLL K)) in
  addProperty_assign (devInfoProperties n) name attr isZll configReport defaultValue
    (ZigbeeProperty_new name descr (if isZll then ZHA K else profileId) endpoint
       clusterId attr setAttrFromValue parseValueFromAttr).

Lemma addProperty_run n name descr profileId endpoint clusterId attr sa pa cr dv :
  addProperty K name descr profileId endpoint clusterId attr sa pa cr dv n
  = Ok (length (heap n),
        register name
          (new_property n name descr profileId endpoint clusterId attr sa pa cr dv) n).
Proof.
  unfold addProperty, new_property, register, update_property, alloc, modify, get,
    mbind, M_bind, mret, M_ret.
  cbn [heap set_heap set_properties devInfoProperties properties].
  rewrite alter_last. destruct n; reflexivity.
Qed.

(** The members the snapshot never overwrites. *)
Lemma rehydrate_binding devInfo p :
  name (rehydrate devInfo p) = name p
  /\ attr (rehydrate devInfo p) = attr p
  /\ descr (rehydrate devInfo p) = descr p
  /\ clusterId (rehydrate devInfo p) = clusterId p
  /\ endpoint (rehydrate devInfo p) = endpoint p
  /\ updated (rehydrate devInfo p) = updated p.
Proof.
  unfold rehydrate.
  destruct (_ && _); [|repeat split].
  destruct (di_minimum devInfo), (di_maximum devInfo), (di_level devInfo),
    (di_enum devInfo) as [e|]; cbn; try (repeat split; fail);
    destruct (enum _) as [[|? ?]|]; repeat split.
Qed.

Lemma addProperty_assign_binding d nm at_ z cr dv p :
  name (addProperty_assign d nm at_ z cr dv p) = name p
  /\ attr (addProperty_assign d nm at_ z cr dv p) = attr p
  /\ descr (addProperty_assign d nm at_ z cr dv p) = descr p
  /\ clusterId (addProperty_assign d nm at_ z cr dv p) = clusterId p
  /\ endpoint (addProperty_assign d nm at_ z cr dv p) = endpoint p
  /\ updated (addProperty_assign d nm at_ z cr dv p) = updated p.
Proof.
  unfold addProperty_assign.
  set (p1 := match d ≫= _ with Some devInfo => rehydrate devInfo p | None => p end).
  assert (H1 : name p1 = name p /\ attr p1 = attr p /\ descr p1 = descr p
               /\ clusterId p1 = clusterId p /\ endpoint p1 = endpoint p
               /\ updated p1 = updated p).
  { subst p1. destruct (d ≫= _); [apply rehydrate_binding|repeat split]. }
  clearbody p1. destruct H1 as (<- & <- & <- & <- & <- & <-).
  destruct z, cr as [c|], (is_private nm); cbn;
    try destruct (negb (at_ =? "")%string && _); repeat split.
Qed.

(** C2 and C6 for the object as [addProperty] returns it: a report
    configuration is only requested for a property that is not fire-and-forget
    and has an attribute path, a property that is not fire-and-forget has an
    attribute path, and the bind flag is the report flag. *)
Lemma addProperty_assign_flags d nm at_ z cr dv p :
  let q := addProperty_assign d nm at_ z cr dv p in
  (configReportNeeded q = true -> fireAndForget q = false)
  /\ (fireAndForget q = false -> at_ <> "" /\ configReportNeeded q = true)
  /\ bindNeeded q = configReportNeeded q
  /\ (at_ = "" -> configReportNeeded q = false)
  /\ (cr = None -> configReportNeeded q = false).
Proof.
  unfold addProperty_assign.
  set (p1 := match d ≫= _ with Some devInfo => rehydrate devInfo p | None => p end).
  clearbody p1.
  set (p2 := if z then set_fireAndForget true p1 else p1). clearbody p2.
  destruct cr as [c|]; cbn.
  - destruct (String.eqb_spec at_ ""); cbn.
    + destruct (is_private nm); cbn; repeat split; try discriminate; congruence.
    + destruct (fireAndForget p2) eqn:E; cbn; destruct (is_private nm); cbn;
        repeat split; try discriminate; try congruence.
  - destruct (is_private nm); cbn; repeat split; try discriminate; congruence.
Qed.

(** ** Invariants of the heap *)

Definition heap_inv (P : Property -> Prop) (n : Node) : Prop := Forall P (heap n).

(** All cells satisfy [P] but the last one, which is cell [r] and satisfies
    [R]: the state between [addProperty] and the last assignment to the object
    it returned. *)
Definition fresh (P R : Property -> Prop) (r : ref) (n : Node) : Prop :=
  exists h p, heap n = h ++ [p] /\ r = length h /\ Forall P h /\ R p.

Section HeapInvariant.

Variable P : Property -> Prop.

Lemma preserves_update r f :
  (forall p, P p -> P (f p)) -> preserves (heap_inv P) (update_property r f).
Proof.
  intros Hf n H. unfold wlp, update_property, modify, heap_inv in *. cbn.
  apply Forall_alter; auto.
Qed.

Lemma preserves_alloc p : P p -> preserves (heap_inv P) (alloc p).
Proof.
  intros Hp n H. unfold wlp, alloc, heap_inv in *. cbn.
  apply Forall_app. split; [exact H|]. constructor; [exact Hp|constructor].
Qed.

Lemma preserves_published f :
  preserves (heap_inv P)
    (modify (fun n => set_published (f n) (set_notifications (S (notifications n)) n))).
Proof. intros n H. exact H. Qed.

Lemma addProperty_fresh (R : Property -> Prop) name descr profileId endpoint clusterId
    attr sa pa cr dv n :
  heap_inv P n ->
  R (new_property n name descr profileId endpoint clusterId attr sa pa cr dv) ->
  wlp (addProperty K name descr profileId endpoint clusterId attr sa pa cr dv)
    (fun r n' => fresh P R r n') n.
Proof.
  intros H HR. unfold wlp. rewrite addProperty_run.
  eexists _, _. split; [reflexivity|]. split; [reflexivity|]. split; assumption.
Qed.

Lemma preserves_addProperty name descr profileId endpoint clusterId attr sa pa cr dv :
  (forall n, P (new_property n name descr profileId endpoint clusterId attr sa pa cr dv)) ->
  preserves (heap_inv P)
    (addProperty K name descr profileId endpoint clusterId attr sa pa cr dv).
Proof.
  intros HP n H. unfold wlp. rewrite addProperty_run. unfold heap_inv, register. cbn.
  apply Forall_app. split; [exact H|]. constructor; [apply HP|constructor].
Qed.

Lemma update_fresh (R R' : Property -> Prop) r f n :
  fresh P R r n -> (forall p, R p -> R' (f p)) ->
  wlp (update_property r f) (fun _ n' => fresh P R' r n') n.
Proof.
  intros (h & p & Hh & -> & HP & HR) Hf.
  unfold wlp, update_property, modify. cbn. rewrite Hh, alter_last.
  exists h, (f p). repeat split; auto.
Qed.

Lemma fresh_done (R : Property -> Prop) r n :
  fresh P R r n -> (forall p, R p -> P p) -> heap_inv P n.
Proof.
  intros (h & p & Hh & _ & HP & HR) HRP. unfold heap_inv. rewrite Hh.
  apply Forall_app. split; [exact HP|]. constructor; [apply HRP, HR|constructor].
Qed.

End HeapInvariant.

(** ** The bind flag (C6) *)

Definition read_only (p : Property) : Prop :=
  member (descr p) "readOnly" = Some (VBool true).

(** Distinct clusters have distinct identifiers, and neither the on/off nor
    the level-control cluster has the identifier 0, which the door lock's
    state property is given for a cluster ([zb-constants.js] is not among the
    sources; its table is a parameter). *)
Hypothesis cluster_ids_distinct :
  forall a b : Cluster, CLUSTER_ID K a = CLUSTER_ID K b -> a = b.
Hypothesis button_cluster_ids_nonzero :
  CLUSTER_ID K GENONOFF <> 0 /\ CLUSTER_ID K GENLEVELCTRL <> 0.

Lemma cluster_distinct a b : a <> b -> cluster K a <> cluster K b.
Proof.
  intros Hne E. apply Hne, cluster_ids_distinct.
  unfold cluster, VInt, of_Z in E. injection E as E. exact E.
Qed.

Lemma cluster_nonzero :
  VInt 0 <> cluster K GENONOFF /\ VInt 0 <> cluster K GENLEVELCTRL.
Proof.
  destruct button_cluster_ids_nonzero as [H1 H2].
  split; intros E; unfold cluster, VInt, of_Z in E; injection E as E;
    [apply H1|apply H2]; symmetry; exact E.
Qed.

(** What the button functions hand to [addProperty]: no attribute path, a
    read-only description, and the on/off or the level-control cluster. *)
Definition button_shaped (p : Property) : Prop :=
  attr p = "" /\ read_only p
  /\ (clusterId p = cluster K GENONOFF \/ clusterId p = cluster K GENLEVELCTRL).

(** The rule of the bind flag: a property without an attribute path requests
    no report configuration; a property shaped like a button is bound; the
    bind flag of any other property is its report flag. *)
Definition bind_rule (p : Property) : Prop :=
  (attr p = "" -> configReportNeeded p = false)
  /\ (button_shaped p -> bindNeeded p = true)
  /\ (~ button_shaped p -> bindNeeded p = configReportNeeded p).

(** An assignment that leaves the members [bind_rule] reads as they are. *)
Definition same_binding (q p : Property) : Prop :=
  name q = name p /\ attr q = attr p /\ descr q = descr p /\ clusterId q = clusterId p
  /\ bindNeeded q = bindNeeded p /\ configReportNeeded q = configReportNeeded p.

Lemma bind_rule_same q p : same_binding q p -> bind_rule p -> bind_rule q.
Proof.
  unfold bind_rule, button_shaped, read_only.
  intros (_ & -> & -> & -> & -> & ->). tauto.
Qed.

Lemma default_value_same v p : same_binding (default_value v p) p.
Proof. unfold default_value. destruct (value_of p); repeat split. Qed.

Lemma default_number_same p : same_binding (default_number p) p.
Proof. unfold default_number. destruct (value_of p); repeat split. Qed.

(** What [addProperty] is handed is not what a button function hands it:
    there is an attribute path, or the description is not read-only, or the
    cluster is neither of the two. *)
Definition unshaped (descr : object) (clusterId : value) (attr : string) : Prop :=
  attr <> "" \/ member descr "readOnly" <> Some (VBool true)
  \/ (clusterId <> cluster K GENONOFF /\ clusterId <> cluster K GENLEVELCTRL).

Lemma bind_rule_new n nm d profileId endpoint cl path sa pa cr dv :
  unshaped d cl path ->
  bind_rule (new_property n nm d profileId endpoint cl path sa pa cr dv).
Proof.
  intros Hu. unfold bind_rule, button_shaped, read_only, new_property.
  match goal with |- context [addProperty_assign ?d ?nm ?a ?z ?c ?v ?p] =>
    pose proof (addProperty_assign_binding d nm a z c v p) as (_ & Ha & Hd & Hc & _);
    pose proof (addProperty_assign_flags d nm a z c v p) as (_ & _ & Hb & Hf & _)
  end.
  rewrite Ha, Hd, Hc. cbn [attr descr clusterId ZigbeeProperty_new].
  split; [exact Hf|]. split; [|intros _; exact Hb].
  intros (E & Hro & Hcl). exfalso. destruct Hu as [Hu|[Hu|[H1 H2]]];
    [exact (Hu E)|exact (Hu Hro)|destruct Hcl; contradiction].
Qed.

(** What [addProperty] is known to return when it is given no attribute
    path: the state the button functions start from. *)
Definition unbound (descr0 : object) (cluster0 : value) (p : Property) : Prop :=
  attr p = "" /\ configReportNeeded p = false /\ descr p = descr0 /\ clusterId p = cluster0.

Lemma unbound_new n name descr profileId endpoint clusterId sa pa cr dv :
  unbound descr clusterId
    (new_property n name descr profileId endpoint clusterId "" sa pa cr dv).
Proof.
  unfold unbound, new_property.
  match goal with |- context [addProperty_assign ?d ?nm ?a ?z ?c ?v ?p] =>
    pose proof (addProperty_assign_binding d nm a z c v p) as (_ & Ha & Hd & Hc & _);
    pose proof (addProperty_assign_flags d nm a z c v p) as (_ & _ & _ & Hf & _)
  end.
  rewrite Ha, Hd, Hc. repeat split. apply Hf. reflexivity.
Qed.

Variable NM : NodeMethods.

Abbreviation bound := (preserves (heap_inv bind_rule)).

Create HintDb binds discriminated.

Ltac stable :=
  intros ? ?; eapply bind_rule_same; [|eassumption];
  first [apply default_value_same | apply default_number_same | repeat split].

(** The arguments of a call of [addProperty] are not those of a button:
    by the attribute path, by the description, or by the cluster. *)
Ltac apart :=
  first [ left; solve [assumption | discriminate]
        | right; left; solve [assumption | vm_compute; discriminate]
        | right; right; split; apply cluster_distinct; discriminate
        | right; right; exact cluster_nonzero ].

Ltac binds_step :=
  lazymatch goal with
  | |- preserves _ (mbind _ _) => apply preserves_bind; [|intros ?]
  | |- preserves _ (mret _) => apply preserves_ret
  | |- preserves _ skip => apply preserves_ret
  | |- preserves _ get => apply preserves_get
  | |- preserves _ (throw _) => apply preserves_throw
  | |- preserves _ (read _) => apply preserves_read
  | |- preserves _ (activeEndpoint _ _) => apply preserves_activeEndpoint
  | |- preserves _ (when _ _) => apply preserves_when
  | |- preserves _ (for_each _ _) => apply preserves_for_each; intros ?
  | |- preserves _ (for_in _ _) => apply preserves_for_in; intros ? ?
  | |- preserves _ (addProperty _ _ _ _ _ _ _ _ _ _ _) =>
      apply preserves_addProperty; intros ?; apply bind_rule_new; apart
  | |- preserves _ (update_property _ _) => apply preserves_update; stable
  | |- preserves _ (modify _) =>
      first [apply preserves_published
            |apply preserves_modify; let H := fresh in intros ? H; exact H
            |apply preserves_modify; let H := fresh in
             intros ? H;
             repeat match goal with
                    | |- context [match ?x with _ => _ end] => destruct x
                    end; exact H]
  | |- preserves _ (if ?b then _ else _) => destruct b
  | |- preserves _ (match ?x with _ => _ end) => destruct x
  | |- preserves _ _ => solve [auto with binds]
  end.

Ltac binds := repeat binds_step.

(** The button functions: [addProperty] without an attribute path, then the
    bind flag is forced. *)
Lemma bound_button {A} nm d ep c (b : bool) f (k : ref -> M A) :
  (if b then member d "readOnly" = Some (VBool true)
            /\ (c = GENONOFF \/ c = GENLEVELCTRL)
   else c <> GENONOFF /\ c <> GENLEVELCTRL) ->
  (forall p, same_binding (f p) p) ->
  (forall r, bound (k r)) ->
  bound (property ← addProperty K nm d (ZHA K) ep (cluster K c) "" "" "" None
                      VUndefined;
         update_property property (set_bindNeeded b) ;;
         update_property property f ;;
         k property).
Proof.
  intros Hb Hf Hk n Hn.
  apply wlp_bind.
  eapply wlp_mono; [apply (addProperty_fresh bind_rule (unbound d (cluster K c)));
                    [exact Hn|apply unbound_new]|].
  intros r n1 H1. apply wlp_bind.
  eapply wlp_mono; [apply (update_fresh bind_rule _ bind_rule _ _ _ H1)|].
  - intros p (Ha & Hc & Hd & Hcl). unfold bind_rule, button_shaped, read_only.
    cbn [attr descr clusterId bindNeeded configReportNeeded set_bindNeeded].
    rewrite Hd, Hcl. split; [intros _; exact Hc|]. destruct b.
    + split; [reflexivity|]. intros Hnot. exfalso. apply Hnot.
      destruct Hb as [Hro Hcs]. repeat split; try assumption.
      destruct Hcs as [->| ->]; auto.
    + destruct Hb as [Hon Hlevel]. split; [|intros _; symmetry; exact Hc].
      intros (_ & _ & [E|E]); exfalso;
        [exact (cluster_distinct _ _ Hon E)|exact (cluster_distinct _ _ Hlevel E)].
  - intros ? n2 H2. apply wlp_bind.
    eapply wlp_mono; [apply (update_fresh bind_rule _ bind_rule _ _ _ H2)|].
    + intros p Hp. eapply bind_rule_same; [apply Hf|exact Hp].
    + intros ? n3 H3. apply Hk. eapply fresh_done; [exact H3|auto].
Qed.

Lemma bound_claim_onOffProperty r : bound (claim_onOffProperty r).
Proof.
  apply preserves_modify. intros n H. destruct (onOffProperty n); exact H.
Qed.
#[local] Hint Extern 1 (preserves _ (claim_onOffProperty _)) =>
  apply bound_claim_onOffProperty : binds.

Lemma bound_addButtonOnProperty ep suffix : bound (addButtonOnProperty K ep suffix).
Proof.
  apply bound_button; [split; [reflexivity|auto]|apply default_value_same|].
  intros r. binds.
Qed.

Lemma bound_addButtonLevelProperty ep suffix : bound (addButtonLevelProperty K ep suffix).
Proof.
  apply bound_button; [split; [reflexivity|auto]|apply default_value_same|].
  intros r. binds.
Qed.

Lemma bound_addButtonMotionProperty ep suffix : bound (addButtonMotionProperty K ep suffix).
Proof.
  apply bound_button; [split; [reflexivity|auto]|apply default_value_same|].
  intros r. binds.
Qed.

Lemma bound_addButtonSceneProperty ep : bound (addButtonSceneProperty K ep).
Proof.
  apply bound_button; [split; discriminate|apply default_number_same|].
  intros r. binds.
Qed.
#[local] Hint Extern 1 (preserves _ (addButtonOnProperty _ _ _)) =>
  apply bound_addButtonOnProperty : binds.
#[local] Hint Extern 1 (preserves _ (addButtonLevelProperty _ _ _)) =>
  apply bound_addButtonLevelProperty : binds.
#[local] Hint Extern 1 (preserves _ (addButtonMotionProperty _ _ _)) =>
  apply bound_addButtonMotionProperty : binds.
#[local] Hint Extern 1 (preserves _ (addButtonSceneProperty _ _)) =>
  apply bound_addButtonSceneProperty : binds.

Lemma bound_addOnProperty ep suffix : bound (addOnProperty K ep suffix).
Proof. unfold addOnProperty. binds. Qed.

Lemma bound_addColorProperty ep : bound (addColorProperty K ep).
Proof. unfold addColorProperty. binds. Qed.

Lemma bound_addColorXYProperty ep : bound (addColorXYProperty K ep).
Proof. unfold addColorXYProperty. binds. Qed.

Lemma bound_addColorTemperatureProperty ep : bound (addColorTemperatureProperty K ep).
Proof. unfold addColorTemperatureProperty. binds. Qed.

Lemma bound_addBrightnessProperty ep : bound (addBrightnessProperty K ep).
Proof. unfold addBrightnessProperty. binds. Qed.

Lemma bound_addLevelProperty ep : bound (addLevelProperty K ep).
Proof. unfold addLevelProperty. binds. Qed.

Lemma bound_push_type_once tag : bound (push_type_once tag).
Proof. unfold push_type_once. binds. Qed.

Lemma bound_push_type tag : bound (push_type tag).
Proof. unfold push_type. binds. Qed.
#[local] Hint Extern 1 (preserves _ (addOnProperty _ _ _)) =>
  apply bound_addOnProperty : binds.
#[local] Hint Extern 1 (preserves _ (addColorProperty _ _)) =>
  apply bound_addColorProperty : binds.
#[local] Hint Extern 1 (preserves _ (addColorXYProperty _ _)) =>
  apply bound_addColorXYProperty : binds.
#[local] Hint Extern 1 (preserves _ (addColorTemperatureProperty _ _)) =>
  apply bound_addColorTemperatureProperty : binds.
#[local] Hint Extern 1 (preserves _ (addBrightnessProperty _ _)) =>
  apply bound_addBrightnessProperty : binds.
#[local] Hint Extern 1 (preserves _ (addLevelProperty _ _)) =>
  apply bound_addLevelProperty : binds.
#[local] Hint Extern 1 (preserves _ (push_type_once _)) =>
  apply bound_push_type_once : binds.
#[local] Hint Extern 1 (preserves _ (push_type _)) =>
  apply bound_push_type : binds.

Lemma bound_addDeviceTemperatureProperty ep : bound (addDeviceTemperatureProperty K ep).
Proof. unfold addDeviceTemperatureProperty. binds. Qed.

Lemma bound_addActions acts : bound (addActions acts).
Proof. unfold addActions. binds. Qed.

Lemma bound_addEvents evts : bound (addEvents evts).
Proof. unfold addEvents. binds. Qed.

Lemma bound_setMinimum r v : bound (setMinimum r v).
Proof. unfold setMinimum. binds. Qed.

Lemma bound_setMaximum r v : bound (setMaximum r v).
Proof. unfold setMaximum. binds. Qed.
#[local] Hint Extern 1 (preserves _ (addDeviceTemperatureProperty _ _)) =>
  apply bound_addDeviceTemperatureProperty : binds.
#[local] Hint Extern 1 (preserves _ (addActions _)) =>
  apply bound_addActions : binds.
#[local] Hint Extern 1 (preserves _ (addEvents _)) =>
  apply bound_addEvents : binds.
#[local] Hint Extern 1 (preserves _ (setMinimum _ _)) =>
  apply bound_setMinimum : binds.
#[local] Hint Extern 1 (preserves _ (setMaximum _ _)) =>
  apply bound_setMaximum : binds.

Lemma bound_updateMaximum t : bound (updateMaximum t).
Proof. unfold updateMaximum. binds. Qed.

Lemma bound_updateMinimum t : bound (updateMinimum t).
Proof. unfold updateMinimum. binds. Qed.
#[local] Hint Extern 1 (preserves _ (updateMaximum _)) =>
  apply bound_updateMaximum : binds.
#[local] Hint Extern 1 (preserves _ (updateMinimum _)) =>
  apply bound_updateMinimum : binds.

Lemma bound_run_hook h this : bound (run_hook h this).
Proof.
  destruct h; unfold run_hook, setPropertyValue, handleDeviceDescriptionUpdated; binds.
Qed.
#[local] Hint Extern 1 (preserves _ (run_hook _ _)) =>
  apply bound_run_hook : binds.

(** The rule survives every later update of a property. *)
Lemma bound_update r v : bound (update r v).
Proof. unfold update. binds. Qed.

Lemma bound_addDoorLockedProperty ep : bound (addDoorLockedProperty K ep).
Proof. unfold addDoorLockedProperty. binds. Qed.
#[local] Hint Extern 1 (preserves _ (addDoorLockedProperty _ _)) =>
  apply bound_addDoorLockedProperty : binds.

Lemma bound_addPresentValueProperty ep : bound (addPresentValueProperty K ep).
Proof. unfold addPresentValueProperty. binds. Qed.
#[local] Hint Extern 1 (preserves _ (addPresentValueProperty _ _)) =>
  apply bound_addPresentValueProperty : binds.

Lemma bound_addScaleProperty name ep c attr dv :
  attr <> "" -> bound (addScaleProperty K name ep c attr dv).
Proof. intros Hattr. unfold addScaleProperty. binds. Qed.
#[local] Hint Extern 1 (preserves _ (addScaleProperty _ _ _ _ _ _)) =>
  apply bound_addScaleProperty; discriminate : binds.

Lemma bound_addHaCurrentProperty ep : bound (addHaCurrentProperty K ep).
Proof. unfold addHaCurrentProperty. binds. Qed.
#[local] Hint Extern 1 (preserves _ (addHaCurrentProperty _ _)) =>
  apply bound_addHaCurrentProperty : binds.

Lemma bound_addHaFrequencyProperty ep : bound (addHaFrequencyProperty K ep).
Proof. unfold addHaFrequencyProperty. binds. Qed.
#[local] Hint Extern 1 (preserves _ (addHaFrequencyProperty _ _)) =>
  apply bound_addHaFrequencyProperty : binds.

Lemma bound_addHaInstantaneousPowerProperty ep : bound (addHaInstantaneousPowerProperty K ep).
Proof. unfold addHaInstantaneousPowerProperty. binds. Qed.
#[local] Hint Extern 1 (preserves _ (addHaInstantaneousPowerProperty _ _)) =>
  apply bound_addHaInstantaneousPowerProperty : binds.

Lemma bound_addHaVoltageProperty ep : bound (addHaVoltageProperty K ep).
Proof. unfold addHaVoltageProperty. binds. Qed.
#[local] Hint Extern 1 (preserves _ (addHaVoltageProperty _ _)) =>
  apply bound_addHaVoltageProperty : binds.

Lemma bound_addSeCurrentSummDeliveredProperty ep : bound (addSeCurrentSummDeliveredProperty K ep).
Proof. unfold addSeCurrentSummDeliveredProperty. binds. Qed.
#[local] Hint Extern 1 (preserves _ (addSeCurrentSummDeliveredProperty _ _)) =>
  apply bound_addSeCurrentSummDeliveredProperty : binds.

Lemma bound_addSeInstantaneousPowerProperty ep : bound (addSeInstantaneousPowerProperty K ep).
Proof. unfold addSeInstantaneousPowerProperty. binds. Qed.
#[local] Hint Extern 1 (preserves _ (addSeInstantaneousPowerProperty _ _)) =>
  apply bound_addSeInstantaneousPowerProperty : binds.

Lemma bound_addOccupancySensorProperty ep : bound (addOccupancySensorProperty K ep).
Proof. unfold addOccupancySensorProperty. binds. Qed.
#[local] Hint Extern 1 (preserves _ (addOccupancySensorProperty _ _)) =>
  apply bound_addOccupancySensorProperty : binds.

Lemma bound_addIlluminanceMeasurementProperty ep : bound (addIlluminanceMeasurementProperty K ep).
Proof. unfold addIlluminanceMeasurementProperty. binds. Qed.
#[local] Hint Extern 1 (preserves _ (addIlluminanceMeasurementProperty _ _)) =>
  apply bound_addIlluminanceMeasurementProperty : binds.

Lemma bound_addPowerCfgVoltageProperty ep : bound (addPowerCfgVoltageProperty K NM ep).
Proof. unfold addPowerCfgVoltageProperty. binds. Qed.
#[local] Hint Extern 1 (preserves _ (addPowerCfgVoltageProperty _ _ _)) =>
  apply bound_addPowerCfgVoltageProperty : binds.

Lemma bound_addTemperatureSensorProperty ep : bound (addTemperatureSensorProperty K ep).
Proof. unfold addTemperatureSensorProperty. binds. Qed.
#[local] Hint Extern 1 (preserves _ (addTemperatureSensorProperty _ _)) =>
  apply bound_addTemperatureSensorProperty : binds.

Lemma bound_addSetpointProperty name descr ep attr sa pa :
  attr <> "" -> bound (addSetpointProperty K name descr ep attr sa pa).
Proof. intros Hattr. unfold addSetpointProperty. binds. Qed.
#[local] Hint Extern 1 (preserves _ (addSetpointProperty _ _ _ _ _ _ _)) =>
  apply bound_addSetpointProperty; discriminate : binds.

Lemma bound_addThermostatProperties ep fan : bound (addThermostatProperties K NM ep fan).
Proof. unfold addThermostatProperties. binds. Qed.
#[local] Hint Extern 1 (preserves _ (addThermostatProperties _ _ _ _)) =>
  apply bound_addThermostatProperties : binds.

Lemma bound_addZoneTypeProperty propertyName propertyDescr :
  bound (addZoneTypeProperty K propertyName propertyDescr).
Proof. unfold addZoneTypeProperty. binds. Qed.
#[local] Hint Extern 1 (preserves _ (addZoneTypeProperty _ _ _)) =>
  apply bound_addZoneTypeProperty : binds.

Lemma bound_addLastSeenProperty : bound addLastSeenProperty.
Proof.
  unfold addLastSeenProperty.
  apply preserves_bind; [binds|intros node]. apply preserves_when.
  apply preserves_bind; [apply preserves_alloc|intros lastSeen].
  { unfold bind_rule, button_shaped. cbn. split; [reflexivity|].
    split; [|reflexivity]. intros (_ & _ & [E|E]); discriminate E. }
  binds.
Qed.
#[local] Hint Extern 1 (preserves _ addLastSeenProperty) =>
  apply bound_addLastSeenProperty : binds.

Lemma bound_set_archetype type atType : bound (set_archetype type atType).
Proof. unfold set_archetype. binds. Qed.
#[local] Hint Extern 1 (preserves _ (set_archetype _ _)) =>
  apply bound_set_archetype : binds.

Lemma bound_initBinarySensor ep : bound (initBinarySensor K ep).
Proof. unfold initBinarySensor. binds. Qed.
#[local] Hint Extern 1 (preserves _ (initBinarySensor _ _)) =>
  apply bound_initBinarySensor : binds.

Lemma bound_initBinarySensorFromZoneType : bound (initBinarySensorFromZoneType K).
Proof. unfold initBinarySensorFromZoneType. binds. Qed.
#[local] Hint Extern 1 (preserves _ (initBinarySensorFromZoneType _)) =>
  apply bound_initBinarySensorFromZoneType : binds.

Lemma bound_initDoorLock ep : bound (initDoorLock K ep).
Proof. unfold initDoorLock. binds. Qed.
#[local] Hint Extern 1 (preserves _ (initDoorLock _ _)) =>
  apply bound_initDoorLock : binds.

Lemma bound_initOccupancySensor ep : bound (initOccupancySensor K ep).
Proof. unfold initOccupancySensor. binds. Qed.
#[local] Hint Extern 1 (preserves _ (initOccupancySensor _ _)) =>
  apply bound_initOccupancySensor : binds.

Lemma bound_initOnOffSwitches eps : bound (initOnOffSwitches K eps).
Proof. unfold initOnOffSwitches. binds. Qed.
#[local] Hint Extern 1 (preserves _ (initOnOffSwitches _ _)) =>
  apply bound_initOnOffSwitches : binds.

Lemma bound_initMultiLevelSwitch ep lightLink : bound (initMultiLevelSwitch K ep lightLink).
Proof. unfold initMultiLevelSwitch. binds. Qed.
#[local] Hint Extern 1 (preserves _ (initMultiLevelSwitch _ _ _)) =>
  apply bound_initMultiLevelSwitch : binds.

Lemma bound_modelId_includes_motion : bound modelId_includes_motion.
Proof. unfold modelId_includes_motion. binds. Qed.
#[local] Hint Extern 1 (preserves _ modelId_includes_motion) =>
  apply bound_modelId_includes_motion : binds.

Lemma bound_initOnOffButtons eps : bound (initOnOffButtons K eps).
Proof. unfold initOnOffButtons. binds. Qed.
#[local] Hint Extern 1 (preserves _ (initOnOffButtons _ _)) =>
  apply bound_initOnOffButtons : binds.

Lemma bound_addSceneEvents levelProperty : bound (addSceneEvents levelProperty).
Proof. unfold addSceneEvents. binds. Qed.
#[local] Hint Extern 1 (preserves _ (addSceneEvents _)) =>
  apply bound_addSceneEvents : binds.

Lemma bound_tradfri_workaround ep : bound (tradfri_workaround K NM ep).
Proof.
  unfold tradfri_workaround.
  apply preserves_bind; [binds|intros node].
  destruct (activeEndpoints node !! 1); [|binds].
  apply preserves_when, preserves_modify. intros n H. exact H.
Qed.
#[local] Hint Extern 1 (preserves _ (tradfri_workaround _ _ _)) =>
  apply bound_tradfri_workaround : binds.

Lemma bound_multiLevelButton idx ep : bound (multiLevelButton K NM idx ep).
Proof. unfold multiLevelButton. binds. Qed.
#[local] Hint Extern 1 (preserves _ (multiLevelButton _ _ _ _)) =>
  apply bound_multiLevelButton : binds.

Lemma bound_multiLevelButtons idx eps : bound (multiLevelButtons K NM idx eps).
Proof.
  revert idx. induction eps as [|endpoint tl IH]; intros idx; cbn [multiLevelButtons];
    binds.
Qed.
#[local] Hint Extern 1 (preserves _ (multiLevelButtons _ _ _ _)) =>
  apply bound_multiLevelButtons : binds.

Lemma bound_initMultiLevelButtons levels onoffs : bound (initMultiLevelButtons K NM levels onoffs).
Proof. unfold initMultiLevelButtons. binds. Qed.
#[local] Hint Extern 1 (preserves _ (initMultiLevelButtons _ _ _ _)) =>
  apply bound_initMultiLevelButtons : binds.

Lemma bound_initHaSmartPlug ha se level : bound (initHaSmartPlug K ha se level).
Proof. unfold initHaSmartPlug. binds. Qed.
#[local] Hint Extern 1 (preserves _ (initHaSmartPlug _ _ _ _)) =>
  apply bound_initHaSmartPlug : binds.

Lemma bound_initSeSmartPlug se level : bound (initSeSmartPlug K se level).
Proof. unfold initSeSmartPlug. binds. Qed.
#[local] Hint Extern 1 (preserves _ (initSeSmartPlug _ _ _)) =>
  apply bound_initSeSmartPlug : binds.

Lemma bound_initLightingPowerMetering se level : bound (initLightingPowerMetering K se level).
Proof. unfold initLightingPowerMetering. binds. Qed.
#[local] Hint Extern 1 (preserves _ (initLightingPowerMetering _ _ _)) =>
  apply bound_initLightingPowerMetering : binds.

Lemma bound_initThermostat ep fan : bound (initThermostat K NM ep fan).
Proof. unfold initThermostat. binds. Qed.
#[local] Hint Extern 1 (preserves _ (initThermostat _ _ _ _)) =>
  apply bound_initThermostat : binds.

Lemma bound_checkZhaLight isZhaLight e : bound (checkZhaLight K isZhaLight e).
Proof. unfold checkZhaLight. binds. Qed.
#[local] Hint Extern 1 (preserves _ (checkZhaLight _ _ _)) =>
  apply bound_checkZhaLight : binds.

Lemma bound_classifyInternal : bound (classifyInternal K NM).
Proof. unfold classifyInternal. binds. Qed.
#[local] Hint Extern 1 (preserves _ (classifyInternal _ _)) =>
  apply bound_classifyInternal : binds.

Lemma bound_classify : bound (classify K NM).
Proof. unfold classify. binds. Qed.
#[local] Hint Extern 1 (preserves _ (classify _ _)) =>
  apply bound_classify : binds.

(** ** Total correctness on the thermostat path (C1) *)

Definition total {A} (P : Node -> Prop) (m : M A) (Q : A -> Node -> Prop) : Prop :=
  forall n, P n -> wp m Q n.

Lemma total_bind {A B} P (m : M A) (k : A -> M B) R Q :
  total P m R -> (forall a, total (R a) (k a) Q) -> total P (m ≫= k) Q.
Proof.
  intros Hm Hk n H. apply wp_bind. eapply wp_mono; [apply Hm, H|].
  intros a n' H'. apply Hk, H'.
Qed.

Lemma total_weaken {A} (P P' : Node -> Prop) (m : M A) (Q Q' : A -> Node -> Prop) :
  total P' m Q' -> (forall n, P n -> P' n) -> (forall a n, Q' a n -> Q a n) ->
  total P m Q.
Proof. intros Hm HP HQ n H. eapply wp_mono; [apply Hm, HP, H|exact HQ]. Qed.

Lemma total_ret {A} (P : Node -> Prop) (a : A) : total P (mret a) (fun _ => P).
Proof. intros n H. exact H. Qed.

Lemma total_get (P : Node -> Prop) : total P get (fun n0 n => n = n0 /\ P n).
Proof. intros n H. split; [reflexivity|exact H]. Qed.

Lemma total_get_keep (P : Node -> Prop) : total P get (fun _ => P).
Proof. intros n H. exact H. Qed.

Lemma total_when (P : Node -> Prop) (b : bool) m :
  total P m (fun _ => P) -> total P (when b m) (fun _ => P).
Proof. intros Hm. destruct b; [exact Hm|apply total_ret]. Qed.

(** The state of the node while the thermostat rule runs, relative to the
    node [n0] the rule started from: the archetype is the one of [n0], the
    names "level" and "on" are registered as they were, the names of [pres]
    are registered and the references of [refs] are cells of the heap. *)
Definition st (n0 : Node) (pres : list string) (refs : list ref) (n : Node) : Prop :=
  type n = type n0 /\ atType n = atType n0
  /\ (forall k, k = "level" \/ k = "on" -> properties n !! k = properties n0 !! k)
  /\ Forall (fun k => is_Some (property_named n k)) pres
  /\ Forall (fun r => (r < length (heap n))%nat) refs.

Definition other_name (k : string) : Prop := k <> "level" /\ k <> "on".

Lemma st_weaken n0 pres refs pres' refs' n :
  st n0 pres refs n -> pres' ⊆ pres -> refs' ⊆ refs -> st n0 pres' refs' n.
Proof.
  intros (Ht & Ha & Hk & Hp & Hr) Hps Hrs. repeat split; try assumption.
  - rewrite Forall_forall in *. auto.
  - rewrite Forall_forall in *. auto.
Qed.

Lemma property_named_register name p n k :
  is_Some (property_named n k) -> is_Some (property_named (register name p n) k).
Proof.
  unfold property_named, register. cbn.
  destruct (decide (name = k)) as [->|Hne].
  - intros _. rewrite lookup_insert_eq. cbn.
    rewrite lookup_app_r, Nat.sub_diag by lia. eauto.
  - rewrite lookup_insert_ne by exact Hne.
    destruct (properties n !! k) as [r|]; cbn; [|intros [? [=]]].
    intros [q Hq]. rewrite lookup_app_l by (eapply lookup_lt_Some, Hq). eauto.
Qed.

Lemma st_register n0 pres refs name p n :
  other_name name -> st n0 pres refs n ->
  st n0 (name :: pres) (length (heap n) :: refs) (register name p n)
  /\ properties (register name p n) !! name = Some (length (heap n)).
Proof.
  intros [Hl Ho] (Ht & Ha & Hk & Hp & Hr). split; [repeat split|].
  - exact Ht.
  - exact Ha.
  - intros k Hk'. cbn. rewrite lookup_insert_ne; [apply Hk, Hk'|].
    destruct Hk' as [->| ->]; congruence.
  - constructor.
    + unfold property_named, register. cbn. rewrite lookup_insert_eq. cbn.
      rewrite lookup_app_r, Nat.sub_diag by lia. eauto.
    + eapply Forall_impl; [exact Hp|]. intros k. apply property_named_register.
  - cbn. rewrite length_app. cbn. constructor; [lia|].
    eapply Forall_impl; [exact Hr|]. intros r. cbn. lia.
  - cbn. apply lookup_insert_eq.
Qed.

Lemma st_addProperty n0 pres refs name descr profileId endpoint clusterId attr sa pa cr dv :
  other_name name ->
  total (st n0 pres refs)
    (addProperty K name descr profileId endpoint clusterId attr sa pa cr dv)
    (fun r => st n0 (name :: pres) (r :: refs)).
Proof.
  intros Hname n H. unfold wp. rewrite addProperty_run.
  apply st_register; assumption.
Qed.

Lemma st_update_property n0 pres refs r f :
  total (st n0 pres refs) (update_property r f) (fun _ => st n0 pres refs).
Proof.
  intros n (Ht & Ha & Hk & Hp & Hr). unfold wp, update_property, modify. cbn.
  repeat split; try assumption.
  - eapply Forall_impl; [exact Hp|]. intros k. unfold property_named. cbn.
    destruct (properties n !! k) as [i|]; cbn; [|auto].
    rewrite list_lookup_alter. destruct (decide (r = i)) as [->|]; [|auto].
    intros [q ->]. cbn. eauto.
  - eapply Forall_impl; [exact Hr|]. intros i. cbn. rewrite length_alter. auto.
Qed.

Lemma st_read n0 pres refs r :
  r ∈ refs -> total (st n0 pres refs) (read r) (fun _ => st n0 pres refs).
Proof.
  intros Hin n H. apply wp_read; [|auto].
  destruct H as (_ & _ & _ & _ & Hr). rewrite Forall_forall in Hr. apply Hr, Hin.
Qed.

(** A statement that only writes members of the node the state does not
    mention. *)
Lemma st_modify n0 pres refs f :
  (forall n, type (f n) = type n /\ atType (f n) = atType n
             /\ properties (f n) = properties n /\ heap (f n) = heap n) ->
  total (st n0 pres refs) (modify f) (fun _ => st n0 pres refs).
Proof.
  intros Hf n (Ht & Ha & Hk & Hp & Hr). destruct (Hf n) as (Et & Ea & Ep & Eh).
  unfold wp, modify, st, property_named. cbn. rewrite Et, Ea, Ep, Eh. auto.
Qed.

Abbreviation keeps n0 pres refs m := (total (st n0 pres refs) m (fun _ => st n0 pres refs)).

Ltac names_ok := split; discriminate.

(** Membership in, and inclusion between, lists written out by their elements. *)
Ltac member :=
  repeat first [assumption | apply elem_of_cons; left; reflexivity | apply elem_of_cons; right].

Ltac subset :=
  let x := fresh "x" in
  let Hx := fresh "Hx" in
  cbn [app]; intros x Hx;
  repeat (apply elem_of_cons in Hx as [->|Hx]; [member|]);
  first [apply elem_of_nil in Hx; contradiction | member].

Ltac tstep :=
  lazymatch goal with
  | |- total _ (mbind _ _) _ => eapply total_bind; [|intros ?; cbv beta]
  | |- total _ (mret _) _ => apply total_ret
  | |- total _ skip _ => apply total_ret
  | |- total _ (addProperty _ _ _ _ _ _ _ _ _ _ _) _ => apply st_addProperty; names_ok
  | |- total _ (addSetpointProperty _ _ _ _ _ _ _) _ =>
      unfold addSetpointProperty; apply st_addProperty; names_ok
  | |- total _ (update_property _ _) _ => apply st_update_property
  | |- total _ (read _) _ => apply st_read; cbn; member
  | |- total _ (modify _) _ => apply st_modify; intros ?; repeat split
  end.

(** A statement run for its effect on the state only: what it registered and
    allocated on top of the state is forgotten. *)
Lemma keeps_of {A} n0 pres refs pres' refs' (m : M A) :
  total (st n0 pres refs) m (fun _ => st n0 pres' refs') ->
  pres ⊆ pres' -> refs ⊆ refs' -> keeps n0 pres refs m.
Proof.
  intros Hm Hp Hr. eapply total_weaken; [exact Hm|auto|].
  intros ? n H. exact (st_weaken n0 pres' refs' pres refs n H Hp Hr).
Qed.

Lemma keeps_when {A} n0 pres refs (b : bool) (m : M A) :
  keeps n0 pres refs m -> keeps n0 pres refs (when b (m ;; skip)).
Proof. intros Hm. apply total_when. tstep; [exact Hm|tstep]. Qed.

Lemma keeps_setMinimum n0 pres refs r v : keeps n0 pres refs (setMinimum r v).
Proof. unfold setMinimum. repeat tstep. Qed.

Lemma keeps_setMaximum n0 pres refs r v : keeps n0 pres refs (setMaximum r v).
Proof. unfold setMaximum. repeat tstep. Qed.

Definition thermostat_refs (t : Thermostat) : list ref :=
  [deadbandProperty t; maxHeatTargetProperty t; minCoolTargetProperty t;
   heatTargetProperty t; coolTargetProperty t].

Lemma keeps_updateMaximum n0 pres refs t :
  thermostat_refs t ⊆ refs -> keeps n0 pres refs (updateMaximum t).
Proof.
  intros Ht. unfold updateMaximum.
  eapply total_bind; [apply st_read, Ht; unfold thermostat_refs; member|intros maxHeat; cbv beta].
  destruct (negb (hasOwnProperty_value maxHeat)); [tstep|].
  eapply total_bind; [apply st_read, Ht; unfold thermostat_refs; member|intros deadband; cbv beta].
  eapply total_bind;
    [apply st_read, Ht; unfold thermostat_refs; member|intros coolTarget; cbv beta].
  destruct (_ || _); [apply keeps_setMaximum|].
  destruct (_ || _); [tstep|apply keeps_setMaximum].
Qed.

Lemma keeps_updateMinimum n0 pres refs t :
  thermostat_refs t ⊆ refs -> keeps n0 pres refs (updateMinimum t).
Proof.
  intros Ht. unfold updateMinimum.
  eapply total_bind; [apply st_read, Ht; unfold thermostat_refs; member|intros minCool; cbv beta].
  destruct (negb (hasOwnProperty_value minCool)); [tstep|].
  eapply total_bind; [apply st_read, Ht; unfold thermostat_refs; member|intros deadband; cbv beta].
  eapply total_bind;
    [apply st_read, Ht; unfold thermostat_refs; member|intros heatTarget; cbv beta].
  destruct (_ || _); [apply keeps_setMinimum|].
  destruct (_ || _); [tstep|apply keeps_setMinimum].
Qed.

Lemma st_addSetpointProperty n0 pres refs name descr ep attr sa pa :
  other_name name ->
  total (st n0 pres refs) (addSetpointProperty K name descr ep attr sa pa)
    (fun r => st n0 (name :: pres) (r :: refs)).
Proof. intros H. unfold addSetpointProperty. apply st_addProperty, H. Qed.


(** The names [addThermostatProperties] always registers. *)
Definition thermostat_names : list string :=
  ["temperature"; "mode"; "runMode"; "_deadband"; "_absMaxHeatTarget";
   "_absMinHeatTarget"; "_maxHeatTarget"; "_minHeatTarget"; "heatTarget";
   "_absMaxCoolTarget"; "_absMinCoolTarget"; "_maxCoolTarget"; "_minCoolTarget";
   "coolTarget"; "hold"].

Lemma keeps_addProperty n0 pres refs name descr profileId endpoint clusterId attr sa pa
    cr dv :
  other_name name ->
  keeps n0 pres refs
    (addProperty K name descr profileId endpoint clusterId attr sa pa cr dv).
Proof.
  intros Hname.
  eapply total_weaken; [apply st_addProperty, Hname|intros n H; exact H|].
  intros r n H. eapply st_weaken; [exact H| |]; subset.
Qed.

Ltac thermostat_step :=
  lazymatch goal with
  | |- total _ (updateMaximum _) _ => apply keeps_updateMaximum; cbn; subset
  | |- total _ (updateMinimum _) _ => apply keeps_updateMinimum; cbn; subset
  | |- total _ (when _ (setMinimum _ _)) _ => apply total_when, keeps_setMinimum
  | |- total _ (when _ (setMaximum _ _)) _ => apply total_when, keeps_setMaximum
  | |- total _ (when _ (mbind _ (addProperty _ _ _ _ _ _ _ _ _ _ _))) ?Q =>
      tryif is_evar Q then apply keeps_when, keeps_addProperty; names_ok else fail
  | |- total _ (let _ := _ in _) _ => cbv zeta
  | |- total _ get ?Q => tryif is_evar Q then apply total_get_keep else fail
  | |- _ => tstep
  end.

Lemma st_addThermostatProperties n0 pres refs ep fan :
  total (st n0 pres refs) (addThermostatProperties K NM ep fan)
    (fun _ => st n0 (thermostat_names ++ pres) refs).
Proof.
  unfold addThermostatProperties.
  repeat thermostat_step.
  eapply total_weaken;
    [apply total_when|intros n H; exact H
    |intros ? n H; eapply st_weaken; [exact H| |]; unfold thermostat_names; subset].
  eapply total_bind; [apply keeps_addProperty; names_ok|intros fanModeSeq; cbv beta].
  eapply total_bind; [apply keeps_addProperty; names_ok|intros fanMode; cbv beta].
  apply st_update_property.
Qed.

Lemma total_when_false (P : Node -> Prop) (b : bool) (m : M unit) :
  b = false -> total P (when b m) (fun _ => P).
Proof. intros ->. apply total_ret. Qed.

Lemma st_alloc n0 pres refs p :
  total (st n0 pres refs) (alloc p) (fun r => st n0 pres (r :: refs)).
Proof.
  intros n (Ht & Ha & Hk & Hp & Hr). unfold wp, alloc, st.
  cbn [type atType properties heap set_heap].
  split; [exact Ht|]. split; [exact Ha|]. split; [exact Hk|]. split.
  - eapply Forall_impl; [exact Hp|]. intros k. unfold property_named.
    cbn [properties heap set_heap].
    destruct (properties n !! k) as [i|]; cbn [mbind option_bind]; [|auto].
    intros [q Hq]. rewrite lookup_app_l by (eapply lookup_lt_Some, Hq). eauto.
  - assert (E : length (heap n ++ [p]) = S (length (heap n))).
    { rewrite length_app. cbn. lia. }
    rewrite E. constructor; [lia|].
    eapply Forall_impl; [exact Hr|]. intros r. cbn beta. lia.
Qed.

Lemma st_set_properties n0 pres refs name r :
  other_name name -> r ∈ refs ->
  total (st n0 pres refs)
    (modify (fun node => set_properties (<[name := r]> (properties node)) node))
    (fun _ => st n0 pres refs).
Proof.
  intros [Hl Ho] Hin n (Ht & Ha & Hk & Hp & Hr). unfold wp, modify. cbn.
  repeat split; try assumption.
  - intros k Hk'. cbn. rewrite lookup_insert_ne; [apply Hk, Hk'|].
    destruct Hk' as [->| ->]; congruence.
  - eapply Forall_impl; [exact Hp|]. intros k. unfold property_named. cbn.
    destruct (decide (name = k)) as [->|Hne].
    + intros _. rewrite lookup_insert_eq. cbn. apply lookup_lt_is_Some_2.
      rewrite Forall_forall in Hr. apply Hr, Hin.
    + rewrite lookup_insert_ne by exact Hne. auto.
Qed.

Lemma keeps_addScaleProperty n0 pres refs name ep c attr dv :
  other_name name -> keeps n0 pres refs (addScaleProperty K name ep c attr dv).
Proof. intros H. unfold addScaleProperty. apply keeps_addProperty, H. Qed.

Ltac keep_step :=
  lazymatch goal with
  | |- total _ (addProperty _ _ _ _ _ _ _ _ _ _ _) _ => apply keeps_addProperty; names_ok
  | |- total _ (addScaleProperty _ _ _ _ _ _) _ => apply keeps_addScaleProperty; names_ok
  | |- total _ (when _ _) _ => apply total_when
  | |- total _ get ?Q => tryif is_evar Q then apply total_get_keep else fail
  | |- _ => tstep
  end.

Lemma keeps_addIlluminanceMeasurementProperty n0 pres refs ep :
  keeps n0 pres refs (addIlluminanceMeasurementProperty K ep).
Proof. unfold addIlluminanceMeasurementProperty. repeat keep_step. Qed.

Lemma keeps_addPowerCfgVoltageProperty n0 pres refs ep :
  keeps n0 pres refs (addPowerCfgVoltageProperty K NM ep).
Proof. unfold addPowerCfgVoltageProperty. repeat keep_step. Qed.

Lemma keeps_addLastSeenProperty n0 pres refs : keeps n0 pres refs addLastSeenProperty.
Proof.
  unfold addLastSeenProperty.
  eapply total_bind; [apply total_get_keep|intros node; cbv beta].
  apply total_when.
  eapply total_bind; [apply st_alloc|intros lastSeen; cbv beta].
  eapply total_weaken with (Q' := fun _ => st n0 pres (lastSeen :: refs));
    [|intros n H; exact H|intros ? n H; eapply st_weaken; [exact H| |]; subset].
  eapply total_bind; [apply st_set_properties; [names_ok|member]|intros ?; cbv beta].
  repeat tstep.
Qed.

(** The endpoint the node has for a cluster among its input clusters, as
    [classifyInternal] looks it up. *)
Definition finds (n : Node) (c : Cluster) : option Z :=
  findZhaEndpointWithInputClusterIdHex NM (activeEndpoints n) (CLUSTER_ID_HEX K c).

Lemma st_refl n : st n [] [] n.
Proof. repeat split; constructor. Qed.

(** What the thermostat rule and the post-processing leave behind. *)
Definition thermostat_classified (n n' : Node) : Prop :=
  type n' = Some "thermostat"
  /\ atType n' = Some ["Thermostat"]
  /\ Forall (fun k => is_Some (property_named n' k)) thermostat_names
  /\ properties n' !! "level" = properties n !! "level"
  /\ properties n' !! "on" = properties n !! "on".

Lemma classifyInternal_thermostat (n : Node) :
  zoneType n = None ->
  found (finds n OCCUPANCY_SENSOR) = false ->
  found (finds n SEMETERING) = false ->
  found (finds n HAELECTRICAL) = false ->
  found (finds n HVACTHERMOSTAT) = true ->
  wp (classifyInternal K NM) (fun _ n' => thermostat_classified n n') n.
Proof.
  unfold finds. intros Hzone Hocc Hse Hha Hthermo.
  unfold classifyInternal. apply wp_bind, wp_get. cbv zeta.
  unfold checkZhaLight. rewrite Hse, Hha. cbn [andb].
  apply wp_bind, wp_ret. apply wp_bind, wp_ret. apply wp_bind, wp_modify.
  rewrite Hzone, Hocc, Hthermo.
  replace (bool_decide (is_Some (@None Z))) with false by reflexivity.
  apply wp_bind. unfold initThermostat. apply wp_bind. unfold set_archetype.
  apply wp_bind, wp_modify, wp_modify.
  match goal with |- wp _ _ ?x => set (n2 := x) end.
  eapply wp_mono;
    [apply (st_addThermostatProperties n2 [] []), st_refl|cbv beta; intros ? n3 H3].
  rewrite app_nil_r in H3.
  assert (Hrest : forall m : M unit, keeps n2 thermostat_names [] m ->
                            wp m (fun _ n' => thermostat_classified n n') n3).
  { intros m Hm. eapply wp_mono; [apply Hm, H3|]. cbv beta.
    intros ? n' (Ht & Ha & Hk & Hp & _). unfold thermostat_classified.
    rewrite Ht, Ha, (Hk "level"), (Hk "on") by auto. subst n2. cbn. auto. }
  apply Hrest.
  eapply total_bind; [apply total_when_false; reflexivity|intros ?; cbv beta].
  eapply total_bind;
    [apply total_when, keeps_addIlluminanceMeasurementProperty|intros ?; cbv beta].
  eapply total_bind;
    [apply total_when, keeps_addPowerCfgVoltageProperty|intros ?; cbv beta].
  apply keeps_addLastSeenProperty.
Qed.

(** C1.  A node without a zone type and without an occupancy, metering or
    electrical-measurement endpoint, with a thermostat endpoint and a
    level-control endpoint, is classified as a thermostat: classification
    returns, the type is "thermostat", the properties of a thermostat are
    registered, and the level-control rule has not run (what the names "level"
    and "on" are registered to is what it was).  [classify] does the same for a
    node that is not the coordinator. *)
Theorem thermostat_rule_wins (n : Node) :
  zoneType n = None ->
  found (finds n OCCUPANCY_SENSOR) = false ->
  found (finds n SEMETERING) = false ->
  found (finds n HAELECTRICAL) = false ->
  found (finds n HVACTHERMOSTAT) = true ->
  found (finds n GENLEVELCTRL) = true ->
  (exists n', classifyInternal K NM n = Ok (tt, n') /\ thermostat_classified n n')
  /\ (isCoordinator n = false ->
      exists n', classify K NM n = Ok (tt, n') /\ thermostat_classified n n').
Proof.
  intros Hzone Hocc Hse Hha Hthermo _. split.
  - pose proof (classifyInternal_thermostat n Hzone Hocc Hse Hha Hthermo) as H.
    apply wp_returns in H as ([] & n' & E & H). eauto.
  - intros Hc.
    assert (H : wp (classify K NM) (fun _ n' => thermostat_classified n n') n).
    { unfold classify. apply wp_bind, wp_get. rewrite Hc.
      apply wp_bind.
      set (n1 := if negb (bool_decide (is_Some (atType n)))
                 then set_atType (Some []) n else n).
      assert (E : wp (when (negb (bool_decide (is_Some (atType n))))
                        (modify (set_atType (Some []))))
                    (fun _ n' => n' = n1) n).
      { subst n1. destruct (negb _); reflexivity. }
      eapply wp_mono; [exact E|]. cbv beta. intros ? ? ->.
      assert (H1 : wp (classifyInternal K NM)
                     (fun _ n' => thermostat_classified n1 n') n1).
      { apply classifyInternal_thermostat; unfold finds in *; subst n1;
          destruct (negb _); assumption. }
      apply wp_bind. eapply wp_mono; [exact H1|]. cbv beta.
      intros ? n2 (Ht & Ha & Hp & Hl & Ho).
      apply wp_bind, wp_modify, wp_modify.
      assert (Ep : properties n1 = properties n) by (subst n1; destruct (negb _); reflexivity).
      rewrite Ep in Hl, Ho.
      unfold thermostat_classified.
      destruct (node_name _) as [nm|]; [destruct (nm =? "")%string|]; cbn;
        repeat split; assumption. }
    apply wp_returns in H as ([] & n' & E & H). eauto.
Qed.

(** *** What a button function registers *)

(** The object a button function leaves under the name [nm]: no attribute
    path, the description and the cluster it handed to [addProperty], no
    report configuration, and the bind flag it assigned. *)
Definition made (d : object) (c : Cluster) (b : bool) (p : Property) : Prop :=
  attr p = "" /\ descr p = d /\ clusterId p = cluster K c
  /\ bindNeeded p = b /\ configReportNeeded p = false.

Lemma button_cell nm (p : Property) (g f : Property -> Property) n :
  let r := length (heap n) in
  let n0 := register nm p n in
  let n1 := set_heap (alter g r (heap n0)) n0 in
  property_named (set_heap (alter f r (heap n1)) n1) nm = Some (f (g p)).
Proof.
  cbv zeta. unfold property_named, register.
  cbn [heap properties set_heap set_properties].
  rewrite lookup_insert_eq. cbn [mbind option_bind]. rewrite !alter_last.
  rewrite lookup_app_r by reflexivity. rewrite Nat.sub_diag. reflexivity.
Qed.

Lemma made_button {A} nm d ep c (b : bool) f (k : ref -> M A) Q n :
  (forall p, same_binding (f p) p) ->
  (forall n' p, property_named n' nm = Some p -> made d c b p ->
                wp (k (length (heap n))) Q n') ->
  wp (property ← addProperty K nm d (ZHA K) ep (cluster K c) "" "" "" None
                   VUndefined;
      update_property property (set_bindNeeded b) ;;
      update_property property f ;;
      k property) Q n.
Proof.
  intros Hf Hk. apply wp_bind. unfold wp at 1. rewrite addProperty_run.
  pose proof (unbound_new n nm d (ZHA K) ep (cluster K c) "" "" None VUndefined)
    as (Ha & Hc & Hd & Hcl).
  revert Ha Hc Hd Hcl.
  generalize (new_property n nm d (ZHA K) ep (cluster K c) "" "" "" None VUndefined).
  intros p Ha Hc Hd Hcl.
  apply wp_bind, wp_modify, wp_bind, wp_modify.
  apply (Hk _ (f (set_bindNeeded b p))); [apply button_cell|].
  unfold made.
  destruct (Hf (set_bindNeeded b p)) as (_ & -> & -> & -> & -> & ->).
  cbn. auto.
Qed.

Lemma made_shaped d c p :
  member d "readOnly" = Some (VBool true) -> c = GENONOFF \/ c = GENLEVELCTRL ->
  made d c true p ->
  button_shaped p /\ bindNeeded p = true /\ configReportNeeded p = false.
Proof.
  intros Hro Hc (Ha & Hd & Hcl & Hb & Hr). unfold button_shaped, read_only.
  rewrite Hd, Hcl. repeat split; try assumption. destruct Hc as [->| ->]; auto.
Qed.

Lemma addButtonOnProperty_made ep suffix n :
  exists r n' p,
    addButtonOnProperty K ep suffix n = Ok (r, n')
    /\ property_named n' ("on" +:+ suffix) = Some p
    /\ button_shaped p /\ bindNeeded p = true /\ configReportNeeded p = false.
Proof.
  enough (H : wp (addButtonOnProperty K ep suffix)
                (fun _ n' => exists p,
                     property_named n' ("on" +:+ suffix) = Some p
                     /\ button_shaped p /\ bindNeeded p = true
                     /\ configReportNeeded p = false) n)
    by (destruct (proj1 (wp_returns _ _ _) H) as (r & n' & E & p & Hp); eauto).
  apply made_button; [apply default_value_same|]. intros n' p Hp Hm.
  apply wp_bind, wp_modify, wp_ret. exists p. split.
  - destruct (onOffProperty n'); exact Hp.
  - refine (made_shaped _ _ p _ _ Hm); [reflexivity|left; reflexivity].
Qed.

Lemma addButtonLevelProperty_made ep suffix n :
  exists r n' p,
    addButtonLevelProperty K ep suffix n = Ok (r, n')
    /\ property_named n' ("level" +:+ suffix) = Some p
    /\ button_shaped p /\ bindNeeded p = true /\ configReportNeeded p = false.
Proof.
  enough (H : wp (addButtonLevelProperty K ep suffix)
                (fun _ n' => exists p,
                     property_named n' ("level" +:+ suffix) = Some p
                     /\ button_shaped p /\ bindNeeded p = true
                     /\ configReportNeeded p = false) n)
    by (destruct (proj1 (wp_returns _ _ _) H) as (r & n' & E & p & Hp); eauto).
  apply made_button; [apply default_value_same|]. intros n' p Hp Hm.
  apply wp_ret. exists p. split; [exact Hp|].
  refine (made_shaped _ _ p _ _ Hm); [reflexivity|right; reflexivity].
Qed.

Lemma addButtonMotionProperty_made ep suffix n :
  exists r n' p,
    addButtonMotionProperty K ep suffix n = Ok (r, n')
    /\ property_named n' ("motion" +:+ suffix) = Some p
    /\ button_shaped p /\ bindNeeded p = true /\ configReportNeeded p = false.
Proof.
  enough (H : wp (addButtonMotionProperty K ep suffix)
                (fun _ n' => exists p,
                     property_named n' ("motion" +:+ suffix) = Some p
                     /\ button_shaped p /\ bindNeeded p = true
                     /\ configReportNeeded p = false) n)
    by (destruct (proj1 (wp_returns _ _ _) H) as (r & n' & E & p & Hp); eauto).
  apply made_button; [apply default_value_same|]. intros n' p Hp Hm.
  apply wp_ret. exists p. split; [exact Hp|].
  refine (made_shaped _ _ p _ _ Hm); [reflexivity|left; reflexivity].
Qed.

Lemma addButtonSceneProperty_made ep n :
  exists r n' p,
    addButtonSceneProperty K ep n = Ok (r, n')
    /\ property_named n' "scene" = Some p
    /\ attr p = "" /\ clusterId p = cluster K GENSCENES /\ ~ button_shaped p
    /\ bindNeeded p = false /\ configReportNeeded p = false.
Proof.
  enough (H : wp (addButtonSceneProperty K ep)
                (fun _ n' => exists p,
                     property_named n' "scene" = Some p
                     /\ attr p = "" /\ clusterId p = cluster K GENSCENES
                     /\ ~ button_shaped p
                     /\ bindNeeded p = false /\ configReportNeeded p = false) n)
    by (destruct (proj1 (wp_returns _ _ _) H) as (r & n' & E & p & Hp); eauto).
  apply made_button; [apply default_number_same|]. intros n' p Hp Hm.
  apply wp_ret. exists p. split; [exact Hp|].
  destruct Hm as (Ha & Hd & Hcl & Hb & Hr).
  split; [exact Ha|]. split; [exact Hcl|]. split; [|split; assumption].
  intros (_ & _ & [E|E]); rewrite Hcl in E;
    (eapply cluster_distinct; [|exact E]); discriminate.
Qed.

(** C6, amended.  A property is shaped like a button when it has no attribute
    path, a read-only description and the on/off or the level-control
    cluster.  Of every property registered on the node when classification
    has returned: without an attribute path it requests no report
    configuration; shaped like a button it is bound and requests no report
    configuration; otherwise its bind flag is its report flag.  Whatever the
    node, [addButtonOnProperty], [addButtonLevelProperty] and
    [addButtonMotionProperty] return and register, under the name they build,
    a property shaped like a button, bound and without a report configuration;
    [addButtonSceneProperty] returns and registers "scene" on the scenes
    cluster, not shaped like a button, with both flags false. *)
Theorem bind_flag_rule :
  (forall n n' : Node,
      heap_inv bind_rule n ->
      classify K NM n = Ok (tt, n') ->
      forall name p, property_named n' name = Some p ->
        (attr p = "" -> configReportNeeded p = false)
        /\ (button_shaped p -> bindNeeded p = true /\ configReportNeeded p = false)
        /\ (~ button_shaped p -> bindNeeded p = configReportNeeded p))
  /\ (forall ep suffix n, exists r n' p,
         addButtonOnProperty K ep suffix n = Ok (r, n')
         /\ property_named n' ("on" +:+ suffix) = Some p
         /\ button_shaped p /\ bindNeeded p = true /\ configReportNeeded p = false)
  /\ (forall ep suffix n, exists r n' p,
         addButtonLevelProperty K ep suffix n = Ok (r, n')
         /\ property_named n' ("level" +:+ suffix) = Some p
         /\ button_shaped p /\ bindNeeded p = true /\ configReportNeeded p = false)
  /\ (forall ep suffix n, exists r n' p,
         addButtonMotionProperty K ep suffix n = Ok (r, n')
         /\ property_named n' ("motion" +:+ suffix) = Some p
         /\ button_shaped p /\ bindNeeded p = true /\ configReportNeeded p = false)
  /\ (forall ep n, exists r n' p,
         addButtonSceneProperty K ep n = Ok (r, n')
         /\ property_named n' "scene" = Some p
         /\ attr p = "" /\ clusterId p = cluster K GENSCENES /\ ~ button_shaped p
         /\ bindNeeded p = false /\ configReportNeeded p = false).
Proof.
  split; [|split; [exact addButtonOnProperty_made|
           split; [exact addButtonLevelProperty_made|
           split; [exact addButtonMotionProperty_made|
                   exact addButtonSceneProperty_made]]]].
  intros n n' Hn Hrun name p Hp.
  pose proof (bound_classify n Hn) as H. unfold wlp in H. rewrite Hrun in H.
  unfold property_named in Hp.
  destruct (properties n' !! name) as [r|]; [|discriminate]. cbn in Hp.
  unfold heap_inv in H. rewrite Forall_lookup in H.
  destruct (H r p Hp) as (H1 & H2 & H3).
  split; [exact H1|]. split; [|exact H3].
  intros Hs. split; [exact (H2 Hs)|]. apply H1. destruct Hs as [Ha _]. exact Ha.
Qed.

(** The second disjunct of the battery test reads bit 0 of the power source,
    not bit 7. *)
Lemma powerSource_backup_test_bit_0 (n : Node) :
  powerSource_backup_test n = Z.testbit (int32_of (powerSource n)) 0.
Proof.
  unfold powerSource_backup_test. cbn [Z.eqb negb int32_of_bool].
  rewrite Z.bit0_odd. change 1 with (Z.ones 1). rewrite Z.land_ones by lia.
  change (2 ^ 1) with 2. rewrite Zmod_odd.
  destruct (Z.odd (int32_of (powerSource n))); reflexivity.
Qed.

End Factory.

(** ** The thermostat constraint hooks (C3, C4) *)

(** A member of the object behind a reference: [None] when the reference is
    not a cell of the heap. *)
Definition at_ {A} (f : Property -> A) (n : Node) (r : ref) : option A :=
  f <$> heap n !! r.

(** The property behind [r] has the cached value [v]; it has none. *)
Definition known (n : Node) (r : ref) (v : value) : Prop := at_ p_value n r = Some (Some v).
Definition unknown (n : Node) (r : ref) : Prop := at_ p_value n r = Some None.
Definition valid (n : Node) (r : ref) : Prop := (r < length (heap n))%nat.

Lemma valid_at {A} (f : Property -> A) n r x : at_ f n r = Some x -> valid n r.
Proof.
  unfold at_, valid. destruct (heap n !! r) eqn:E; [|discriminate].
  intros _. eapply lookup_lt_Some, E.
Qed.

Lemma read_at n r p : heap n !! r = Some p -> read r n = Ok (p, n).
Proof. intros H. unfold read. rewrite H. reflexivity. Qed.

Lemma run_bind {A B} (m : M A) (k : A -> M B) n a n' :
  m n = Ok (a, n') -> (m ≫= k) n = k a n'.
Proof. intros H. unfold mbind, M_bind. rewrite H. reflexivity. Qed.

(** The node after [setMaximum] and after [setMinimum]. *)
Definition with_bound (b : Bound) (r : ref) (v : value) (n : Node) : Node :=
  set_published ((r, b, v) :: published n)
    (set_notifications (S (notifications n))
       (set_heap (alter (match b with
                         | Maximum => set_maximum (Some v)
                         | Minimum => set_minimum (Some v)
                         end) r (heap n)) n)).

Lemma setMaximum_run r v n : setMaximum r v n = Ok (tt, with_bound Maximum r v n).
Proof. reflexivity. Qed.

Lemma setMinimum_run r v n : setMinimum r v n = Ok (tt, with_bound Minimum r v n).
Proof. reflexivity. Qed.

Lemma with_bound_value b r v n r' : at_ p_value (with_bound b r v n) r' = at_ p_value n r'.
Proof.
  unfold at_, with_bound. cbn. rewrite list_lookup_alter.
  destruct (decide (r = r')) as [->|]; [|reflexivity].
  destruct (heap n !! r'), b; reflexivity.
Qed.

Lemma with_bound_updated b r v n r' : at_ updated (with_bound b r v n) r' = at_ updated n r'.
Proof.
  unfold at_, with_bound. cbn. rewrite list_lookup_alter.
  destruct (decide (r = r')) as [->|]; [|reflexivity].
  destruct (heap n !! r'), b; reflexivity.
Qed.

Lemma with_bound_valid b r v n r' : valid (with_bound b r v n) r' <-> valid n r'.
Proof. unfold valid, with_bound. cbn. rewrite length_alter. reflexivity. Qed.

Lemma with_maximum_maximum r v n :
  valid n r -> at_ maximum (with_bound Maximum r v n) r = Some (Some v).
Proof.
  intros Hr. unfold at_, with_bound. cbn. rewrite list_lookup_alter_eq.
  destruct (lookup_lt_is_Some_2 _ _ Hr) as [p ->]. reflexivity.
Qed.

Lemma with_minimum_minimum r v n :
  valid n r -> at_ minimum (with_bound Minimum r v n) r = Some (Some v).
Proof.
  intros Hr. unfold at_, with_bound. cbn. rewrite list_lookup_alter_eq.
  destruct (lookup_lt_is_Some_2 _ _ Hr) as [p ->]. reflexivity.
Qed.

Lemma with_minimum_maximum r v n r' :
  at_ maximum (with_bound Minimum r v n) r' = at_ maximum n r'.
Proof.
  unfold at_, with_bound. cbn. rewrite list_lookup_alter.
  destruct (decide (r = r')) as [->|]; [|reflexivity].
  destruct (heap n !! r'); reflexivity.
Qed.

Lemma with_maximum_minimum r v n r' :
  at_ minimum (with_bound Maximum r v n) r' = at_ minimum n r'.
Proof.
  unfold at_, with_bound. cbn. rewrite list_lookup_alter.
  destruct (decide (r = r')) as [->|]; [|reflexivity].
  destruct (heap n !! r'); reflexivity.
Qed.

Section ConstraintGraph.

Variable t : Thermostat.

Lemma updateMaximum_cells n mh db ct :
  heap n !! maxHeatTargetProperty t = Some mh ->
  heap n !! deadbandProperty t = Some db ->
  heap n !! coolTargetProperty t = Some ct ->
  updateMaximum t n
  = (if negb (hasOwnProperty_value mh) then skip
     else if (negb (hasOwnProperty_value db) && negb (hasOwnProperty_value ct))
             || (strict_eqb (value_of db) VNull && strict_eqb (value_of ct) VNull)
     then setMaximum (heatTargetProperty t) (value_of mh)
     else if negb (hasOwnProperty_value db) || negb (hasOwnProperty_value ct)
     then skip
     else setMaximum (heatTargetProperty t)
            (VNum (Math_min (to_number (value_of mh))
                     (sub (to_number (value_of ct)) (to_number (value_of db)))))) n.
Proof.
  intros Hmh Hdb Hct. unfold updateMaximum.
  rewrite (run_bind _ _ _ _ _ (read_at _ _ _ Hmh)).
  destruct (negb (hasOwnProperty_value mh)); [reflexivity|].
  rewrite (run_bind _ _ _ _ _ (read_at _ _ _ Hdb)).
  rewrite (run_bind _ _ _ _ _ (read_at _ _ _ Hct)). reflexivity.
Qed.

Lemma updateMinimum_cells n mc db ht :
  heap n !! minCoolTargetProperty t = Some mc ->
  heap n !! deadbandProperty t = Some db ->
  heap n !! heatTargetProperty t = Some ht ->
  updateMinimum t n
  = (if negb (hasOwnProperty_value mc) then skip
     else if (negb (hasOwnProperty_value db) && negb (hasOwnProperty_value ht))
             || (strict_eqb (value_of db) VNull && strict_eqb (value_of ht) VNull)
     then setMinimum (coolTargetProperty t) (value_of mc)
     else if negb (hasOwnProperty_value db) || negb (hasOwnProperty_value ht)
     then skip
     else setMinimum (coolTargetProperty t)
            (VNum (Math_max (to_number (value_of mc))
                     (add (to_number (value_of ht)) (to_number (value_of db)))))) n.
Proof.
  intros Hmc Hdb Hht. unfold updateMinimum.
  rewrite (run_bind _ _ _ _ _ (read_at _ _ _ Hmc)).
  destruct (negb (hasOwnProperty_value mc)); [reflexivity|].
  rewrite (run_bind _ _ _ _ _ (read_at _ _ _ Hdb)).
  rewrite (run_bind _ _ _ _ _ (read_at _ _ _ Hht)). reflexivity.
Qed.

(** From the cached value of a cell to the cell. *)
Lemma at_value_cell n r o :
  at_ p_value n r = Some o -> exists p, heap n !! r = Some p /\ p_value p = o.
Proof.
  unfold at_. destruct (heap n !! r) as [p|]; [|discriminate].
  intros [= <-]. eauto.
Qed.

Ltac cells :=
  repeat match goal with
         | H : known _ _ _ |- _ => apply at_value_cell in H as (? & ? & ?)
         | H : unknown _ _ |- _ => apply at_value_cell in H as (? & ? & ?)
         | H : at_ p_value _ _ = Some _ |- _ => apply at_value_cell in H as (? & ? & ?)
         end.

Ltac by_cells lemma :=
  cells; erewrite lemma by eassumption;
  unfold hasOwnProperty_value, value_of;
  repeat match goal with H : p_value _ = _ |- _ => rewrite H; clear H end;
  try reflexivity.

(** The recomputation of the heat target's maximum, case by case. *)
Lemma updateMaximum_no_limit n :
  unknown n (maxHeatTargetProperty t) -> updateMaximum t n = Ok (tt, n).
Proof.
  intros H. cells. unfold updateMaximum.
  erewrite run_bind by (apply read_at; eassumption).
  unfold hasOwnProperty_value.
  repeat match goal with H : p_value _ = _ |- _ => rewrite H; clear H end.
  reflexivity.
Qed.

Lemma updateMaximum_no_deadband n lim c :
  known n (maxHeatTargetProperty t) lim ->
  unknown n (deadbandProperty t) ->
  known n (coolTargetProperty t) c ->
  updateMaximum t n = Ok (tt, n).
Proof. intros. by_cells updateMaximum_cells. Qed.

Lemma updateMaximum_no_target n lim d :
  known n (maxHeatTargetProperty t) lim ->
  known n (deadbandProperty t) d ->
  unknown n (coolTargetProperty t) ->
  updateMaximum t n = Ok (tt, n).
Proof.
  intros. by_cells updateMaximum_cells. cbn. rewrite andb_false_r. reflexivity.
Qed.

Lemma updateMaximum_heat_only n lim :
  known n (maxHeatTargetProperty t) lim ->
  unknown n (deadbandProperty t) ->
  unknown n (coolTargetProperty t) ->
  updateMaximum t n = Ok (tt, with_bound Maximum (heatTargetProperty t) lim n).
Proof. intros. by_cells updateMaximum_cells. Qed.

Lemma updateMaximum_known n a c d :
  known n (maxHeatTargetProperty t) (VNum a) ->
  known n (deadbandProperty t) (VNum d) ->
  known n (coolTargetProperty t) (VNum c) ->
  updateMaximum t n
  = Ok (tt, with_bound Maximum (heatTargetProperty t) (VNum (Math_min a (sub c d))) n).
Proof. intros. by_cells updateMaximum_cells. Qed.

(** The recomputation of the cool target's minimum, case by case. *)
Lemma updateMinimum_no_limit n :
  unknown n (minCoolTargetProperty t) -> updateMinimum t n = Ok (tt, n).
Proof.
  intros H. cells. unfold updateMinimum.
  erewrite run_bind by (apply read_at; eassumption).
  unfold hasOwnProperty_value.
  repeat match goal with H : p_value _ = _ |- _ => rewrite H; clear H end.
  reflexivity.
Qed.

Lemma updateMinimum_no_deadband n lim h :
  known n (minCoolTargetProperty t) lim ->
  unknown n (deadbandProperty t) ->
  known n (heatTargetProperty t) h ->
  updateMinimum t n = Ok (tt, n).
Proof. intros. by_cells updateMinimum_cells. Qed.

Lemma updateMinimum_no_target n lim d :
  known n (minCoolTargetProperty t) lim ->
  known n (deadbandProperty t) d ->
  unknown n (heatTargetProperty t) ->
  updateMinimum t n = Ok (tt, n).
Proof.
  intros. by_cells updateMinimum_cells. cbn. rewrite andb_false_r. reflexivity.
Qed.

Lemma updateMinimum_cool_only n lim :
  known n (minCoolTargetProperty t) lim ->
  unknown n (deadbandProperty t) ->
  unknown n (heatTargetProperty t) ->
  updateMinimum t n = Ok (tt, with_bound Minimum (coolTargetProperty t) lim n).
Proof. intros. by_cells updateMinimum_cells. Qed.

Lemma updateMinimum_known n a h d :
  known n (minCoolTargetProperty t) (VNum a) ->
  known n (deadbandProperty t) (VNum d) ->
  known n (heatTargetProperty t) (VNum h) ->
  updateMinimum t n
  = Ok (tt, with_bound Minimum (coolTargetProperty t) (VNum (Math_max a (add h d))) n).
Proof. intros. by_cells updateMinimum_cells. Qed.

(** Both absent from the device ([null]): the limit is published as it is. *)
Lemma updateMaximum_null n lim :
  known n (maxHeatTargetProperty t) lim ->
  known n (deadbandProperty t) VNull ->
  known n (coolTargetProperty t) VNull ->
  updateMaximum t n = Ok (tt, with_bound Maximum (heatTargetProperty t) lim n).
Proof. intros. by_cells updateMaximum_cells. Qed.

Lemma updateMinimum_null n lim :
  known n (minCoolTargetProperty t) lim ->
  known n (deadbandProperty t) VNull ->
  known n (heatTargetProperty t) VNull ->
  updateMinimum t n = Ok (tt, with_bound Minimum (coolTargetProperty t) lim n).
Proof. intros. by_cells updateMinimum_cells. Qed.

(** Whatever is known, a recomputation returns, and it touches at most the
    bound it is about. *)
Lemma updateMaximum_frame n :
  valid n (maxHeatTargetProperty t) -> valid n (deadbandProperty t) ->
  valid n (coolTargetProperty t) ->
  exists n', updateMaximum t n = Ok (tt, n')
             /\ (n' = n \/ exists v, n' = with_bound Maximum (heatTargetProperty t) v n).
Proof.
  intros H1 H2 H3.
  destruct (lookup_lt_is_Some_2 _ _ H1) as [mh Hmh].
  destruct (lookup_lt_is_Some_2 _ _ H2) as [db Hdb].
  destruct (lookup_lt_is_Some_2 _ _ H3) as [ct Hct].
  rewrite (updateMaximum_cells n mh db ct Hmh Hdb Hct).
  repeat match goal with |- context [if ?b then _ else _] => destruct b end;
    eexists; (split; [reflexivity|]); eauto.
Qed.

Lemma updateMinimum_frame n :
  valid n (minCoolTargetProperty t) -> valid n (deadbandProperty t) ->
  valid n (heatTargetProperty t) ->
  exists n', updateMinimum t n = Ok (tt, n')
             /\ (n' = n \/ exists v, n' = with_bound Minimum (coolTargetProperty t) v n).
Proof.
  intros H1 H2 H3.
  destruct (lookup_lt_is_Some_2 _ _ H1) as [mc Hmc].
  destruct (lookup_lt_is_Some_2 _ _ H2) as [db Hdb].
  destruct (lookup_lt_is_Some_2 _ _ H3) as [ht Hht].
  rewrite (updateMinimum_cells n mc db ht Hmc Hdb Hht).
  repeat match goal with |- context [if ?b then _ else _] => destruct b end;
    eexists; (split; [reflexivity|]); eauto.
Qed.

End ConstraintGraph.

(** *** Updates

    The node after the update routine has stored a reported value. *)
Definition received (r : ref) (v : value) (n : Node) : Node :=
  set_heap (alter (set_p_value (Some v)) r (heap n)) n.

Lemma received_known r v n : valid n r -> known (received r v n) r v.
Proof.
  intros Hr. unfold known, at_, received. cbn. rewrite list_lookup_alter_eq.
  destruct (lookup_lt_is_Some_2 _ _ Hr) as [p ->]. reflexivity.
Qed.

Lemma received_value r v n r' :
  r <> r' -> at_ p_value (received r v n) r' = at_ p_value n r'.
Proof.
  intros Hne. unfold at_, received. cbn. rewrite list_lookup_alter_ne by exact Hne.
  reflexivity.
Qed.

Lemma received_updated r v n r' : at_ updated (received r v n) r' = at_ updated n r'.
Proof.
  unfold at_, received. cbn. rewrite list_lookup_alter.
  destruct (decide (r = r')) as [->|]; [|reflexivity].
  destruct (heap n !! r'); reflexivity.
Qed.

Lemma received_valid r v n r' : valid (received r v n) r' <-> valid n r'.
Proof. unfold valid, received. cbn. rewrite length_alter. reflexivity. Qed.

Lemma received_published r v n : published (received r v n) = published n.
Proof. reflexivity. Qed.

(** The update routine stores the value and runs the hook of the property. *)
Lemma update_run r v n o :
  at_ updated n r = Some o ->
  update r v n = match o with
                 | Some h => run_hook h r (received r v n)
                 | None => Ok (tt, received r v n)
                 end.
Proof.
  unfold at_. destruct (heap n !! r) as [p|] eqn:Hp; [|discriminate].
  intros [= <-]. unfold update.
  rewrite (run_bind _ _ n tt (received r v n)) by reflexivity.
  assert (Hread : heap (received r v n) !! r = Some (set_p_value (Some v) p)).
  { unfold received. cbn. rewrite list_lookup_alter_eq, Hp. reflexivity. }
  rewrite (run_bind _ _ _ _ _ (read_at _ _ _ Hread)).
  replace (updated (set_p_value (Some v) p)) with (updated p) by (destruct p; reflexivity).
  destruct (updated p); reflexivity.
Qed.


Section Propagation.

Variable t : Thermostat.

(** What [addThermostatProperties] leaves behind, as far as the constraint
    hooks go: five objects, each with the closure the classifier assigns to
    its [updated] member. *)
Record wired (n : Node) : Prop := {
  wired_deadband :
    at_ updated n (deadbandProperty t) = Some (Some (deadbandProperty_updated t));
  wired_maxHeat :
    at_ updated n (maxHeatTargetProperty t) = Some (Some (maxHeatTargetProperty_updated t));
  wired_heat :
    at_ updated n (heatTargetProperty t) = Some (Some (heatTargetProperty_updated t));
  wired_minCool :
    at_ updated n (minCoolTargetProperty t) = Some (Some (minCoolTargetProperty_updated t));
  wired_cool :
    at_ updated n (coolTargetProperty t) = Some (Some (coolTargetProperty_updated t));
  wired_distinct :
    NoDup [deadbandProperty t; maxHeatTargetProperty t; heatTargetProperty t;
           minCoolTargetProperty t; coolTargetProperty t]
}.

Lemma wired_with_bound b r v n : wired n -> wired (with_bound b r v n).
Proof. intros []. split; rewrite ?with_bound_updated; assumption. Qed.

Lemma wired_received r v n : wired n -> wired (received r v n).
Proof. intros []. split; rewrite ?received_updated; assumption. Qed.

Lemma wired_ne n :
  wired n ->
  heatTargetProperty t <> minCoolTargetProperty t
  /\ heatTargetProperty t <> deadbandProperty t
  /\ coolTargetProperty t <> maxHeatTargetProperty t
  /\ coolTargetProperty t <> deadbandProperty t
  /\ deadbandProperty t <> maxHeatTargetProperty t
  /\ deadbandProperty t <> minCoolTargetProperty t.
Proof.
  intros [_ _ _ _ _ ND]. rewrite !NoDup_cons, !not_elem_of_cons in ND.
  intuition congruence.
Qed.

Lemma wired_valid n :
  wired n ->
  valid n (deadbandProperty t) /\ valid n (maxHeatTargetProperty t)
  /\ valid n (heatTargetProperty t) /\ valid n (minCoolTargetProperty t)
  /\ valid n (coolTargetProperty t).
Proof. intros []. repeat split; eapply valid_at; eassumption. Qed.

(** The hooks of the two targets. *)
Lemma heatTarget_hook n h :
  known n (heatTargetProperty t) h ->
  run_hook (heatTargetProperty_updated t) (heatTargetProperty t) n
  = updateMinimum t (with_bound Maximum (minHeatTargetProperty t) h
                       (with_bound Minimum (maxHeatTargetProperty t) h n)).
Proof.
  intros Hh. destruct (at_value_cell _ _ _ Hh) as (p & Hp & Hv). unfold run_hook.
  rewrite (run_bind _ _ _ _ _ (read_at _ _ _ Hp)). unfold value_of. rewrite Hv. cbn [default].
  rewrite (run_bind _ _ _ _ _ (setMinimum_run _ _ _)).
  rewrite (run_bind _ _ _ _ _ (setMaximum_run _ _ _)). reflexivity.
Qed.

Lemma coolTarget_hook n c :
  known n (coolTargetProperty t) c ->
  run_hook (coolTargetProperty_updated t) (coolTargetProperty t) n
  = updateMaximum t (with_bound Maximum (minCoolTargetProperty t) c
                       (with_bound Minimum (maxCoolTargetProperty t) c n)).
Proof.
  intros Hc. destruct (at_value_cell _ _ _ Hc) as (p & Hp & Hv). unfold run_hook.
  rewrite (run_bind _ _ _ _ _ (read_at _ _ _ Hp)). unfold value_of. rewrite Hv. cbn [default].
  rewrite (run_bind _ _ _ _ _ (setMinimum_run _ _ _)).
  rewrite (run_bind _ _ _ _ _ (setMaximum_run _ _ _)). reflexivity.
Qed.

(** An update of the heat target recomputes the minimum of the cool target. *)
Lemma update_heatTarget n m d h :
  wired n ->
  known n (minCoolTargetProperty t) (VNum m) ->
  known n (deadbandProperty t) (VNum d) ->
  update (heatTargetProperty t) (VNum h) n
  = Ok (tt, with_bound Minimum (coolTargetProperty t) (VNum (Math_max m (add h d)))
              (with_bound Maximum (minHeatTargetProperty t) (VNum h)
                 (with_bound Minimum (maxHeatTargetProperty t) (VNum h)
                    (received (heatTargetProperty t) (VNum h) n)))).
Proof.
  intros W Hm Hd.
  destruct (wired_ne n W) as (? & ? & _), (wired_valid n W) as (_ & _ & Hv & _).
  pose proof (received_known _ (VNum h) n Hv) as Hh.
  rewrite (update_run _ _ _ _ (wired_heat n W)), (heatTarget_hook _ _ Hh).
  apply updateMinimum_known; unfold known; rewrite !with_bound_value;
    [rewrite received_value by assumption; exact Hm
    |rewrite received_value by assumption; exact Hd
    |exact Hh].
Qed.

(** An update of the cool target recomputes the maximum of the heat target. *)
Lemma update_coolTarget n a d c :
  wired n ->
  known n (maxHeatTargetProperty t) (VNum a) ->
  known n (deadbandProperty t) (VNum d) ->
  update (coolTargetProperty t) (VNum c) n
  = Ok (tt, with_bound Maximum (heatTargetProperty t) (VNum (Math_min a (sub c d)))
              (with_bound Maximum (minCoolTargetProperty t) (VNum c)
                 (with_bound Minimum (maxCoolTargetProperty t) (VNum c)
                    (received (coolTargetProperty t) (VNum c) n)))).
Proof.
  intros W Ha Hd.
  destruct (wired_ne n W) as (_ & _ & ? & ? & _), (wired_valid n W) as (_ & _ & _ & _ & Hv).
  pose proof (received_known _ (VNum c) n Hv) as Hc.
  rewrite (update_run _ _ _ _ (wired_cool n W)), (coolTarget_hook _ _ Hc).
  apply updateMaximum_known; unfold known; rewrite !with_bound_value;
    [rewrite received_value by assumption; exact Ha
    |rewrite received_value by assumption; exact Hd
    |exact Hc].
Qed.

(** An update of a user limit recomputes the bound it limits. *)
Lemma update_maxHeatTarget n a c d :
  wired n ->
  known n (coolTargetProperty t) (VNum c) ->
  known n (deadbandProperty t) (VNum d) ->
  update (maxHeatTargetProperty t) (VNum a) n
  = Ok (tt, with_bound Maximum (heatTargetProperty t) (VNum (Math_min a (sub c d)))
              (received (maxHeatTargetProperty t) (VNum a) n)).
Proof.
  intros W Hc Hd.
  destruct (wired_ne n W) as (_ & _ & ? & _ & ? & _), (wired_valid n W) as (_ & Hv & _).
  rewrite (update_run _ _ _ _ (wired_maxHeat n W)). unfold run_hook.
  apply updateMaximum_known; unfold known;
    [apply received_known, Hv
    |rewrite received_value by congruence; exact Hd
    |rewrite received_value by congruence; exact Hc].
Qed.

Lemma update_minCoolTarget n m h d :
  wired n ->
  known n (heatTargetProperty t) (VNum h) ->
  known n (deadbandProperty t) (VNum d) ->
  update (minCoolTargetProperty t) (VNum m) n
  = Ok (tt, with_bound Minimum (coolTargetProperty t) (VNum (Math_max m (add h d)))
              (received (minCoolTargetProperty t) (VNum m) n)).
Proof.
  intros W Hh Hd.
  destruct (wired_ne n W) as (? & _ & _ & _ & _ & ?), (wired_valid n W) as (_ & _ & _ & Hv & _).
  rewrite (update_run _ _ _ _ (wired_minCool n W)). unfold run_hook.
  apply updateMinimum_known; unfold known;
    [apply received_known, Hv
    |rewrite received_value by congruence; exact Hd
    |rewrite received_value by congruence; exact Hh].
Qed.

(** An update of the deadband recomputes both bounds. *)
Lemma update_deadband_maximum n a c d :
  wired n ->
  known n (maxHeatTargetProperty t) (VNum a) ->
  known n (coolTargetProperty t) (VNum c) ->
  exists n', update (deadbandProperty t) (VNum d) n = Ok (tt, n')
             /\ at_ maximum n' (heatTargetProperty t)
                = Some (Some (VNum (Math_min a (sub c d)))).
Proof.
  intros W Ha Hc.
  destruct (wired_ne n W) as (_ & _ & _ & ? & ? & _).
  destruct (wired_valid n W) as (Hvd & _ & Hvh & Hvm & _).
  rewrite (update_run _ _ _ _ (wired_deadband n W)). unfold run_hook.
  set (n1 := received (deadbandProperty t) (VNum d) n).
  assert (Hmax : updateMaximum t n1
                 = Ok (tt, with_bound Maximum (heatTargetProperty t)
                             (VNum (Math_min a (sub c d))) n1)).
  { apply updateMaximum_known; unfold known, n1;
      [rewrite received_value by congruence; exact Ha
      |apply received_known, Hvd
      |rewrite received_value by congruence; exact Hc]. }
  rewrite (run_bind _ _ _ _ _ Hmax).
  set (n2 := with_bound Maximum _ _ n1).
  assert (Hh2 : valid n2 (heatTargetProperty t))
    by (apply with_bound_valid, received_valid, Hvh).
  destruct (updateMinimum_frame t n2) as (n' & Hrun & Hn');
    [apply with_bound_valid, received_valid, Hvm
    |apply with_bound_valid, received_valid, Hvd
    |exact Hh2|].
  exists n'. split; [exact Hrun|].
  destruct Hn' as [->|[v ->]]; rewrite ?with_minimum_maximum;
    apply with_maximum_maximum, received_valid, Hvh.
Qed.

Lemma update_deadband_minimum n m h d :
  wired n ->
  known n (minCoolTargetProperty t) (VNum m) ->
  known n (heatTargetProperty t) (VNum h) ->
  exists n', update (deadbandProperty t) (VNum d) n = Ok (tt, n')
             /\ at_ minimum n' (coolTargetProperty t)
                = Some (Some (VNum (Math_max m (add h d)))).
Proof.
  intros W Hm Hh.
  destruct (wired_ne n W) as (_ & ? & _ & _ & _ & ?).
  destruct (wired_valid n W) as (Hvd & Hva & _ & _ & Hvc).
  rewrite (update_run _ _ _ _ (wired_deadband n W)). unfold run_hook.
  set (n1 := received (deadbandProperty t) (VNum d) n).
  destruct (updateMaximum_frame t n1) as (n2 & Hrun & Hn2);
    [apply received_valid, Hva|apply received_valid, Hvd|apply received_valid, Hvc|].
  rewrite (run_bind _ _ _ _ _ Hrun).
  assert (Hval : forall r, at_ p_value n2 r = at_ p_value n1 r)
    by (intros r; destruct Hn2 as [->|[v ->]]; rewrite ?with_bound_value; reflexivity).
  assert (Hvc2 : valid n2 (coolTargetProperty t))
    by (destruct Hn2 as [->|[v ->]]; rewrite ?with_bound_valid; apply received_valid, Hvc).
  eexists. split.
  - apply updateMinimum_known; unfold known; rewrite Hval; unfold n1;
      [rewrite received_value by congruence; exact Hm
      |apply received_known, Hvd
      |rewrite received_value by congruence; exact Hh].
  - apply with_minimum_minimum, Hvc2.
Qed.

End Propagation.

(** *** The recomputations, whatever the values

    The operands [-], [+], [Math.min] and [Math.max] take as numbers:
    [undefined], [null], a boolean or a number.  (On a string [+]
    concatenates, and a string or an array goes through a conversion that is
    modelled for integer literals only.) *)
Definition numeric (v : value) : Prop :=
  match v with
  | VStr _ | VArr _ => False
  | _ => True
  end.

Lemma updateMaximum_settled t n a d c :
  known n (maxHeatTargetProperty t) a ->
  known n (deadbandProperty t) d ->
  known n (coolTargetProperty t) c ->
  updateMaximum t n
  = Ok (tt, with_bound Maximum (heatTargetProperty t)
              (if strict_eqb d VNull && strict_eqb c VNull then a
               else VNum (Math_min (to_number a) (sub (to_number c) (to_number d)))) n).
Proof.
  intros Ka Kd Kc.
  apply at_value_cell in Ka as (pa & Ha & Va).
  apply at_value_cell in Kd as (pd & Hd & Vd).
  apply at_value_cell in Kc as (pc & Hc & Vc).
  rewrite (updateMaximum_cells t n pa pd pc Ha Hd Hc).
  unfold hasOwnProperty_value, value_of. rewrite Va, Vd, Vc.
  cbn [negb andb orb default from_option id option_rect].
  destruct (strict_eqb d VNull && strict_eqb c VNull); reflexivity.
Qed.

Lemma updateMinimum_settled t n m d h :
  known n (minCoolTargetProperty t) m ->
  known n (deadbandProperty t) d ->
  known n (heatTargetProperty t) h ->
  updateMinimum t n
  = Ok (tt, with_bound Minimum (coolTargetProperty t)
              (if strict_eqb d VNull && strict_eqb h VNull then m
               else VNum (Math_max (to_number m) (add (to_number h) (to_number d)))) n).
Proof.
  intros Km Kd Kh.
  apply at_value_cell in Km as (pm & Hm & Vm).
  apply at_value_cell in Kd as (pd & Hd & Vd).
  apply at_value_cell in Kh as (ph & Hh & Vh).
  rewrite (updateMinimum_cells t n pm pd ph Hm Hd Hh).
  unfold hasOwnProperty_value, value_of. rewrite Vm, Vd, Vh.
  cbn [negb andb orb default from_option id option_rect].
  destruct (strict_eqb d VNull && strict_eqb h VNull); reflexivity.
Qed.

Lemma both_null_false d c :
  ~ (d = VNull /\ c = VNull) -> strict_eqb d VNull && strict_eqb c VNull = false.
Proof.
  intros H. destruct d; try reflexivity. destruct c; try reflexivity.
  exfalso. apply H. split; reflexivity.
Qed.

(** What the hook of each operand runs, on the node that holds the new
    value. *)
Lemma update_deadband_runs t n d :
  wired t n ->
  update (deadbandProperty t) d n
  = (updateMaximum t ;; updateMinimum t) (received (deadbandProperty t) d n).
Proof. intros W. rewrite (update_run _ _ _ _ (wired_deadband t n W)). reflexivity. Qed.

Lemma update_maxHeatTarget_runs t n a :
  wired t n ->
  update (maxHeatTargetProperty t) a n
  = updateMaximum t (received (maxHeatTargetProperty t) a n).
Proof. intros W. rewrite (update_run _ _ _ _ (wired_maxHeat t n W)). reflexivity. Qed.

Lemma update_minCoolTarget_runs t n m :
  wired t n ->
  update (minCoolTargetProperty t) m n
  = updateMinimum t (received (minCoolTargetProperty t) m n).
Proof. intros W. rewrite (update_run _ _ _ _ (wired_minCool t n W)). reflexivity. Qed.

Lemma update_coolTarget_runs t n c :
  wired t n ->
  update (coolTargetProperty t) c n
  = updateMaximum t (with_bound Maximum (minCoolTargetProperty t) c
                       (with_bound Minimum (maxCoolTargetProperty t) c
                          (received (coolTargetProperty t) c n))).
Proof.
  intros W. destruct (wired_valid t n W) as (_ & _ & _ & _ & Hv).
  rewrite (update_run _ _ _ _ (wired_cool t n W)).
  apply coolTarget_hook, received_known, Hv.
Qed.

Lemma update_heatTarget_runs t n h :
  wired t n ->
  update (heatTargetProperty t) h n
  = updateMinimum t (with_bound Maximum (minHeatTargetProperty t) h
                       (with_bound Minimum (maxHeatTargetProperty t) h
                          (received (heatTargetProperty t) h n))).
Proof.
  intros W. destruct (wired_valid t n W) as (_ & _ & Hv & _).
  rewrite (update_run _ _ _ _ (wired_heat t n W)).
  apply heatTarget_hook, received_known, Hv.
Qed.

(** The bound an update leaves behind when the two other operands have
    values. *)
Lemma update_deadband_maximum_settled t n a c d :
  wired t n ->
  known n (maxHeatTargetProperty t) a ->
  known n (coolTargetProperty t) c ->
  exists n', update (deadbandProperty t) d n = Ok (tt, n')
             /\ at_ maximum n' (heatTargetProperty t)
                = Some (Some (if strict_eqb d VNull && strict_eqb c VNull then a
                              else VNum (Math_min (to_number a)
                                           (sub (to_number c) (to_number d))))).
Proof.
  intros W Ha Hc.
  destruct (wired_ne t n W) as (_ & _ & _ & ? & ? & _).
  destruct (wired_valid t n W) as (Hvd & _ & Hvh & Hvm & _).
  rewrite (update_deadband_runs t n d W).
  set (n1 := received (deadbandProperty t) d n).
  assert (Hmax : updateMaximum t n1
                 = Ok (tt, with_bound Maximum (heatTargetProperty t)
                             (if strict_eqb d VNull && strict_eqb c VNull then a
                              else VNum (Math_min (to_number a)
                                           (sub (to_number c) (to_number d)))) n1)).
  { apply updateMaximum_settled; unfold known, n1;
      [rewrite received_value by congruence; exact Ha
      |apply received_known, Hvd
      |rewrite received_value by congruence; exact Hc]. }
  rewrite (run_bind _ _ _ _ _ Hmax).
  set (n2 := with_bound Maximum _ _ n1).
  assert (Hh2 : valid n2 (heatTargetProperty t))
    by (apply with_bound_valid, received_valid, Hvh).
  destruct (updateMinimum_frame t n2) as (n' & Hrun & Hn');
    [apply with_bound_valid, received_valid, Hvm
    |apply with_bound_valid, received_valid, Hvd
    |exact Hh2|].
  exists n'. split; [exact Hrun|].
  destruct Hn' as [->|[v ->]]; rewrite ?with_minimum_maximum;
    apply with_maximum_maximum, received_valid, Hvh.
Qed.

Lemma update_deadband_minimum_settled t n m h d :
  wired t n ->
  known n (minCoolTargetProperty t) m ->
  known n (heatTargetProperty t) h ->
  exists n', update (deadbandProperty t) d n = Ok (tt, n')
             /\ at_ minimum n' (coolTargetProperty t)
                = Some (Some (if strict_eqb d VNull && strict_eqb h VNull then m
                              else VNum (Math_max (to_number m)
                                           (add (to_number h) (to_number d))))).
Proof.
  intros W Hm Hh.
  destruct (wired_ne t n W) as (_ & ? & _ & _ & _ & ?).
  destruct (wired_valid t n W) as (Hvd & Hva & _ & _ & Hvc).
  rewrite (update_deadband_runs t n d W).
  set (n1 := received (deadbandProperty t) d n).
  destruct (updateMaximum_frame t n1) as (n2 & Hrun & Hn2);
    [apply received_valid, Hva|apply received_valid, Hvd|apply received_valid, Hvc|].
  rewrite (run_bind _ _ _ _ _ Hrun).
  assert (Hval : forall r, at_ p_value n2 r = at_ p_value n1 r)
    by (intros r; destruct Hn2 as [->|[v ->]]; rewrite ?with_bound_value; reflexivity).
  assert (Hvc2 : valid n2 (coolTargetProperty t))
    by (destruct Hn2 as [->|[v ->]]; rewrite ?with_bound_valid; apply received_valid, Hvc).
  eexists. split.
  - apply updateMinimum_settled; unfold known; rewrite Hval; unfold n1;
      [rewrite received_value by congruence; exact Hm
      |apply received_known, Hvd
      |rewrite received_value by congruence; exact Hh].
  - apply with_minimum_minimum, Hvc2.
Qed.

Lemma update_coolTarget_settled t n a d c :
  wired t n ->
  known n (maxHeatTargetProperty t) a ->
  known n (deadbandProperty t) d ->
  exists n', update (coolTargetProperty t) c n = Ok (tt, n')
             /\ at_ maximum n' (heatTargetProperty t)
                = Some (Some (if strict_eqb d VNull && strict_eqb c VNull then a
                              else VNum (Math_min (to_number a)
                                           (sub (to_number c) (to_number d))))).
Proof.
  intros W Ha Hd.
  destruct (wired_ne t n W) as (_ & _ & ? & ? & _).
  destruct (wired_valid t n W) as (_ & _ & Hvh & _ & Hv).
  rewrite (update_coolTarget_runs t n c W).
  eexists. split.
  - apply updateMaximum_settled; unfold known; rewrite !with_bound_value;
      [rewrite received_value by assumption; exact Ha
      |rewrite received_value by assumption; exact Hd
      |apply received_known, Hv].
  - apply with_maximum_maximum. rewrite !with_bound_valid. apply received_valid, Hvh.
Qed.

Lemma update_heatTarget_settled t n m d h :
  wired t n ->
  known n (minCoolTargetProperty t) m ->
  known n (deadbandProperty t) d ->
  exists n', update (heatTargetProperty t) h n = Ok (tt, n')
             /\ at_ minimum n' (coolTargetProperty t)
                = Some (Some (if strict_eqb d VNull && strict_eqb h VNull then m
                              else VNum (Math_max (to_number m)
                                           (add (to_number h) (to_number d))))).
Proof.
  intros W Hm Hd.
  destruct (wired_ne t n W) as (? & ? & _).
  destruct (wired_valid t n W) as (_ & _ & Hv & _ & Hvc).
  rewrite (update_heatTarget_runs t n h W).
  eexists. split.
  - apply updateMinimum_settled; unfold known; rewrite !with_bound_value;
      [rewrite received_value by assumption; exact Hm
      |rewrite received_value by assumption; exact Hd
      |apply received_known, Hv].
  - apply with_minimum_minimum. rewrite !with_bound_valid. apply received_valid, Hvc.
Qed.

Lemma update_maxHeatTarget_settled t n a c d :
  wired t n ->
  known n (coolTargetProperty t) c ->
  known n (deadbandProperty t) d ->
  exists n', update (maxHeatTargetProperty t) a n = Ok (tt, n')
             /\ at_ maximum n' (heatTargetProperty t)
                = Some (Some (if strict_eqb d VNull && strict_eqb c VNull then a
                              else VNum (Math_min (to_number a)
                                           (sub (to_number c) (to_number d))))).
Proof.
  intros W Hc Hd.
  destruct (wired_ne t n W) as (_ & _ & ? & _ & ? & _).
  destruct (wired_valid t n W) as (_ & Hv & Hvh & _).
  rewrite (update_maxHeatTarget_runs t n a W).
  eexists. split.
  - apply updateMaximum_settled; unfold known;
      [apply received_known, Hv
      |rewrite received_value by congruence; exact Hd
      |rewrite received_value by congruence; exact Hc].
  - apply with_maximum_maximum, received_valid, Hvh.
Qed.

Lemma update_minCoolTarget_settled t n m h d :
  wired t n ->
  known n (heatTargetProperty t) h ->
  known n (deadbandProperty t) d ->
  exists n', update (minCoolTargetProperty t) m n = Ok (tt, n')
             /\ at_ minimum n' (coolTargetProperty t)
                = Some (Some (if strict_eqb d VNull && strict_eqb h VNull then m
                              else VNum (Math_max (to_number m)
                                           (add (to_number h) (to_number d))))).
Proof.
  intros W Hh Hd.
  destruct (wired_ne t n W) as (? & _ & _ & _ & _ & ?).
  destruct (wired_valid t n W) as (_ & _ & _ & Hv & Hvc).
  rewrite (update_minCoolTarget_runs t n m W).
  eexists. split.
  - apply updateMinimum_settled; unfold known;
      [apply received_known, Hv
      |rewrite received_value by congruence; exact Hd
      |rewrite received_value by congruence; exact Hh].
  - apply with_minimum_minimum, received_valid, Hvc.
Qed.

(** A bound is in the schema of a property, and it is the last thing the
    device was told. *)
Definition bound_of (b : Bound) : Property -> option value :=
  match b with Maximum => maximum | Minimum => minimum end.

Definition announced (b : Bound) (r : ref) (v : value) (n : Node) : Prop :=
  at_ (bound_of b) n r = Some (Some v) /\ head (published n) = Some (r, b, v).

Lemma with_bound_announced b r v n : valid n r -> announced b r v (with_bound b r v n).
Proof.
  intros Hr. split; [|reflexivity].
  destruct b; [apply with_minimum_minimum|apply with_maximum_maximum]; exact Hr.
Qed.

(** ** Concrete devices *)

(** A thermostat that also lists the level-control cluster. *)
Definition thermostat_node : Node :=
  discovered "Zen-01" [(1, zha_endpoint "0301" ["0000"; "0201"; "0008"] [])] (Some 1).

(** The ORVIBO relay: an on/off endpoint whose device type is 000b. *)
Definition relay_node : Node :=
  discovered "82c167c95ed746cdbd21d6817f72c593"
    [(1, zha_endpoint "000b" ["0000"; "0006"] [])] (Some 1).

(** A wall switch with an on/off input cluster only. *)
Definition switch_node : Node :=
  discovered "SW-1" [(1, zha_endpoint "0100" ["0000"; "0006"] [])] (Some 1).

(** A remote with the on/off cluster among its output clusters. *)
Definition button_node : Node :=
  discovered "WB01" [(1, zha_endpoint "0006" ["0000"] ["0006"])] (Some 3).

(** The IKEA remote: the scenes, on/off and level-control clusters among its
    output clusters. *)
Definition remote_node : Node :=
  discovered "TRADFRI remote control"
    [(1, zha_endpoint "0820" ["0000"] ["0005"; "0006"; "0008"])] (Some 3).

(** A sensor with a power-configuration endpoint and the given power source. *)
Definition powered_node (powerSource : Z) : Node :=
  discovered "ZHA-sensor" [(1, zha_endpoint "0402" ["0000"; "0001"] [])]
    (Some powerSource).

(** The node after classification; [None] when classification throws. *)
Definition classified (n : Node) : option Node :=
  match classify zcl zb_node n with
  | Ok (_, n') => Some n'
  | Throw _ => None
  end.

(** The objects behind the thermostat's properties, in the order
    [addThermostatProperties] creates them on [thermostat_node]. *)
Definition thermostat_cells : Thermostat :=
  {| deadbandProperty := 3; absMaxHeatTargetProperty := 4; absMinHeatTargetProperty := 5;
     maxHeatTargetProperty := 6; minHeatTargetProperty := 7; heatTargetProperty := 8;
     absMaxCoolTargetProperty := 9; absMinCoolTargetProperty := 10;
     maxCoolTargetProperty := 11; minCoolTargetProperty := 12; coolTargetProperty := 13 |}.

(** The node after a series of attribute reports. *)
Definition after (l : list (string * value)) (n : Node) : option Node :=
  match reports l n with
  | Ok (_, n') => Some n'
  | Throw _ => None
  end.

(** Heat limits [10, 30], cool limits [15, 35] and a deadband of 2. *)
Definition limits : list (string * value) :=
  [("_absMinHeatTarget", VInt 10); ("_absMaxHeatTarget", VInt 30);
   ("_minHeatTarget", VInt 10); ("_maxHeatTarget", VInt 30);
   ("_absMinCoolTarget", VInt 15); ("_absMaxCoolTarget", VInt 35);
   ("_minCoolTarget", VInt 15); ("_maxCoolTarget", VInt 35);
   ("_deadband", VInt 2)].

(** The thermostat once it has reported its limits and its deadband. *)
Definition configured : option Node := classified thermostat_node ≫= after limits.

(** Then the heat target is reported as 20, and after it the cool target
    as 25. *)
Definition heat_set : option Node := configured ≫= after [("heatTarget", VInt 20)].
Definition cool_set : option Node := heat_set ≫= after [("coolTarget", VInt 25)].

(** A bound in the schema of a named property, and the bound the device was
    told last. *)
Definition bound_after (b : Bound) (name : string) (n : option Node) : option value :=
  (n ≫= (fun n => property_named n name)) ≫= bound_of b.
Definition last_published (n : option Node) : option (ref * Bound * value) :=
  n ≫= (fun n => head (published n)).

(** The thermostat once it has reported its user limits and a cool target,
    and no deadband yet. *)
Definition awaiting_deadband : option Node :=
  classified thermostat_node
    ≫= after [("_maxHeatTarget", VInt 30); ("_minCoolTarget", VInt 15);
              ("coolTarget", VInt 25)].

(** A fact about the node a run ends in is read off the run. *)
Lemma on_some {A} (o : option Node) (n : Node) (f : Node -> A) (x : A) :
  o = Some n -> f <$> o = Some x -> f n = x.
Proof. intros -> [= <-]. reflexivity. Qed.

Ltac on_node H :=
  unfold known, unknown;
  lazymatch type of H with
  | ?o = Some ?n =>
      lazymatch goal with
      | |- ?lhs = ?rhs =>
          let f := eval pattern n in lhs in
          lazymatch f with
          | ?g _ => apply (on_some o n g rhs H); vm_compute; reflexivity
          end
      end
  end.

Lemma report_run name v n r :
  properties n !! name = Some r -> report name v n = update r v n.
Proof. intros H. unfold report, mbind, M_bind, get. rewrite H. reflexivity. Qed.

Lemma thermostat_rule_wins_witness :
  exists n', classifyInternal zcl zb_node thermostat_node = Ok (tt, n')
             /\ thermostat_classified thermostat_node n'.
Proof.
  refine (proj1 (thermostat_rule_wins zcl zb_node thermostat_node _ _ _ _ _ _));
    vm_compute; reflexivity.
Defined.

(** C6, as stated, fails on a button: the "on" property of a remote is bound
    although no report configuration is requested for it. *)
Lemma button_bound_without_report :
  exists n' p, classified button_node = Some n'
               /\ property_named n' "on" = Some p
               /\ bindNeeded p = true /\ configReportNeeded p = false
               /\ bindNeeded p <> configReportNeeded p.
Proof.
  eexists _, _. split; [vm_compute; reflexivity|].
  split; [vm_compute; reflexivity|]. cbn. repeat split. discriminate.
Qed.

Lemma zcl_ids_distinct (a b : Cluster) : CLUSTER_ID zcl a = CLUSTER_ID zcl b -> a = b.
Proof. destruct a, b; intros E; first [reflexivity | discriminate E]. Qed.

Lemma zcl_button_ids_nonzero :
  CLUSTER_ID zcl GENONOFF <> 0 /\ CLUSTER_ID zcl GENLEVELCTRL <> 0.
Proof. split; discriminate. Qed.

Lemma bind_flag_rule_witness :
  exists n' level scene,
    classify zcl zb_node remote_node = Ok (tt, n')
    /\ property_named n' "level" = Some level
    /\ property_named n' "scene" = Some scene
    /\ button_shaped zcl level
    /\ (bindNeeded level = true /\ configReportNeeded level = false)
    /\ ~ button_shaped zcl scene
    /\ bindNeeded scene = configReportNeeded scene
    /\ bindNeeded scene = false.
Proof.
  pose proof (proj1 (bind_flag_rule zcl zcl_ids_distinct zcl_button_ids_nonzero zb_node))
    as T.
  assert (Hn : heap_inv (bind_rule zcl) remote_node) by constructor.
  destruct (classify zcl zb_node remote_node) as [[[] n']|e] eqn:Hrun;
    [|exfalso; vm_compute in Hrun; discriminate Hrun].
  specialize (T remote_node n' Hn Hrun).
  destruct (property_named n' "level") as [level|] eqn:Hlevel;
    [|exfalso; vm_compute in Hrun; injection Hrun as <-; vm_compute in Hlevel;
      discriminate Hlevel].
  destruct (property_named n' "scene") as [scene|] eqn:Hscene;
    [|exfalso; vm_compute in Hrun; injection Hrun as <-; vm_compute in Hscene;
      discriminate Hscene].
  destruct (T "level" level Hlevel) as (_ & Tl & _).
  destruct (T "scene" scene Hscene) as (_ & _ & Ts).
  clear T.
  assert (Hl : button_shaped zcl level /\ ~ button_shaped zcl scene
               /\ bindNeeded scene = false).
  { clear Tl Ts. vm_compute in Hrun. injection Hrun as <-.
    vm_compute in Hlevel. injection Hlevel as <-.
    vm_compute in Hscene. injection Hscene as <-.
    split; [repeat split; vm_compute; auto|].
    split; [|reflexivity].
    intros (_ & _ & [E|E]); vm_compute in E; discriminate E. }
  destruct Hl as (Hl & Hs & Hb).
  exists n', level, scene. split; [reflexivity|]. split; [exact Hlevel|].
  split; [exact Hscene|]. split; [exact Hl|]. split; [exact (Tl Hl)|].
  split; [exact Hs|]. split; [exact (Ts Hs)|exact Hb].
Defined.

(** C2 on the ORVIBO relay: [addOnProperty] sets the fire-and-forget flag
    after [addProperty] has requested a report configuration, and the "on"
    property ends up with both flags set (and bound). *)
Theorem relay_reports_and_forgets :
  exists n' p, classified relay_node = Some n'
               /\ property_named n' "on" = Some p
               /\ fireAndForget p = true /\ configReportNeeded p = true
               /\ bindNeeded p = true.
Proof.
  eexists _, _. split; [vm_compute; reflexivity|].
  split; [vm_compute; reflexivity|]. cbn. repeat split.
Qed.

(** C5 on two mains-era sensors with a power-configuration endpoint.  With
    power source 0x80 (bit 7, the battery backup, set) no "batteryVoltage"
    property is added; with power source 0x01 (bit 7 clear, not battery
    powered, model not in the list) one is: the test reads bit 0. *)
Theorem battery_backup_bit_not_tested :
  (exists n', classified (powered_node 128) = Some n'
              /\ Z.testbit 128 7 = true
              /\ property_named n' "batteryVoltage" = None)
  /\ (exists n', classified (powered_node 1) = Some n'
                 /\ Z.testbit 1 7 = false
                 /\ isBatteryPowered zb_node (Some 1) = false
                 /\ includes hasBattery (modelId (powered_node 1)) = false
                 /\ is_Some (property_named n' "batteryVoltage"))
  /\ (forall n, powerSource_backup_test n = Z.testbit (int32_of (powerSource n)) 0).
Proof.
  split; [|split].
  - eexists. split; [vm_compute; reflexivity|]. split; reflexivity.
  - eexists. split; [vm_compute; reflexivity|]. repeat split. vm_compute. eauto.
  - apply powerSource_backup_test_bit_0.
Qed.

(** C3. Constraint propagation on a thermostat.  On the thermostat with heat
    limits [10, 30], cool limits [15, 35] and deadband 2, a report of heat
    target 20 makes the cool target's minimum 22, and a following report of
    cool target 25 makes the heat target's maximum 23.  In general, on a node
    whose thermostat hooks are the ones the classifier installs: with the user
    max-heat bound, the cool target and the deadband known, the recomputation
    sets and announces heatTarget.maximum = min(userMaxHeat, coolTarget -
    deadband); with the user min-cool bound, the heat target and the deadband
    known, it sets and announces coolTarget.minimum = max(userMinCool,
    heatTarget + deadband); an update of the heat target (of the cool target)
    returns, and leaves the other target with that bound. *)
Theorem thermostat_constraint_propagation :
  (bound_after Minimum "coolTarget" heat_set = Some (VInt 22)
   /\ last_published heat_set = Some (coolTargetProperty thermostat_cells, Minimum, VInt 22)
   /\ bound_after Maximum "heatTarget" cool_set = Some (VInt 23)
   /\ last_published cool_set = Some (heatTargetProperty thermostat_cells, Maximum, VInt 23))
  /\ forall t n,
      wired t n ->
      (forall a c d,
          known n (maxHeatTargetProperty t) (VNum a) ->
          known n (coolTargetProperty t) (VNum c) ->
          known n (deadbandProperty t) (VNum d) ->
          exists n', updateMaximum t n = Ok (tt, n')
                     /\ announced Maximum (heatTargetProperty t)
                          (VNum (Math_min a (sub c d))) n')
      /\ (forall m h d,
             known n (minCoolTargetProperty t) (VNum m) ->
             known n (heatTargetProperty t) (VNum h) ->
             known n (deadbandProperty t) (VNum d) ->
             exists n', updateMinimum t n = Ok (tt, n')
                        /\ announced Minimum (coolTargetProperty t)
                             (VNum (Math_max m (add h d))) n')
      /\ (forall m d h,
             known n (minCoolTargetProperty t) (VNum m) ->
             known n (deadbandProperty t) (VNum d) ->
             exists n', update (heatTargetProperty t) (VNum h) n = Ok (tt, n')
                        /\ wired t n'
                        /\ known n' (heatTargetProperty t) (VNum h)
                        /\ announced Minimum (coolTargetProperty t)
                             (VNum (Math_max m (add h d))) n')
      /\ (forall a d c,
             known n (maxHeatTargetProperty t) (VNum a) ->
             known n (deadbandProperty t) (VNum d) ->
             exists n', update (coolTargetProperty t) (VNum c) n = Ok (tt, n')
                        /\ wired t n'
                        /\ known n' (coolTargetProperty t) (VNum c)
                        /\ announced Maximum (heatTargetProperty t)
                             (VNum (Math_min a (sub c d))) n').
Proof.
  split.
  - repeat split; vm_compute; reflexivity.
  - intros t n W. destruct (wired_valid t n W) as (Hd & Ha & Hh & Hm & Hc).
    split; [|split; [|split]].
    + intros a c d Ka Kc Kd. eexists. split.
      * apply updateMaximum_known; eassumption.
      * apply with_bound_announced, Hh.
    + intros m h d Km Kh Kd. eexists. split.
      * apply updateMinimum_known; eassumption.
      * apply with_bound_announced, Hc.
    + intros m d h Km Kd. eexists. split; [apply update_heatTarget; eassumption|].
      split; [repeat apply wired_with_bound; apply wired_received, W|].
      split.
      * unfold known. rewrite !with_bound_value. apply received_known, Hh.
      * apply with_bound_announced. rewrite !with_bound_valid. apply received_valid, Hc.
    + intros a d c Ka Kd. eexists. split; [apply update_coolTarget; eassumption|].
      split; [repeat apply wired_with_bound; apply wired_received, W|].
      split.
      * unfold known. rewrite !with_bound_value. apply received_known, Hc.
      * apply with_bound_announced. rewrite !with_bound_valid. apply received_valid, Hh.
Qed.

Lemma thermostat_constraint_propagation_witness :
  exists n0 n',
    configured = Some n0
    /\ wired thermostat_cells n0
    /\ known n0 (minCoolTargetProperty thermostat_cells) (VInt 15)
    /\ known n0 (deadbandProperty thermostat_cells) (VInt 2)
    /\ update (heatTargetProperty thermostat_cells) (VInt 20) n0 = Ok (tt, n')
    /\ announced Minimum (coolTargetProperty thermostat_cells)
         (VNum (Math_max (of_Z 15) (add (of_Z 20) (of_Z 2)))) n'.
Proof.
  destruct configured as [n0|] eqn:H0; [|exfalso; vm_compute in H0; discriminate H0].
  assert (H : wired thermostat_cells n0
              /\ known n0 (minCoolTargetProperty thermostat_cells) (VInt 15)
              /\ known n0 (deadbandProperty thermostat_cells) (VInt 2)).
  { split; [|split; on_node H0].
    split; [on_node H0 ..|]. refine (bool_decide_unpack _ _). vm_compute. exact I. }
  destruct H as (W & Km & Kd).
  destruct (proj2 thermostat_constraint_propagation thermostat_cells n0 W)
    as (_ & _ & Hheat & _).
  destruct (Hheat (of_Z 15) (of_Z 2) (of_Z 20) Km Kd) as (n' & Hrun & _ & _ & Hmin).
  exists n0, n'. split; [reflexivity|]. split; [exact W|]. split; [exact Km|].
  split; [exact Kd|]. split; [exact Hrun|exact Hmin].
Defined.

(** C4, as stated, fails when both the deadband and the cool target are
    unknown: on a freshly classified thermostat the report of the user
    max-heat bound runs the recomputation with neither of them known, and the
    recomputation sets the heat target's maximum and announces it. *)
Lemma heat_maximum_from_partial_data :
  exists n0,
    classified thermostat_node = Some n0
    /\ let n := received (maxHeatTargetProperty thermostat_cells) (VInt 30) n0 in
       let n' := with_bound Maximum (heatTargetProperty thermostat_cells) (VInt 30) n in
       known n (maxHeatTargetProperty thermostat_cells) (VInt 30)
       /\ unknown n (deadbandProperty thermostat_cells)
       /\ unknown n (coolTargetProperty thermostat_cells)
       /\ updateMaximum thermostat_cells n = Ok (tt, n')
       /\ report "_maxHeatTarget" (VInt 30) n0 = Ok (tt, n')
       /\ at_ maximum n (heatTargetProperty thermostat_cells) = Some None
       /\ at_ maximum n' (heatTargetProperty thermostat_cells) = Some (Some (VInt 30))
       /\ published n = []
       /\ published n' = [(heatTargetProperty thermostat_cells, Maximum, VInt 30)].
Proof.
  destruct (classified thermostat_node) as [n0|] eqn:H0;
    [|vm_compute in H0; discriminate H0].
  exists n0. split; [reflexivity|]. cbv zeta.
  set (t := thermostat_cells).
  assert (Ka : known (received (maxHeatTargetProperty t) (VInt 30) n0)
                 (maxHeatTargetProperty t) (VInt 30)) by on_node H0.
  assert (Ud : unknown (received (maxHeatTargetProperty t) (VInt 30) n0)
                 (deadbandProperty t)) by on_node H0.
  assert (Uc : unknown (received (maxHeatTargetProperty t) (VInt 30) n0)
                 (coolTargetProperty t)) by on_node H0.
  assert (Hrun : updateMaximum t (received (maxHeatTargetProperty t) (VInt 30) n0)
                 = Ok (tt, with_bound Maximum (heatTargetProperty t) (VInt 30)
                             (received (maxHeatTargetProperty t) (VInt 30) n0)))
    by (apply updateMaximum_heat_only; assumption).
  split; [exact Ka|]. split; [exact Ud|]. split; [exact Uc|]. split; [exact Hrun|].
  split.
  { rewrite (report_run _ _ _ (maxHeatTargetProperty t)) by on_node H0.
    rewrite (update_run _ _ _ (Some (maxHeatTargetProperty_updated t))) by on_node H0.
    exact Hrun. }
  repeat (split; [on_node H0|]). on_node H0.
Qed.

(** C4, amended.  A property has a value when its object has an own [value]
    member, whatever it holds, [null] included.  The recomputation of the
    heat target's maximum:
    - returns the node as it is (no bound announced, nothing stored) when
      the user max-heat bound has no value, and when exactly one of the
      deadband and the cool target has no value;
    - announces the user max-heat bound itself as the maximum when that bound
      has a value and the deadband and the cool target both have no value, or
      both have the value [null];
    - announces min(userMaxHeat, coolTarget - deadband) when the three have
      values that are not both [null] for the deadband and the cool target;
      the operands are taken as numbers ([null] is 0), for values that are
      [undefined], [null], booleans or numbers.
    Symmetrically for the cool target's minimum, with
    max(userMinCool, heatTarget + deadband).  On a node whose hooks are the
    ones the classifier installs, an update of the deadband, of a target or
    of a user limit stores the value and runs the recomputations its hook
    names on the node that holds the new value; when the two other operands
    have values, the update returns and leaves the opposing bound at the
    value of the second or the third case. *)
Theorem recomputation_deferred (t : Thermostat) (n : Node) :
  (unknown n (maxHeatTargetProperty t) -> updateMaximum t n = Ok (tt, n))
  /\ (forall lim c,
         known n (maxHeatTargetProperty t) lim ->
         unknown n (deadbandProperty t) -> known n (coolTargetProperty t) c ->
         updateMaximum t n = Ok (tt, n))
  /\ (forall lim d,
         known n (maxHeatTargetProperty t) lim ->
         known n (deadbandProperty t) d -> unknown n (coolTargetProperty t) ->
         updateMaximum t n = Ok (tt, n))
  /\ (forall lim,
         known n (maxHeatTargetProperty t) lim ->
         unknown n (deadbandProperty t) -> unknown n (coolTargetProperty t) ->
         updateMaximum t n = Ok (tt, with_bound Maximum (heatTargetProperty t) lim n))
  /\ (forall lim,
         known n (maxHeatTargetProperty t) lim ->
         known n (deadbandProperty t) VNull -> known n (coolTargetProperty t) VNull ->
         updateMaximum t n = Ok (tt, with_bound Maximum (heatTargetProperty t) lim n))
  /\ (forall a d c,
         known n (maxHeatTargetProperty t) a ->
         known n (deadbandProperty t) d -> known n (coolTargetProperty t) c ->
         numeric a -> numeric d -> numeric c -> ~ (d = VNull /\ c = VNull) ->
         updateMaximum t n
         = Ok (tt, with_bound Maximum (heatTargetProperty t)
                     (VNum (Math_min (to_number a) (sub (to_number c) (to_number d)))) n))
  /\ (unknown n (minCoolTargetProperty t) -> updateMinimum t n = Ok (tt, n))
  /\ (forall lim h,
         known n (minCoolTargetProperty t) lim ->
         unknown n (deadbandProperty t) -> known n (heatTargetProperty t) h ->
         updateMinimum t n = Ok (tt, n))
  /\ (forall lim d,
         known n (minCoolTargetProperty t) lim ->
         known n (deadbandProperty t) d -> unknown n (heatTargetProperty t) ->
         updateMinimum t n = Ok (tt, n))
  /\ (forall lim,
         known n (minCoolTargetProperty t) lim ->
         unknown n (deadbandProperty t) -> unknown n (heatTargetProperty t) ->
         updateMinimum t n = Ok (tt, with_bound Minimum (coolTargetProperty t) lim n))
  /\ (forall lim,
         known n (minCoolTargetProperty t) lim ->
         known n (deadbandProperty t) VNull -> known n (heatTargetProperty t) VNull ->
         updateMinimum t n = Ok (tt, with_bound Minimum (coolTargetProperty t) lim n))
  /\ (forall m d h,
         known n (minCoolTargetProperty t) m ->
         known n (deadbandProperty t) d -> known n (heatTargetProperty t) h ->
         numeric m -> numeric d -> numeric h -> ~ (d = VNull /\ h = VNull) ->
         updateMinimum t n
         = Ok (tt, with_bound Minimum (coolTargetProperty t)
                     (VNum (Math_max (to_number m) (add (to_number h) (to_number d)))) n))
  /\ (wired t n ->
      (forall d,
          update (deadbandProperty t) d n
          = (updateMaximum t ;; updateMinimum t) (received (deadbandProperty t) d n))
      /\ (forall c,
             update (coolTargetProperty t) c n
             = updateMaximum t
                 (with_bound Maximum (minCoolTargetProperty t) c
                    (with_bound Minimum (maxCoolTargetProperty t) c
                       (received (coolTargetProperty t) c n))))
      /\ (forall a,
             update (maxHeatTargetProperty t) a n
             = updateMaximum t (received (maxHeatTargetProperty t) a n))
      /\ (forall h,
             update (heatTargetProperty t) h n
             = updateMinimum t
                 (with_bound Maximum (minHeatTargetProperty t) h
                    (with_bound Minimum (maxHeatTargetProperty t) h
                       (received (heatTargetProperty t) h n))))
      /\ (forall m,
             update (minCoolTargetProperty t) m n
             = updateMinimum t (received (minCoolTargetProperty t) m n))
      /\ (forall a c d,
             known n (maxHeatTargetProperty t) a -> known n (coolTargetProperty t) c ->
             numeric a -> numeric c -> numeric d ->
             exists n', update (deadbandProperty t) d n = Ok (tt, n')
                        /\ at_ maximum n' (heatTargetProperty t)
                           = Some (Some (if strict_eqb d VNull && strict_eqb c VNull then a
                                         else VNum (Math_min (to_number a)
                                                      (sub (to_number c) (to_number d))))))
      /\ (forall a d c,
             known n (maxHeatTargetProperty t) a -> known n (deadbandProperty t) d ->
             numeric a -> numeric d -> numeric c ->
             exists n', update (coolTargetProperty t) c n = Ok (tt, n')
                        /\ at_ maximum n' (heatTargetProperty t)
                           = Some (Some (if strict_eqb d VNull && strict_eqb c VNull then a
                                         else VNum (Math_min (to_number a)
                                                      (sub (to_number c) (to_number d))))))
      /\ (forall c d a,
             known n (coolTargetProperty t) c -> known n (deadbandProperty t) d ->
             numeric a -> numeric c -> numeric d ->
             exists n', update (maxHeatTargetProperty t) a n = Ok (tt, n')
                        /\ at_ maximum n' (heatTargetProperty t)
                           = Some (Some (if strict_eqb d VNull && strict_eqb c VNull then a
                                         else VNum (Math_min (to_number a)
                                                      (sub (to_number c) (to_number d))))))
      /\ (forall m h d,
             known n (minCoolTargetProperty t) m -> known n (heatTargetProperty t) h ->
             numeric m -> numeric h -> numeric d ->
             exists n', update (deadbandProperty t) d n = Ok (tt, n')
                        /\ at_ minimum n' (coolTargetProperty t)
                           = Some (Some (if strict_eqb d VNull && strict_eqb h VNull then m
                                         else VNum (Math_max (to_number m)
                                                      (add (to_number h) (to_number d))))))
      /\ (forall m d h,
             known n (minCoolTargetProperty t) m -> known n (deadbandProperty t) d ->
             numeric m -> numeric d -> numeric h ->
             exists n', update (heatTargetProperty t) h n = Ok (tt, n')
                        /\ at_ minimum n' (coolTargetProperty t)
                           = Some (Some (if strict_eqb d VNull && strict_eqb h VNull then m
                                         else VNum (Math_max (to_number m)
                                                      (add (to_number h) (to_number d))))))
      /\ (forall h d m,
             known n (heatTargetProperty t) h -> known n (deadbandProperty t) d ->
             numeric m -> numeric h -> numeric d ->
             exists n', update (minCoolTargetProperty t) m n = Ok (tt, n')
                        /\ at_ minimum n' (coolTargetProperty t)
                           = Some (Some (if strict_eqb d VNull && strict_eqb h VNull then m
                                         else VNum (Math_max (to_number m)
                                                      (add (to_number h) (to_number d))))))).
Proof.
  split; [apply updateMaximum_no_limit|].
  split; [intros; eapply updateMaximum_no_deadband; eassumption|].
  split; [intros; eapply updateMaximum_no_target; eassumption|].
  split; [intros; eapply updateMaximum_heat_only; eassumption|].
  split; [intros; eapply updateMaximum_null; eassumption|].
  split.
  { intros a d c Ka Kd Kc _ _ _ Hnull.
    rewrite (updateMaximum_settled t n a d c Ka Kd Kc), (both_null_false d c Hnull).
    reflexivity. }
  split; [apply updateMinimum_no_limit|].
  split; [intros; eapply updateMinimum_no_deadband; eassumption|].
  split; [intros; eapply updateMinimum_no_target; eassumption|].
  split; [intros; eapply updateMinimum_cool_only; eassumption|].
  split; [intros; eapply updateMinimum_null; eassumption|].
  split.
  { intros m d h Km Kd Kh _ _ _ Hnull.
    rewrite (updateMinimum_settled t n m d h Km Kd Kh), (both_null_false d h Hnull).
    reflexivity. }
  intros W.
  split; [intros; apply update_deadband_runs, W|].
  split; [intros; apply update_coolTarget_runs, W|].
  split; [intros; apply update_maxHeatTarget_runs, W|].
  split; [intros; apply update_heatTarget_runs, W|].
  split; [intros; apply update_minCoolTarget_runs, W|].
  split; [intros; apply update_deadband_maximum_settled; assumption|].
  split; [intros; apply update_coolTarget_settled; assumption|].
  split; [intros; apply update_maxHeatTarget_settled; assumption|].
  split; [intros; apply update_deadband_minimum_settled; assumption|].
  split; [intros; apply update_heatTarget_settled; assumption|].
  intros; apply update_minCoolTarget_settled; assumption.
Qed.

Lemma recomputation_deferred_witness :
  exists n0 n',
    awaiting_deadband = Some n0
    /\ wired thermostat_cells n0
    /\ known n0 (maxHeatTargetProperty thermostat_cells) (VInt 30)
    /\ unknown n0 (deadbandProperty thermostat_cells)
    /\ known n0 (coolTargetProperty thermostat_cells) (VInt 25)
    /\ updateMaximum thermostat_cells n0 = Ok (tt, n0)
    /\ update (deadbandProperty thermostat_cells) VNull n0 = Ok (tt, n')
    /\ at_ maximum n' (heatTargetProperty thermostat_cells) = Some (Some (VInt 25)).
Proof.
  destruct awaiting_deadband as [n0|] eqn:H0;
    [|exfalso; vm_compute in H0; discriminate H0].
  assert (H : wired thermostat_cells n0
              /\ known n0 (maxHeatTargetProperty thermostat_cells) (VInt 30)
              /\ unknown n0 (deadbandProperty thermostat_cells)
              /\ known n0 (coolTargetProperty thermostat_cells) (VInt 25)).
  { split; [|repeat split; on_node H0].
    split; [on_node H0 ..|]. refine (bool_decide_unpack _ _). vm_compute. exact I. }
  destruct H as (W & Ka & Ud & Kc).
  destruct (recomputation_deferred thermostat_cells n0)
    as (_ & Hdefer & _ & _ & _ & _ & _ & _ & _ & _ & _ & _ & Hagain).
  destruct (Hagain W) as (_ & _ & _ & _ & _ & Hdeadband & _).
  destruct (Hdeadband (VInt 30) (VInt 25) VNull Ka Kc I I I) as (n' & Hrun & Hmax).
  exists n0, n'. split; [reflexivity|]. split; [exact W|]. split; [exact Ka|].
  split; [exact Ud|]. split; [exact Kc|].
  split; [exact (Hdefer _ _ Ka Ud Kc)|]. split; [exact Hrun|exact Hmax].
Defined.

End ClassifierSpec.

(** * Further properties of the transcoders *)
Module Zigbee2MqttMore.
Import Js Zigbee2Mqtt Zigbee2MqttSpec.

(** ** More of zigbee2mqtt-property.ts *)

(** The [readOnly] member the constructor of [Zigbee2MqttProperty] passes on:
    [!isWritable(expose.access ?? 0)], unless the subclass overrides it in
    [additionalProperties]. *)
Definition readOnly (expose : Expos) (additionalProperties : option bool) : bool :=
  default (negb (isWritable (default 0 (expose_access expose)))) additionalProperties.

(** [OnOffProperty.update]: the boolean handed to [super.update]. *)
Definition OnOffProperty_update (value : value) : bool :=
  strict_eqb value (VStr "ON").

(** [OnOffProperty.sendValue]: the string handed to [super.sendValue]. *)
Definition OnOffProperty_sendValue (value : bool) : string :=
  if value then "ON" else "OFF".

(** ** Colour temperature *)

Lemma Qis_zero_false (q : Q) : ~ (q == 0)%Q -> Qis_zero q = false.
Proof.
  intros H. unfold Qis_zero. destruct (Qeq_bool q 0) eqn:E; [|reflexivity].
  exfalso. apply H, Qeq_bool_iff, E.
Qed.

Lemma Qinv_antitone (a b : Q) : (0 < a)%Q -> (a <= b)%Q -> (/ b <= / a)%Q.
Proof.
  intros Ha Hab.
  assert (Hb : (0 < b)%Q) by lra.
  assert (Hia : (0 < / a)%Q) by (apply Qinv_lt_0_compat; lra).
  assert (Hib : (0 < / b)%Q) by (apply Qinv_lt_0_compat; lra).
  assert (Ea : (a * / a == 1)%Q) by (apply Qmult_inv_r; lra).
  assert (Eb : (b * / b == 1)%Q) by (apply Qmult_inv_r; lra).
  assert (H : (0 <= (b - a) * (/ a * / b))%Q).
  { apply Qmult_le_0_compat; [lra|]. apply Qlt_le_weak, Qmult_lt_0_compat; assumption. }
  assert (Er : Qeq ((b - a) * (/ a * / b))%Q ((b * / b) * / a - (a * / a) * / b)%Q) by ring.
  rewrite Er, Ea, Eb in H. lra.
Qed.

Lemma miredToKelvin_positive (a : Q) :
  (0 < a)%Q -> miredToKelvin (Fin a) = of_Z (Qfloor (1000000 / a + (1 # 2))).
Proof.
  intros Ha. unfold miredToKelvin. cbn [of_Z div].
  rewrite Qis_zero_false by lra. reflexivity.
Qed.

(** The conversion reverses the order: more mired is fewer kelvin. *)
Lemma miredToKelvin_antitone (a b : Q) :
  (0 < a)%Q -> (a <= b)%Q ->
  exists ka kb : Z, miredToKelvin (Fin a) = of_Z ka /\ miredToKelvin (Fin b) = of_Z kb
                    /\ kb <= ka.
Proof.
  intros Ha Hab. rewrite !miredToKelvin_positive by lra.
  eexists _, _. split; [reflexivity|]. split; [reflexivity|].
  apply Qfloor_resp_le.
  pose proof (Qinv_antitone a b Ha Hab) as H. unfold Qdiv.
  assert (A : (1000000 * / b <= 1000000 * / a)%Q).
  { apply Qmult_le_l; [reflexivity|exact H]. }
  lra.
Qed.

Lemma color_temperature_range (expose : Expos) (lo hi m : Q) :
  value_min expose = Some (Fin lo) -> value_max expose = Some (Fin hi) ->
  (0 < lo)%Q -> (lo <= m)%Q -> (m <= hi)%Q ->
  exists kmin k kmax : Z,
      ColorTemperatureProperty_minimum expose = of_Z kmin
      /\ ColorTemperatureProperty_update (Fin m) = of_Z k
      /\ ColorTemperatureProperty_maximum expose = of_Z kmax
      /\ kmin <= k <= kmax.
Proof.
  intros Hmin Hmax Hlo Hm1 Hm2.
  unfold ColorTemperatureProperty_minimum, ColorTemperatureProperty_maximum,
    ColorTemperatureProperty_update. rewrite Hmin, Hmax. cbn [nullish].
  destruct (miredToKelvin_antitone lo m Hlo Hm1) as (kmax & k & E1 & E2 & H1).
  destruct (miredToKelvin_antitone m hi) as (k' & kmin & E3 & E4 & H2); [lra|exact Hm2|].
  rewrite E2 in E3. injection E3 as E3. subst k'.
  exists kmin, k, kmax. repeat split; assumption || lia.
Qed.

(** The constructor swaps the ends of the expose's mired range into a kelvin
    range, and every whole mired value within the expose's range is shown as
    a kelvin value within the declared range.  An expose that lacks an end
    declares NaN for the opposite end. *)
Theorem color_temperature_declared_range (expose : Expos) (lo hi m : Z) :
  value_min expose = Some (of_Z lo) -> value_max expose = Some (of_Z hi) ->
  0 < lo -> lo <= m -> m <= hi ->
  (exists kmin k kmax : Z,
      ColorTemperatureProperty_minimum expose = of_Z kmin
      /\ ColorTemperatureProperty_update (of_Z m) = of_Z k
      /\ ColorTemperatureProperty_maximum expose = of_Z kmax
      /\ kmin <= k <= kmax)
  /\ (forall e, value_min e = None -> ColorTemperatureProperty_maximum e = NaN)
  /\ (forall e, value_max e = None -> ColorTemperatureProperty_minimum e = NaN).
Proof.
  intros Hmin Hmax Hlo Hm1 Hm2. split.
  - apply (color_temperature_range expose (inject_Z lo) (inject_Z hi) (inject_Z m));
      [exact Hmin|exact Hmax|..].
    + change 0%Q with (inject_Z 0). rewrite <- Zlt_Qlt. exact Hlo.
    + rewrite <- Zle_Qle. exact Hm1.
    + rewrite <- Zle_Qle. exact Hm2.
  - split; intros e He.
    + unfold ColorTemperatureProperty_maximum. rewrite He. reflexivity.
    + unfold ColorTemperatureProperty_minimum. rewrite He. reflexivity.
Qed.

Lemma color_temperature_declared_range_witness :
  exists kmin k kmax : Z,
    ColorTemperatureProperty_minimum (color_temp_expose 153 500) = of_Z kmin
    /\ ColorTemperatureProperty_update (of_Z 370) = of_Z k
    /\ ColorTemperatureProperty_maximum (color_temp_expose 153 500) = of_Z kmax
    /\ kmin <= k <= kmax.
Proof.
  apply (color_temperature_declared_range (color_temp_expose 153 500) 153 500 370);
    [reflexivity|reflexivity|..]; lia.
Defined.

(** ** Colour *)

(** [limit] clamps: NaN stays NaN; any other value, the infinities included,
    lands between the two bounds, and a value between the bounds comes back
    as the same number. *)
Theorem limit_clamps (lo hi : Q) :
  (lo <= hi)%Q ->
  limit NaN (Fin lo) (Fin hi) = NaN
  /\ (forall v, v <> NaN ->
        exists q, limit v (Fin lo) (Fin hi) = Fin q /\ (lo <= q)%Q /\ (q <= hi)%Q)
  /\ (forall x, (lo <= x)%Q -> (x <= hi)%Q -> same (limit (Fin x) (Fin lo) (Fin hi)) (Fin x)).
Proof.
  intros Hb. split; [reflexivity|]. split.
  - intros v Hv. unfold limit. destruct v as [|[|]|x]; [congruence| | |]; cbn.
    + exists lo. split; [reflexivity|lra].
    + destruct (Qle_bool hi lo) eqn:E.
      * apply Qle_bool_iff in E. exists lo. split; [reflexivity|lra].
      * exists hi. split; [reflexivity|lra].
    + destruct (Qle_bool x hi) eqn:E1; cbn.
      * apply Qle_bool_iff in E1. destruct (Qle_bool x lo) eqn:E2.
        -- exists lo. split; [reflexivity|lra].
        -- exists x. split; [reflexivity|]. split; [|exact E1].
           destruct (Qlt_le_dec x lo) as [Hlt|Hge]; [|exact Hge].
           assert (Qle_bool x lo = true) by (apply Qle_bool_iff; lra). congruence.
      * destruct (Qle_bool hi lo) eqn:E2.
        -- apply Qle_bool_iff in E2. exists lo. split; [reflexivity|lra].
        -- exists hi. split; [reflexivity|lra].
  - intros x H1 H2. unfold limit. cbn [Math_min le].
    rewrite (proj2 (Qle_bool_iff x hi)) by exact H2. cbn [Math_max le].
    destruct (Qle_bool x lo) eqn:E; cbn [same]; [|apply Qeq_refl].
    apply Qle_bool_iff in E. lra.
Qed.

Lemma limit_clamps_witness :
  exists q, limit (Inf false) (Fin 0) (Fin 255) = Fin q /\ (0 <= q)%Q /\ (q <= 255)%Q.
Proof.
  assert (H : (0 <= 255)%Q) by (unfold Qle; simpl; lia).
  apply (proj1 (proj2 (limit_clamps 0 255 H))). discriminate.
Defined.

(** A channel of the triple handed to the colour library. *)
Definition channel (c : number) : Prop :=
  c = NaN \/ exists z : Z, c = of_Z z /\ 0 <= z <= 255.

Lemma channel_of_limit (v : number) : channel (Math_round (limit v (Fin 0) (Fin 255))).
Proof.
  destruct v as [|s|x].
  - left. reflexivity.
  - right. destruct (proj1 (proj2 (limit_clamps 0 255 ltac:(unfold Qle; simpl; lia)))
                       (Inf s) ltac:(discriminate)) as (q & -> & H0 & H1).
    destruct (Math_round_nearest q) as (n & -> & Hn1 & Hn2). exists n. split; [reflexivity|].
    assert (A : (inject_Z (-1) < inject_Z n)%Q) by (change (inject_Z (-1)) with (-1)%Q; lra).
    assert (B : (inject_Z n < inject_Z 256)%Q) by (change (inject_Z 256) with 256%Q; lra).
    rewrite <- Zlt_Qlt in A, B. lia.
  - right. destruct (proj1 (proj2 (limit_clamps 0 255 ltac:(unfold Qle; simpl; lia)))
                       (Fin x) ltac:(discriminate)) as (q & -> & H0 & H1).
    destruct (Math_round_nearest q) as (n & -> & Hn1 & Hn2). exists n. split; [reflexivity|].
    assert (A : (inject_Z (-1) < inject_Z n)%Q) by (change (inject_Z (-1)) with (-1)%Q; lra).
    assert (B : (inject_Z n < inject_Z 256)%Q) by (change (inject_Z 256) with 256%Q; lra).
    rewrite <- Zlt_Qlt in A, B. lia.
Qed.

(** Whatever the coordinates, the brightness and the power function are, each
    channel [xyBriToRgb] returns is NaN or a whole number from 0 to 255. *)
Theorem xyBriToRgb_channels (real_pow : Q -> Q -> Q) (x y bri : number) :
  channel (rgb_r (xyBriToRgb real_pow x y bri))
  /\ channel (rgb_g (xyBriToRgb real_pow x y bri))
  /\ channel (rgb_b (xyBriToRgb real_pow x y bri)).
Proof.
  unfold xyBriToRgb. cbn [rgb_r rgb_g rgb_b]. repeat split; apply channel_of_limit.
Qed.

(** ** Access bits and the on/off transcoder *)

Lemma land_bit (a : Z) (k : Z) :
  0 <= k -> negb (Z.land a (2 ^ k) =? 0) = Z.testbit a k.
Proof.
  intros Hk. destruct (Z.testbit a k) eqn:E.
  - apply negb_true_iff, Z.eqb_neq. intros H.
    assert (B : Z.testbit (Z.land a (2 ^ k)) k = true).
    { rewrite Z.land_spec, E, Z.pow2_bits_true by exact Hk. reflexivity. }
    rewrite H, Z.bits_0 in B. discriminate.
  - apply negb_false_iff, Z.eqb_eq, Z.bits_inj'. intros n Hn.
    rewrite Z.land_spec, Z.bits_0, Z.pow2_bits_eqb by exact Hk.
    destruct (Z.eqb_spec k n) as [<-|_]; [rewrite E; reflexivity|apply andb_false_r].
Qed.

(** [isWritable] reads bit 1 of the access mask and [isReadable] bit 2, and
    nothing else; a property is declared read-only exactly when bit 1 is
    clear, an expose without an access mask gives a read-only property, and
    an override of the subclass wins. *)
Theorem access_bits (a : Z) :
  isWritable a = Z.testbit a 1
  /\ isReadable a = Z.testbit a 2
  /\ (forall expose, expose_access expose = Some a ->
        readOnly expose None = negb (Z.testbit a 1))
  /\ (forall expose, expose_access expose = None -> readOnly expose None = true)
  /\ (forall expose b, readOnly expose (Some b) = b).
Proof.
  split; [apply (land_bit a 1); lia|]. split; [apply (land_bit a 2); lia|].
  split; [|split].
  - intros expose H. unfold readOnly. rewrite H. cbn [default].
    f_equal. apply (land_bit a 1). lia.
  - intros expose H. unfold readOnly. rewrite H. reflexivity.
  - reflexivity.
Qed.

Lemma access_bits_witness :
  expose_access (brightness_expose None) = Some 7
  /\ readOnly (brightness_expose None) None = negb (Z.testbit 7 1).
Proof.
  split; [reflexivity|].
  apply (proj1 (proj2 (proj2 (access_bits 7))) (brightness_expose None)). reflexivity.
Defined.

(** The on/off transcoder: a boolean sent and received comes back as itself,
    and only the exact string ON reads as on. *)
Theorem on_off_round_trip :
  (forall b, OnOffProperty_update (VStr (OnOffProperty_sendValue b)) = b)
  /\ (forall v, OnOffProperty_update v = true <-> v = VStr "ON").
Proof.
  split; [intros []; reflexivity|].
  intros v. unfold OnOffProperty_update. split.
  - destruct v as [| |b|n|s|l]; cbn; try discriminate.
    intros H. apply String.eqb_eq in H. congruence.
  - intros ->. reflexivity.
Qed.

Lemma on_off_round_trip_witness : OnOffProperty_update (VStr "ON") = true.
Proof. apply (proj2 (proj2 on_off_round_trip (VStr "ON"))). reflexivity. Defined.

(** ** The run-mode enumeration *)

Lemma map_result_Forall2 {A B} (f : A -> result B) (l : list A) (l' : list B) :
  map_result f l = Ok l' -> Forall2 (fun x y => f x = Ok y) l l'.
Proof.
  revert l'. induction l as [|x l IH]; intros l'; simpl.
  - intros [= <-]. constructor.
  - destruct (f x) as [y|m] eqn:Ex; simpl; [|discriminate].
    destruct (map_result f l) as [ys|m]; simpl; [|discriminate].
    intros [= <-]. constructor; [exact Ex|apply IH; reflexivity].
Qed.

Lemma map_result_throw_inv {A B} (f : A -> result B) (l : list A) m :
  map_result f l = Throw m -> exists x, In x l /\ f x = Throw m.
Proof.
  induction l as [|x l IH]; simpl; [discriminate|].
  destruct (f x) as [y|m'] eqn:Ex; simpl.
  - destruct (map_result f l) as [ys|m'']; simpl; [discriminate|].
    intros [= <-]. destruct (IH eq_refl) as (x' & Hin & Hx'). eauto.
  - intros [= <-]. eauto.
Qed.

(** The constructor of a run-mode property returns exactly when every value
    of the expose is a run mode: then the enumeration of the schema holds the
    converted values, one for one and in order (none when the expose has no
    values), and no value is cached; otherwise the message names a value that
    is not a run mode.  An update that returns leaves the enumeration alone. *)
Theorem run_mode_enumeration (expose : Expos) :
  match HeatingCoolingProperty_new expose with
  | Ok p =>
      hc_value p = None
      /\ match values expose with
         | Some l => exists l', hc_enum p = Some l'
                                /\ Forall2 (fun s s' => convertHeatingCoolingValue s = Ok s') l l'
         | None => hc_enum p = None
         end
  | Throw m =>
      exists l s, values expose = Some l /\ In s l /\ ~ In s run_modes
                  /\ convertHeatingCoolingValue s = Throw m
  end
  /\ (forall p s p', HeatingCoolingProperty_update p s = Ok p' ->
        hc_enum p' = hc_enum p /\ In s run_modes
        /\ exists v, hc_value p' = Some v /\ convertHeatingCoolingValue s = Ok v).
Proof.
  split.
  - unfold HeatingCoolingProperty_new, convertHeatingCoolingValues.
    destruct (values expose) as [l|]; [|cbn; split; reflexivity].
    destruct (map_result convertHeatingCoolingValue l) as [l'|m] eqn:E; cbn.
    + split; [reflexivity|]. exists l'. split; [reflexivity|].
      apply map_result_Forall2, E.
    + destruct (map_result_throw_inv _ _ _ E) as (s & Hin & Hs).
      exists l, s. repeat split; try assumption.
      intros Hm. destruct (convertHeatingCoolingValue_known s Hm) as [r Hr]. congruence.
  - intros p s p'. unfold HeatingCoolingProperty_update.
    destruct (convertHeatingCoolingValue s) as [v|m] eqn:E; cbn; [|discriminate].
    intros [= <-]. cbn. split; [reflexivity|]. split; [|eauto].
    destruct (in_dec String.string_dec s run_modes) as [Hin|Hout]; [exact Hin|].
    rewrite (convertHeatingCoolingValue_other s Hout) in E. discriminate.
Qed.

Lemma run_mode_enumeration_witness :
  HeatingCoolingProperty_update {| hc_enum := None; hc_value := None |} "heat"
  = Ok {| hc_enum := None; hc_value := Some "heating" |}
  /\ In "heat" run_modes.
Proof.
  assert (H : HeatingCoolingProperty_update {| hc_enum := None; hc_value := None |} "heat"
              = Ok {| hc_enum := None; hc_value := Some "heating" |}) by reflexivity.
  split; [exact H|].
  exact (proj1 (proj2 (proj2 (run_mode_enumeration (brightness_expose None)) _ _ _ H))).
Defined.

End Zigbee2MqttMore.

(** * Further properties of the classifier *)
Module ClassifierMore.
Import Js Classifier ClassifierSpec.

(** ** What a constraint hook leaves alone *)

(** The thermostat whose objects a constraint hook captures. *)
Definition thermostat_of (h : Hook) : option Thermostat :=
  match h with
  | doorLockProperty_updated | fanModeSeqProperty_updated _ => None
  | absMaxHeatTargetProperty_updated t | maxHeatTargetProperty_updated t
  | heatTargetProperty_updated t | minHeatTargetProperty_updated t
  | absMinHeatTargetProperty_updated t | absMaxCoolTargetProperty_updated t
  | maxCoolTargetProperty_updated t | coolTargetProperty_updated t
  | minCoolTargetProperty_updated t | absMinCoolTargetProperty_updated t
  | deadbandProperty_updated t => Some t
  end.

(** A node with the bounds of its properties, the count of notifications and
    the list of published bounds erased. *)
Definition unbounded (p : Property) : Property := set_minimum None (set_maximum None p).

Definition erase (n : Node) : Node :=
  set_published [] (set_notifications 0 (set_heap (unbounded <$> heap n) n)).

Lemma fmap_alter_erased {A B} (f : A -> B) (g : A -> A) (r : nat) (l : list A) :
  (forall x, f (g x) = f x) -> f <$> alter g r l = f <$> l.
Proof.
  intros H. revert r. induction l as [|x l IH]; intros [|r]; cbn; try reflexivity.
  - rewrite H. reflexivity.
  - f_equal. apply IH.
Qed.

Lemma erase_with_bound b r v n : erase (with_bound b r v n) = erase n.
Proof.
  unfold erase, with_bound. cbn.
  rewrite fmap_alter_erased by (intros p; destruct b; reflexivity).
  reflexivity.
Qed.

Lemma erase_value n n' r : erase n' = erase n -> at_ p_value n' r = at_ p_value n r.
Proof.
  intros H. apply (f_equal heap) in H. cbn in H.
  apply (f_equal (fun l => p_value <$> l !! r)) in H. cbn beta in H.
  rewrite !list_lookup_fmap in H. unfold at_.
  destruct (heap n' !! r), (heap n !! r); cbn in *; congruence.
Qed.

Lemma erase_updated n n' r : erase n' = erase n -> at_ updated n' r = at_ updated n r.
Proof.
  intros H. apply (f_equal heap) in H. cbn in H.
  apply (f_equal (fun l => updated <$> l !! r)) in H. cbn beta in H.
  rewrite !list_lookup_fmap in H. unfold at_.
  destruct (heap n' !! r), (heap n !! r); cbn in *; congruence.
Qed.

Lemma erase_enum n n' r : erase n' = erase n -> at_ enum n' r = at_ enum n r.
Proof.
  intros H. apply (f_equal heap) in H. cbn in H.
  apply (f_equal (fun l => enum <$> l !! r)) in H. cbn beta in H.
  rewrite !list_lookup_fmap in H. unfold at_.
  destruct (heap n' !! r), (heap n !! r); cbn in *; congruence.
Qed.

Lemma updateMaximum_erase t n n' : updateMaximum t n = Ok (tt, n') -> erase n' = erase n.
Proof.
  unfold updateMaximum, mbind, M_bind, read.
  destruct (heap n !! maxHeatTargetProperty t) as [mh|]; [|discriminate].
  destruct (negb (hasOwnProperty_value mh)); [intros [= <-]; reflexivity|].
  destruct (heap n !! deadbandProperty t) as [db|]; [|discriminate].
  destruct (heap n !! coolTargetProperty t) as [ct|]; [|discriminate].
  destruct (_ || _); [rewrite setMaximum_run; intros [= <-]; apply erase_with_bound|].
  destruct (_ || _); [intros [= <-]; reflexivity|].
  rewrite setMaximum_run. intros [= <-]. apply erase_with_bound.
Qed.

Lemma updateMinimum_erase t n n' : updateMinimum t n = Ok (tt, n') -> erase n' = erase n.
Proof.
  unfold updateMinimum, mbind, M_bind, read.
  destruct (heap n !! minCoolTargetProperty t) as [mc|]; [|discriminate].
  destruct (negb (hasOwnProperty_value mc)); [intros [= <-]; reflexivity|].
  destruct (heap n !! deadbandProperty t) as [db|]; [|discriminate].
  destruct (heap n !! heatTargetProperty t) as [ht|]; [|discriminate].
  destruct (_ || _); [rewrite setMinimum_run; intros [= <-]; apply erase_with_bound|].
  destruct (_ || _); [intros [= <-]; reflexivity|].
  rewrite setMinimum_run. intros [= <-]. apply erase_with_bound.
Qed.

Lemma read_setMaximum_erase this r n n' :
  (p ← read this; setMaximum r (value_of p)) n = Ok (tt, n') -> erase n' = erase n.
Proof.
  unfold mbind, M_bind, read. destruct (heap n !! this) as [p|]; [|discriminate].
  change (setMaximum r (value_of p) n) with (Ok (tt, with_bound Maximum r (value_of p) n)).
  intros [= <-]. apply erase_with_bound.
Qed.

Lemma read_setMinimum_erase this r n n' :
  (p ← read this; setMinimum r (value_of p)) n = Ok (tt, n') -> erase n' = erase n.
Proof.
  unfold mbind, M_bind, read. destruct (heap n !! this) as [p|]; [|discriminate].
  change (setMinimum r (value_of p) n) with (Ok (tt, with_bound Minimum r (value_of p) n)).
  intros [= <-]. apply erase_with_bound.
Qed.

Lemma pin_erase this r1 r2 (m : M unit) n n' :
  (forall n1 n2, m n1 = Ok (tt, n2) -> erase n2 = erase n1) ->
  (p ← read this; setMinimum r1 (value_of p) ;; setMaximum r2 (value_of p) ;; m) n
  = Ok (tt, n') ->
  erase n' = erase n.
Proof.
  intros Hm. destruct (heap n !! this) as [p|] eqn:Hp.
  - rewrite (run_bind _ _ _ _ _ (read_at _ _ _ Hp)).
    rewrite (run_bind _ _ _ _ _ (setMinimum_run _ _ _)).
    rewrite (run_bind _ _ _ _ _ (setMaximum_run _ _ _)).
    intros H. apply Hm in H. rewrite H, !erase_with_bound. reflexivity.
  - unfold mbind, M_bind, read. rewrite Hp. discriminate.
Qed.

Lemma run_hook_erase h t this n n' :
  thermostat_of h = Some t -> run_hook h this n = Ok (tt, n') -> erase n' = erase n.
Proof.
  destruct h; cbn [thermostat_of]; try discriminate; intros [= ->]; cbn [run_hook].
  - apply read_setMaximum_erase.
  - apply updateMaximum_erase.
  - apply pin_erase. apply updateMinimum_erase.
  - apply read_setMinimum_erase.
  - apply read_setMinimum_erase.
  - apply read_setMaximum_erase.
  - apply read_setMaximum_erase.
  - apply pin_erase. apply updateMaximum_erase.
  - apply updateMinimum_erase.
  - apply read_setMinimum_erase.
  - unfold mbind, M_bind.
    destruct (updateMaximum t n) as [[[] n1]|e] eqn:E1; [|discriminate].
    intros H. apply updateMinimum_erase in H. apply updateMaximum_erase in E1. congruence.
Qed.

(** An update of a thermostat property stores the reported value in that
    property, and the hook it runs changes bounds only: every cached value,
    every hook and every enumeration is as the update routine left it, and
    so is the node apart from the notifications. *)
Theorem constraint_hooks_keep_values (r : ref) (v : value) (h : Hook) (t : Thermostat)
    (n n' : Node) :
  at_ updated n r = Some (Some h) ->
  thermostat_of h = Some t ->
  update r v n = Ok (tt, n') ->
  erase n' = erase (received r v n)
  /\ known n' r v
  /\ (forall r', r' <> r -> at_ p_value n' r' = at_ p_value n r')
  /\ (forall r', at_ updated n' r' = at_ updated n r')
  /\ (forall r', at_ enum n' r' = at_ enum n r').
Proof.
  intros Hh Ht Hrun. rewrite (update_run _ _ _ _ Hh) in Hrun.
  pose proof (run_hook_erase h t r _ _ Ht Hrun) as He.
  split; [exact He|]. split; [|split; [|split]].
  - unfold known. rewrite (erase_value _ _ _ He).
    apply received_known. eapply valid_at, Hh.
  - intros r' Hr'. rewrite (erase_value _ _ _ He). apply received_value. congruence.
  - intros r'. rewrite (erase_updated _ _ _ He). apply received_updated.
  - intros r'. rewrite (erase_enum _ _ _ He).
    unfold at_, received. cbn. rewrite list_lookup_alter.
    destruct (decide (r = r')) as [->|]; [|reflexivity].
    destruct (heap n !! r'); reflexivity.
Qed.

Lemma returns_on {A} (o : option Node) (n : Node) (m : M A) e :
  o = Some n ->
  (fun n => match m n with Ok _ => true | Throw _ => false end) <$> o = Some true ->
  m n <> Throw e.
Proof. intros -> [= H] E. rewrite E in H. discriminate. Qed.

Lemma constraint_hooks_keep_values_witness :
  exists n0 n',
    configured = Some n0
    /\ update (heatTargetProperty thermostat_cells) (VInt 20) n0 = Ok (tt, n')
    /\ known n' (heatTargetProperty thermostat_cells) (VInt 20)
    /\ at_ p_value n' (coolTargetProperty thermostat_cells)
       = at_ p_value n0 (coolTargetProperty thermostat_cells).
Proof.
  destruct configured as [n0|] eqn:H0; [|exfalso; vm_compute in H0; discriminate H0].
  assert (Hh : at_ updated n0 (heatTargetProperty thermostat_cells)
               = Some (Some (heatTargetProperty_updated thermostat_cells)))
    by on_node H0.
  destruct (update (heatTargetProperty thermostat_cells) (VInt 20) n0)
    as [[[] n']|e] eqn:Hrun;
    [|exfalso; apply (returns_on _ _ _ e H0) in Hrun; [exact Hrun|vm_compute; reflexivity]].
  destruct (constraint_hooks_keep_values _ _ _ thermostat_cells _ _ Hh eq_refl Hrun)
    as (_ & Hk & Hv & _).
  exists n0, n'. split; [reflexivity|]. split; [exact Hrun|]. split; [exact Hk|].
  apply Hv. discriminate.
Defined.

(** ** The chain of limits *)





Lemma with_minimum_other r v n r' :
  r <> r' -> at_ minimum (with_bound Minimum r v n) r' = at_ minimum n r'.
Proof.
  intros Hne. unfold at_, with_bound. cbn. rewrite list_lookup_alter_ne by exact Hne.
  reflexivity.
Qed.

Lemma with_maximum_other r v n r' :
  r <> r' -> at_ maximum (with_bound Maximum r v n) r' = at_ maximum n r'.
Proof.
  intros Hne. unfold at_, with_bound. cbn. rewrite list_lookup_alter_ne by exact Hne.
  reflexivity.
Qed.

(** A reported target pins the user limits of its side: whatever the value,
    the update returns, and the value is then the lower bound of the user
    maximum and the upper bound of the user minimum, so that neither limit can
    be moved across the target. *)
Theorem target_pins_limits (t : Thermostat) (n : Node) :
  wired t n ->
  valid n (minHeatTargetProperty t) -> valid n (maxCoolTargetProperty t) ->
  (forall h, exists n',
      update (heatTargetProperty t) h n = Ok (tt, n')
      /\ at_ minimum n' (maxHeatTargetProperty t) = Some (Some h)
      /\ at_ maximum n' (minHeatTargetProperty t) = Some (Some h))
  /\ (forall c, exists n',
         update (coolTargetProperty t) c n = Ok (tt, n')
         /\ at_ minimum n' (maxCoolTargetProperty t) = Some (Some c)
         /\ at_ maximum n' (minCoolTargetProperty t) = Some (Some c)).
Proof.
  intros W Hminheat Hmaxcool.
  destruct (wired_valid t n W) as (Hd & Ha & Hh & Hm & Hc).
  destruct (wired_ne t n W) as (Hhm & _ & Hca & _).
  split.
  - intros h. rewrite (update_run _ _ _ _ (wired_heat t n W)).
    set (n1 := received (heatTargetProperty t) h n).
    rewrite (heatTarget_hook t n1 h) by (apply received_known, Hh).
    set (n2 := with_bound Minimum (maxHeatTargetProperty t) h n1).
    set (n3 := with_bound Maximum (minHeatTargetProperty t) h n2).
    assert (V : forall r, valid n r -> valid n3 r).
    { intros r Hr. apply with_bound_valid, with_bound_valid, received_valid, Hr. }
    destruct (updateMinimum_frame t n3 (V _ Hm) (V _ Hd) (V _ Hh)) as (n' & Hrun & Hn').
    assert (H2 : at_ minimum n3 (maxHeatTargetProperty t) = Some (Some h)).
    { unfold n3. rewrite with_maximum_minimum.
      apply with_minimum_minimum, received_valid, Ha. }
    assert (H3 : at_ maximum n3 (minHeatTargetProperty t) = Some (Some h)).
    { apply with_maximum_maximum, with_bound_valid, received_valid, Hminheat. }
    exists n'. split; [exact Hrun|].
    destruct Hn' as [->|[v ->]]; [split; assumption|].
    rewrite with_minimum_other by exact Hca. rewrite with_minimum_maximum.
    split; assumption.
  - intros c. rewrite (update_run _ _ _ _ (wired_cool t n W)).
    set (n1 := received (coolTargetProperty t) c n).
    rewrite (coolTarget_hook t n1 c) by (apply received_known, Hc).
    set (n2 := with_bound Minimum (maxCoolTargetProperty t) c n1).
    set (n3 := with_bound Maximum (minCoolTargetProperty t) c n2).
    assert (V : forall r, valid n r -> valid n3 r).
    { intros r Hr. apply with_bound_valid, with_bound_valid, received_valid, Hr. }
    destruct (updateMaximum_frame t n3 (V _ Ha) (V _ Hd) (V _ Hc)) as (n' & Hrun & Hn').
    assert (H2 : at_ minimum n3 (maxCoolTargetProperty t) = Some (Some c)).
    { unfold n3. rewrite with_maximum_minimum.
      apply with_minimum_minimum, received_valid, Hmaxcool. }
    assert (H3 : at_ maximum n3 (minCoolTargetProperty t) = Some (Some c)).
    { apply with_maximum_maximum, with_bound_valid, received_valid, Hm. }
    exists n'. split; [exact Hrun|].
    destruct Hn' as [->|[v ->]]; [split; assumption|].
    rewrite with_maximum_minimum. rewrite with_maximum_other by exact Hhm.
    split; assumption.
Qed.

(** The hooks and the cells of the classified thermostat. *)
Lemma thermostat_node_wired n0 :
  classified thermostat_node = Some n0 ->
  wired thermostat_cells n0
  /\ valid n0 (minHeatTargetProperty thermostat_cells)
  /\ valid n0 (maxCoolTargetProperty thermostat_cells).
Proof.
  intros H0. split; [|split].
  - split; [on_node H0 ..|]. refine (bool_decide_unpack _ _). vm_compute. exact I.
  - apply (valid_at updated n0 _ (Some (minHeatTargetProperty_updated thermostat_cells))).
    on_node H0.
  - apply (valid_at updated n0 _ (Some (maxCoolTargetProperty_updated thermostat_cells))).
    on_node H0.
Qed.

Lemma target_pins_limits_witness :
  exists n0 n',
    classified thermostat_node = Some n0
    /\ update (heatTargetProperty thermostat_cells) (VInt 20) n0 = Ok (tt, n')
    /\ at_ minimum n' (maxHeatTargetProperty thermostat_cells) = Some (Some (VInt 20))
    /\ at_ maximum n' (minHeatTargetProperty thermostat_cells) = Some (Some (VInt 20)).
Proof.
  destruct (classified thermostat_node) as [n0|] eqn:H0;
    [|exfalso; vm_compute in H0; discriminate H0].
  destruct (thermostat_node_wired n0 H0) as (W & V1 & V2).
  destruct (proj1 (target_pins_limits thermostat_cells n0 W V1 V2) (VInt 20))
    as (n' & Hrun & H1 & H2).
  exists n0, n'. split; [reflexivity|]. split; [exact Hrun|]. split; assumption.
Defined.

(** ** The deadband *)

Lemma Math_min_finite (a x : Q) :
  exists M, Math_min (Fin a) (Fin x) = Fin M /\ (M <= a)%Q /\ (M <= x)%Q.
Proof.
  cbn. destruct (Qle_bool a x) eqn:E.
  - apply Qle_bool_iff in E. exists a. split; [reflexivity|lra].
  - exists x. split; [reflexivity|]. split; [|lra].
    destruct (Qlt_le_dec x a) as [H|H]; [lra|].
    apply Qle_bool_iff in H. congruence.
Qed.

Lemma Math_max_finite (a x : Q) :
  exists M, Math_max (Fin a) (Fin x) = Fin M /\ (a <= M)%Q /\ (x <= M)%Q.
Proof.
  cbn. destruct (Qle_bool a x) eqn:E.
  - apply Qle_bool_iff in E. exists x. split; [reflexivity|lra].
  - exists a. split; [reflexivity|]. split; [lra|].
    destruct (Qlt_le_dec x a) as [H|H]; [lra|].
    apply Qle_bool_iff in H. congruence.
Qed.

Lemma separation (t : Thermostat) (n : Node) (d : Q) :
  wired t n ->
  known n (deadbandProperty t) (VNum (Fin d)) ->
  (forall a c : Q,
      known n (maxHeatTargetProperty t) (VNum (Fin a)) ->
      exists n' M,
        update (coolTargetProperty t) (VNum (Fin c)) n = Ok (tt, n')
        /\ at_ maximum n' (heatTargetProperty t) = Some (Some (VNum (Fin M)))
        /\ (M <= a)%Q /\ (M + d <= c)%Q)
  /\ (forall m h : Q,
         known n (minCoolTargetProperty t) (VNum (Fin m)) ->
         exists n' M,
           update (heatTargetProperty t) (VNum (Fin h)) n = Ok (tt, n')
           /\ at_ minimum n' (coolTargetProperty t) = Some (Some (VNum (Fin M)))
           /\ (m <= M)%Q /\ (h + d <= M)%Q).
Proof.
  intros W Kd. destruct (wired_valid t n W) as (Hd & Ha & Hh & Hm & Hc). split.
  - intros a c Ka.
    destruct (Math_min_finite a (c + - d)) as (M & EM & H1 & H2).
    eexists _, M. split; [apply (update_coolTarget t n _ _ _ W Ka Kd)|].
    split; [|split; lra].
    change (sub (Fin c) (Fin d)) with (Fin (c + - d)). rewrite EM.
    apply with_maximum_maximum. rewrite !with_bound_valid. apply received_valid, Hh.
  - intros m h Km.
    destruct (Math_max_finite m (h + d)) as (M & EM & H1 & H2).
    eexists _, M. split; [apply (update_heatTarget t n _ _ _ W Km Kd)|].
    split; [|split; lra].
    change (add (Fin h) (Fin d)) with (Fin (h + d)). rewrite EM.
    apply with_minimum_minimum. rewrite !with_bound_valid. apply received_valid, Hc.
Qed.

(** Whole degrees that a double holds exactly, with room for one sum. *)
Definition whole (z : Z) : Prop := Z.abs z <= 2 ^ 52.

(** With whole-degree operands the recomputed bounds keep the two targets a
    deadband apart: after a report of the cool target the heat target's
    maximum is at most the user max-heat limit and at least a deadband below
    the cool target; after a report of the heat target the cool target's
    minimum is at least the user min-cool limit and at least a deadband above
    the heat target. *)
Theorem deadband_separation (t : Thermostat) (n : Node) (d : Z) :
  wired t n ->
  whole d ->
  known n (deadbandProperty t) (VInt d) ->
  (forall a c : Z,
      whole a -> whole c ->
      known n (maxHeatTargetProperty t) (VInt a) ->
      exists n' M,
        update (coolTargetProperty t) (VInt c) n = Ok (tt, n')
        /\ at_ maximum n' (heatTargetProperty t) = Some (Some (VNum (Fin M)))
        /\ (M <= inject_Z a)%Q /\ (M + inject_Z d <= inject_Z c)%Q)
  /\ (forall m h : Z,
         whole m -> whole h ->
         known n (minCoolTargetProperty t) (VInt m) ->
         exists n' M,
           update (heatTargetProperty t) (VInt h) n = Ok (tt, n')
           /\ at_ minimum n' (coolTargetProperty t) = Some (Some (VNum (Fin M)))
           /\ (inject_Z m <= M)%Q /\ (inject_Z h + inject_Z d <= M)%Q).
Proof.
  intros W _ Kd. destruct (separation t n (inject_Z d) W Kd) as [Hmax Hmin]. split.
  - intros a c _ _ Ka. exact (Hmax (inject_Z a) (inject_Z c) Ka).
  - intros m h _ _ Km. exact (Hmin (inject_Z m) (inject_Z h) Km).
Qed.

Lemma deadband_separation_witness :
  exists n0 n' M,
    configured = Some n0
    /\ update (coolTargetProperty thermostat_cells) (VInt 25) n0 = Ok (tt, n')
    /\ at_ maximum n' (heatTargetProperty thermostat_cells) = Some (Some (VNum (Fin M)))
    /\ (M <= 30)%Q /\ (M + 2 <= 25)%Q.
Proof.
  destruct configured as [n0|] eqn:H0; [|exfalso; vm_compute in H0; discriminate H0].
  assert (W : wired thermostat_cells n0).
  { split; [on_node H0 ..|]. refine (bool_decide_unpack _ _). vm_compute. exact I. }
  assert (Kd : known n0 (deadbandProperty thermostat_cells) (VInt 2)) by on_node H0.
  assert (Ka : known n0 (maxHeatTargetProperty thermostat_cells) (VInt 30))
    by on_node H0.
  assert (Hw : forall z, Z.abs z <= 30 -> whole z)
    by (intros z Hz; unfold whole; lia).
  destruct (proj1 (deadband_separation thermostat_cells n0 2 W (Hw 2 ltac:(lia)) Kd)
              30 25 (Hw 30 ltac:(lia)) (Hw 25 ltac:(lia)) Ka)
    as (n' & M & Hrun & Hmax & H1 & H2).
  exists n0, n', M. split; [reflexivity|]. split; [exact Hrun|]. split; [exact Hmax|].
  split; assumption.
Defined.

(** ** The door lock and the fan *)

(** The hook of the internal lock property: the visible state becomes "locked"
    or "unlocked" as the internal value is truthy or not, and a pending
    timeout and a pending action are cleared.  The hook reads the lock
    property of the node, not the object it fires on; without a state property
    it throws. *)
Theorem door_lock_state_follows (n : Node) (lock : ref) (p : Property) (this : ref) :
  doorLockProperty n = Some lock ->
  heap n !! lock = Some p ->
  (forall st, doorLockState n = Some st ->
     exists n',
       run_hook doorLockProperty_updated this n = Ok (tt, n')
       /\ heap n' = alter (set_p_value
                             (Some (VStr (if truthy (value_of p) then "locked"
                                          else "unlocked")))) st (heap n)
       /\ doorLockTimeout n' = false /\ doorLockAction n' = false
       /\ properties n' = properties n /\ type n' = type n)
  /\ (doorLockState n = None ->
      exists message, run_hook doorLockProperty_updated this n = Throw message).
Proof.
  intros Hlock Hp. split.
  - intros st Hst. unfold run_hook.
    rewrite (run_bind _ _ n n n) by reflexivity. rewrite Hlock.
    rewrite (run_bind _ _ _ _ _ (read_at _ _ _ Hp)). rewrite Hst.
    eexists. split; [reflexivity|]. cbn. repeat split.
  - intros Hst. unfold run_hook.
    rewrite (run_bind _ _ n n n) by reflexivity. rewrite Hlock.
    rewrite (run_bind _ _ _ _ _ (read_at _ _ _ Hp)). rewrite Hst.
    eexists. reflexivity.
Qed.


(** A door lock and a thermostat with a fan. *)
Definition lock_node : Node :=
  discovered "YRD256" [(1, zha_endpoint "000a" ["0000"; "0101"] [])] (Some 3).



Lemma cell_of {A} (f : Property -> A) n r x :
  at_ f n r = Some x -> exists p, heap n !! r = Some p /\ f p = x.
Proof.
  unfold at_. destruct (heap n !! r) as [p|]; [|discriminate]. intros [= <-]. eauto.
Qed.

Lemma door_lock_state_follows_witness :
  exists n0 n',
    classified lock_node = Some n0
    /\ doorLockProperty n0 = Some 0%nat /\ doorLockState n0 = Some 1%nat
    /\ run_hook doorLockProperty_updated 0%nat n0 = Ok (tt, n')
    /\ doorLockTimeout n' = false.
Proof.
  destruct (classified lock_node) as [n0|] eqn:H0;
    [|exfalso; vm_compute in H0; discriminate H0].
  assert (Hl : doorLockProperty n0 = Some 0%nat) by on_node H0.
  assert (Hs : doorLockState n0 = Some 1%nat) by on_node H0.
  assert (Hn : at_ name n0 0%nat = Some "_lockedInterntal") by on_node H0.
  destruct (cell_of _ _ _ _ Hn) as (p & Hp & _).
  destruct (proj1 (door_lock_state_follows n0 0%nat p 0%nat Hl Hp) 1%nat Hs)
    as (n' & Hrun & _ & Ht & _).
  exists n0, n'. split; [reflexivity|]. split; [exact Hl|]. split; [exact Hs|].
  split; [exact Hrun|exact Ht].
Defined.


(** ** The property factory *)

(** The profile [addProperty] compares and stores: a string is read as a
    hexadecimal number. *)
Definition profile_number (profileId : value) : value :=
  match profileId with
  | VStr s => VNum (parseInt16 s)
  | _ => profileId
  end.

Section Factory.

Variable K : Constants.

(** [addProperty] always returns: the new object takes the next cell, and the
    name resolves to it. *)
Lemma addProperty_returns n name descr profileId endpoint clusterId attr sa pa cr dv :
  let p := new_property K n name descr profileId endpoint clusterId attr sa pa cr dv in
  let n' := register name p n in
  addProperty K name descr profileId endpoint clusterId attr sa pa cr dv n
  = Ok (length (heap n), n')
  /\ heap n' !! length (heap n) = Some p
  /\ property_named n' name = Some p.
Proof.
  cbv zeta. split; [apply addProperty_run|].
  assert (E : forall p, (heap n ++ [p]) !! length (heap n) = Some p).
  { intros p. rewrite lookup_app_r, Nat.sub_diag by lia. reflexivity. }
  split; [apply E|].
  unfold property_named, register. cbn. rewrite lookup_insert_eq. cbn. apply E.
Qed.

Lemma rehydrate_profile devInfo p : profileId (rehydrate devInfo p) = profileId p.
Proof.
  unfold rehydrate.
  destruct (_ && _); [|reflexivity].
  destruct (di_minimum devInfo), (di_maximum devInfo), (di_level devInfo),
    (di_enum devInfo) as [e|]; cbn; try reflexivity;
    destruct (enum _) as [[|? ?]|]; reflexivity.
Qed.

(** The members of the new object that [addProperty] assigns last, whatever
    the snapshot holds. *)
Lemma addProperty_assign_members d nm at_ z cr dv p :
  let q := addProperty_assign d nm at_ z cr dv p in
  profileId q = profileId p
  /\ defaultValue q = dv
  /\ (is_private nm = true -> visible q = false)
  /\ (configReportNeeded q = true -> configReport q = cr)
  /\ (z = true -> fireAndForget q = true).
Proof.
  unfold addProperty_assign.
  set (p1 := match d ≫= _ with Some devInfo => rehydrate devInfo p | None => p end).
  assert (E1 : profileId p1 = profileId p).
  { subst p1. destruct (d ≫= _); [apply rehydrate_profile|reflexivity]. }
  clearbody p1.
  set (p2 := if z then set_fireAndForget true p1 else p1).
  assert (E2 : profileId p2 = profileId p) by (subst p2; destruct z; exact E1).
  assert (F2 : z = true -> fireAndForget p2 = true) by (intros ->; reflexivity).
  clearbody p2. cbv zeta.
  assert (Fin : forall A B C D E : Prop, A -> B -> C -> D -> E -> A /\ B /\ C /\ D /\ E)
    by tauto.
  destruct cr as [c|]; cbn.
  - destruct (String.eqb_spec at_ ""); cbn.
    + destruct (is_private nm); cbn; apply Fin; try easy.
    + destruct (fireAndForget p2) eqn:E; cbn; destruct (is_private nm); cbn;
        apply Fin; try easy; intros Hz; specialize (F2 Hz); discriminate F2.
  - destruct (is_private nm); cbn; apply Fin; try easy.
Qed.

(** What [addProperty] decides for the new property.  Exactly one of the
    fire-and-forget flag and the report flag is set; the bind flag is the
    report flag; reports are requested only when a report configuration was
    passed and the attribute path is not empty, and the configuration passed
    is then the one stored; a name that starts with an underscore makes the
    property invisible; the binding and the default value are the ones
    passed. *)
Theorem addProperty_decides n name descr profileId endpoint clusterId attr sa pa cr dv :
  exists p n',
    addProperty K name descr profileId endpoint clusterId attr sa pa cr dv n
    = Ok (length (heap n), n')
    /\ property_named n' name = Some p
    /\ Classifier.name p = name /\ Classifier.attr p = attr
    /\ Classifier.endpoint p = endpoint /\ Classifier.clusterId p = clusterId
    /\ Classifier.descr p = descr /\ defaultValue p = dv
    /\ configReportNeeded p = negb (fireAndForget p)
    /\ bindNeeded p = configReportNeeded p
    /\ (configReportNeeded p = true -> configReport p = cr /\ cr <> None /\ attr <> "")
    /\ (is_private name = true -> visible p = false).
Proof.
  destruct (addProperty_returns n name descr profileId endpoint clusterId attr sa pa cr dv)
    as (Hrun & _ & Hnamed).
  eexists _, _. split; [exact Hrun|]. split; [exact Hnamed|].
  unfold new_property.
  match goal with |- context [addProperty_assign ?d ?nm ?a ?z ?c ?v ?p] =>
    pose proof (addProperty_assign_binding d nm a z c v p) as (Hn & Ha & Hd & Hc & He & _);
    pose proof (addProperty_assign_flags d nm a z c v p) as (F1 & F2 & F3 & F4 & F5);
    pose proof (addProperty_assign_members d nm a z c v p) as (_ & M2 & M3 & M4 & _);
    set (q := addProperty_assign d nm a z c v p) in *
  end.
  cbv zeta in F1, F2, F3, F4, F5, M2, M3, M4.
  rewrite Hn, Ha, Hd, Hc, He. cbn [Classifier.name Classifier.attr Classifier.descr
    Classifier.clusterId Classifier.endpoint ZigbeeProperty_new].
  repeat split; try assumption.
  - destruct (configReportNeeded q) eqn:E1, (fireAndForget q) eqn:E2; try reflexivity.
    + specialize (F1 eq_refl). discriminate.
    + destruct (F2 eq_refl) as [_ H]. discriminate.
  - auto.
  - intros ->. specialize (F5 eq_refl). congruence.
  - intros ->. specialize (F4 eq_refl). congruence.
Qed.

(** On an endpoint of the light-link profile (given as its number or as the
    hexadecimal string of the endpoint table) attribute reporting is never
    used: the property is fire-and-forget, no report configuration and no
    binding is requested whatever configuration is passed, and the profile
    stored is the home-automation profile. *)
Theorem addProperty_light_link n name descr profileId endpoint clusterId attr sa pa cr dv :
  loose_eqb (profile_number profileId) (VInt (PROFILE_ID_ZLL K)) = true ->
  exists p n',
    addProperty K name descr profileId endpoint clusterId attr sa pa cr dv n
    = Ok (length (heap n), n')
    /\ property_named n' name = Some p
    /\ Classifier.profileId p = ZHA K
    /\ fireAndForget p = true /\ configReportNeeded p = false /\ bindNeeded p = false.
Proof.
  intros Hzll.
  destruct (addProperty_returns n name descr profileId endpoint clusterId attr sa pa cr dv)
    as (Hrun & _ & Hnamed).
  eexists _, _. split; [exact Hrun|]. split; [exact Hnamed|].
  unfold new_property. fold (profile_number profileId). rewrite Hzll.
  match goal with |- context [addProperty_assign ?d ?nm ?a ?z ?c ?v ?p] =>
    pose proof (addProperty_assign_flags d nm a z c v p) as (F1 & F2 & F3 & _);
    pose proof (addProperty_assign_members d nm a z c v p) as (M1 & _ & _ & _ & M5);
    set (q := addProperty_assign d nm a z c v p) in *
  end.
  cbv zeta in F1, F3, M1, M5. specialize (M5 eq_refl).
  split; [rewrite M1; reflexivity|]. split; [exact M5|].
  assert (E : configReportNeeded q = false).
  { destruct (configReportNeeded q); [|reflexivity]. specialize (F1 eq_refl). congruence. }
  split; [exact E|congruence].
Qed.




End Factory.





Lemma addProperty_light_link_witness :
  exists p n',
    addProperty zcl "on" [] (VStr "c05e") (VInt 1) (VInt 6) "onOff" "" ""
      (Some CONFIG_REPORT_INTEGER) VUndefined switch_node
    = Ok (length (heap switch_node), n')
    /\ property_named n' "on" = Some p
    /\ Classifier.profileId p = ZHA zcl
    /\ fireAndForget p = true /\ configReportNeeded p = false /\ bindNeeded p = false.
Proof.
  apply addProperty_light_link. vm_compute. reflexivity.
Defined.

(** ** The hooks [addThermostatProperties] installs *)

Local Open Scope nat_scope.

(** The objects of the eleven setpoint properties of a thermostat whose first
    property is created in cell [base]: "temperature", "mode" and "runMode"
    come first, the setpoints follow in the order of creation. *)
Definition cells_from (base : nat) : Thermostat :=
  {| deadbandProperty := base + 3; absMaxHeatTargetProperty := base + 4;
     absMinHeatTargetProperty := base + 5; maxHeatTargetProperty := base + 6;
     minHeatTargetProperty := base + 7; heatTargetProperty := base + 8;
     absMaxCoolTargetProperty := base + 9; absMinCoolTargetProperty := base + 10;
     maxCoolTargetProperty := base + 11; minCoolTargetProperty := base + 12;
     coolTargetProperty := base + 13 |}.

(** The state while the properties are created: [k] cells on top of the
    [base] cells the node had, the hooks of [hs] installed and the names of
    [ns] registered, each at its offset from [base]. *)
Definition hooks_at (base : nat) (hs : list (nat * Hook)) (n : Node) : Prop :=
  forall i h, (i, h) ∈ hs -> at_ updated n (base + i) = Some (Some h).

Definition names_at (base : nat) (ns : list (string * nat)) (n : Node) : Prop :=
  forall name i, (name, i) ∈ ns -> properties n !! name = Some (base + i).

Definition shaped (base k : nat) (hs : list (nat * Hook)) (ns : list (string * nat))
    (n : Node) : Prop :=
  length (heap n) = base + k /\ hooks_at base hs n /\ names_at base ns n.

(** The state afterwards: at least [k] cells on top. *)
Definition grown (base k : nat) (hs : list (nat * Hook)) (ns : list (string * nat))
    (n : Node) : Prop :=
  base + k <= length (heap n) /\ hooks_at base hs n /\ names_at base ns n.

Lemma shaped_grown base k hs ns n : shaped base k hs ns n -> grown base k hs ns n.
Proof. intros (Hl & Hh & Hn). split; [lia|split; assumption]. Qed.

Lemma total_pure {A} (phi : Prop) (P : Node -> Prop) (m : M A) Q :
  (phi -> total P m Q) -> total (fun n => phi /\ P n) m Q.
Proof. intros H n [Hphi HP]. apply H; assumption. Qed.

Lemma hooks_at_frame base hs n n' :
  (forall r, valid n r -> at_ updated n' r = at_ updated n r) ->
  hooks_at base hs n -> hooks_at base hs n'.
Proof.
  intros Hf Hh i h Hin. rewrite Hf; [apply Hh, Hin|].
  eapply valid_at, Hh, Hin.
Qed.

Lemma at_register {A} (f : Property -> A) name p n r :
  valid n r -> at_ f (register name p n) r = at_ f n r.
Proof.
  intros Hr. unfold at_, register. cbn. rewrite lookup_app_l by exact Hr. reflexivity.
Qed.

(** A name that no pair of the list has. *)
Definition unused (name : string) (ns : list (string * nat)) : Prop :=
  forall i, (name, i) ∉ ns.

Lemma names_at_register base ns name p n :
  unused name ns -> names_at base ns n -> names_at base ns (register name p n).
Proof.
  intros Hu Hn k i Hin. unfold register. cbn. rewrite lookup_insert_ne; [apply Hn, Hin|].
  intros <-. exact (Hu _ Hin).
Qed.

Section Wiring.

Variable K : Constants.
Variable NM : NodeMethods.

Lemma shaped_addProperty base k hs ns name descr profileId endpoint clusterId attr sa pa
    cr dv :
  unused name ns ->
  total (shaped base k hs ns)
    (addProperty K name descr profileId endpoint clusterId attr sa pa cr dv)
    (fun r n => r = base + k /\ shaped base (S k) hs ((name, k) :: ns) n).
Proof.
  intros Hu n (Hl & Hh & Hn). unfold wp. rewrite addProperty_run.
  split; [exact Hl|]. split; [|split].
  - unfold register. cbn. rewrite length_app. cbn. lia.
  - eapply hooks_at_frame; [|exact Hh]. intros r Hr. apply at_register, Hr.
  - intros nm i Hin. apply elem_of_cons in Hin as [[= -> ->]|Hin].
    + unfold register. cbn. rewrite lookup_insert_eq, Hl. reflexivity.
    + exact (names_at_register base ns name _ n Hu Hn nm i Hin).
Qed.

Lemma grown_addProperty base k hs ns name descr profileId endpoint clusterId attr sa pa
    cr dv :
  unused name ns ->
  total (grown base k hs ns)
    (addProperty K name descr profileId endpoint clusterId attr sa pa cr dv)
    (fun r n => base + k <= r /\ grown base k hs ns n).
Proof.
  intros Hu n (Hl & Hh & Hn). unfold wp. rewrite addProperty_run.
  split; [exact Hl|]. split; [|split].
  - unfold register. cbn. rewrite length_app. cbn. lia.
  - eapply hooks_at_frame; [|exact Hh]. intros r Hr. apply at_register, Hr.
  - apply names_at_register; assumption.
Qed.

End Wiring.

(** Installing a hook at an offset that has none yet. *)
Lemma shaped_hook base k hs ns i h :
  i < k -> (forall h', (i, h') ∉ hs) ->
  total (shaped base k hs ns) (update_property (base + i) (set_updated (Some h)))
    (fun _ => shaped base k ((i, h) :: hs) ns).
Proof.
  intros Hi Hfresh n (Hl & Hh & Hn). unfold wp, update_property, modify.
  split; [|split; [|exact Hn]].
  - cbn. rewrite length_alter. exact Hl.
  - intros j h' Hin. apply elem_of_cons in Hin as [[= -> ->]|Hin].
    + unfold at_. cbn. rewrite list_lookup_alter_eq.
      destruct (lookup_lt_is_Some_2 (heap n) (base + i)) as [p ->]; [lia|]. reflexivity.
    + unfold at_. cbn. rewrite list_lookup_alter_ne.
      * apply Hh, Hin.
      * intros E. assert (i = j) by lia. subst j. exact (Hfresh _ Hin).
Qed.

(** Installing a hook above the offsets that are tracked. *)
Lemma grown_hook base k hs ns r h :
  base + k <= r -> (forall i h', (i, h') ∈ hs -> i < k) ->
  total (grown base k hs ns) (update_property r (set_updated (Some h)))
    (fun _ => grown base k hs ns).
Proof.
  intros Hr Hlow n (Hl & Hh & Hn). unfold wp, update_property, modify.
  split; [|split; [|exact Hn]].
  - cbn. rewrite length_alter. exact Hl.
  - intros j h' Hin. unfold at_. cbn. rewrite list_lookup_alter_ne.
    + apply Hh, Hin.
    + specialize (Hlow _ _ Hin). lia.
Qed.

Lemma shaped_with_bound base k hs ns b r v n :
  shaped base k hs ns n -> shaped base k hs ns (with_bound b r v n).
Proof.
  intros (Hl & Hh & Hn). split; [|split; [|exact Hn]].
  - unfold with_bound. cbn. rewrite length_alter. exact Hl.
  - intros i h Hin. rewrite with_bound_updated. apply Hh, Hin.
Qed.

Lemma shaped_setMinimum base k hs ns r v :
  total (shaped base k hs ns) (setMinimum r v) (fun _ => shaped base k hs ns).
Proof. intros n H. unfold wp. rewrite setMinimum_run. apply shaped_with_bound, H. Qed.

Lemma shaped_setMaximum base k hs ns r v :
  total (shaped base k hs ns) (setMaximum r v) (fun _ => shaped base k hs ns).
Proof. intros n H. unfold wp. rewrite setMaximum_run. apply shaped_with_bound, H. Qed.

Lemma shaped_read base k hs ns i :
  i < k -> total (shaped base k hs ns) (read (base + i)) (fun _ => shaped base k hs ns).
Proof.
  intros Hi n H. apply wp_read; [destruct H as [Hl _]; lia|intros; exact H].
Qed.

Lemma shaped_updateMaximum base k hs ns :
  14 <= k ->
  total (shaped base k hs ns) (updateMaximum (cells_from base)) (fun _ => shaped base k hs ns).
Proof.
  intros Hk n H. pose proof H as [Hl _].
  destruct (updateMaximum_frame (cells_from base) n) as (n' & Hrun & Hn');
    [unfold valid; cbn; lia ..|].
  unfold wp. rewrite Hrun. destruct Hn' as [->|[v ->]]; [exact H|].
  apply shaped_with_bound, H.
Qed.

Lemma shaped_updateMinimum base k hs ns :
  14 <= k ->
  total (shaped base k hs ns) (updateMinimum (cells_from base)) (fun _ => shaped base k hs ns).
Proof.
  intros Hk n H. pose proof H as [Hl _].
  destruct (updateMinimum_frame (cells_from base) n) as (n' & Hrun & Hn');
    [unfold valid; cbn; lia ..|].
  unfold wp. rewrite Hrun. destruct Hn' as [->|[v ->]]; [exact H|].
  apply shaped_with_bound, H.
Qed.

Ltac absent :=
  let Hin := fresh "Hin" in
  intros ? Hin;
  repeat (apply elem_of_cons in Hin as [[=]|Hin]);
  apply elem_of_nil in Hin; exact Hin.

Lemma grown_weaken base k k' hs hs' ns ns' n :
  k' <= k -> hs' ⊆ hs -> ns' ⊆ ns -> grown base k hs ns n -> grown base k' hs' ns' n.
Proof.
  intros Hk Hhs Hns (Hl & Hh & Hn). split; [lia|]. split.
  - intros i h Hin. apply Hh, Hhs, Hin.
  - intros nm i Hin. apply Hn, Hns, Hin.
Qed.

Ltac listed :=
  repeat first [apply elem_of_cons; left; reflexivity | apply elem_of_cons; right].

Ltac included :=
  let Hin := fresh "Hin" in
  intros ? Hin;
  repeat (apply elem_of_cons in Hin as [->|Hin]; [listed|]);
  apply elem_of_nil in Hin; destruct Hin.

Ltac low :=
  let Hin := fresh "Hin" in
  intros ? ? Hin;
  repeat (apply elem_of_cons in Hin as [[= -> _]|Hin]; [lia|]);
  apply elem_of_nil in Hin; destruct Hin.

Ltac wire_step :=
  cbv beta;
  lazymatch goal with
  | |- total (fun n => _ = _ /\ _) _ _ => apply total_pure; intros ->
  | |- total (fun n => _ <= _ /\ _) _ _ => apply total_pure; intros ?
  | |- total (shaped _ _ _ _) (get ≫= _) _ => fail
  | |- total ?P (get ≫= _) _ =>
      eapply (total_bind P get _ (fun _ => P)); [apply total_get_keep|intros ?]
  | |- total ?P (when _ _ ≫= _) _ =>
      eapply (total_bind P _ _ (fun _ => P)); [apply total_when|intros ?]
  | |- total _ (mbind _ _) _ => eapply total_bind; [|intros ?]
  | |- total (shaped _ _ _ _) (addProperty _ _ _ _ _ _ _ _ _ _ _) _ =>
      apply shaped_addProperty; absent
  | |- total (shaped _ _ _ _) (addSetpointProperty _ _ _ _ _ _ _) _ =>
      unfold addSetpointProperty; apply shaped_addProperty; absent
  | |- total (shaped _ _ _ _) (update_property _ (set_updated _)) _ =>
      apply shaped_hook; [lia|absent]
  | |- total (shaped _ _ _ _) (updateMaximum _) _ => apply shaped_updateMaximum; lia
  | |- total (shaped _ _ _ _) (updateMinimum _) _ => apply shaped_updateMinimum; lia
  | |- total (shaped _ _ _ _) (read _) _ => apply shaped_read; lia
  | |- total (shaped _ _ _ _) (when _ (setMinimum _ _)) _ =>
      apply total_when, shaped_setMinimum
  | |- total (shaped _ _ _ _) (when _ (setMaximum _ _)) _ =>
      apply total_when, shaped_setMaximum
  | |- total (shaped _ _ _ _) (setMinimum _ _) _ => apply shaped_setMinimum
  | |- total (shaped _ _ _ _) (setMaximum _ _) _ => apply shaped_setMaximum
  | |- total (grown _ _ _ _) (addProperty _ _ _ _ _ _ _ _ _ _ _) _ =>
      apply grown_addProperty; absent
  | |- total (grown _ _ _ _) get _ => apply total_get_keep
  | |- total (grown _ _ _ _) (when _ _) _ => apply total_when
  | |- total (grown _ _ _ _) skip _ => apply total_ret
  | |- total (grown _ _ _ _) (update_property _ (set_updated _)) _ =>
      apply grown_hook; [assumption|low]
  | |- total _ (let _ := _ in _) _ => cbv zeta
  end.

(** The hooks and the names of the setpoint properties, by offset. *)
Definition hooks (t : Thermostat) : list (nat * Hook) :=
  [(3, deadbandProperty_updated t); (4, absMaxHeatTargetProperty_updated t);
   (5, absMinHeatTargetProperty_updated t); (6, maxHeatTargetProperty_updated t);
   (7, minHeatTargetProperty_updated t); (8, heatTargetProperty_updated t);
   (9, absMaxCoolTargetProperty_updated t); (10, absMinCoolTargetProperty_updated t);
   (11, maxCoolTargetProperty_updated t); (12, minCoolTargetProperty_updated t);
   (13, coolTargetProperty_updated t)].

Definition setpoints : list (string * nat) :=
  [("temperature", 0); ("mode", 1); ("runMode", 2); ("_deadband", 3);
   ("_absMaxHeatTarget", 4); ("_absMinHeatTarget", 5); ("_maxHeatTarget", 6);
   ("_minHeatTarget", 7); ("heatTarget", 8); ("_absMaxCoolTarget", 9);
   ("_absMinCoolTarget", 10); ("_maxCoolTarget", 11); ("_minCoolTarget", 12);
   ("coolTarget", 13); ("hold", 14)].

Section Installed.

Variable K : Constants.
Variable NM : NodeMethods.

Lemma addThermostatProperties_grown ep fan base :
  total (shaped base 0 [] []) (addThermostatProperties K NM ep fan)
    (fun _ => grown base 15 (hooks (cells_from base)) setpoints).
Proof.
  unfold addThermostatProperties.
  repeat wire_step.
  eapply (total_weaken _ (grown base 15 _ _)).
  2: { intros n H. apply shaped_grown, H. }
  - repeat wire_step.
  - intros ? n H. eapply grown_weaken; [| | |exact H];
      [lia|unfold hooks; included|unfold setpoints; included].
Qed.

(** Whatever the node, [addThermostatProperties] returns.  With [base] cells in
    the heap before the call, the eleven setpoint properties are the objects
    of [cells_from base], each carries its own hook over exactly these
    objects (so the hooks that keep heating and cooling targets apart are
    [wired]), and the names of the thermostat properties resolve to these
    objects, also when the optional "units" and fan properties are added
    afterwards. *)
Theorem thermostat_hooks_installed ep fan n :
  let base := length (heap n) in
  exists n', addThermostatProperties K NM ep fan n = Ok (tt, n')
    /\ wired (cells_from base) n'
    /\ hooks_at base (hooks (cells_from base)) n'
    /\ names_at base setpoints n'.
Proof.
  intros base.
  assert (H0 : shaped base 0 [] [] n).
  { split; [unfold base; lia|]. split.
    - intros i h Hin. apply elem_of_nil in Hin. destruct Hin.
    - intros nm i Hin. apply elem_of_nil in Hin. destruct Hin. }
  pose proof (addThermostatProperties_grown ep fan base n H0) as H.
  destruct (proj1 (wp_returns _ _ _) H) as ([] & n' & Hrun & _ & Hh & Hn).
  exists n'. split; [exact Hrun|]. split; [|split; assumption].
  split; try (apply Hh; unfold hooks; listed).
  cbn [cells_from deadbandProperty maxHeatTargetProperty heatTargetProperty
       minCoolTargetProperty coolTargetProperty].
  repeat (apply NoDup_cons; split;
          [rewrite ?elem_of_cons, elem_of_nil; lia|]).
  apply NoDup_nil; exact I.
Qed.

End Installed.

Local Close Scope nat_scope.

(** ** The name of a classified node *)

(** The identifier and the name of the node, which only the occupancy rule
    and the end of [classify] assign. *)
Definition named (id : string) (nm : option string) (n : Node) : Prop :=
  node_id n = id /\ node_name n = nm.

(** A statement that takes a node where [P] holds to one where [Q] holds,
    when it returns. *)
Definition partial {A} (P : Node -> Prop) (m : M A) (Q : Node -> Prop) : Prop :=
  forall n, P n -> wlp m (fun _ => Q) n.

Lemma partial_bind {A B} P R Q (m : M A) (k : A -> M B) :
  partial P m R -> (forall a, partial R (k a) Q) -> partial P (m ≫= k) Q.
Proof.
  intros Hm Hk n H. apply wlp_bind. eapply wlp_mono; [apply Hm, H|].
  intros a n' H'. apply Hk, H'.
Qed.

Lemma partial_modify P Q f : (forall n, P n -> Q (f n)) -> partial P (modify f) Q.
Proof. intros Hf n H. apply Hf, H. Qed.

Ltac head_of t :=
  lazymatch t with
  | ?f _ => head_of f
  | _ => t
  end.

Section Names.

Variable K : Constants.
Variable NM : NodeMethods.
Variable id : string.
Variable nm : option string.

Lemma named_addProperty name descr profileId endpoint clusterId attr sa pa cr dv :
  preserves (named id nm)
    (addProperty K name descr profileId endpoint clusterId attr sa pa cr dv).
Proof. intros n H. unfold wlp. rewrite addProperty_run. exact H. Qed.

Lemma named_update r f : preserves (named id nm) (update_property r f).
Proof. intros n H. exact H. Qed.

Lemma named_alloc p : preserves (named id nm) (alloc p).
Proof. intros n H. exact H. Qed.

End Names.

Ltac names_step :=
  lazymatch goal with
  | |- partial ?P ?m ?P => change (preserves P m)
  | |- preserves _ (mbind _ _) => apply preserves_bind; [|intros ?]
  | |- preserves _ (mret _) => apply preserves_ret
  | |- preserves _ skip => apply preserves_ret
  | |- preserves _ get => apply preserves_get
  | |- preserves _ (throw _) => apply preserves_throw
  | |- preserves _ (read _) => apply preserves_read
  | |- preserves _ (activeEndpoint _ _) => apply preserves_activeEndpoint
  | |- preserves _ (when _ _) => apply preserves_when
  | |- preserves _ (for_each _ _) => apply preserves_for_each; intros ?
  | |- preserves _ (for_in _ _) => apply preserves_for_in; intros ? ?
  | |- preserves _ (addProperty _ _ _ _ _ _ _ _ _ _ _) => apply named_addProperty
  | |- preserves _ (update_property _ _) => apply named_update
  | |- preserves _ (alloc _) => apply named_alloc
  | |- preserves _ (modify _) =>
      apply preserves_modify;
      let H := fresh in
      intros ? H;
      first [exact H
            |repeat match goal with
                    | |- context [match ?x with _ => _ end] => destruct x
                    end; exact H]
  | |- preserves _ (multiLevelButtons _ _ _ _) => fail
  | |- preserves _ (if ?b then _ else _) => destruct b
  | |- preserves _ (match ?x with _ => _ end) => destruct x
  | |- preserves _ (let _ := _ in _) => cbv zeta
  | |- preserves _ ?m => let h := head_of m in unfold h
  end.

Lemma named_multiLevelButtons K NM id nm idx endpoints :
  preserves (named id nm) (multiLevelButtons K NM idx endpoints).
Proof.
  revert idx. induction endpoints as [|endpoint tl IH]; intros idx;
    cbn [multiLevelButtons]; [apply preserves_ret|].
  apply preserves_bind; [repeat names_step|].
  intros [|]; [apply preserves_ret|apply IH].
Qed.

Ltac names := repeat first [names_step | apply named_multiLevelButtons].


(** [initOccupancySensor] is chosen for a node without a zone type that has
    an occupancy sensing endpoint. *)
Definition occupancy_sensor (K : Constants) (NM : NodeMethods) (n : Node) : bool :=
  negb (bool_decide (is_Some (zoneType n)))
  && found (findZhaEndpointWithInputClusterIdHex NM (activeEndpoints n)
              (CLUSTER_ID_HEX K OCCUPANCY_SENSOR)).

Section Classified.

Variable K : Constants.
Variable NM : NodeMethods.

Lemma classifyInternal_named n :
  wlp (classifyInternal K NM)
    (fun _ => named (node_id n)
                (if occupancy_sensor K NM n then Some (node_id n +:+ "-occupancy")
                 else node_name n)) n.
Proof.
  unfold classifyInternal. apply wlp_bind. unfold get at 1. unfold wlp at 1.
  cbv zeta.
  set (nm' := if occupancy_sensor K NM n then _ else _).
  lazymatch goal with
  | |- wlp ?m _ n =>
      enough (H : partial (named (node_id n) (node_name n)) m (named (node_id n) nm'))
        by (apply H; split; reflexivity)
  end.
  apply (partial_bind _ (named (node_id n) (node_name n))); [names|intros isZhaLight].
  apply (partial_bind _ (named (node_id n) (node_name n))); [names|intros isZhaLight'].
  apply (partial_bind _ (named (node_id n) (node_name n))); [names|intros _].
  apply (partial_bind _ (named (node_id n) nm')); [|intros _; names].
  unfold nm', occupancy_sensor.
  destruct (bool_decide (is_Some (zoneType n))); cbn [negb andb]; [names|].
  destruct (found (findZhaEndpointWithInputClusterIdHex NM (activeEndpoints n)
                     (CLUSTER_ID_HEX K OCCUPANCY_SENSOR))); [|names].
  unfold initOccupancySensor.
  apply (partial_bind _ (named (node_id n) (node_name n))); [names|intros _].
  apply (partial_bind _ (named (node_id n) (node_name n))); [names|intros _].
  apply (partial_bind _ (named (node_id n) (Some (node_id n +:+ "-occupancy"))));
    [|intros _; names].
  apply partial_modify. intros n0 [Hid Hnm]. split; [exact Hid|].
  cbn. rewrite Hid. reflexivity.
Qed.

(** [classify] on a node that is not the coordinator, when it returns: the
    identifier is kept and the default name is the identifier and the type
    the node was given.  The occupancy rule overwrites the name, also one the
    node had before; every other rule keeps a name that is not empty, and a
    node without a name takes the default name. *)
Theorem classify_names n n' :
  isCoordinator n = false ->
  classify K NM n = Ok (tt, n') ->
  node_id n' = node_id n
  /\ defaultName n' = Some (node_id n +:+ "-" +:+ type_shown n')
  /\ node_name n' =
       if occupancy_sensor K NM n then Some (node_id n +:+ "-occupancy")
       else match node_name n with
            | Some s => if String.eqb s "" then defaultName n' else Some s
            | None => defaultName n'
            end.
Proof.
  intros Hc Hrun.
  set (n1 := if bool_decide (is_Some (atType n)) then n else set_atType (Some []) n).
  assert (E1 : when (negb (bool_decide (is_Some (atType n))))
                 (modify (set_atType (Some []))) n = Ok (tt, n1)).
  { unfold n1. destruct (bool_decide _); reflexivity. }
  assert (Hsame : node_id n1 = node_id n /\ node_name n1 = node_name n
                  /\ occupancy_sensor K NM n1 = occupancy_sensor K NM n).
  { unfold n1. destruct (bool_decide _); repeat split. }
  destruct Hsame as (Hid1 & Hnm1 & Hocc1).
  pose proof (classifyInternal_named n1) as Hn. unfold wlp in Hn.
  rewrite Hid1, Hnm1, Hocc1 in Hn.
  unfold classify, mbind, M_bind, get in Hrun. rewrite Hc, E1 in Hrun.
  destruct (classifyInternal K NM n1) as [[[] n2]|e]; [|discriminate Hrun].
  destruct Hn as [Hid Hnm]. unfold modify in Hrun. injection Hrun as <-.
  cbn [node_name node_id defaultName set_defaultName set_node_name].
  rewrite Hnm, Hid.
  destruct (occupancy_sensor K NM n).
  - assert (E : (node_id n +:+ "-occupancy" =? "")%string = false)
      by (destruct (node_id n); reflexivity).
    rewrite E. repeat split; first [exact Hid|exact Hnm].
  - destruct (node_name n) as [s|]; [destruct (String.eqb s "")|];
      repeat split; first [exact Hid|exact Hnm].
Qed.

End Classified.


(** An occupancy sensor the user has named. *)
Definition hallway_sensor : Node :=
  set_node_name (Some "Hallway")
    (discovered "SML001" [(2, zha_endpoint "0107" ["0000"; "0406"] [])] (Some 3)).

Lemma classify_names_witness :
  exists n', classify zcl zb_node hallway_sensor = Ok (tt, n')
    /\ node_name n' = Some "zb-000d6f000a1b2c3d-occupancy".
Proof.
  destruct (classify zcl zb_node hallway_sensor) as [[[] n']|e] eqn:E;
    [|exfalso; vm_compute in E; discriminate E].
  exists n'. split; [reflexivity|].
  destruct (classify_names zcl zb_node hallway_sensor n' eq_refl E) as (_ & _ & ->).
  vm_compute. reflexivity.
Defined.

(** ** Invariants of the whole classifier *)

(** A walk through the statements of the classifier for an invariant:
    [add], [upd] and [alc] deal with [addProperty], with an assignment to a
    property object and with a new object. *)
Ltac walk_step add upd alc :=
  lazymatch goal with
  | |- preserves _ (mbind _ _) => apply preserves_bind; [|intros ?]
  | |- preserves _ (mret _) => apply preserves_ret
  | |- preserves _ skip => apply preserves_ret
  | |- preserves _ get => apply preserves_get
  | |- preserves _ (throw _) => apply preserves_throw
  | |- preserves _ (read _) => apply preserves_read
  | |- preserves _ (activeEndpoint _ _) => apply preserves_activeEndpoint
  | |- preserves _ (when _ _) => apply preserves_when
  | |- preserves _ (for_each _ _) => apply preserves_for_each; intros ?
  | |- preserves _ (for_in _ _) => apply preserves_for_in; intros ? ?
  | |- preserves _ (addProperty _ _ _ _ _ _ _ _ _ _ _) => add
  | |- preserves _ (update_property _ _) => upd
  | |- preserves _ (alloc _) => alc
  | |- preserves _ (modify _) =>
      apply preserves_modify;
      let H := fresh in
      intros ? H;
      first [exact H
            |repeat match goal with
                    | |- context [match ?x with _ => _ end] => destruct x
                    end; exact H]
  | |- preserves _ (multiLevelButtons _ _ _ _) => fail
  | |- preserves _ addLastSeenProperty => fail
  | |- preserves _ (if ?b then _ else _) => destruct b
  | |- preserves _ (match ?x with _ => _ end) => destruct x
  | |- preserves _ (let _ := _ in _) => cbv zeta
  | |- preserves _ ?m => let h := head_of m in unfold h
  end.

(** The recursion over the button endpoints. *)
Lemma preserves_multiLevelButtons I K NM :
  (forall idx endpoint, preserves I (multiLevelButton K NM idx endpoint)) ->
  forall idx endpoints, preserves I (multiLevelButtons K NM idx endpoints).
Proof.
  intros Hb idx endpoints. revert idx.
  induction endpoints as [|endpoint tl IH]; intros idx;
    cbn [multiLevelButtons]; [apply preserves_ret|].
  apply preserves_bind; [apply Hb|].
  intros [|]; [apply preserves_ret|apply IH].
Qed.

(** *** Internal properties stay hidden *)

(** A property whose name starts with an underscore is not visible. *)
Definition hidden (p : Property) : Prop :=
  is_private (name p) = true -> visible p = false.

(** *** A requested report can be configured *)

(** A property for which attribute reports are requested has the
    configuration to send and an attribute to report. *)
Definition reportable (p : Property) : Prop :=
  configReportNeeded p = true -> configReport p <> None /\ attr p <> "".

Lemma hidden_new K n name descr profileId endpoint clusterId attr sa pa cr dv :
  hidden (new_property K n name descr profileId endpoint clusterId attr sa pa cr dv).
Proof.
  unfold hidden, new_property.
  match goal with |- context [addProperty_assign ?d ?nm ?a ?z ?c ?v ?p] =>
    pose proof (addProperty_assign_binding d nm a z c v p) as (Hn & _);
    pose proof (addProperty_assign_members d nm a z c v p) as (_ & _ & Hv & _)
  end.
  rewrite Hn. exact Hv.
Qed.

Lemma reportable_new K n name descr profileId endpoint clusterId attr sa pa cr dv :
  reportable (new_property K n name descr profileId endpoint clusterId attr sa pa cr dv).
Proof.
  unfold reportable, new_property.
  match goal with |- context [addProperty_assign ?d ?nm ?a ?z ?c ?v ?p] =>
    pose proof (addProperty_assign_binding d nm a z c v p) as (_ & Ha & _);
    pose proof (addProperty_assign_members d nm a z c v p) as (_ & _ & _ & Hc & _);
    pose proof (addProperty_assign_flags d nm a z c v p) as (_ & _ & _ & Hf & Hn)
  end.
  intros Hr. rewrite Ha, (Hc Hr). cbn [Classifier.attr ZigbeeProperty_new]. split.
  - intros ->. rewrite Hn in Hr by reflexivity. discriminate Hr.
  - intros ->. rewrite Hf in Hr by reflexivity. discriminate Hr.
Qed.

(** An assignment that leaves the members the invariants read as they are. *)
Ltac kept :=
  let p := fresh "p" in
  let H := fresh "H" in
  intros p H; unfold hidden, reportable, default_value, default_number in *;
  first [exact H
        |repeat match goal with
                | |- context [match ?x with _ => _ end] => destruct x
                end; exact H].

Ltac hidden_walk :=
  walk_step ltac:(apply preserves_addProperty; intros ?; apply hidden_new)
            ltac:(apply preserves_update; kept)
            ltac:(apply preserves_alloc; intros ?; discriminate).

Ltac reportable_walk :=
  walk_step ltac:(apply preserves_addProperty; intros ?; apply reportable_new)
            ltac:(apply preserves_update; kept)
            ltac:(apply preserves_alloc; intros ?; discriminate).

(** *** A registered name leads to the object of that name *)

(** [node.properties.get(name).name === name], for every name in the map. *)
Definition keyed (n : Node) : Prop :=
  forall nm r, properties n !! nm = Some r -> at_ name n r = Some nm.

Lemma keyed_register nm p n :
  name p = nm -> keyed n -> keyed (register nm p n).
Proof.
  intros Hp H nm' r. unfold register, at_.
  cbn [properties heap set_heap set_properties]. intros Hl.
  destruct (decide (nm' = nm)) as [->|Hne].
  - rewrite lookup_insert_eq in Hl. injection Hl as <-.
    rewrite lookup_app_r, Nat.sub_diag by reflexivity. cbn. rewrite Hp. reflexivity.
  - rewrite lookup_insert_ne in Hl by congruence.
    specialize (H nm' r Hl). unfold at_ in H.
    destruct (heap n !! r) as [q|] eqn:Hq; [|discriminate H].
    rewrite (lookup_app_l_Some _ _ _ _ Hq). exact H.
Qed.

Lemma keyed_addProperty K name descr profileId endpoint clusterId attr sa pa cr dv :
  preserves keyed (addProperty K name descr profileId endpoint clusterId attr sa pa cr dv).
Proof.
  intros n H. unfold wlp. rewrite addProperty_run.
  apply keyed_register; [|exact H].
  unfold new_property. apply addProperty_assign_binding.
Qed.

Lemma keyed_alter r f n :
  (forall p, name (f p) = name p) -> keyed n -> keyed (set_heap (alter f r (heap n)) n).
Proof.
  intros Hf H nm r' Hl. specialize (H nm r' Hl). unfold at_ in *.
  cbn [heap set_heap].
  destruct (decide (r = r')) as [->|Hne].
  - rewrite list_lookup_alter_eq. destruct (heap n !! r'); [|discriminate H].
    cbn in *. rewrite Hf. exact H.
  - rewrite list_lookup_alter_ne by exact Hne. exact H.
Qed.

Lemma keyed_update r f :
  (forall p, name (f p) = name p) -> preserves keyed (update_property r f).
Proof. intros Hf n H. apply keyed_alter; assumption. Qed.

Lemma keyed_addLastSeenProperty : preserves keyed addLastSeenProperty.
Proof.
  intros n H. unfold wlp, addLastSeenProperty, mbind, M_bind, get.
  destruct (showAging n); [|exact H].
  set (p := ZigbeeProperty_new "lastSeen" _ _ _ _ _ _ _).
  pose proof (keyed_register "lastSeen" p n eq_refl H) as H1.
  pose proof (keyed_alter (length (heap n)) (set_p_value (Some (VStr ""))) _
                (fun _ => eq_refl) H1) as H2.
  pose proof (keyed_alter (length (heap n)) (set_fireAndForget true) _
                (fun _ => eq_refl) H2) as H3.
  intros nm r Hl. exact (H3 nm r Hl).
Qed.

Ltac named_alike :=
  let p := fresh "p" in
  intros p; unfold default_value, default_number;
  first [reflexivity
        |repeat match goal with
                | |- context [match ?x with _ => _ end] => destruct x
                end; reflexivity].

Ltac keyed_walk :=
  walk_step ltac:(apply keyed_addProperty)
            ltac:(apply keyed_update; named_alike)
            ltac:(fail).

Section Invariants.

Variable K : Constants.
Variable NM : NodeMethods.

Lemma hidden_classify : preserves (heap_inv hidden) (classify K NM).
Proof.
  repeat first [hidden_walk
               |apply preserves_multiLevelButtons; intros ? ?
               |unfold addLastSeenProperty].
Qed.

Lemma reportable_classify : preserves (heap_inv reportable) (classify K NM).
Proof.
  repeat first [reportable_walk
               |apply preserves_multiLevelButtons; intros ? ?
               |unfold addLastSeenProperty].
Qed.

Lemma keyed_classify : preserves keyed (classify K NM).
Proof.
  repeat first [keyed_walk
               |apply preserves_multiLevelButtons; intros ? ?
               |apply keyed_addLastSeenProperty].
Qed.

Lemma preserved (I : Node -> Prop) {A} (m : M A) n a n' :
  preserves I m -> I n -> m n = Ok (a, n') -> I n'.
Proof. intros Hm H Hrun. specialize (Hm n H). unfold wlp in Hm. rewrite Hrun in Hm. exact Hm. Qed.

(** Classification never leaves an internal property visible: when every
    property object of the node whose name starts with an underscore is
    invisible before [classify], the same holds when it returns, for the
    objects the node had and for the ones created. *)
Theorem classify_hides_internal n n' :
  heap_inv hidden n -> classify K NM n = Ok (tt, n') -> heap_inv hidden n'.
Proof. apply preserved, hidden_classify. Qed.

(** Classification never requests reports it cannot configure: when every
    property object of the node that is flagged for attribute reports holds a
    report configuration and has an attribute path before [classify], the
    same holds when it returns. *)
Theorem classify_reports_configured n n' :
  heap_inv reportable n -> classify K NM n = Ok (tt, n') -> heap_inv reportable n'.
Proof. apply preserved, reportable_classify. Qed.

(** Classification keeps the map of the properties and the property objects
    in step: when every name of the map leads to an object of that name
    before [classify], it does when [classify] returns. *)
Theorem classify_keeps_names_in_step n n' :
  keyed n -> classify K NM n = Ok (tt, n') -> keyed n'.
Proof. apply preserved, keyed_classify. Qed.

End Invariants.

Lemma classify_hides_internal_witness :
  exists n', classify zcl zb_node thermostat_node = Ok (tt, n') /\ heap_inv hidden n'.
Proof.
  destruct (classify zcl zb_node thermostat_node) as [[[] n']|e] eqn:E;
    [|exfalso; vm_compute in E; discriminate E].
  exists n'. split; [reflexivity|].
  apply (classify_hides_internal zcl zb_node thermostat_node n'); [constructor|exact E].
Defined.

Lemma classify_reports_configured_witness :
  exists n', classify zcl zb_node switch_node = Ok (tt, n') /\ heap_inv reportable n'.
Proof.
  destruct (classify zcl zb_node switch_node) as [[[] n']|e] eqn:E;
    [|exfalso; vm_compute in E; discriminate E].
  exists n'. split; [reflexivity|].
  apply (classify_reports_configured zcl zb_node switch_node n'); [constructor|exact E].
Defined.

Lemma classify_keeps_names_in_step_witness :
  exists n', classify zcl zb_node lock_node = Ok (tt, n') /\ keyed n'.
Proof.
  destruct (classify zcl zb_node lock_node) as [[[] n']|e] eqn:E;
    [|exfalso; vm_compute in E; discriminate E].
  exists n'. split; [reflexivity|].
  apply (classify_keeps_names_in_step zcl zb_node lock_node n'); [|exact E].
  intros nm r Hl. unfold lock_node, discovered in Hl. cbn [properties] in Hl.
  rewrite lookup_empty in Hl. discriminate Hl.
Defined.

(** ** The door lock *)

(** The events and the actions of a node, added one by one. *)
Definition with_events (evts : list (string * object)) (n : Node) : Node :=
  foldl (fun n '(eventName, e) => set_events (<[eventName := e]> (events n)) n) n evts.

Definition with_actions (acts : list (string * object)) (n : Node) : Node :=
  foldl (fun n '(actionName, a) => set_actions (<[actionName := a]> (actions n)) n) n acts.

Lemma with_events_eq evts n :
  with_events evts n
  = set_events (foldl (fun m '(eventName, e) => <[eventName := e]> m) (events n) evts) n.
Proof.
  unfold with_events. revert n.
  induction evts as [|[nm e] l IH]; intros n; [destruct n; reflexivity|].
  cbn [foldl]. rewrite IH. reflexivity.
Qed.

Lemma with_actions_eq acts n :
  with_actions acts n
  = set_actions (foldl (fun m '(actionName, a) => <[actionName := a]> m) (actions n) acts) n.
Proof.
  unfold with_actions. revert n.
  induction acts as [|[nm e] l IH]; intros n; [destruct n; reflexivity|].
  cbn [foldl]. rewrite IH. reflexivity.
Qed.

Lemma addEvents_run evts n : addEvents evts n = Ok (tt, with_events evts n).
Proof.
  revert n. induction evts as [|[nm e] l IH]; intros n; [reflexivity|].
  unfold addEvents, with_events in *. cbn [for_each foldl].
  unfold mbind, M_bind, modify at 1. apply IH.
Qed.

Lemma addActions_run acts n : addActions acts n = Ok (tt, with_actions acts n).
Proof.
  revert n. induction acts as [|[nm e] l IH]; intros n; [reflexivity|].
  unfold addActions, with_actions in *. cbn [for_each foldl].
  unfold mbind, M_bind, modify at 1. apply IH.
Qed.

(** Every key of a list of entries with one value leads to that value. *)
Lemma lookup_foldl_insert {A} (f : string -> A) (l : list string) (m : gmap string A) k :
  k ∈ l ->
  foldl (fun m '(key, x) => <[key := x]> m) m (map (fun key => (key, f key)) l) !! k
  = Some (f k).
Proof.
  induction l as [|x l IH] using rev_ind; intros Hin;
    [apply elem_of_nil in Hin; destruct Hin|].
  rewrite map_app, foldl_app. cbn [map foldl].
  destruct (decide (k = x)) as [->|Hne]; [apply lookup_insert_eq|].
  rewrite lookup_insert_ne by congruence. apply IH.
  apply elem_of_app in Hin as [Hin|Hin]; [exact Hin|].
  apply elem_of_cons in Hin as [Hin|Hin]; [contradiction|].
  apply elem_of_nil in Hin. destruct Hin.
Qed.

Lemma wp_addProperty K name descr profileId endpoint clusterId attr sa pa cr dv
    (Q : ref -> Node -> Prop) n :
  Q (length (heap n))
    (register name
       (new_property K n name descr profileId endpoint clusterId attr sa pa cr dv) n) ->
  wp (addProperty K name descr profileId endpoint clusterId attr sa pa cr dv) Q n.
Proof. intros H. unfold wp. rewrite addProperty_run. exact H. Qed.

Lemma wp_update r f (Q : unit -> Node -> Prop) n :
  Q tt (set_heap (alter f r (heap n)) n) -> wp (update_property r f) Q n.
Proof. auto. Qed.

Lemma wp_addEvents evts (Q : unit -> Node -> Prop) n :
  Q tt (set_events (foldl (fun m '(eventName, e) => <[eventName := e]> m) (events n) evts) n) ->
  wp (addEvents evts) Q n.
Proof. intros H. unfold wp. rewrite addEvents_run, with_events_eq. exact H. Qed.

Lemma wp_addActions acts (Q : unit -> Node -> Prop) n :
  Q tt (set_actions (foldl (fun m '(actionName, a) => <[actionName := a]> m) (actions n) acts)
          n) ->
  wp (addActions acts) Q n.
Proof. intros H. unfold wp. rewrite addActions_run, with_actions_eq. exact H. Qed.

(** One statement of a straight-line function, run on the node at hand; the
    node and the object a statement leaves are given a name. *)
Ltac run_step :=
  cbv beta;
  lazymatch goal with
  | |- wp (mbind _ _) _ _ => apply wp_bind
  | |- wp (mret _) _ _ => apply wp_ret
  | |- wp skip _ _ => apply wp_ret
  | |- wp get _ _ => apply wp_get
  | |- wp (modify ?f) _ ?n =>
      apply wp_modify; let n' := fresh "n" in set (n' := f n)
  | |- wp (update_property ?r ?f) _ ?n =>
      apply wp_update; let n' := fresh "n" in set (n' := set_heap (alter f r (heap n)) n)
  | |- wp (addProperty _ _ _ _ _ _ _ _ _ _ _) _ ?n =>
      apply wp_addProperty;
      let p := fresh "p" in
      set (p := new_property _ n _ _ _ _ _ _ _ _ _ _);
      let n' := fresh "n" in
      set (n' := register _ p n)
  | |- wp (addEvents _) _ ?n =>
      apply wp_addEvents; let n' := fresh "n" in set (n' := set_events _ n)
  | |- wp (addActions _) _ ?n =>
      apply wp_addActions; let n' := fresh "n" in set (n' := set_actions _ n)
  | |- wp (let _ := _ in _) _ _ => cbv zeta
  end.

Section DoorLock.

Variable K : Constants.

(** Whatever the node, [initDoorLock] returns.  The node is then a lock; the
    internal lock property and the visible state property are the two objects
    created, registered under their names and kept in [doorLockProperty] and
    [doorLockState]; the internal property carries the hook, which has run
    once, so that the state shows "locked" or "unlocked" as the restored
    value of the internal property is truthy or not and no timeout or action
    is pending; the lock and unlock actions and an event for every door lock
    event code are registered, and the check-in interval is a minute. *)
Theorem door_lock_installed ep n :
  let lock := length (heap n) in
  let state := S (length (heap n)) in
  exists n' p,
    initDoorLock K ep n = Ok (tt, n')
    /\ type n' = Some "DoorLock" /\ atType n' = Some ["Lock"]
    /\ doorLockProperty n' = Some lock /\ doorLockState n' = Some state
    /\ properties n' !! "_lockedInterntal" = Some lock
    /\ properties n' !! "locked" = Some state
    /\ heap n' !! lock = Some p
    /\ updated p = Some doorLockProperty_updated
    /\ attr p = "lockState" /\ endpoint p = of_endpoint ep
    /\ at_ p_value n' state
       = Some (Some (VStr (if truthy (value_of p) then "locked" else "unlocked")))
    /\ doorLockTimeout n' = false /\ doorLockAction n' = false
    /\ is_Some (actions n' !! "lock") /\ is_Some (actions n' !! "unlock")
    /\ (forall code, code ∈ DOORLOCK_EVENT_CODES K ->
          events n' !! code = Some [("@type", VStr "DoorLockEvent")])
    /\ slowCheckinInterval n' = Some 240.
Proof.
  intros lock state.
  enough (H : wp (initDoorLock K ep) (fun _ n' => exists p,
      type n' = Some "DoorLock" /\ atType n' = Some ["Lock"]
      /\ doorLockProperty n' = Some lock /\ doorLockState n' = Some state
      /\ properties n' !! "_lockedInterntal" = Some lock
      /\ properties n' !! "locked" = Some state
      /\ heap n' !! lock = Some p
      /\ updated p = Some doorLockProperty_updated
      /\ attr p = "lockState" /\ endpoint p = of_endpoint ep
      /\ at_ p_value n' state
         = Some (Some (VStr (if truthy (value_of p) then "locked" else "unlocked")))
      /\ doorLockTimeout n' = false /\ doorLockAction n' = false
      /\ is_Some (actions n' !! "lock") /\ is_Some (actions n' !! "unlock")
      /\ (forall code, code ∈ DOORLOCK_EVENT_CODES K ->
            events n' !! code = Some [("@type", VStr "DoorLockEvent")])
      /\ slowCheckinInterval n' = Some 240) n).
  { apply wp_returns in H as ([] & n' & Hrun & p & H). exists n', p. split; assumption. }
  unfold initDoorLock, set_archetype, addDoorLockedProperty.
  repeat run_step.
  assert (Hh : heap n6 = heap n ++ [set_updated (Some doorLockProperty_updated) p; p0]).
  { unfold n6, n5, n4, n3, n2, n1, n0, register.
    cbn [heap set_heap set_properties set_doorLockState set_doorLockProperty set_atType
         set_type].
    rewrite alter_app_l by (rewrite length_app; cbn; lia).
    rewrite alter_last, <- app_assoc. reflexivity. }
  unfold run_hook. run_step. run_step.
  change (doorLockProperty n6) with (Some lock). cbv iota beta.
  run_step.
  apply wp_read; [rewrite Hh, length_app; cbn; unfold lock; lia|].
  intros q Hq.
  assert (Es : doorLockState n6 = Some state).
  { unfold n6, n5, n3, n2, n1, n0, register.
    cbn [doorLockState heap set_heap set_properties set_doorLockState set_doorLockProperty
         set_atType set_type].
    rewrite length_app, Nat.add_1_r. reflexivity. }
  rewrite Es. cbv iota beta zeta.
  unfold setPropertyValue.
  repeat run_step.
  assert (Eq : q = set_updated (Some doorLockProperty_updated) p).
  { rewrite Hh in Hq. unfold lock in Hq.
    rewrite lookup_app_r, Nat.sub_diag in Hq by reflexivity. injection Hq as <-.
    reflexivity. }
  assert (Hp : attr p = "lockState" /\ endpoint p = of_endpoint ep).
  { unfold p, new_property.
    match goal with |- context [addProperty_assign ?d ?nm ?a ?z ?c ?v ?p] =>
      pose proof (addProperty_assign_binding d nm a z c v p) as (_ & Ha & _ & _ & He & _)
    end.
    rewrite Ha, He. split; reflexivity. }
  destruct Hp as [Ha He].
  assert (Hh' : heap n12 = heap n ++ [q; set_p_value
                  (Some (VStr (if truthy (value_of q) then "locked" else "unlocked"))) p0]).
  { change (heap n12) with (heap n7). unfold n7. cbn [heap set_heap].
    rewrite Hh, <- Eq.
    change (heap n ++ [q; p0]) with (heap n ++ [q] ++ [p0]). rewrite app_assoc.
    replace state with (length (heap n ++ [q])) by (rewrite length_app; cbn; unfold state; lia).
    rewrite alter_last, <- app_assoc. reflexivity. }
  assert (Hprops : properties n12
                   = <["locked" := state]> (<["_lockedInterntal" := lock]> (properties n))).
  { change (properties n12) with (properties n4).
    unfold n4, n3, n2, n1, n0, register.
    cbn [properties heap set_heap set_properties set_doorLockProperty set_atType set_type].
    rewrite length_app, Nat.add_1_r. reflexivity. }
  exists q.
  split; [reflexivity|]. split; [reflexivity|]. split; [reflexivity|].
  split; [exact Es|].
  split; [rewrite Hprops, lookup_insert_ne by discriminate; apply lookup_insert_eq|].
  split; [rewrite Hprops; apply lookup_insert_eq|].
  split; [rewrite Hh'; unfold lock; rewrite lookup_app_r, Nat.sub_diag by reflexivity;
          reflexivity|].
  split; [rewrite Eq; reflexivity|].
  split; [rewrite Eq; exact Ha|].
  split; [rewrite Eq; exact He|].
  split.
  { unfold at_. rewrite Hh'. unfold state. rewrite lookup_app_r by lia.
    replace (S (length (heap n)) - length (heap n))%nat with 1%nat by lia. reflexivity. }
  split; [reflexivity|]. split; [reflexivity|].
  split.
  { change (actions n12) with (actions n11). unfold n11. cbn [actions set_actions foldl].
    rewrite lookup_insert_ne by discriminate. rewrite lookup_insert_eq.
    eexists; reflexivity. }
  split.
  { change (actions n12) with (actions n11). unfold n11. cbn [actions set_actions foldl].
    rewrite lookup_insert_eq. eexists; reflexivity. }
  split; [|reflexivity].
  intros code Hin. change (events n12) with (events n10). unfold n10.
  cbn [events set_events].
  apply (lookup_foldl_insert (fun _ => [("@type", VStr "DoorLockEvent")])). exact Hin.
Qed.

End DoorLock.

(** ** Sensors of the IAS zone cluster *)

Lemma registered nm p n : property_named (register nm p n) nm = Some p.
Proof.
  unfold property_named, register. cbn [properties heap set_heap set_properties].
  rewrite lookup_insert_eq. cbn.
  rewrite lookup_app_r, Nat.sub_diag by reflexivity. reflexivity.
Qed.

Lemma registered_other nm p n nm' q :
  nm' <> nm -> property_named n nm' = Some q ->
  property_named (register nm p n) nm' = Some q.
Proof.
  unfold property_named, register. cbn [properties heap set_heap set_properties].
  intros Hne H. rewrite lookup_insert_ne by congruence.
  destruct (properties n !! nm') as [r|]; [|discriminate H]. cbn in *.
  apply lookup_app_l_Some, H.
Qed.

Lemma register_other nm p n nm' :
  nm' <> nm -> properties (register nm p n) !! nm' = properties n !! nm'.
Proof.
  intros Hne. unfold register. cbn [properties set_heap set_properties].
  apply lookup_insert_ne. congruence.
Qed.

(** A property of the zone cluster: no attribute path, the bits of the zone
    status it shows as its mask. *)
Definition zone_property (K : Constants) (ep : option Z) (n' : Node) (nm : string)
    (d : object) (m : Z) : Prop :=
  exists p, property_named n' nm = Some p
            /\ name p = nm /\ descr p = d /\ mask p = Some m
            /\ endpoint p = of_endpoint ep /\ clusterId p = cluster K SSIASZONE
            /\ attr p = "" /\ configReportNeeded p = false /\ bindNeeded p = false.

Definition tamper_schema : object :=
  [("@type", VStr "TamperProperty"); ("type", VStr "boolean");
   ("label", VStr "Tamper"); ("readOnly", VBool true)].

Definition lowBattery_schema : object :=
  [("@type", VStr "LowBatteryProperty"); ("type", VStr "boolean");
   ("label", VStr "Low Battery"); ("readOnly", VBool true)].

Section Zone.

Variable K : Constants.

Lemma zone_cell n nm d ep m :
  let p := set_mask (Some m)
             (new_property K n nm d (ZHA K) (of_endpoint ep) (cluster K SSIASZONE)
                "" "" "" None VUndefined) in
  name p = nm /\ descr p = d /\ mask p = Some m
  /\ endpoint p = of_endpoint ep /\ clusterId p = cluster K SSIASZONE
  /\ attr p = "" /\ configReportNeeded p = false /\ bindNeeded p = false.
Proof.
  cbv zeta. unfold new_property.
  match goal with |- context [addProperty_assign ?d ?nm ?a ?z ?c ?v ?p] =>
    pose proof (addProperty_assign_binding d nm a z c v p) as (Hn & Ha & Hd & Hc & He & _);
    pose proof (addProperty_assign_flags d nm a z c v p) as (_ & _ & Hb & Hf & _)
  end.
  cbn [name descr mask endpoint clusterId attr configReportNeeded bindNeeded set_mask].
  rewrite Hn, Ha, Hd, Hc, He, Hb, Hf by reflexivity. repeat split.
Qed.

Lemma update_register nm p n f :
  set_heap (alter f (length (heap n)) (heap (register nm p n))) (register nm p n)
  = register nm (f p) n.
Proof.
  unfold register. cbn [heap set_heap set_properties]. rewrite alter_last. reflexivity.
Qed.

Lemma zone_property_new ep n nm d m :
  zone_property K ep
    (register nm
       (set_mask (Some m)
          (new_property K n nm d (ZHA K) (of_endpoint ep) (cluster K SSIASZONE)
             "" "" "" None VUndefined)) n) nm d m.
Proof. eexists. split; [apply registered|apply zone_cell]. Qed.

Lemma zone_property_kept ep n nm d m nm' p :
  nm <> nm' -> zone_property K ep n nm d m -> zone_property K ep (register nm' p n) nm d m.
Proof.
  intros Hne (q & Hq & H). exists q. split; [|exact H].
  apply registered_other; assumption.
Qed.

(** What [addZoneTypeProperty] leaves alone, and the address it removes. *)
Definition zone_frame (n n' : Node) : Prop :=
  cieAddr n' = None /\ type n' = type n /\ atType n' = atType n /\ events n' = events n.

Ltac zone_add :=
  apply wp_bind, wp_addProperty; cbv beta;
  first [apply wp_bind, wp_update|apply wp_update]; rewrite update_register; cbv beta;
  lazymatch goal with
  | |- context [register ?nm (set_mask ?m (new_property ?K ?n ?a ?b ?c ?d ?e ?f ?g ?h ?i ?j))
                  ?n] =>
      let p := fresh "p" in
      set (p := set_mask m (new_property K n a b c d e f g h i j));
      let n' := fresh "n" in
      set (n' := register nm p n)
  end.

Lemma addZoneTypeProperty_alarm pn pd n :
  pn <> "" -> pn <> "tamper" -> pn <> "lowBattery" ->
  wp (addZoneTypeProperty K (Some pn) (Some pd))
    (fun _ n' =>
       zone_frame n n'
       /\ zone_property K (ssIasZoneEndpoint n) n' pn pd (ZONE_STATUS_ALARM_MASK K)
       /\ zone_property K (ssIasZoneEndpoint n) n' "tamper" tamper_schema
            (ZONE_STATUS_TAMPER_MASK K)
       /\ zone_property K (ssIasZoneEndpoint n) n' "lowBattery" lowBattery_schema
            (ZONE_STATUS_LOW_BATTERY_MASK K)) n.
Proof.
  intros H0 H1 H2. unfold addZoneTypeProperty.
  rewrite (proj2 (String.eqb_neq pn "") H0). cbn [negb when].
  apply wp_bind, wp_bind, wp_get. cbv beta.
  zone_add. zone_add.
  apply wp_bind, wp_get. cbv beta.
  zone_add. apply wp_modify.
  split; [repeat split|].
  assert (Z1 : zone_property K (ssIasZoneEndpoint n) n0 pn pd (ZONE_STATUS_ALARM_MASK K))
    by apply zone_property_new.
  assert (Z2 : zone_property K (ssIasZoneEndpoint n) n1 "tamper" tamper_schema
                 (ZONE_STATUS_TAMPER_MASK K)) by apply zone_property_new.
  assert (Z3 : zone_property K (ssIasZoneEndpoint n) n2 "lowBattery" lowBattery_schema
                 (ZONE_STATUS_LOW_BATTERY_MASK K)) by apply zone_property_new.
  split; [|split].
  - apply (zone_property_kept _ n1 pn pd _ "lowBattery" p1); [exact H2|].
    apply zone_property_kept; [exact H1|exact Z1].
  - apply (zone_property_kept _ n1 "tamper" _ _ "lowBattery" p1); [discriminate|exact Z2].
  - exact Z3.
Qed.

Lemma addZoneTypeProperty_plain n :
  wp (addZoneTypeProperty K None None)
    (fun _ n' =>
       zone_frame n n'
       /\ (forall nm, nm <> "lowBattery" -> properties n' !! nm = properties n !! nm)
       /\ zone_property K (ssIasZoneEndpoint n) n' "lowBattery" lowBattery_schema
            (ZONE_STATUS_LOW_BATTERY_MASK K)) n.
Proof.
  unfold addZoneTypeProperty.
  apply wp_bind, wp_ret. cbv beta.
  apply wp_bind, wp_get. cbv beta.
  zone_add. apply wp_modify.
  split; [repeat split|]. split.
  - intros nm Hne. apply (register_other "lowBattery" p n nm Hne).
  - apply zone_property_new.
Qed.

(** No entry of the zone type table names its property like one of the two
    properties every zone sensor has. *)
Lemma zone_names z zt :
  ZONE_TYPE_NAME z = Some zt ->
  zt_propertyName zt <> "" /\ zt_propertyName zt <> "tamper"
  /\ zt_propertyName zt <> "lowBattery".
Proof.
  unfold ZONE_TYPE_NAME.
  repeat (destruct (_ =? _); [intros [= <-]; cbn; repeat split; discriminate|]).
  discriminate.
Qed.

(** The zone type the table is asked for: a zone type of zero is replaced
    by the zone type of the model, for the models the source lists. *)
Definition zone_type (n : Node) : option Z :=
  match zoneType n, ZONE_TYPE_ZERO (modelId n) with
  | Some z, Some z0 => Some (if z =? 0 then z0 else z)
  | z, _ => z
  end.

(** Whatever the node, [initBinarySensorFromZoneType] returns, the address
    of the coordinator is removed from the node and a "lowBattery" property
    for the low-battery bit of the zone status is registered.  A zone type of
    the table gives the node the type of its entry and a property of the
    entry's name for the alarm bits; the zone type 0x8000 gives a push button
    with three events and no other property; any other zone type, an unknown
    one included, gives a binary sensor with an "on" property labelled with
    the zone type.  But for the button, a "tamper" property is registered as
    well.  None of these properties has an attribute path, so none is
    reported or bound. *)
Theorem zone_sensor n :
  exists n',
    initBinarySensorFromZoneType K n = Ok (tt, n')
    /\ cieAddr n' = None
    /\ zone_property K (ssIasZoneEndpoint n) n' "lowBattery" lowBattery_schema
         (ZONE_STATUS_LOW_BATTERY_MASK K)
    /\ match ZONE_TYPE_NAME (default (-1) (zone_type n)) with
       | Some zt =>
           type n' = Some (zt_type zt) /\ atType n' = Some (zt_atType zt)
           /\ zone_property K (ssIasZoneEndpoint n) n' (zt_propertyName zt)
                (zt_propertyDescr zt) (ZONE_STATUS_ALARM_MASK K)
           /\ zone_property K (ssIasZoneEndpoint n) n' "tamper" tamper_schema
                (ZONE_STATUS_TAMPER_MASK K)
       | None =>
           if default (-1) (zone_type n) =? 32768 then
             type n' = Some "button" /\ atType n' = Some ["PushButton"]
             /\ (forall nm, nm <> "lowBattery" -> properties n' !! nm = properties n !! nm)
             /\ is_Some (events n' !! "pressed") /\ is_Some (events n' !! "doublePressed")
             /\ is_Some (events n' !! "longPressed")
           else
             type n' = Some "sensor" /\ atType n' = Some ["BinarySensor"]
             /\ (exists d,
                   zone_property K (ssIasZoneEndpoint n) n' "on" d (ZONE_STATUS_ALARM_MASK K)
                   /\ member d "label"
                      = Some (VStr ("ZoneType" +:+ match zone_type n with
                                                   | Some z => pretty z
                                                   | None => "undefined"
                                                   end)))
             /\ zone_property K (ssIasZoneEndpoint n) n' "tamper" tamper_schema
                  (ZONE_STATUS_TAMPER_MASK K)
       end.
Proof.
  lazymatch goal with
  | |- exists n', _ = Ok (tt, n') /\ @?P n' =>
      enough (H : wp (initBinarySensorFromZoneType K) (fun _ => P) n)
        by (destruct (proj1 (wp_returns _ _ _) H) as ([] & n' & Hrun & H');
            exists n'; split; [exact Hrun|exact H'])
  end.
  unfold initBinarySensorFromZoneType, set_archetype.
  apply wp_bind, wp_modify. apply wp_bind, wp_get. cbv zeta beta.
  change (match zoneType (set_type (Some "sensor") n),
                ZONE_TYPE_ZERO (modelId (set_type (Some "sensor") n)) with
          | Some z, Some z0 => Some (if z =? 0 then z0 else z)
          | z, _ => z
          end) with (zone_type n).
  destruct (ZONE_TYPE_NAME (default (-1) (zone_type n))) as [zt|] eqn:Ezt.
  - destruct (zone_names _ _ Ezt) as (N0 & N1 & N2).
    apply wp_bind, wp_bind, wp_modify, wp_modify. cbv beta.
    eapply wp_mono; [apply addZoneTypeProperty_alarm; assumption|].
    intros [] n' ((Hc & Ht & Ha & _) & Z1 & Z2 & Z3).
    split; [exact Hc|]. split; [exact Z3|]. split; [exact Ht|]. split; [exact Ha|].
    split; [exact Z1|exact Z2].
  - destruct (default (-1) (zone_type n) =? 32768).
    + apply wp_bind, wp_bind, wp_modify, wp_modify. cbv beta.
      apply wp_bind, wp_addEvents. cbv beta.
      eapply wp_mono; [apply addZoneTypeProperty_plain|].
      intros [] n' ((Hc & Ht & Ha & He) & Hp & Z3).
      split; [exact Hc|]. split; [exact Z3|]. split; [exact Ht|]. split; [exact Ha|].
      split; [exact Hp|].
      rewrite He. cbn [events set_events foldl].
      split; [|split].
      * rewrite !lookup_insert_ne by discriminate. rewrite lookup_insert_eq.
        eexists; reflexivity.
      * rewrite lookup_insert_ne by discriminate. rewrite lookup_insert_eq.
        eexists; reflexivity.
      * rewrite lookup_insert_eq. eexists; reflexivity.
    + apply wp_bind, wp_bind, wp_modify, wp_modify. cbv beta.
      eapply wp_mono; [apply addZoneTypeProperty_alarm; discriminate|].
      intros [] n' ((Hc & Ht & Ha & _) & Z1 & Z2 & Z3).
      split; [exact Hc|]. split; [exact Z3|]. split; [exact Ht|]. split; [exact Ha|].
      split; [|exact Z2].
      eexists. split; [exact Z1|]. reflexivity.
Qed.

End Zone.

End ClassifierMore.
